(* ===== verification/_CoqProject ===== *)
-Q . S2P
Prelude.v
Runtime.v
Domain.v
Repository.v
ProjectUseCase.v
EmailService.v
ContactUseCase.v
Routes.v
App.v
Handling.v
Protocol.v
Conformance.v
Loops.v
Integers.v
Startup.v
Architecture.v
Dispatch.v
Output.v
Coroutines.v
EventLoop.v
Schedule.v
Contract.v
Refinement.v
Races.v
Links.v
Cors.v
