(* ===== verification/Prelude.v ===== *)
(** * A verified model of the portfolio backend

    The program is the backend of a personal portfolio site
    (src/backend): a FastAPI application in four layers.

    - Domain (domain/entities): the [Project] record and the
      [ContactMessage] model with its field constraints.
    - Infrastructure: [ProjectRepository], a fixed in-memory list of
      projects with three queries, and [EmailService], which reads its SMTP
      configuration from the environment and sends one notification email
      per contact message.
    - Application (application/use_cases): [ProjectUseCase] forwards to
      the repository; [ContactUseCase] calls the email service and turns
      any exception into a failure dictionary.
    - Presentation (presentation/api/routes, main.py): the HTTP handlers
      for projects, contact and resume, the route table, the allowed
      origins and the lifespan.

    A request enters through the route table of main.py, is validated
    (contact), reaches a handler of a router, which calls a use case, which
    calls the repository or the service; the service talks to an SMTP
    server.  Each layer below is a file, each class a [Module] of that
    name, each method a definition of the method's name.

    ** How the code is modelled

    A coroutine is a computation [Eff World exn A]: a function from the
    world before the call to the world after it and the exception raised
    or the value returned.  The world (record [World] of [Runtime]) holds
    what the code can observe or change outside its own objects: the lines
    printed, the clock, the SMTP server with the log of commands sent to
    it, and the resume file's size and time.  No coroutine of the sources
    suspends (every await is on a coroutine that runs to its end and
    smtplib blocks), so a coroutine is the function it computes; this is
    a theorem of [Coroutines], where the coroutines are written with
    their suspension points and their [await]s.  try and
    except, with blocks and early returns are the combinators [try_except],
    [with_as] and the conditionals of the definitions.  The SMTP server is
    an oracle: it accepts or refuses each command knowing every command
    sent so far, so the theorems hold for every server behaviour.

    Strings are Python [str] values in UTF-8; [py_len] counts code points.
    Dictionaries are [gmap string _], the environment included.  Object
    fields that may be [None] are options.  The operations of the code
    are structural recursions and evaluate, which the witnesses
    ([..._witness], closed runs on the fixtures) use.

    Five things are modelled a second time, as relations, where the
    question is about runs rather than results.  The loops of the
    repository are machines that take one iteration per step ([Loops]).
    The order of an SMTP submission is an automaton over commands and
    answers ([Protocol]), the specification the service's log is held to.
    The states of the application between two requests are the closure
    of [handle] over all requests ([Conformance]).  The server is a loop
    that accepts requests at any moment and resumes the task of any
    request it holds ([EventLoop]): a labelled step relation, with the
    same loop as a function ([EventLoop.exec]).  The handlers of the
    resume routes are the calls of [os.path] they make, one after the
    other, on a file that another process may change between two calls
    ([Races]).

    What the interface promises is a specification of its own
    ([Contract]): a state of six facts (the catalogue, the configuration
    of the mail service, the clock, the resume file, the sessions opened
    and the messages the server accepted) and a relation [Contract.step]
    that says which answer each of the six operations may give and what
    it may change.  The relation is written from the specification and
    is not a function: whether a notification is delivered is the SMTP
    server's decision.  [Refinement] maps a world of the code to a state
    of the contract and proves that the application run on a request
    takes a step of the contract.

    ** Files

    - [Prelude] (this file): the monad with its laws, run rules and frame
      predicates ([preserves], [grows_by], [advances], [respects]); the Python values
      the components share ([truthy], [py_all], [py_len], [split],
      [join], [all_chars]); occurrence of one text in another ([embeds]).
    - [Runtime]: exceptions ([exn]), [datetime] and [strftime], MIME
      messages, the SMTP commands, [World] and its primitives ([print],
      [utcnow], [smtp_command], [SMTP_exit], [getenv], [py_int],
      [path_exists], [getsize], [getmtime], [round_kb], [dict_getitem]),
      the tactics [py_step], [py_run] and [py_cases] that run a
      computation symbolically, the class [Moves] of the preorders on
      worlds along which printing and sending move, and the class
      [Unread] of the relations between worlds that differ in their
      printed lines only ([modulo_stdout], [same_tail]).
    - [Domain]: project.py and contact.py.  [Project.BaseModel_init]
      validates the thirteen declared fields of a project and
      [ContactMessage.__init__] defaults the timestamp and validates the
      five fields of a message, both collecting the errors in declaration
      order; the email, URL, datetime and boolean parsers of pydantic are
      the interface [Validators].  The examples of the two schemas are
      [Project.example] and [ContactMessage.example].
    - [Repository]: project_repository.py with the two projects of the
      source, the rules and the template of its docstring
      ([follows_guide], [template]); the interface [ProjectStore] states
      what callers rely on.
    - [ProjectUseCase]: project_use_case.py, over any [ProjectStore].
    - [EmailService]: email_service.py. [send_contact_notification] is
      the whole method, prints included; [send_result] is its run in closed
      form and [possible_traces] the command sequences it can send. The
      interface [Notifier] is what the contact use case needs.
    - [ContactUseCase]: contact_use_case.py, over any [Notifier].
    - [Routes]: routes/contact.py, routes/projects.py and
      routes/resume.py as [ContactRoute], [ProjectsRoute] and
      [ResumeRoute].
    - [App]: main.py. [App.load_dotenv] and [App.main] are the start of
      the file, [App.routes] is the table in registration order; [table]
      puts the framework's documentation pages before it.  [dispatch],
      [handle] and [serve] state what the framework does around the
      handlers (first match in order, 405, redirect on a final slash,
      validation before the handler, exceptions to responses, the origin
      check); these are assumptions about FastAPI and Starlette, written
      from their documented behaviour and the specification, not from the
      sources.
    - [Handling]: what [handle] and [serve] do with a request: the four
      cases of a contact submission, a project request, the statuses, and
      the frames of a handler; the fixtures [sample_app] and
      [unconfigured_app].
    - [Protocol]: the automaton of an SMTP submission ([Protocol.step],
      [Protocol.accepted], and [Protocol.run], the same automaton as a
      function) and the conformance of the email service to it.
    - [Conformance]: [reachable], the states of a running application,
      and their invariants.
    - [Loops]: [Lookup.step] and [Comprehension.step], the loops of the
      repository one iteration at a time, and generic lemmas on machines
      whose step is a function and lowers a measure.
    - [Integers]: [int] after [str] on the integers, for the port, and
      the time as [strftime] writes it in the notification.
    - [Startup]: what importing main.py reads from the environment and
      from the [.env] file, and the static directory it creates and
      mounts ([App.makedirs], [App.mount_static]).
    - [Architecture]: the head of every source file (the layer its
      docstring names, its imports), the interpreter's import over this
      table ([Architecture.import]) and the dependency rule of the layers.
    - [Dispatch]: the route table inverted: which requests reach which
      handler.
    - [Output]: the standard output is written and never read:
      [Proper] instances for [handle] and [serve] under [modulo_stdout].
    - [Coroutines]: the coroutine objects of the interpreter
      ([Coroutine.coroutine], [send], [await], [try_slice], [yield]) and
      every [async def] of the sources written with them ([Async]).
    - [EventLoop]: the lifespan of main.py as the coroutine that
      suspends at its [yield], and the loop of one worker
      ([EventLoop.step], [EventLoop.trace], [EventLoop.exec]).
    - [Schedule]: what the order of the requests changes: a run split
      into its submissions and its reads ([serve_split]), the relation
      [same_file] of the worlds a read cannot tell apart.
    - [Contract]: the operations and results of the interface, the
      abstract state, [Contract.step] and [Contract.steps], and what
      follows from the contract alone (counters of sessions and messages,
      an unconfigured service sends nothing).
    - [Refinement]: [abstract], from an application and a world to a
      state of the contract; [read], the operation a request asks for,
      by its method and the segments of its path under the prefix of
      main.py; [observe], the result a response carries; the simulation
      of [handle], [serve] and the loop.
    - [Races]: the handlers of routes/resume.py as trees of calls
      ([Racy.handler]), their run on a schedule of files ([Racy.run]) and
      their interpretation in the monad ([Racy.interp]).
    - [Links]: the places where one part of the code names another by a
      text: the download link of the metadata, the static mount and the
      path of the resume, the title of the application and the message of
      its root.
    - [Cors]: the CORS middleware as main.py adds it ([add_middleware]):
      the headers its constructor computes, the test of an origin, the
      answer to a preflight request and the headers added to any other
      response ([with_cors]), written from Starlette's documented
      behaviour.

    ** What is proved

    - Repository and project use case: the lookup returns a project with
      the identifier asked for, returns nothing exactly for unknown
      identifiers, returns the first match, finds every project when
      identifiers are unique; the featured listing is the filtered listing
      in order; the lookup refines a finite map; the shipped data has
      unique identifiers, keeps the rules of the docstring and passes the
      model's validation.  The loop and the comprehension terminate within
      the length of the list and agree with the recursive definitions.
    - Models: a constructed message satisfies its bounds; a message of
      fewer than 10 code points is rejected with the error named; the
      timestamp is the call's time when the key is missing and stays
      absent when the key is null.  A constructed project has validated
      URLs; a call that spells out every field gives the project back; a
      missing field or a refused URL is reported under its name.
    - Email service: the skip on an incomplete configuration, the full
      delivery, the refused login, the exact condition of success, the
      shapes of every possible session (protocol order, login only after
      TLS, at most one session and one message per call), the content of
      the message, that fields are embedded unescaped, and that the
      printed lines are a function of the configuration with its password
      masked.  The service refines the protocol automaton: a call takes a
      log of closed sessions to a log of closed sessions.
    - Contact use case and route: the use case never raises and reports
      what the service did; the route maps a failure to status 500 and its
      generic clause is unreachable.
    - Resume routes: metadata and download agree on the file's existence;
      the size is rounded to the nearest hundredth of a kilobyte.  Run
      call by call on a file left alone they are the handlers of
      [Routes]; when the file disappears after the test the metadata
      route raises and the client gets 500; when it is replaced between
      the reads the metadata pairs the size of one file with the time of
      the other; the download route is decided by the test alone.  The
      link the metadata gives dispatches to the download route, which
      answers 200 whenever the metadata said available.
    - Application: the end-to-end behaviour of a contact request in the
      four cases (invalid, unconfigured, refused, delivered), of a project
      request, that every request is answered with one of six statuses,
      that serving a list of requests opens at most one SMTP session per
      submission and leaves the clock, the server and the resume file as
      they were, that no route is shadowed, and the round trip of the
      origins.  The route table is characterised in both directions, and
      every request but a POST of the contact path leaves the world
      untouched.
    - Running application: in every reachable state the log is a run of
      the protocol with no connection open, every login follows an
      accepted STARTTLS, every message an accepted login, and the printed
      lines and the log have only grown.
    - Output: what was printed before changes no answer and no command
      sent, and the lines a run prints are the same lines after whatever
      was there ([respects], proved of the primitives and carried through
      every layer by the structure of the code).
    - Coroutines and the loop: each of the eight handlers, written with
      the [await]s and [try] blocks of the sources, returns in its first
      resumption and does what its model in the monad does.  Whatever
      order the loop resumes its tasks in, the world and the answers are
      those of [serve] on the requests in that order; no SMTP session is
      open when the loop chooses; a loop that accepts nothing more takes
      finitely many steps, answers every request it holds and stops, and
      the lifespan resumed before and after the requests prints what
      [App.lifespan] prints.  The order matters among the contact
      submissions only: a read is answered after any run as before it,
      and two runs that resumed the same requests, the submissions in the
      same order, end in the same world with the same answers; two
      submissions do not commute when the server counts.
    - Contract: a request with a body the handler stamps is answered,
      and the answer with the worlds before and after is a step of the
      contract; so is every request of a list served in order and every
      resumption of the loop, in the order the loop chose.  It follows
      that every success told to a client stands for a message the server
      accepted, addressed to the recipient and carrying the four fields,
      and that an unconfigured application never opens a session.
    - CORS: without a preflight request the middleware returns what
      [handle] returns and adds the origin under the condition [handle]
      states; a preflight request is answered by the middleware with 200
      or 400 and reaches no handler; with the wildcard among the origins,
      a request with a cookie is answered with its own origin and with
      credentials allowed.
    - Start: the port read from the environment is the port printed
      ([int] inverts [str]); the time of a message is written in 23
      characters that identify it to the second; a variable of the process wins over the
      [.env] file; the file counts only because it is loaded before the
      routers are imported; the static directory is there when it is
      mounted; the imports have no cycle, run every file
      once in a fixed order, and point inward except for the two use
      cases.

    ** Bounds and fuel

    [Architecture.import] takes fuel for the nesting of imports; four is
    enough for main.py and the depth of a file is enough for any file
    ([imports_acyclic]), and three is too little ([import_needs_depth]).
    The step machines take no fuel: their termination is a theorem
    ([sn], and a bound on the length of every run).  The loop of the
    server does not terminate while requests keep arriving; what
    terminates is the loop that accepts nothing more
    ([loop_drain_terminates]), within one step per task not yet resumed
    and the two of the lifespan ([EventLoop] [remaining]).  Nothing else
    in the development is bounded.

    ** Limits

    Not modelled: the network and the wire format of SMTP, timeouts and
    cancellation of a task, several worker processes (each would be a
    loop of its own on a world of its own standard output, sharing the
    server), the suspensions of the framework itself while it reads a
    request and writes a response, the bytes of the resume file,
    response serialisation, the list of headers a preflight response
    allows when the configuration names them (main.py uses the wildcard),
    the content of the framework's documentation pages, the syntax of the [.env] file and
    what the libraries do when they are imported.
    [py_int] and the white space it strips cover 7-bit text; [strftime]
    covers the six directives the code uses, for years of four digits;
    [round_kb] is exact for sizes below 2^53 bytes; the values of a
    constructor call are None, strings, integers, booleans, datetimes and
    lists of these; a validated URL is kept as the text the validator
    returns.  Exceptions are the subclasses of Exception the code can
    meet; BaseException (cancellation, interrupts) is outside the model.
    What [smtplib] does by itself with a configuration it is given (an
    empty host, for which the constructor returns without connecting and
    the first command is refused; a port of 0, which stands for 25) is
    within the server of the model, which may answer each command as it
    likes; the model does not single these cases out.  The message is
    followed to the call of [send_message]; how the library writes its
    headers out is not modelled.
    The contract covers a submission whose body carries no timestamp key
    of its own ([covered]): a body with a null timestamp makes the
    service raise and is a finding, not a step.  A schedule of [Races]
    changes the file between the calls of one handler; two handlers
    running at once are the loop of [EventLoop], where no handler
    suspends.
    What remains unmapped in the sources is prose: the docstrings of
    classes and functions, comments and blank lines. *)

From Stdlib Require Export ZArith Lia Ascii String.
From stdpp Require Export base tactics option list strings gmap pretty.

#[global] Open Scope string_scope.
#[global] Open Scope nat_scope.
#[global] Open Scope list_scope.
#[global] Open Scope stdpp_scope.

(** ** The effect monad

    A Python coroutine of the backend is a function from the world before
    the call to the world after it and either the exception it raised or
    the value it returned.  The world survives an exception: what was
    printed or sent before a [raise] stays printed or sent. *)

Definition Eff (W E A : Type) : Type := W -> W * (E + A).

Section eff_ops.
Context {W E : Type}.

Definition ret {A} (a : A) : Eff W E A := fun w => (w, inr a).

Definition raise {A} (e : E) : Eff W E A := fun w => (w, inl e).

Definition bind {A B} (m : Eff W E A) (k : A -> Eff W E B) : Eff W E B :=
  fun w =>
    match m w with
    | (w', inr a) => k a w'
    | (w', inl e) => (w', inl e)
    end.

(** [try: m except e: h e] *)
Definition try_except {A} (m : Eff W E A) (h : E -> Eff W E A) : Eff W E A :=
  fun w =>
    match m w with
    | (w', inr a) => (w', inr a)
    | (w', inl e) => h e w'
    end.

(** [with acquire as r: body r], the context manager's exit running on
    both ways out of the body; an exception of the exit replaces the
    body's. *)
Definition with_as {R A} (acquire : Eff W E R) (release : R -> Eff W E unit)
    (body : R -> Eff W E A) : Eff W E A :=
  bind acquire (fun r =>
    fun w =>
      match body r w with
      | (w', inr a) => bind (release r) (fun _ => ret a) w'
      | (w', inl e) => bind (release r) (fun _ => raise e) w'
      end).

(** A state update that cannot fail. *)
Definition modify (f : W -> W) : Eff W E unit := fun w => (f w, inr tt).

Definition gets {A} (f : W -> A) : Eff W E A := fun w => (w, inr (f w)).
End eff_ops.

Declare Scope eff_scope.
Delimit Scope eff_scope with eff.
Notation "x <- m ;; k" := (bind m (fun x => k))
  (at level 100, m at next level, right associativity) : eff_scope.
Notation "m ;; k" := (bind m (fun _ => k))
  (at level 100, right associativity) : eff_scope.

(** ** Running a computation *)

Definition world_after {W E A} (m : Eff W E A) (w : W) : W := (m w).1.
Definition outcome {W E A} (m : Eff W E A) (w : W) : E + A := (m w).2.

Definition returned {E A} (r : E + A) : bool := if r is inr _ then true else false.

(** ** Equivalence of computations: equal on every world *)

Section eff_equiv.
Context {W E : Type}.
Local Open Scope eff_scope.

#[export] Instance eff_equiv {A} : Equiv (Eff W E A) :=
  fun m1 m2 => forall w, m1 w = m2 w.

#[export] Instance eff_equiv_equivalence {A} : Equivalence (≡@{Eff W E A}).
Proof.
  split.
  - by intros m w.
  - by intros m1 m2 H w.
  - intros m1 m2 m3 H1 H2 w. by rewrite H1.
Qed.

#[export] Instance bind_proper {A B} :
  Proper ((≡) ==> pointwise_relation A (≡) ==> (≡)) (@bind W E A B).
Proof.
  intros m1 m2 Hm k1 k2 Hk w. unfold bind. rewrite Hm.
  destruct (m2 w) as [w' [e|a]]; [done|apply Hk].
Qed.

#[export] Instance try_except_proper {A} :
  Proper ((≡) ==> pointwise_relation E (≡) ==> (≡)) (@try_except W E A).
Proof.
  intros m1 m2 Hm h1 h2 Hh w. unfold try_except. rewrite Hm.
  destruct (m2 w) as [w' [e|a]]; [apply Hh|done].
Qed.

Lemma bind_ret_l {A B} (a : A) (k : A -> Eff W E B) : (x <- ret a ;; k x) ≡ k a.
Proof. done. Qed.

Lemma bind_ret_r {A} (m : Eff W E A) : (x <- m ;; ret x) ≡ m.
Proof. intros w. unfold bind, ret. by destruct (m w) as [w' [e|a]]. Qed.

Lemma bind_assoc {A B C} (m : Eff W E A) (k : A -> Eff W E B) (h : B -> Eff W E C) :
  (y <- (x <- m ;; k x) ;; h y) ≡ (x <- m ;; y <- k x ;; h y).
Proof. intros w. unfold bind. by destruct (m w) as [w' [e|a]]. Qed.

Lemma bind_raise {A B} (e : E) (k : A -> Eff W E B) : (x <- raise e ;; k x) ≡ raise e.
Proof. done. Qed.

Lemma try_except_ret {A} (a : A) (h : E -> Eff W E A) : try_except (ret a) h ≡ ret a.
Proof. done. Qed.

Lemma try_except_raise {A} (e : E) (h : E -> Eff W E A) : try_except (raise e) h ≡ h e.
Proof. done. Qed.

(** An [except] clause that re-raises is no handler at all. *)
Lemma try_except_reraise {A} (m : Eff W E A) (h : E -> Eff W E A) :
  (forall e, h e ≡ raise e) -> try_except m h ≡ m.
Proof.
  intros Hh w. unfold try_except.
  destruct (m w) as [w' [e|a]] eqn:Hm; [by rewrite Hh|done].
Qed.
End eff_equiv.

(** ** Running a computation step by step

    The equations a symbolic run rewrites with: each moves the world
    through the first operation of a sequence. *)
Section eff_run.
Context {W E : Type}.
Local Open Scope eff_scope.

Lemma bind_run {A B} (m : Eff W E A) (k : A -> Eff W E B) w :
  (x <- m ;; k x) w =
    match m w with
    | (w', inr a) => k a w'
    | (w', inl e) => (w', inl e)
    end.
Proof. done. Qed.

Lemma ret_run {A} (a : A) (w : W) : ret (E:=E) a w = (w, inr a).
Proof. done. Qed.

Lemma raise_run {A} (e : E) (w : W) : raise (A:=A) e w = (w, inl e).
Proof. done. Qed.

Lemma bind_ret_run {A B} (a : A) (k : A -> Eff W E B) w : (x <- ret a ;; k x) w = k a w.
Proof. done. Qed.

Lemma bind_raise_run {A B} (e : E) (k : A -> Eff W E B) w :
  (x <- raise e ;; k x) w = (w, inl e).
Proof. done. Qed.

Lemma bind_bind_run {A B C} (m : Eff W E A) (k : A -> Eff W E B) (h : B -> Eff W E C) w :
  (y <- (x <- m ;; k x) ;; h y) w = (x <- m ;; y <- k x ;; h y) w.
Proof. apply bind_assoc. Qed.

Lemma bind_modify_run {B} (f : W -> W) (k : unit -> Eff W E B) w :
  (x <- modify f ;; k x) w = k tt (f w).
Proof. done. Qed.

Lemma bind_gets_run {A B} (f : W -> A) (k : A -> Eff W E B) w :
  (x <- gets f ;; k x) w = k (f w) w.
Proof. done. Qed.
End eff_run.

(** ** Frame and growth of an observation of the world

    [preserves f m]: no run of [m] changes the observation [f].
    [grows_by f n m]: no run of [m] raises the counter [f] by more than [n]. *)

Section eff_frame.
Context {W E : Type}.
Local Open Scope eff_scope.

Definition preserves {X A} (f : W -> X) (m : Eff W E A) : Prop :=
  forall w, f (world_after m w) = f w.

Definition grows_by {A} (f : W -> nat) (n : nat) (m : Eff W E A) : Prop :=
  forall w, f (world_after m w) <= f w + n.

Context {X : Type} (f : W -> X).

Lemma preserves_ret {A} (a : A) : preserves f (ret (E:=E) a).
Proof. done. Qed.

Lemma preserves_raise {A} (e : E) : preserves f (raise (A:=A) e).
Proof. done. Qed.

Lemma preserves_gets {A} (g : W -> A) : preserves f (gets (E:=E) g).
Proof. done. Qed.

Lemma preserves_modify (g : W -> W) :
  (forall w, f (g w) = f w) -> preserves f (modify (E:=E) g).
Proof. intros Hg w. apply Hg. Qed.

Lemma preserves_bind {A B} (m : Eff W E A) (k : A -> Eff W E B) :
  preserves f m -> (forall a, preserves f (k a)) -> preserves f (x <- m ;; k x).
Proof.
  intros Hm Hk w. specialize (Hm w). unfold world_after, bind in *.
  destruct (m w) as [w' [e|a]]; simpl in *; [done|].
  rewrite <-Hm. apply (Hk a w').
Qed.

Lemma preserves_try_except {A} (m : Eff W E A) (h : E -> Eff W E A) :
  preserves f m -> (forall e, preserves f (h e)) -> preserves f (try_except m h).
Proof.
  intros Hm Hh w. specialize (Hm w). unfold world_after, try_except in *.
  destruct (m w) as [w' [e|a]]; simpl in *; [|done].
  rewrite <-Hm. apply (Hh e w').
Qed.
End eff_frame.

Section eff_growth.
Context {W E : Type} (f : W -> nat).
Local Open Scope eff_scope.

Lemma preserves_grows_by {A} (m : Eff W E A) : preserves f m -> grows_by f 0 m.
Proof. intros Hm w. rewrite Hm. lia. Qed.

Lemma grows_by_weaken {A} n n' (m : Eff W E A) :
  n <= n' -> grows_by f n m -> grows_by f n' m.
Proof. intros Hn Hm w. specialize (Hm w). lia. Qed.

Lemma grows_by_bind {A B} n1 n2 (m : Eff W E A) (k : A -> Eff W E B) :
  grows_by f n1 m -> (forall a, grows_by f n2 (k a)) ->
  grows_by f (n1 + n2) (x <- m ;; k x).
Proof.
  intros Hm Hk w. specialize (Hm w). unfold world_after, bind in *.
  destruct (m w) as [w' [e|a]]; simpl in *; [lia|].
  specialize (Hk a w'). unfold world_after in Hk. lia.
Qed.

Lemma grows_by_try_except {A} n1 n2 (m : Eff W E A) (h : E -> Eff W E A) :
  grows_by f n1 m -> (forall e, grows_by f n2 (h e)) ->
  grows_by f (n1 + n2) (try_except m h).
Proof.
  intros Hm Hh w. specialize (Hm w). unfold world_after, try_except in *.
  destruct (m w) as [w' [e|a]]; simpl in *; [|lia].
  specialize (Hh e w'). unfold world_after in Hh. lia.
Qed.

Lemma grows_by_with_as {R A} n1 n2 n3 (acq : Eff W E R) (rel : R -> Eff W E unit)
    (body : R -> Eff W E A) :
  grows_by f n1 acq -> (forall r, grows_by f n2 (body r)) ->
  (forall r, grows_by f n3 (rel r)) ->
  grows_by f (n1 + (n2 + n3)) (with_as acq rel body).
Proof.
  intros Hacq Hbody Hrel. apply grows_by_bind; [done|]. intros r w.
  specialize (Hbody r w). unfold world_after, bind in *.
  destruct (body r w) as [w' [e|a]]; simpl in *;
    specialize (Hrel r w'); unfold world_after in Hrel;
    destruct (rel r w') as [w'' [e'|[]]]; simpl in *; lia.
Qed.
End eff_growth.

Lemma preserves_with_as {W E X R A} (f : W -> X) (acq : Eff W E R)
    (rel : R -> Eff W E unit) (body : R -> Eff W E A) :
  preserves f acq -> (forall r, preserves f (body r)) ->
  (forall r, preserves f (rel r)) -> preserves f (with_as acq rel body).
Proof.
  intros Hacq Hbody Hrel. apply preserves_bind; [done|]. intros r w.
  specialize (Hbody r w). unfold world_after, bind in *.
  destruct (body r w) as [w' [e|a]]; simpl in *;
    specialize (Hrel r w'); unfold world_after in Hrel;
    destruct (rel r w') as [w'' [e'|[]]]; simpl in *; congruence.
Qed.

(** [advances R f m]: every run of [m] moves the observation [f] along
    the preorder [R]; with the prefix order on lists, [f] only grows. *)
Section eff_advance.
Context {W E X : Type} (R : relation X) `{!PreOrder R} (f : W -> X).
Local Open Scope eff_scope.

Definition advances {A} (m : Eff W E A) : Prop :=
  forall w, R (f w) (f (world_after m w)).

Lemma preserves_advances {A} (m : Eff W E A) : preserves f m -> advances m.
Proof. intros Hm w. by rewrite Hm. Qed.

Lemma advances_ret {A} (a : A) : advances (ret (E:=E) a).
Proof. by intros w. Qed.

Lemma advances_raise {A} (e : E) : advances (raise (A:=A) e).
Proof. by intros w. Qed.

Lemma advances_gets {A} (g : W -> A) : advances (gets (E:=E) g).
Proof. by intros w. Qed.

Lemma advances_modify (g : W -> W) :
  (forall w, R (f w) (f (g w))) -> advances (modify (E:=E) g).
Proof. intros Hg w. apply Hg. Qed.

Lemma advances_bind {A B} (m : Eff W E A) (k : A -> Eff W E B) :
  advances m -> (forall a, advances (k a)) -> advances (x <- m ;; k x).
Proof.
  intros Hm Hk w. specialize (Hm w). unfold world_after, bind in *.
  destruct (m w) as [w' [e|a]]; simpl in *; [done|].
  etrans; [done|]. apply (Hk a w').
Qed.

Lemma advances_try_except {A} (m : Eff W E A) (h : E -> Eff W E A) :
  advances m -> (forall e, advances (h e)) -> advances (try_except m h).
Proof.
  intros Hm Hh w. specialize (Hm w). unfold world_after, try_except in *.
  destruct (m w) as [w' [e|a]]; simpl in *; [|done].
  etrans; [done|]. apply (Hh e w').
Qed.

Lemma advances_with_as {S A} (acq : Eff W E S) (rel : S -> Eff W E unit)
    (body : S -> Eff W E A) :
  advances acq -> (forall r, advances (body r)) -> (forall r, advances (rel r)) ->
  advances (with_as acq rel body).
Proof.
  intros Hacq Hbody Hrel. apply advances_bind; [done|]. intros r w.
  specialize (Hbody r w). unfold world_after, bind in *.
  destruct (body r w) as [w' [e|a]]; simpl in *;
    specialize (Hrel r w'); unfold world_after in Hrel;
    destruct (rel r w') as [w'' [e'|[]]]; simpl in *; by etrans.
Qed.
End eff_advance.

(** ** Computations that respect a relation between worlds

    [respects R m]: run in two worlds that [R] relates, [m] ends in worlds
    that [R] relates, with the same outcome.  When [R] forgets a part of
    the world, this says that [m] never reads that part: neither what it
    returns or raises nor the rest of the world depends on it.  It is a
    [Proper] instance, so that [rewrite] changes the world a computation
    runs in for a related one. *)
Section eff_respects.
Context {W E : Type} (R : relation W).
Local Open Scope eff_scope.

Definition respects {A} (m : Eff W E A) : Prop := Proper (R ==> prod_relation R (=)) m.

Lemma respects_ret {A} (a : A) : respects (ret (E:=E) a).
Proof. by intros w1 w2 Hw. Qed.

Lemma respects_raise {A} (e : E) : respects (raise (A:=A) e).
Proof. by intros w1 w2 Hw. Qed.

Lemma respects_gets {A} (g : W -> A) : Proper (R ==> (=)) g -> respects (gets (E:=E) g).
Proof. intros Hg w1 w2 Hw. split; [done|]. cbn. f_equal. by apply Hg. Qed.

Lemma respects_modify (g : W -> W) : Proper (R ==> R) g -> respects (modify (E:=E) g).
Proof. intros Hg w1 w2 Hw. split; [by apply Hg|done]. Qed.

Lemma respects_bind {A B} (m : Eff W E A) (k : A -> Eff W E B) :
  respects m -> (forall a, respects (k a)) -> respects (x <- m ;; k x).
Proof.
  intros Hm Hk w1 w2 Hw. destruct (Hm w1 w2 Hw) as [Hw' Hr]. unfold bind.
  destruct (m w1) as [w1' r1], (m w2) as [w2' r2]. cbn in Hw', Hr. subst r2.
  destruct r1 as [e|a]; [done|by apply Hk].
Qed.

Lemma respects_try_except {A} (m : Eff W E A) (h : E -> Eff W E A) :
  respects m -> (forall e, respects (h e)) -> respects (try_except m h).
Proof.
  intros Hm Hh w1 w2 Hw. destruct (Hm w1 w2 Hw) as [Hw' Hr]. unfold try_except.
  destruct (m w1) as [w1' r1], (m w2) as [w2' r2]. cbn in Hw', Hr. subst r2.
  destruct r1 as [e|a]; [by apply Hh|done].
Qed.

Lemma respects_with_as {S A} (acq : Eff W E S) (rel : S -> Eff W E unit)
    (body : S -> Eff W E A) :
  respects acq -> (forall r, respects (body r)) -> (forall r, respects (rel r)) ->
  respects (with_as acq rel body).
Proof.
  intros Hacq Hbody Hrel. apply respects_bind; [done|]. intros r w1 w2 Hw.
  destruct (Hbody r w1 w2 Hw) as [Hw' Hr].
  destruct (body r w1) as [w1' r1], (body r w2) as [w2' r2]. cbn in Hw', Hr. subst r2.
  destruct r1 as [e|a]; (apply respects_bind; [apply Hrel|by intros; intros ???|done]).
Qed.

(** The two runs, one beside the other. *)
Lemma respects_run {A} (m : Eff W E A) w1 w2 :
  respects m -> R w1 w2 ->
  R (world_after m w1) (world_after m w2) /\ outcome m w1 = outcome m w2.
Proof. intros Hm Hw. apply (Hm w1 w2 Hw). Qed.
End eff_respects.

(** ** Python values

    A Python [str] is modelled by the bytes of its UTF-8 encoding, a Rocq
    [string].  [Optional[str]] is [option string]. *)

(** [bool(x)] for [x : Optional[str]]: [None] and the empty string are false. *)
Definition truthy (x : option string) : bool :=
  match x with
  | Some (String _ _) => true
  | Some EmptyString | None => false
  end.

(** [all(xs)] on a list of tested values. *)
Definition py_all (xs : list bool) : bool := forallb id xs.

(** [f"{x}"] for [x : Optional[str]]. *)
Definition str_of_optional (x : option string) : string := default "None" x.

(** [f"{b}"] for [b : bool]. *)
Definition str_of_bool (b : bool) : string := if b then "True" else "False".

(** A byte [10xxxxxx] continues a code point started by an earlier byte. *)
Definition is_continuation (a : ascii) : bool :=
  let 'Ascii _ _ _ _ _ _ b6 b7 := a in b7 && negb b6.

(** [len(s)]: the number of code points of [s]. *)
Fixpoint py_len (s : string) : nat :=
  match s with
  | EmptyString => 0
  | String a s' => (if is_continuation a then 0 else 1) + py_len s'
  end.

(** A string of 7-bit characters only. *)
Fixpoint is_ascii (s : string) : bool :=
  match s with
  | EmptyString => true
  | String (Ascii _ _ _ _ _ _ _ b7) s' => negb b7 && is_ascii s'
  end.

(** The double quote character as a string. *)
Definition dq : string := String (ascii_of_nat 34) EmptyString.

(** A decimal digit, and a number zero-padded to [n] digits (its low [n]
    digits when it has more), as [%02d] and [%04d] print it. *)
Definition digit (d : nat) : ascii := ascii_of_nat (48 + d mod 10).

Fixpoint zero_pad (n : nat) (x : nat) : string :=
  match n with
  | 0 => EmptyString
  | S n' => zero_pad n' (x / 10) +:+ String (digit x) EmptyString
  end.

Section python_facts.
Implicit Types (s : string) (x : option string).

Lemma truthy_Some x : truthy x = true <-> exists s, x = Some s /\ s <> "".
Proof.
  split.
  - destruct x as [[|a s]|]; [done| |done]. intros _. by eexists.
  - intros (s & -> & Hs). by destruct s.
Qed.

Lemma truthy_false x : truthy x = false <-> x = None \/ x = Some "".
Proof. destruct x as [[|a s]|]; simpl; split; intros; try done; auto; by destruct_or!. Qed.

Lemma py_all_true xs : py_all xs = true <-> Forall (fun b => b = true) xs.
Proof.
  induction xs as [|b xs IH]; simpl; [by split|].
  rewrite andb_true_iff, IH, Forall_cons. by destruct b.
Qed.

Lemma py_len_app s1 s2 : py_len (s1 +:+ s2) = py_len s1 + py_len s2.
Proof. induction s1 as [|a s1 IH]; simpl; [done|]. rewrite IH. lia. Qed.

Lemma py_len_le s : py_len s <= String.length s.
Proof. induction s as [|a s IH]; simpl; [done|]. destruct (is_continuation a); lia. Qed.

Lemma py_len_ascii s : is_ascii s = true -> py_len s = String.length s.
Proof.
  induction s as [|[b0 b1 b2 b3 b4 b5 b6 b7] s IH]; simpl; [done|].
  intros [Hb Hs]%andb_true_iff. rewrite IH by done. by destruct b7.
Qed.

Lemma string_length_app s1 s2 :
  String.length (s1 +:+ s2) = String.length s1 + String.length s2.
Proof. induction s1 as [|a s1 IH]; simpl; [done|]. by rewrite IH. Qed.

Lemma zero_pad_length n (k : nat) : String.length (zero_pad n k) = n.
Proof.
  revert k. induction n as [|n IH]; intros k; simpl; [done|].
  rewrite string_length_app, IH. simpl. lia.
Qed.
End python_facts.

(** ** Strings inside strings

    [embeds x s]: [x] occurs in [s] as it is, character for character. *)
Definition embeds (x s : string) : Prop := exists pre post, s = pre +:+ x +:+ post.

Lemma string_app_cons (a : ascii) (s t : string) : String a s +:+ t = String a (s +:+ t).
Proof. reflexivity. Qed.

Lemma string_app_nil_r (s : string) : s +:+ "" = s.
Proof. induction s as [|a s IH]; [done|]. by rewrite string_app_cons, IH. Qed.

Lemma string_app_assoc (s1 s2 s3 : string) : (s1 +:+ s2) +:+ s3 = s1 +:+ s2 +:+ s3.
Proof. induction s1 as [|a s1 IH]; [done|]. by rewrite !string_app_cons, IH. Qed.

Lemma embeds_here (x post : string) : embeds x (x +:+ post).
Proof. by exists "", post. Qed.

Lemma embeds_end (x : string) : embeds x x.
Proof. exists "", "". by rewrite string_app_nil_r. Qed.

Lemma embeds_app_r (x a s : string) : embeds x s -> embeds x (a +:+ s).
Proof. intros (pre & post & ->). exists (a +:+ pre), post. by rewrite string_app_assoc. Qed.

(** An occurrence found by walking down a right-nested concatenation. *)
Ltac solve_embeds :=
  repeat first [ apply embeds_here | apply embeds_end | apply embeds_app_r ].

(** ** [str.split] and [str.join] on a separator of one character

    [split sep s] is [s.split(sep)]: the parts of [s] between the
    occurrences of [sep], empty parts kept; [join sep parts] is
    [sep.join(parts)]. *)
Fixpoint split (sep : ascii) (s : string) : list string :=
  match s with
  | EmptyString => [EmptyString]
  | String a s' =>
      if decide (a = sep) then EmptyString :: split sep s'
      else match split sep s' with
           | part :: parts => String a part :: parts
           | [] => [String a EmptyString]
           end
  end.

Fixpoint join (sep : ascii) (parts : list string) : string :=
  match parts with
  | [] => EmptyString
  | [part] => part
  | part :: parts' => part +:+ String sep (join sep parts')
  end.

(** The occurrences of a character in a string. *)
Fixpoint count_char (c : ascii) (s : string) : nat :=
  match s with
  | EmptyString => 0
  | String a s' => (if decide (a = c) then 1 else 0) + count_char c s'
  end.

Section split_facts.
Implicit Types (sep a : ascii) (s part : string) (parts : list string).

Lemma split_not_nil sep s : split sep s <> [].
Proof. induction s as [|a s IH]; simpl; [done|]. by repeat case_match. Qed.

Lemma split_length sep s : length (split sep s) = S (count_char sep s).
Proof.
  induction s as [|a s IH]; simpl; [done|].
  destruct (decide (a = sep)); simpl; [by rewrite IH|].
  destruct (split sep s) eqn:Hs; [by apply split_not_nil in Hs|done].
Qed.

Lemma split_no_sep sep s : Forall (fun part => count_char sep part = 0) (split sep s).
Proof.
  induction s as [|a s IH]; simpl; [by repeat constructor|].
  destruct (decide (a = sep)) as [|Hne]; [by constructor|].
  destruct (split sep s) as [|part parts]; [by apply Forall_singleton; simpl; rewrite decide_False|].
  apply Forall_cons in IH as [Hpart Hparts].
  apply Forall_cons. split; [|done]. simpl. by rewrite decide_False.
Qed.

Lemma join_cons sep part part' parts :
  join sep (part :: part' :: parts) = part +:+ String sep (join sep (part' :: parts)).
Proof. done. Qed.

Lemma join_split sep s : join sep (split sep s) = s.
Proof.
  induction s as [|a s IH]; [done|]. cbn [split].
  destruct (split sep s) as [|part parts] eqn:Hs; [by apply split_not_nil in Hs|].
  destruct (decide (a = sep)) as [->|]; [by rewrite join_cons, IH|].
  rewrite <-IH. by destruct parts.
Qed.

Lemma split_app_no_sep sep part s :
  count_char sep part = 0 ->
  split sep (part +:+ String sep s) = part :: split sep s.
Proof.
  induction part as [|a part IH]; intros Hpart.
  - change (EmptyString +:+ String sep s) with (String sep s). cbn [split].
    by rewrite decide_True.
  - simpl in Hpart. destruct (decide (a = sep)); [done|].
    rewrite string_app_cons. cbn [split]. rewrite decide_False, IH by done. done.
Qed.

Lemma split_no_sep_id sep part : count_char sep part = 0 -> split sep part = [part].
Proof.
  induction part as [|a part IH]; [done|]. simpl.
  destruct (decide (a = sep)); [done|]. by intros ->%IH.
Qed.

Lemma split_join sep parts :
  parts <> [] -> Forall (fun part => count_char sep part = 0) parts ->
  split sep (join sep parts) = parts.
Proof.
  induction parts as [|part parts IH]; [done|]. intros _ [Hpart Hparts]%Forall_cons.
  destruct parts as [|part' parts]; [by apply split_no_sep_id|].
  rewrite join_cons, split_app_no_sep by done. by rewrite IH.
Qed.
End split_facts.

(** ** Tests on the characters of a string *)

(** Every character of the string passes the test. *)
Fixpoint all_chars (test : ascii -> bool) (s : string) : bool :=
  match s with
  | EmptyString => true
  | String a s' => test a && all_chars test s'
  end.

Section characters.
Implicit Types (s t : string) (a : ascii) (test : ascii -> bool).

Lemma all_chars_rev_app test s t :
  all_chars test (String.rev_app s t) = all_chars test s && all_chars test t.
Proof.
  revert t. induction s as [|a s IH]; intros t; cbn [String.rev_app all_chars]; [done|].
  rewrite IH. cbn [all_chars]. by destruct (test a), (all_chars test s).
Qed.

Lemma all_chars_rev test s : all_chars test (String.rev s) = all_chars test s.
Proof. unfold String.rev. rewrite all_chars_rev_app. cbn. by rewrite andb_true_r. Qed.

Lemma all_chars_weaken test1 test2 s :
  (forall a, test1 a = true -> test2 a = true) ->
  all_chars test1 s = true -> all_chars test2 s = true.
Proof.
  intros Hw. induction s as [|a s IH]; [done|]. cbn [all_chars].
  intros [Ha Hs]%andb_true_iff. by rewrite (Hw a Ha), IH.
Qed.

Lemma rev_app_rev_app s t u :
  String.rev_app (String.rev_app s t) u = String.rev_app t (s +:+ u).
Proof.
  revert t u. induction s as [|a s IH]; intros t u; cbn [String.rev_app]; [done|].
  by rewrite IH.
Qed.

Lemma rev_involutive s : String.rev (String.rev s) = s.
Proof. unfold String.rev. rewrite rev_app_rev_app. cbn. apply string_app_nil_r. Qed.
End characters.

(** ** Lists *)
Lemma app_self_inv {A} (l k : list A) : l = l ++ k -> k = [].
Proof. intros Hl. apply (inj (app l)). by rewrite app_nil_r. Qed.

(** ** Automation *)

Create HintDb portfolio discriminated.
Create Rewrite HintDb portfolio_rw.

#[export] Hint Resolve preserves_ret preserves_raise preserves_gets
  preserves_bind preserves_try_except preserves_with_as : portfolio.
#[export] Hint Rewrite @py_len_app @string_length_app @zero_pad_length : portfolio_rw.

(** Unfold the monad's operations in the goal and in the hypotheses. *)
Ltac eff_unfold :=
  unfold world_after, outcome, with_as, try_except, bind, ret, raise, modify, gets in *.

(** Case analysis on the first run of a computation in the goal. *)
Ltac eff_case :=
  match goal with
  | |- context [match ?m ?w with pair _ _ => _ end] =>
      let w' := fresh "w" in let e := fresh "e" in let a := fresh "a" in
      let H := fresh "Hrun" in
      destruct (m w) as [w' [e|a]] eqn:H; simpl in *
  end.

#[export] Hint Resolve advances_ret advances_raise advances_gets
  advances_bind advances_try_except advances_with_as : portfolio.

(** Discharge a frame goal by the structure of the computation. *)
Ltac solve_preserves :=
  repeat first
    [ progress intros
    | apply preserves_with_as | apply preserves_try_except | apply preserves_bind
    | apply preserves_ret | apply preserves_raise | apply preserves_gets
    | apply preserves_modify; done
    | solve [eauto with portfolio]
    | match goal with
      | |- preserves _ (match ?x with _ => _ end) => destruct x
      | |- preserves _ (if ?b then _ else _) => destruct b
      end ].

(** Discharge a growth goal the same way. *)
Ltac solve_advances :=
  repeat first
    [ progress intros
    | match goal with |- PreOrder _ => apply _ end
    | apply advances_with_as | apply advances_try_except | apply advances_bind
    | apply advances_ret | apply advances_raise | apply advances_gets
    | solve [eauto with portfolio]
    | match goal with
      | |- advances _ _ (match ?x with _ => _ end) => destruct x
      | |- advances _ _ (if ?b then _ else _) => destruct b
      end ].

#[export] Hint Resolve respects_ret respects_raise respects_bind respects_try_except
  respects_with_as : portfolio.

(** Discharge a goal that a computation respects a relation the same way. *)
Ltac solve_respects :=
  repeat first
    [ progress intros
    | apply respects_with_as | apply respects_try_except | apply respects_bind
    | apply respects_ret | apply respects_raise
    | apply respects_gets; solve_proper
    | solve [eauto with portfolio]
    | match goal with
      | |- respects _ (match ?x with _ => _ end) => destruct x
      | |- respects _ (if ?b then _ else _) => destruct b
      end ].
