(* ===== verification/Runtime.v ===== *)
(** * The Python runtime and the outside world

    What the backend's code touches but does not define: exceptions and
    their classes, [datetime] and [strftime], standard output, the process
    environment and [int], the SMTP server reached through [smtplib],
    dictionaries, the resume file seen through [os.path], and [round].
    The world is a record; every primitive is a computation of the effect
    monad of [Prelude] over it.  The file ends with the run rules of the
    primitives and the tactics that execute a computation step by step. *)

From S2P Require Import Prelude.

(** ** Exceptions

    One constructor per class the code tells apart in an [except] clause or
    raises itself; [cls] carries the class name of the others. *)
Inductive exn :=
  | SMTPAuthenticationError (msg : string)
  | SMTPException (cls : string) (msg : string)
  | HTTPException (status_code : nat) (detail : string)
  | ValidationError (errors : list (string * string))
  | PyException (cls : string) (msg : string).

#[export] Instance exn_eq_dec : EqDecision exn.
Proof. solve_decision. Defined.

(** [isinstance(e, smtplib.SMTPException)] *)
Definition is_SMTPException (e : exn) : bool :=
  match e with
  | SMTPAuthenticationError _ | SMTPException _ _ => true
  | _ => false
  end.

(** [isinstance(e, HTTPException)] *)
Definition is_HTTPException (e : exn) : bool :=
  if e is HTTPException _ _ then true else false.

(** [type(e).__name__] *)
Definition exn_type_name (e : exn) : string :=
  match e with
  | SMTPAuthenticationError _ => "SMTPAuthenticationError"
  | SMTPException cls _ => cls
  | HTTPException _ _ => "HTTPException"
  | ValidationError _ => "ValidationError"
  | PyException cls _ => cls
  end.

(** [str(e)] *)
Definition exn_str (e : exn) : string :=
  match e with
  | SMTPAuthenticationError msg | SMTPException _ msg | PyException _ msg => msg
  | HTTPException code detail => pretty code +:+ ": " +:+ detail
  | ValidationError errors =>
      pretty (length errors) +:+ " validation error" +:+
      (if decide (length errors = 1) then "" else "s")
  end.

(** ** [datetime] *)
Module datetime.
Record t := mk {
  year : nat; month : nat; day : nat;
  hour : nat; minute : nat; second : nat
}.

#[global] Instance eq_dec : EqDecision t.
Proof. solve_decision. Defined.

(** The ranges [datetime] enforces at construction. *)
Definition wf (d : t) : Prop :=
  1 <= year d <= 9999 /\ 1 <= month d <= 12 /\ 1 <= day d <= 31 /\
  hour d < 24 /\ minute d < 60 /\ second d < 60.

#[global] Instance wf_dec d : Decision (wf d).
Proof. unfold wf. apply _. Defined.

(** One [%x] directive of [strftime]. *)
Definition directive (c : ascii) (d : t) : string :=
  if decide (c = "Y"%char) then zero_pad 4 (year d)
  else if decide (c = "m"%char) then zero_pad 2 (month d)
  else if decide (c = "d"%char) then zero_pad 2 (day d)
  else if decide (c = "H"%char) then zero_pad 2 (hour d)
  else if decide (c = "M"%char) then zero_pad 2 (minute d)
  else if decide (c = "S"%char) then zero_pad 2 (second d)
  else if decide (c = "%"%char) then "%"
  else String "%" (String c EmptyString).

(** [d.strftime(fmt)] for the numeric directives above; any other
    directive is left as written. *)
Fixpoint strftime (fmt : string) (d : t) : string :=
  match fmt with
  | EmptyString => EmptyString
  | String a rest =>
      if decide (a = "%"%char) then
        match rest with
        | String c rest' => directive c d +:+ strftime rest' d
        | EmptyString => "%"
        end
      else String a (strftime rest d)
  end.
End datetime.

(** ** The SMTP server behind [smtplib]

    A MIME message as the email service builds it: the multipart subtype,
    the four headers with the values assigned to them, and the attached
    text parts. *)
Record MIMEText := { text : string; text_subtype : string }.

Record MIMEMultipart := {
  subtype : string;
  Subject : string;
  From : option string;
  To : option string;
  Reply_To : string;
  payload : list MIMEText
}.

#[export] Instance MIMEText_eq_dec : EqDecision MIMEText.
Proof. solve_decision. Defined.

#[export] Instance MIMEMultipart_eq_dec : EqDecision MIMEMultipart.
Proof. solve_decision. Defined.

(** [msg.attach(part)] *)
Definition attach (part : MIMEText) (msg : MIMEMultipart) : MIMEMultipart :=
  {| subtype := subtype msg; Subject := Subject msg; From := From msg; To := To msg;
     Reply_To := Reply_To msg; payload := payload msg ++ [part] |}.

(** A command of one SMTP session. *)
Inductive smtp_event :=
  | Connect (host : string) (port : Z)           (* smtplib.SMTP(host, port) *)
  | StartTLS                                     (* server.starttls() *)
  | Login (user password : option string)        (* server.login(user, password) *)
  | SendMessage (msg : MIMEMultipart)            (* server.send_message(msg) *)
  | Quit.                                        (* leaving the [with] block *)

#[export] Instance smtp_event_eq_dec : EqDecision smtp_event.
Proof. solve_decision. Defined.

(** The server answers a command knowing every command sent so far, the
    current one last: [None] accepts it, [Some e] makes [smtplib] raise [e]. *)
Definition Server : Type := list smtp_event -> option exn.

(** The resume file's [os.stat] fields the routes read. *)
Record file_stat := { st_size : N; st_mtime : Z }.

Record World := {
  stdout : list string;        (* lines printed, oldest first *)
  clock : datetime.t;          (* what [datetime.utcnow()] returns *)
  smtp_server : Server;
  smtp_log : list smtp_event;  (* commands sent, oldest first *)
  resume_file : option file_stat
}.

Definition with_stdout (out : list string) (w : World) : World :=
  {| stdout := out; clock := clock w; smtp_server := smtp_server w;
     smtp_log := smtp_log w; resume_file := resume_file w |}.

Definition with_smtp_log (log : list smtp_event) (w : World) : World :=
  {| stdout := stdout w; clock := clock w; smtp_server := smtp_server w;
     smtp_log := log; resume_file := resume_file w |}.

(** The computations of the backend. *)
Abbreviation Py := (Eff World exn).

(** [print(line)] *)
Definition print (line : string) : Py unit :=
  modify (fun w => with_stdout (stdout w ++ [line]) w).

(** [datetime.utcnow()] *)
Definition utcnow : Py datetime.t := gets clock.

(** One command sent to the server: it is logged, then answered. *)
Definition smtp_command (ev : smtp_event) : Py unit :=
  fun w =>
    let log := smtp_log w ++ [ev] in
    (with_smtp_log log w,
     match smtp_server w log with
     | None => inr tt
     | Some e => inl e
     end).

(** [SMTP.__exit__]: QUIT is sent; a server that has gone away is ignored,
    any other refusal is raised. *)
Definition SMTP_exit : Py unit :=
  try_except (smtp_command Quit) (fun e =>
    if decide (exn_type_name e = "SMTPServerDisconnected") then ret tt else raise e).

(** The sessions opened so far, one per [Connect], and the messages handed
    to the server so far. *)
Definition is_Connect (ev : smtp_event) : bool :=
  if ev is Connect _ _ then true else false.

Definition sent_message (ev : smtp_event) : option MIMEMultipart :=
  if ev is SendMessage m then Some m else None.

Definition attempts_in (log : list smtp_event) : nat :=
  length (filter (fun ev => is_Connect ev = true) log).

Definition attempts (w : World) : nat := attempts_in (smtp_log w).

Definition submitted (w : World) : list MIMEMultipart := omap sent_message (smtp_log w).

(** ** The process environment and [int] *)

(** [os.getenv(key)] and [os.getenv(key, default)] *)
Definition getenv (environ : gmap string string) (key : string) : option string :=
  environ !! key.

Definition getenv_default (environ : gmap string string) (key dflt : string) : string :=
  default dflt (environ !! key).

(** The white space [int] strips from both ends, for 7-bit characters. *)
Definition is_space (a : ascii) : bool :=
  let n := nat_of_ascii a in
  (9 <=? n) && (n <=? 13) || (28 <=? n) && (n <=? 32).

Fixpoint lstrip (s : string) : string :=
  match s with
  | String a s' => if is_space a then lstrip s' else s
  | EmptyString => EmptyString
  end.

Definition strip (s : string) : string :=
  String.rev (lstrip (String.rev (lstrip s))).

Definition digit_value (a : ascii) : option Z :=
  let n := nat_of_ascii a in
  if (48 <=? n) && (n <=? 57) then Some (Z.of_nat (n - 48)) else None.

Definition is_digit (a : ascii) : bool := if digit_value a is Some _ then true else false.

(** Decimal digits, single underscores allowed between two digits;
    [after_digit] tells whether the previous character was a digit. *)
Fixpoint parse_digits (acc : Z) (after_digit : bool) (s : string) : option Z :=
  match s with
  | EmptyString => if after_digit then Some acc else None
  | String a s' =>
      match digit_value a with
      | Some d => parse_digits (10 * acc + d)%Z true s'
      | None =>
          if decide (a = "_"%char) then
            if after_digit then parse_digits acc false s' else None
          else None
      end
  end.

(** [int(s)] for a string of 7-bit characters of at most 4300 digits:
    white space stripped, an optional sign, then the digits.  The
    message of the error shows the string as written. *)
Definition py_int (s : string) : exn + Z :=
  let body := strip s in
  let parsed :=
    match body with
    | String a rest =>
        if decide (a = "+"%char) then parse_digits 0 false rest
        else if decide (a = "-"%char) then Z.opp <$> parse_digits 0 false rest
        else parse_digits 0 false body
    | EmptyString => None
    end in
  match parsed with
  | Some z => inr z
  | None =>
      inl (PyException "ValueError"
             ("invalid literal for int() with base 10: '" +:+ s +:+ "'"))
  end.

(** ** The server's side of a dialogue

    [answers srv log evs]: what the server replies to the commands [evs]
    sent one after the other on top of the log [log]. *)
Fixpoint answers (srv : Server) (log : list smtp_event) (evs : list smtp_event)
    : list (option exn) :=
  match evs with
  | [] => []
  | ev :: evs' => srv (log ++ [ev]) :: answers srv (log ++ [ev]) evs'
  end.

(** [dialogue srv log evs]: the commands of [evs] sent one after the other
    on top of [log] until the server refuses one: the commands sent, the
    refused one last, and the refusal. *)
Fixpoint dialogue (srv : Server) (log : list smtp_event) (evs : list smtp_event)
    : list smtp_event * option exn :=
  match evs with
  | [] => ([], None)
  | ev :: evs' =>
      match srv (log ++ [ev]) with
      | Some e => ([ev], Some e)
      | None => let (sent, r) := dialogue srv (log ++ [ev]) evs' in (ev :: sent, r)
      end
  end.

(** A session's straight line: each command announced on standard output,
    then sent. *)
Fixpoint announce_and_send (steps : list (string * smtp_event)) : Py unit :=
  match steps with
  | [] => ret tt
  | (line, ev) :: rest => (print line ;; smtp_command ev ;; announce_and_send rest)%eff
  end.

(** ** Dictionaries, the file system and [round]

    The values of the dictionaries the routes return: a number is kept as
    the decimal a client reads, [digits] scaled by ten to the [places]. *)
Inductive json :=
  | JBool (b : bool)
  | JStr (s : string)
  | JDecimal (digits : Z) (places : nat).

#[export] Instance json_eq_dec : EqDecision json.
Proof. solve_decision. Defined.

(** [d[key]] *)
Definition dict_getitem {V} (d : gmap string V) (key : string) : Py V :=
  match d !! key with
  | Some v => ret v
  | None => raise (PyException "KeyError" ("'" +:+ key +:+ "'"))
  end.

(** [os.path.exists], [os.path.getsize] and [os.path.getmtime] on the
    resume's path; the time is kept in whole seconds. *)
Definition path_exists : Py bool :=
  gets (fun w => if resume_file w is Some _ then true else false).

Definition stat_field {A} (field : file_stat -> A) : Py A :=
  fun w =>
    match resume_file w with
    | Some st => (w, inr (field st))
    | None => (w, inl (PyException "FileNotFoundError" "[Errno 2] No such file or directory"))
    end.

Definition getsize : Py N := stat_field st_size.
Definition getmtime : Py Z := stat_field st_mtime.

(** The integer nearest to [num / den], the even one of two that are
    equally near; [den] is positive. *)
Definition round_half_even (num den : Z) : Z :=
  let q := (num / den)%Z in
  let r := (num mod den)%Z in
  if (2 * r <? den)%Z then q
  else if (den <? 2 * r)%Z then (q + 1)%Z
  else if Z.even q then q else (q + 1)%Z.

(** [round(n / 1024, 2)], in hundredths: the division is exact in binary
    floating point for a size below 2^53, and [round] rounds the exact
    quotient to the nearest hundredth, ties to the even one. *)
Definition round_kb (n : N) : Z := round_half_even (100 * Z.of_N n) 1024.

(** [FileResponse(path=..., filename=..., media_type=...)] *)
Record FileResponse := {
  path : string;
  filename : string;
  media_type : string
}.

#[export] Instance FileResponse_eq_dec : EqDecision FileResponse.
Proof. solve_decision. Defined.

(** ** Facts about the primitives *)
Section runtime_facts.
Implicit Types (w : World) (ev : smtp_event) (line : string).

Lemma print_run line w : print line w = (with_stdout (stdout w ++ [line]) w, inr tt).
Proof. done. Qed.

Lemma smtp_command_run ev w :
  smtp_command ev w =
    (with_smtp_log (smtp_log w ++ [ev]) w,
     match smtp_server w (smtp_log w ++ [ev]) with None => inr tt | Some e => inl e end).
Proof. done. Qed.

Lemma print_preserves_smtp_log line : preserves smtp_log (print line).
Proof. done. Qed.

Lemma print_preserves_smtp_server line : preserves smtp_server (print line).
Proof. done. Qed.

Lemma print_preserves_clock line : preserves clock (print line).
Proof. done. Qed.

Lemma smtp_command_preserves_stdout ev : preserves stdout (smtp_command ev).
Proof. done. Qed.

Lemma smtp_command_preserves_smtp_server ev : preserves smtp_server (smtp_command ev).
Proof. done. Qed.

Lemma SMTP_exit_preserves_stdout : preserves stdout SMTP_exit.
Proof.
  apply preserves_try_except; [done|]. intros e.
  case_decide; [apply preserves_ret|apply preserves_raise].
Qed.

Lemma SMTP_exit_log w : smtp_log (world_after SMTP_exit w) = smtp_log w ++ [Quit].
Proof.
  unfold SMTP_exit. eff_unfold. rewrite smtp_command_run.
  destruct (smtp_server w _); [case_decide|]; done.
Qed.

Lemma attempts_in_app log1 log2 :
  attempts_in (log1 ++ log2) = attempts_in log1 + attempts_in log2.
Proof. unfold attempts_in. by rewrite filter_app, length_app. Qed.

Lemma smtp_command_attempts ev w :
  attempts (world_after (smtp_command ev) w) =
    attempts w + (if is_Connect ev then 1 else 0).
Proof.
  unfold attempts, world_after. rewrite smtp_command_run. simpl.
  rewrite attempts_in_app. f_equal. unfold attempts_in.
  rewrite filter_cons, filter_nil. by destruct (is_Connect ev).
Qed.

Lemma submitted_app w log :
  omap sent_message (smtp_log w ++ log) = submitted w ++ omap sent_message log.
Proof. unfold submitted. by rewrite omap_app. Qed.
End runtime_facts.

(** ** Symbolic runs over the world *)
Section world_runs.
Implicit Types (w : World) (ev : smtp_event) (line : string).
Local Open Scope eff_scope.

Lemma with_stdout_with_stdout out out' w :
  with_stdout out (with_stdout out' w) = with_stdout out w.
Proof. done. Qed.

Lemma with_smtp_log_with_smtp_log log log' w :
  with_smtp_log log (with_smtp_log log' w) = with_smtp_log log w.
Proof. done. Qed.

Lemma with_stdout_with_smtp_log out log w :
  with_stdout out (with_smtp_log log w) = with_smtp_log log (with_stdout out w).
Proof. done. Qed.

Lemma bind_print {A} line (k : unit -> Py A) w :
  (x <- print line ;; k x) w = k tt (with_stdout (stdout w ++ [line]) w).
Proof. done. Qed.

Lemma bind_smtp_command {A} ev (k : unit -> Py A) w :
  (x <- smtp_command ev ;; k x) w =
    match smtp_server w (smtp_log w ++ [ev]) with
    | None => k tt (with_smtp_log (smtp_log w ++ [ev]) w)
    | Some e => (with_smtp_log (smtp_log w ++ [ev]) w, inl e)
    end.
Proof. unfold bind. rewrite smtp_command_run. by destruct (smtp_server w _). Qed.

(** Leaving the session: QUIT is logged; only a refusal other than a
    lost connection is raised. *)
Definition quit_outcome (w : World) : exn + unit :=
  match smtp_server w (smtp_log w ++ [Quit]) with
  | None => inr tt
  | Some e => if decide (exn_type_name e = "SMTPServerDisconnected") then inr tt else inl e
  end.

Lemma SMTP_exit_run w :
  SMTP_exit w = (with_smtp_log (smtp_log w ++ [Quit]) w, quit_outcome w).
Proof.
  unfold SMTP_exit, quit_outcome, try_except. rewrite smtp_command_run.
  destruct (smtp_server w _); [case_decide|]; done.
Qed.

Lemma bind_SMTP_exit {A} (k : unit -> Py A) w :
  (x <- SMTP_exit ;; k x) w =
    match quit_outcome w with
    | inr _ => k tt (with_smtp_log (smtp_log w ++ [Quit]) w)
    | inl e => (with_smtp_log (smtp_log w ++ [Quit]) w, inl e)
    end.
Proof. unfold bind. rewrite SMTP_exit_run. by destruct (quit_outcome w) as [|[]]. Qed.
End world_runs.

(** The file system's primitives leave the world as it is. *)
Section file_runs.
Implicit Types w : World.

Lemma path_exists_run w :
  path_exists w = (w, inr (if resume_file w is Some _ then true else false)).
Proof. done. Qed.

Lemma stat_field_run {A} (field : file_stat -> A) w st :
  resume_file w = Some st -> stat_field field w = (w, inr (field st)).
Proof. unfold stat_field. by intros ->. Qed.

Lemma bind_path_exists {B} (k : bool -> Py B) w :
  (x <- path_exists ;; k x)%eff w = k (if resume_file w is Some _ then true else false) w.
Proof. done. Qed.

Lemma bind_stat_field {A B} (field : file_stat -> A) (k : A -> Py B) w :
  (x <- stat_field field ;; k x)%eff w =
    match resume_file w with
    | Some st => k (field st) w
    | None => (w, inl (PyException "FileNotFoundError" "[Errno 2] No such file or directory"))
    end.
Proof. unfold bind, stat_field. by destruct (resume_file w). Qed.

Lemma dict_getitem_run {V} (d : gmap string V) key v w :
  d !! key = Some v -> dict_getitem d key w = (w, inr v).
Proof. unfold dict_getitem. by intros ->. Qed.

Lemma round_half_even_near num den :
  (0 < den)%Z -> (Z.abs (2 * (den * round_half_even num den - num)) <= den)%Z.
Proof.
  intros Hden. unfold round_half_even.
  pose proof (Z.div_mod num den) as Hdm. pose proof (Z.mod_pos_bound num den Hden).
  repeat case_match; lia.
Qed.

Lemma round_half_even_mono num1 num2 den :
  (0 < den)%Z -> (num1 <= num2)%Z -> (round_half_even num1 den <= round_half_even num2 den)%Z.
Proof.
  intros Hden Hle.
  destruct (decide (num1 / den = num2 / den)%Z) as [Heq|Hne].
  - unfold round_half_even. rewrite Heq.
    assert (num1 mod den <= num2 mod den)%Z by (rewrite !Z.mod_eq by lia; nia).
    repeat case_match; lia.
  - assert (num1 / den + 1 <= num2 / den)%Z.
    { pose proof (Z.div_le_mono num1 num2 den Hden Hle). lia. }
    pose proof (Z.mod_pos_bound num1 den Hden). pose proof (Z.mod_pos_bound num2 den Hden).
    unfold round_half_even. repeat case_match; lia.
Qed.

Lemma round_half_even_exact k den : (0 < den)%Z -> round_half_even (k * den) den = k.
Proof.
  intros Hden. unfold round_half_even.
  rewrite Z.div_mul, Z.mod_mul by lia. case_match; lia.
Qed.
End file_runs.

(** One step of a symbolic run, and the run to the next decision. *)
Ltac py_step :=
  first
    [ progress cbn [smtp_log smtp_server stdout clock resume_file
                    with_stdout with_smtp_log fst snd negb]
    | rewrite with_stdout_with_stdout | rewrite with_smtp_log_with_smtp_log
    | rewrite with_stdout_with_smtp_log
    | rewrite bind_print | rewrite bind_smtp_command | rewrite bind_SMTP_exit
    | rewrite bind_path_exists | rewrite bind_stat_field
    | rewrite bind_ret_run | rewrite bind_raise_run
    | rewrite bind_gets_run | rewrite bind_modify_run | rewrite bind_bind_run
    | rewrite print_run | rewrite smtp_command_run | rewrite SMTP_exit_run
    | rewrite ret_run | rewrite raise_run ].

Ltac py_run := repeat py_step.

(** The run through every decision: one goal per path. *)
Ltac py_cases := py_run; repeat (case_match; simplify_eq; py_run).

(** ** Dialogues *)
Section dialogues.
Implicit Types (srv : Server) (log evs sent : list smtp_event).

(** The straight line is the dialogue: the log grows by the commands sent,
    the output by their announcements, and the refusal is raised. *)
Lemma announce_and_send_run steps w :
  announce_and_send steps w =
    let (sent, refusal) := dialogue (smtp_server w) (smtp_log w) steps.*2 in
    (with_smtp_log (smtp_log w ++ sent)
       (with_stdout (stdout w ++ take (length sent) steps.*1) w),
     if refusal is Some e then inl e else inr tt).
Proof.
  revert w. induction steps as [|[line ev] steps IH]; intros w;
    cbn [announce_and_send dialogue fmap list_fmap snd fst].
  - destruct w. cbn. by rewrite !app_nil_r.
  - py_run. destruct (smtp_server w _) as [e|] eqn:Hev; [done|].
    rewrite IH. py_run. destruct (dialogue _ _ _) as [sent refusal].
    cbn [length take]. by rewrite <-!app_assoc.
Qed.

(** What is sent is a prefix of what was to be sent, and it is all of it
    when nothing was refused. *)
Lemma dialogue_prefix srv log evs sent refusal :
  dialogue srv log evs = (sent, refusal) ->
  sent `prefix_of` evs /\ (refusal = None -> sent = evs) /\
  (is_Some refusal -> sent <> []).
Proof.
  revert log sent refusal. induction evs as [|ev evs IH]; intros log sent refusal; simpl.
  - intros [= <- <-]. split_and!; [done|done|by intros [? [=]]].
  - destruct (srv _) as [e|].
    + intros [= <- <-]. split_and!; [by apply prefix_cons, prefix_nil|done|done].
    + destruct (dialogue _ _ _) as [sent' r] eqn:Hd. intros [= <- <-].
      destruct (IH _ _ _ Hd) as (Hpre & Hall & _).
      split_and!; [by apply prefix_cons|by intros ->%Hall|done].
Qed.

(** A server that accepts every command of the dialogue is sent all of it. *)
Lemma dialogue_accepted srv log evs :
  answers srv log evs = replicate (length evs) None -> dialogue srv log evs = (evs, None).
Proof.
  revert log. induction evs as [|ev evs IH]; intros log; simpl; [done|].
  intros [= -> Hrest]. by rewrite (IH _ Hrest).
Qed.

(** A server that accepts the commands [evs] and refuses the next one. *)
Lemma dialogue_refused srv log evs ev e rest :
  answers srv log (evs ++ [ev]) = replicate (length evs) None ++ [Some e] ->
  dialogue srv log (evs ++ ev :: rest) = (evs ++ [ev], Some e).
Proof.
  revert log. induction evs as [|ev' evs IH]; intros log; simpl.
  - by intros [= ->].
  - intros [= -> Hrest]. by rewrite (IH _ Hrest).
Qed.
End dialogues.

Arguments datetime.strftime : simpl never.
Arguments answers : simpl nomatch.


(** ** What no computation of the backend changes

    The clock, the server behind the log and the resume file: the
    backend reads them and has no operation that writes them. *)
Definition environment (w : World) : datetime.t * Server * option file_stat :=
  (clock w, smtp_server w, resume_file w).

Section environment_facts.
Local Open Scope eff_scope.

Lemma print_preserves_environment line : preserves environment (print line).
Proof. done. Qed.

Lemma smtp_command_preserves_environment ev : preserves environment (smtp_command ev).
Proof. done. Qed.

Lemma SMTP_exit_preserves_environment : preserves environment SMTP_exit.
Proof.
  apply preserves_try_except; [done|]. intros e.
  case_decide; [apply preserves_ret|apply preserves_raise].
Qed.

Lemma utcnow_preserves_environment : preserves environment utcnow.
Proof. done. Qed.

Lemma path_exists_preserves_environment : preserves environment path_exists.
Proof. done. Qed.

Lemma stat_field_preserves {X A} (f : World -> X) (field : file_stat -> A) :
  preserves f (stat_field field).
Proof. intros w. unfold world_after, stat_field. by destruct (resume_file w). Qed.

Lemma dict_getitem_preserves {X V} (f : World -> X) (d : gmap string V) key :
  preserves f (dict_getitem d key).
Proof. intros w. unfold world_after, dict_getitem. by destruct (d !! key). Qed.
End environment_facts.

#[export] Hint Resolve print_preserves_smtp_log print_preserves_smtp_server
  print_preserves_clock smtp_command_preserves_stdout
  smtp_command_preserves_smtp_server SMTP_exit_preserves_stdout
  print_preserves_environment smtp_command_preserves_environment
  SMTP_exit_preserves_environment utcnow_preserves_environment
  path_exists_preserves_environment stat_field_preserves dict_getitem_preserves : portfolio.

(** ** Worlds that only move forward

    [Moves R]: a preorder on worlds along which printing a line and
    sending a command move.  Whatever is built from the two and from the
    operations of the monad moves along it too, so that a property of
    this shape is proved of the two primitives and holds of the whole
    application. *)
Class Moves (R : relation World) := {
  #[global] moves_preorder :: PreOrder R;
  moves_print line : advances R id (print line);
  moves_smtp_command ev : advances R id (smtp_command ev)
}.

(** [extends w w']: [w'] has printed what [w] had, and possibly more, and
    its server has received what the server of [w] had, and possibly more. *)
Definition extends (w w' : World) : Prop :=
  stdout w `prefix_of` stdout w' /\ smtp_log w `prefix_of` smtp_log w'.

(** [same_environment w w']: what a handler can read is in [w'] what it
    was in [w]. *)
Definition same_environment (w w' : World) : Prop := environment w' = environment w.

#[export] Instance extends_moves : Moves extends.
Proof.
  split.
  - split; [by intros w|]. intros w1 w2 w3 [] []. split; by etrans.
  - intros line w. split; [by apply prefix_app_r|done].
  - intros ev w. split; [done|by apply prefix_app_r].
Qed.

#[export] Instance same_environment_moves : Moves same_environment.
Proof.
  split; [|done..].
  split; [by intros w|]. unfold same_environment. intros w1 w2 w3. congruence.
Qed.

Section moves.
Context (R : relation World) `{!Moves R}.
Local Open Scope eff_scope.

Lemma moves_frame {A} (m : Py A) : preserves id m -> advances R id m.
Proof. apply preserves_advances, _. Qed.

Lemma SMTP_exit_moves : advances R id SMTP_exit.
Proof.
  apply advances_try_except; [apply _|apply moves_smtp_command|]. intros e.
  case_decide; [apply advances_ret|apply advances_raise]; apply _.
Qed.

Lemma utcnow_moves : advances R id utcnow.
Proof. apply advances_gets, _. Qed.

Lemma path_exists_moves : advances R id path_exists.
Proof. apply advances_gets, _. Qed.

Lemma stat_field_moves {A} (field : file_stat -> A) : advances R id (stat_field field).
Proof. apply moves_frame, stat_field_preserves. Qed.

Lemma dict_getitem_moves {V} (d : gmap string V) key : advances R id (dict_getitem d key).
Proof. apply moves_frame, dict_getitem_preserves. Qed.
End moves.

#[export] Hint Resolve moves_print moves_smtp_command SMTP_exit_moves utcnow_moves
  path_exists_moves stat_field_moves dict_getitem_moves : portfolio.

(** ** What is printed is never read

    [modulo_stdout w1 w2]: the two worlds differ at most in the lines
    printed.  Every primitive respects it: the backend writes to the
    standard output and never reads it back, so what was printed
    influences neither a result nor a command sent to the server. *)
Definition modulo_stdout (w1 w2 : World) : Prop :=
  environment w1 = environment w2 /\ smtp_log w1 = smtp_log w2.

#[export] Instance modulo_stdout_equivalence : Equivalence modulo_stdout.
Proof.
  unfold modulo_stdout. split; [done|by intros w1 w2 []|].
  intros w1 w2 w3 [] []. split; congruence.
Qed.

#[export] Instance environment_proper : Proper (modulo_stdout ==> (=)) environment.
Proof. by intros w1 w2 []. Qed.

#[export] Instance smtp_log_proper : Proper (modulo_stdout ==> (=)) smtp_log.
Proof. by intros w1 w2 []. Qed.

#[export] Instance clock_proper : Proper (modulo_stdout ==> (=)) clock.
Proof. by intros w1 w2 [[=] _]. Qed.

#[export] Instance smtp_server_proper : Proper (modulo_stdout ==> (=)) smtp_server.
Proof. by intros w1 w2 [[=] _]. Qed.

#[export] Instance resume_file_proper : Proper (modulo_stdout ==> (=)) resume_file.
Proof. by intros w1 w2 [[=] _]. Qed.

#[export] Instance with_stdout_proper out :
  Proper (modulo_stdout ==> modulo_stdout) (with_stdout out).
Proof. intros w1 w2 [Henv Hlog]. by split. Qed.

Lemma modulo_stdout_with_stdout out w : modulo_stdout (with_stdout out w) w.
Proof. done. Qed.

(** [same_tail out1 out2 w1 w2]: the two worlds differ at most in the
    lines printed, and there in what was printed first: [out1] in one and
    [out2] in the other, followed by the same lines. *)
Definition same_tail (out1 out2 : list string) (w1 w2 : World) : Prop :=
  modulo_stdout w1 w2 /\ exists tail, stdout w1 = out1 ++ tail /\ stdout w2 = out2 ++ tail.

(** A relation between worlds that differ in their printed lines only,
    and which the two primitives that change the world respect.  Every
    computation built from the primitives respects it too. *)
Class Unread (R : relation World) := {
  unread_modulo_stdout :: subrelation R modulo_stdout;
  unread_print line : respects R (print line);
  unread_smtp_command ev : respects R (smtp_command ev)
}.

Lemma smtp_command_outcome ev w1 w2 :
  modulo_stdout w1 w2 -> outcome (smtp_command ev) w1 = outcome (smtp_command ev) w2.
Proof.
  intros Hw. unfold outcome, smtp_command. cbn.
  by rewrite (smtp_log_proper _ _ Hw), (smtp_server_proper _ _ Hw).
Qed.

#[export] Instance modulo_stdout_unread : Unread modulo_stdout.
Proof.
  split; [done|..].
  - intros line w1 w2 Hw. split; [|done]. cbn. by rewrite !modulo_stdout_with_stdout.
  - intros ev w1 w2 Hw. split; [|by apply smtp_command_outcome].
    destruct Hw as [Henv Hlog]. split; [done|]. cbn. by rewrite Hlog.
Qed.

#[export] Instance same_tail_unread out1 out2 : Unread (same_tail out1 out2).
Proof.
  split; [by intros w1 w2 []|..].
  - intros line w1 w2 [Hw (tail & H1 & H2)]. split; [|done]. split.
    + cbn. by rewrite !modulo_stdout_with_stdout.
    + exists (tail ++ [line]). cbn. by rewrite H1, H2, !app_assoc.
  - intros ev w1 w2 [Hw Htail]. split; [|by apply smtp_command_outcome].
    split; [|done]. destruct Hw as [Henv Hlog]. split; [done|]. cbn. by rewrite Hlog.
Qed.

Section unread.
Context (R : relation World) `{!Unread R}.
Local Open Scope eff_scope.

(** A computation that reads the world without changing it. *)
Lemma unread_gets {A} (g : World -> A) :
  Proper (modulo_stdout ==> (=)) g -> respects R (gets g : Py A).
Proof.
  intros Hg w1 w2 Hw. split; [done|]. cbn. f_equal. by apply Hg, unread_modulo_stdout.
Qed.

Lemma SMTP_exit_respects : respects R SMTP_exit.
Proof.
  apply respects_try_except; [apply unread_smtp_command|]. intros e.
  case_decide; [apply respects_ret|apply respects_raise].
Qed.

Lemma utcnow_respects : respects R utcnow.
Proof. apply unread_gets, _. Qed.

Lemma path_exists_respects : respects R path_exists.
Proof. apply unread_gets. intros w1 w2 Hw. by rewrite (resume_file_proper _ _ Hw). Qed.

Lemma stat_field_respects {A} (field : file_stat -> A) : respects R (stat_field field).
Proof.
  intros w1 w2 Hw. unfold stat_field.
  rewrite (resume_file_proper _ _ (unread_modulo_stdout _ _ Hw)).
  by destruct (resume_file w2).
Qed.

Lemma dict_getitem_respects {V} (d : gmap string V) key : respects R (dict_getitem d key).
Proof. unfold dict_getitem. destruct (d !! key); [apply respects_ret|apply respects_raise]. Qed.
End unread.

#[export] Hint Resolve unread_print unread_smtp_command SMTP_exit_respects
  utcnow_respects path_exists_respects stat_field_respects dict_getitem_respects : portfolio.
