(* ===== verification/Domain.v ===== *)
(** * Domain entities

    [Project] (src/backend/domain/entities/project.py) and [ContactMessage]
    (src/backend/domain/entities/contact.py): the records, the field
    constraints the contact model declares, its constructor with the
    defaulted timestamp, and the invariant a constructed message satisfies. *)

From S2P Require Import Prelude Runtime.

(** ** Values passed to a model's constructor

    The keyword arguments [data] of a model's constructor: the decoded
    JSON body of a request, the literals of a call in the source, or the
    [datetime] the constructor of [ContactMessage] stores itself. *)
#[warnings="-register-all"]
Inductive pyval :=
  | PyNone
  | PyStr (s : string)
  | PyInt (z : Z)
  | PyBool (b : bool)
  | PyDatetime (d : datetime.t)
  | PyList (items : list pyval).

#[export] Instance pyval_eq_dec : EqDecision pyval.
Proof.
  refine (fix go (x y : pyval) {struct x} : Decision (x = y) :=
    let _ : EqDecision pyval := @go in
    match x, y with
    | PyNone, PyNone => left _
    | PyStr s1, PyStr s2 => cast_if (decide (s1 = s2))
    | PyInt z1, PyInt z2 => cast_if (decide (z1 = z2))
    | PyBool b1, PyBool b2 => cast_if (decide (b1 = b2))
    | PyDatetime d1, PyDatetime d2 => cast_if (decide (d1 = d2))
    | PyList l1, PyList l2 => cast_if (decide (l1 = l2))
    | _, _ => right _
    end); abstract congruence.
Defined.

(** The validators the models take from libraries: [EmailStr] gives the
    normalised address of a valid one, [HttpUrl] the normalised form of a
    valid URL, a [datetime] field parses a string or a number, and a
    [bool] field reads some strings as booleans. *)
Class Validators := {
  validate_email : string -> option string;
  validate_http_url : string -> option string;
  datetime_of_str : string -> option datetime.t;
  datetime_of_int : Z -> option datetime.t;
  bool_of_str : string -> option bool
}.

(** A field's validation: the error type, or the validated value. *)
Definition validated (A : Type) : Type := string + A.

(** The errors a field contributes to the [ValidationError]. *)
Definition field_error {A} (field : string) (r : validated A) : list (string * string) :=
  match r with
  | inl e => [(field, e)]
  | inr _ => []
  end.

(** ** Project *)
Module Project.
Record t := mk {
  id : string;
  title : string;
  tagline : string;
  description : string;
  technologies : list string;
  highlights : list string;
  start_date : string;
  end_date : option string;
  github_url : option string;
  live_url : option string;
  image_url : option string;
  featured : bool;
  category : string
}.

#[global] Instance eq_dec : EqDecision t.
Proof. solve_decision. Defined.

(** [str], required *)
Definition str_field (v : option pyval) : validated string :=
  match v with
  | None => inl "missing"
  | Some (PyStr s) => inr s
  | Some _ => inl "string_type"
  end.

(** [Optional[str] = None] *)
Definition optional_str (v : option pyval) : validated (option string) :=
  match v with
  | None | Some PyNone => inr None
  | Some (PyStr s) => inr (Some s)
  | Some _ => inl "string_type"
  end.

(** The items of a [List[str]], all strings or the first that is not. *)
Fixpoint str_items (items : list pyval) : option (list string) :=
  match items with
  | [] => Some []
  | PyStr s :: rest => option_map (cons s) (str_items rest)
  | _ :: _ => None
  end.

(** [List[str]], required *)
Definition str_list (v : option pyval) : validated (list string) :=
  match v with
  | None => inl "missing"
  | Some (PyList items) =>
      match str_items items with
      | Some l => inr l
      | None => inl "string_type"
      end
  | Some _ => inl "list_type"
  end.

Section with_validators.
Context `{Validators}.

(** [Optional[HttpUrl] = None] *)
Definition optional_http_url (v : option pyval) : validated (option string) :=
  match v with
  | None | Some PyNone => inr None
  | Some (PyStr s) =>
      match validate_http_url s with
      | Some url => inr (Some url)
      | None => inl "url_parsing"
      end
  | Some _ => inl "url_type"
  end.

(** [bool = False] *)
Definition bool_field (v : option pyval) : validated bool :=
  match v with
  | None => inr false
  | Some (PyBool b) => inr b
  | Some (PyInt 0) => inr false
  | Some (PyInt 1) => inr true
  | Some (PyStr s) =>
      match bool_of_str s with
      | Some b => inr b
      | None => inl "bool_parsing"
      end
  | Some (PyInt _) => inl "bool_parsing"
  | Some _ => inl "bool_type"
  end.

(** The errors of the thirteen declared fields, in declaration order. *)
Definition errors (data : gmap string pyval) : list (string * string) :=
  field_error "id" (str_field (data !! "id")) ++
  field_error "title" (str_field (data !! "title")) ++
  field_error "tagline" (str_field (data !! "tagline")) ++
  field_error "description" (str_field (data !! "description")) ++
  field_error "technologies" (str_list (data !! "technologies")) ++
  field_error "highlights" (str_list (data !! "highlights")) ++
  field_error "start_date" (str_field (data !! "start_date")) ++
  field_error "end_date" (optional_str (data !! "end_date")) ++
  field_error "github_url" (optional_http_url (data !! "github_url")) ++
  field_error "live_url" (optional_http_url (data !! "live_url")) ++
  field_error "image_url" (optional_str (data !! "image_url")) ++
  field_error "featured" (bool_field (data !! "featured")) ++
  field_error "category" (str_field (data !! "category")).

(** [BaseModel.__init__] on the keyword arguments: every field is
    validated, and the model is built when none is in error. *)
Definition BaseModel_init (data : gmap string pyval) : list (string * string) + t :=
  match str_field (data !! "id"), str_field (data !! "title"),
        str_field (data !! "tagline"), str_field (data !! "description"),
        str_list (data !! "technologies"), str_list (data !! "highlights"),
        str_field (data !! "start_date"), optional_str (data !! "end_date"),
        optional_http_url (data !! "github_url"), optional_http_url (data !! "live_url"),
        optional_str (data !! "image_url"), bool_field (data !! "featured"),
        str_field (data !! "category") with
  | inr i, inr t, inr tg, inr d, inr ts, inr hs, inr sd, inr ed, inr gu, inr lu, inr iu,
    inr f, inr c => inr (mk i t tg d ts hs sd ed gu lu iu f c)
  | _, _, _, _, _, _, _, _, _, _, _, _, _ => inl (errors data)
  end.

(** The invariant of a constructed project: its URLs are ones the
    validator produced. *)
Definition valid_url (url : option string) : Prop :=
  forall u, url = Some u -> exists raw, validate_http_url raw = Some u.

Definition valid (p : t) : Prop := valid_url (github_url p) /\ valid_url (live_url p).
End with_validators.

(** The example of the schema, [Config.json_schema_extra]. *)
Definition example : gmap string pyval :=
  list_to_map [
    ("id", PyStr "tilted-labs");
    ("title", PyStr "Tilted Labs");
    ("tagline", PyStr "Mental Wellness Web Platform");
    ("description", PyStr "AI-assisted anonymous chat platform...");
    ("technologies", PyList [PyStr "React"; PyStr "Node.js"; PyStr "Firebase"]);
    ("highlights", PyList [
       PyStr "Firebase Auth with Google Sign-In";
       PyStr "Real-time chat with Firestore"
     ]);
    ("start_date", PyStr "2024-01");
    ("end_date", PyStr "2024-06");
    ("featured", PyBool true);
    ("category", PyStr "web")
  ].

(** The keyword arguments of a call [Project(id=..., ..., image_url=...)]
    that spells out every field, as the repository's calls do. *)
Definition optional_arg (x : option string) : pyval := from_option PyStr PyNone x.

Definition kwargs (p : t) : gmap string pyval :=
  list_to_map [
    ("id", PyStr (id p));
    ("title", PyStr (title p));
    ("tagline", PyStr (tagline p));
    ("description", PyStr (description p));
    ("technologies", PyList (PyStr <$> technologies p));
    ("highlights", PyList (PyStr <$> highlights p));
    ("start_date", PyStr (start_date p));
    ("end_date", optional_arg (end_date p));
    ("github_url", optional_arg (github_url p));
    ("live_url", optional_arg (live_url p));
    ("featured", PyBool (featured p));
    ("category", PyStr (category p));
    ("image_url", optional_arg (image_url p))
  ].
End Project.

(** ** ContactMessage *)
Module ContactMessage.
Record t := mk {
  name : string;
  email : string;
  subject : string;
  message : string;
  timestamp : option datetime.t
}.

#[global] Instance eq_dec : EqDecision t.
Proof. solve_decision. Defined.

(** [str = Field(..., min_length=lo, max_length=hi)] *)
Definition constrained_str (lo hi : nat) (v : option pyval) : validated string :=
  match v with
  | None => inl "missing"
  | Some (PyStr s) =>
      if py_len s <? lo then inl "string_too_short"
      else if hi <? py_len s then inl "string_too_long"
      else inr s
  | Some _ => inl "string_type"
  end.

Section with_validators.
Context `{Validators}.

(** [email: EmailStr] *)
Definition email_str (v : option pyval) : validated string :=
  match v with
  | None => inl "missing"
  | Some (PyStr s) =>
      match validate_email s with
      | Some s' => inr s'
      | None => inl "value_error"
      end
  | Some _ => inl "string_type"
  end.

(** [timestamp: Optional[datetime] = None] *)
Definition optional_datetime (v : option pyval) : validated (option datetime.t) :=
  match v with
  | None | Some PyNone => inr None
  | Some (PyDatetime d) => inr (Some d)
  | Some (PyStr s) =>
      match datetime_of_str s with
      | Some d => inr (Some d)
      | None => inl "datetime_from_date_parsing"
      end
  | Some (PyInt z) =>
      match datetime_of_int z with
      | Some d => inr (Some d)
      | None => inl "datetime_from_date_parsing"
      end
  | Some (PyBool _) | Some (PyList _) => inl "datetime_type"
  end.

(** [BaseModel.__init__] on the keyword arguments, for the five declared fields: every
    field is validated, the errors are collected in declaration
    order, and the model is built when there is none. *)
Definition BaseModel_init (data : gmap string pyval) : list (string * string) + t :=
  let r_name := constrained_str 2 100 (data !! "name") in
  let r_email := email_str (data !! "email") in
  let r_subject := constrained_str 3 200 (data !! "subject") in
  let r_message := constrained_str 10 2000 (data !! "message") in
  let r_timestamp := optional_datetime (data !! "timestamp") in
  match r_name, r_email, r_subject, r_message, r_timestamp with
  | inr n, inr e, inr s, inr m, inr ts => inr (mk n e s m ts)
  | _, _, _, _, _ =>
      inl (field_error "name" r_name ++ field_error "email" r_email ++
           field_error "subject" r_subject ++ field_error "message" r_message ++
           field_error "timestamp" r_timestamp)
  end.

(** [ContactMessage.__init__] on the keyword arguments [data] *)
Definition __init__ (data : gmap string pyval) : Py t :=
  (data <- (if decide (data !! "timestamp" = None)
            then now <- utcnow ;; ret (<["timestamp" := PyDatetime now]> data)
            else ret data) ;;
   match BaseModel_init data with
   | inr m => ret m
   | inl errors => raise (ValidationError errors)
   end)%eff.

(** The invariant of a constructed message: the declared bounds hold,
    and the address is one the validator produced. *)
Definition valid (m : t) : Prop :=
  2 <= py_len (name m) <= 100 /\
  3 <= py_len (subject m) <= 200 /\
  10 <= py_len (message m) <= 2000 /\
  exists raw, validate_email raw = Some (email m).
End with_validators.

(** The example of the schema, [Config.json_schema_extra]. *)
Definition example : gmap string pyval :=
  list_to_map [
    ("name", PyStr "Jane Doe");
    ("email", PyStr "jane@example.com");
    ("subject", PyStr "Collaboration Opportunity");
    ("message", PyStr "I'd love to discuss a potential project collaboration...")
  ].
End ContactMessage.

(** ** Fixtures for the concrete runs

    A validator that accepts an address holding an [@] and parses no
    timestamps, a world with an empty log whose server accepts every
    command, and a well-formed body. *)
Definition sample_validators : Validators := {|
  validate_email s := if String.index 0 "@" s is Some _ then Some s else None;
  validate_http_url s :=
    if String.prefix "http://" s || String.prefix "https://" s then Some s else None;
  datetime_of_str _ := None;
  datetime_of_int _ := None;
  bool_of_str s := if decide (s = "true") then Some true
                   else if decide (s = "false") then Some false else None
|}.

Definition sample_clock : datetime.t := datetime.mk 2024 3 7 9 5 0.

Definition sample_world : World := {|
  stdout := []; clock := sample_clock; smtp_server := fun _ => None;
  smtp_log := []; resume_file := None
|}.

Definition sample_data : gmap string pyval := ContactMessage.example.

(** ** The project model *)
Section project_facts.
Context `{Validators}.
Import Project.
Implicit Types (p : Project.t) (data : gmap string pyval) (x : option string).

Lemma str_items_fmap (l : list string) : str_items (PyStr <$> l) = Some l.
Proof. induction l as [|s l IH]; [done|]. cbn [fmap list_fmap str_items]. by rewrite IH. Qed.

Lemma str_list_fmap (l : list string) : str_list (Some (PyList (PyStr <$> l))) = inr l.
Proof. unfold str_list. by rewrite str_items_fmap. Qed.

Lemma optional_str_arg x : optional_str (Some (optional_arg x)) = inr x.
Proof. by destruct x. Qed.

(** A URL passes the field unchanged when the validator leaves it as it is. *)
Definition normalised (x : option string) : Prop :=
  forall u, x = Some u -> validate_http_url u = Some u.

Lemma optional_http_url_arg x : normalised x -> optional_http_url (Some (optional_arg x)) = inr x.
Proof. destruct x as [u|]; [|done]. intros Hu. cbn. by rewrite (Hu u). Qed.

Lemma optional_http_url_inr v x : optional_http_url v = inr x -> valid_url x.
Proof.
  unfold optional_http_url. intros Hv u ->.
  destruct v as [[|raw| | | |]|]; simplify_eq.
  destruct (validate_http_url raw) eqn:Hraw; simplify_eq. eauto.
Qed.

(** The model is built exactly when every field validates. *)
Lemma project_init_inr data p :
  BaseModel_init data = inr p <->
  str_field (data !! "id") = inr (id p) /\
  str_field (data !! "title") = inr (title p) /\
  str_field (data !! "tagline") = inr (tagline p) /\
  str_field (data !! "description") = inr (description p) /\
  str_list (data !! "technologies") = inr (technologies p) /\
  str_list (data !! "highlights") = inr (highlights p) /\
  str_field (data !! "start_date") = inr (start_date p) /\
  optional_str (data !! "end_date") = inr (end_date p) /\
  optional_http_url (data !! "github_url") = inr (github_url p) /\
  optional_http_url (data !! "live_url") = inr (live_url p) /\
  optional_str (data !! "image_url") = inr (image_url p) /\
  bool_field (data !! "featured") = inr (featured p) /\
  str_field (data !! "category") = inr (category p).
Proof.
  unfold BaseModel_init. destruct p. cbn [id title tagline description technologies
    highlights start_date end_date github_url live_url image_url featured category].
  repeat match goal with
    | |- context [match ?r with inl _ => _ | inr _ => _ end] =>
        destruct r; [by split; [|intros; destruct_and?]|]
    end.
  split; [intros [=]; by subst|intros ?; destruct_and?; by simplify_eq].
Qed.

(** A field in error makes the constructor raise, with every error. *)
Lemma project_init_inl data :
  errors data <> [] -> BaseModel_init data = inl (errors data).
Proof.
  intros Herr. unfold BaseModel_init.
  repeat match goal with
    | |- context [match ?r with inl _ => _ | inr _ => _ end] => destruct r eqn:?; [done|]
    end.
  destruct Herr. unfold errors.
  by repeat match goal with Hr : _ = inr _ |- _ => rewrite Hr; clear Hr end.
Qed.

Lemma project_init_reports data field e :
  (field, e) ∈ errors data ->
  exists errs, BaseModel_init data = inl errs /\ (field, e) ∈ errs.
Proof.
  intros Hin. exists (errors data). split; [|done].
  apply project_init_inl. intros Hnil. rewrite Hnil in Hin. by apply elem_of_nil in Hin.
Qed.

(** What the constructor finds under each name of a call spelled out in
    full. *)
Lemma kwargs_lookup p :
  kwargs p !! "id" = Some (PyStr (id p)) /\
  kwargs p !! "title" = Some (PyStr (title p)) /\
  kwargs p !! "tagline" = Some (PyStr (tagline p)) /\
  kwargs p !! "description" = Some (PyStr (description p)) /\
  kwargs p !! "technologies" = Some (PyList (PyStr <$> technologies p)) /\
  kwargs p !! "highlights" = Some (PyList (PyStr <$> highlights p)) /\
  kwargs p !! "start_date" = Some (PyStr (start_date p)) /\
  kwargs p !! "end_date" = Some (optional_arg (end_date p)) /\
  kwargs p !! "github_url" = Some (optional_arg (github_url p)) /\
  kwargs p !! "live_url" = Some (optional_arg (live_url p)) /\
  kwargs p !! "image_url" = Some (optional_arg (image_url p)) /\
  kwargs p !! "featured" = Some (PyBool (featured p)) /\
  kwargs p !! "category" = Some (PyStr (category p)).
Proof. split_and!; reflexivity. Qed.

Lemma project_init_kwargs_normalised p :
  normalised (github_url p) -> normalised (live_url p) ->
  BaseModel_init (kwargs p) = inr p.
Proof.
  intros Hg Hl. apply project_init_inr.
  destruct (kwargs_lookup p) as (-> & -> & -> & -> & -> & -> & -> & -> & -> & -> & -> & -> & ->).
  split_and!; auto using str_list_fmap, optional_str_arg, optional_http_url_arg.
Qed.
End project_facts.

Section project_theorems.
Context `{Validators}.
Implicit Types (p : Project.t) (data : gmap string pyval).

(** C29 (project_init_establishes_valid): every project the model's
    constructor returns is well typed: each of its two URLs, when it has
    one, is a URL the [HttpUrl] validator produced. *)
Theorem project_init_establishes_valid data p :
  Project.BaseModel_init data = inr p -> Project.valid p.
Proof.
  intros (_ & _ & _ & _ & _ & _ & _ & _ & Hg & Hl & _)%project_init_inr.
  split; by eapply optional_http_url_inr.
Qed.

(** [project_init_kwargs]: a call of the constructor that spells
    out every field, as the repository's calls do, returns the project
    with exactly those fields and raises nothing, provided its URLs are
    ones the validator accepts and leaves as they are. *)
Theorem project_init_kwargs p :
  (forall u, Project.github_url p = Some u \/ Project.live_url p = Some u ->
             validate_http_url u = Some u) ->
  Project.BaseModel_init (Project.kwargs p) = inr p.
Proof. intros Hu. apply project_init_kwargs_normalised; intros u Hp; auto. Qed.

(** [project_init_rejects_url]: a call that passes a URL the
    validator refuses builds no project: the constructor's result is the
    list of errors, which names the field. *)
Theorem project_init_rejects_url data raw :
  data !! "github_url" = Some (PyStr raw) -> validate_http_url raw = None ->
  exists errors, Project.BaseModel_init data = inl errors /\
                 ("github_url", "url_parsing") ∈ errors.
Proof.
  intros Hraw Hv. apply project_init_reports. unfold Project.errors.
  rewrite Hraw. cbn [Project.optional_http_url]. rewrite Hv. set_solver.
Qed.

(** [project_init_missing_field]: a call that leaves out a required
    field builds no project, and the errors name the field. *)
Theorem project_init_missing_field data field :
  field ∈ ["id"; "title"; "tagline"; "description"; "technologies"; "highlights";
           "start_date"; "category"] ->
  data !! field = None ->
  exists errors, Project.BaseModel_init data = inl errors /\ (field, "missing") ∈ errors.
Proof.
  intros Hfield Hnone. apply project_init_reports. unfold Project.errors.
  set_unfold in Hfield. destruct_or!; subst; rewrite Hnone; set_solver.
Qed.

(** [project_example_validates]: the example of the schema is a valid
    project under every validator: it names no URL and no image. *)
Theorem project_example_validates :
  Project.BaseModel_init Project.example =
    inr {| Project.id := "tilted-labs"; Project.title := "Tilted Labs";
           Project.tagline := "Mental Wellness Web Platform";
           Project.description := "AI-assisted anonymous chat platform...";
           Project.technologies := ["React"; "Node.js"; "Firebase"];
           Project.highlights := ["Firebase Auth with Google Sign-In";
                                  "Real-time chat with Firestore"];
           Project.start_date := "2024-01"; Project.end_date := Some "2024-06";
           Project.github_url := None; Project.live_url := None;
           Project.image_url := None; Project.featured := true;
           Project.category := "web" |}.
Proof. apply project_init_inr. by split_and!. Qed.
End project_theorems.

(** ** Field validation *)
Section field_facts.
Context `{Validators}.
Import ContactMessage.
Implicit Types (v : option pyval) (s : string) (data : gmap string pyval).

Lemma constrained_str_inr lo hi v s :
  constrained_str lo hi v = inr s <-> v = Some (PyStr s) /\ lo <= py_len s <= hi.
Proof.
  unfold constrained_str. destruct v as [[]|]; try (split; [done|by intros [[=] _]]).
  destruct (Nat.ltb_spec (py_len s0) lo), (Nat.ltb_spec hi (py_len s0));
    (split; [intros ?; simplify_eq; (split; [done|lia]) | intros [[= ->] ?]; done || lia]).
Qed.

Lemma constrained_str_too_short lo hi s :
  py_len s < lo -> constrained_str lo hi (Some (PyStr s)) = inl "string_too_short".
Proof. intros Hs. unfold constrained_str. by destruct (Nat.ltb_spec (py_len s) lo); [|lia]. Qed.

Lemma constrained_str_too_long lo hi s :
  lo <= py_len s -> hi < py_len s ->
  constrained_str lo hi (Some (PyStr s)) = inl "string_too_long".
Proof.
  intros Hlo Hhi. unfold constrained_str.
  destruct (Nat.ltb_spec (py_len s) lo), (Nat.ltb_spec hi (py_len s)); done || lia.
Qed.

Lemma email_str_inr v s :
  email_str v = inr s <-> exists raw, v = Some (PyStr raw) /\ validate_email raw = Some s.
Proof.
  unfold email_str. destruct v as [[]|]; try (split; [done|by intros (? & [=] & _)]).
  destruct (validate_email _) eqn:He; split; try done.
  - intros [= ->]. eauto.
  - intros (raw & [= <-] & Hraw). congruence.
  - intros (raw & [= <-] & Hraw). congruence.
Qed.

(** The model is built exactly when every field validates. *)
Lemma BaseModel_init_inr data m :
  BaseModel_init data = inr m <->
    constrained_str 2 100 (data !! "name") = inr (name m) /\
    email_str (data !! "email") = inr (email m) /\
    constrained_str 3 200 (data !! "subject") = inr (subject m) /\
    constrained_str 10 2000 (data !! "message") = inr (message m) /\
    optional_datetime (data !! "timestamp") = inr (timestamp m).
Proof.
  unfold BaseModel_init.
  destruct (constrained_str 2 100 _), (email_str _), (constrained_str 3 200 _),
    (constrained_str 10 2000 _), (optional_datetime _), m;
    simpl; split; try done; try (intros (?&?&?&?&?); done).
  - by intros [= -> -> -> -> ->].
  - by intros ([= ->] & [= ->] & [= ->] & [= ->] & [= ->]).
Qed.

(** A failing field is reported, whatever the other fields are. *)
Lemma BaseModel_init_reports data field e (r : validated string) :
  (field, r) ∈ [("name", constrained_str 2 100 (data !! "name"));
                ("email", email_str (data !! "email"));
                ("subject", constrained_str 3 200 (data !! "subject"));
                ("message", constrained_str 10 2000 (data !! "message"))] ->
  r = inl e ->
  exists errors, BaseModel_init data = inl errors /\ (field, e) ∈ errors.
Proof.
  intros Hin ->. unfold BaseModel_init. set_unfold in Hin.
  destruct_or!; try done; injection Hin as -> Hr; rewrite <-Hr; repeat case_match;
    (eexists; split; [done|]); simpl; set_solver.
Qed.
End field_facts.

(** ** The constructor *)
Section init_facts.
Context `{Validators}.
Import ContactMessage.
Implicit Types (data : gmap string pyval) (w : World) (m : t).

(** The keyword arguments the base constructor sees. *)
Definition init_data data w : gmap string pyval :=
  if decide (data !! "timestamp" = None)
  then <["timestamp" := PyDatetime (clock w)]> data else data.

Lemma init_data_lookup_ne data w k :
  k <> "timestamp" -> init_data data w !! k = data !! k.
Proof. intros Hk. unfold init_data. case_decide; [by rewrite lookup_insert_ne|done]. Qed.

Lemma init_data_timestamp data w :
  init_data data w !! "timestamp" =
    Some (default (PyDatetime (clock w)) (data !! "timestamp")).
Proof.
  unfold init_data. case_decide as Hts; [by rewrite lookup_insert_eq, Hts|].
  by destruct (data !! "timestamp").
Qed.

(** The constructor is the base validation of [init_data], and leaves
    the world as it found it. *)
Lemma init_run data w :
  __init__ data w =
    (w, match BaseModel_init (init_data data w) with
        | inr m => inr m
        | inl errors => inl (ValidationError errors)
        end).
Proof.
  unfold __init__, init_data, utcnow. eff_unfold.
  case_decide; by destruct (BaseModel_init _).
Qed.

(** The constructor reads the clock and nothing printed. *)
Lemma init_respects (R : relation World) `{!Unread R} data : respects R (__init__ data).
Proof. unfold __init__. solve_respects. Qed.

Lemma init_returns data w m :
  outcome (__init__ data) w = inr m <-> BaseModel_init (init_data data w) = inr m.
Proof.
  unfold outcome. rewrite init_run. simpl.
  destruct (BaseModel_init _); naive_solver.
Qed.
End init_facts.

Section init_theorems.
Context `{Validators}.
Import ContactMessage.
Implicit Types (data : gmap string pyval) (w : World) (m : t).

(** [init_establishes_valid]: a message the constructor returns
    satisfies the declared field constraints: name of 2 to 100 code points,
    subject of 3 to 200, message of 10 to 2000, and an address the email
    validator produced. *)
Theorem init_establishes_valid data w m :
  outcome (ContactMessage.__init__ data) w = inr m -> ContactMessage.valid m.
Proof.
  rewrite init_returns, BaseModel_init_inr.
  rewrite !init_data_lookup_ne by done.
  rewrite !constrained_str_inr, email_str_inr.
  intros ((_ & ?) & (raw & _ & ?) & (_ & ?) & (_ & ?) & _).
  repeat split; try lia. by exists raw.
Qed.

(** [init_accepts]: a body with the four string fields inside their
    bounds, a valid address and no timestamp key is accepted; the message
    carries the normalised address and the time of the call, and the world
    is unchanged. *)
Theorem init_accepts data w n raw e s msg :
  data !! "name" = Some (PyStr n) -> data !! "email" = Some (PyStr raw) ->
  data !! "subject" = Some (PyStr s) -> data !! "message" = Some (PyStr msg) ->
  data !! "timestamp" = None ->
  2 <= py_len n <= 100 -> validate_email raw = Some e ->
  3 <= py_len s <= 200 -> 10 <= py_len msg <= 2000 ->
  ContactMessage.__init__ data w = (w, inr (mk n e s msg (Some (clock w)))).
Proof.
  intros Hn He Hs Hm Hts ? Hraw ? ?. rewrite init_run.
  assert (BaseModel_init (init_data data w) = inr (mk n e s msg (Some (clock w)))) as ->; [|done].
  apply BaseModel_init_inr; simpl.
  rewrite !init_data_lookup_ne, init_data_timestamp, Hn, He, Hs, Hm, Hts by done.
  rewrite !constrained_str_inr, email_str_inr.
  split_and!; first [done | lia | eauto].
Qed.

(** C5 (init_rejects_short_message): a body whose message has fewer
    than 10 code points is refused with a validation error that reports the
    message as too short, whatever the other fields hold, and the world is
    unchanged. *)
Theorem init_rejects_short_message data w msg :
  data !! "message" = Some (PyStr msg) -> py_len msg < 10 ->
  exists errors,
    ContactMessage.__init__ data w = (w, inl (ValidationError errors)) /\
    ("message", "string_too_short") ∈ errors.
Proof.
  intros Hm Hlen. rewrite init_run.
  destruct (BaseModel_init_reports (init_data data w) "message" "string_too_short"
              (constrained_str 10 2000 (init_data data w !! "message")))
    as (errors & -> & Hin); [set_solver| |by exists errors].
  rewrite init_data_lookup_ne, Hm by done. by apply constrained_str_too_short.
Qed.

(** [init_timestamp]: the timestamp of a constructed message is the
    time of the call when the body has no timestamp key, and is absent
    when the body gives the key the value null. *)
Theorem init_timestamp data w m :
  outcome (ContactMessage.__init__ data) w = inr m ->
  (data !! "timestamp" = None -> timestamp m = Some (clock w)) /\
  (data !! "timestamp" = Some PyNone -> timestamp m = None).
Proof.
  rewrite init_returns, BaseModel_init_inr, init_data_timestamp.
  intros (_ & _ & _ & _ & Hts).
  split; intros Hd; rewrite Hd in Hts; simpl in Hts; congruence.
Qed.
End init_theorems.

Lemma init_establishes_valid_witness :
  ContactMessage.valid (H:=sample_validators)
    (ContactMessage.mk "Jane Doe" "jane@example.com" "Collaboration Opportunity"
       "I'd love to discuss a potential project collaboration..." (Some sample_clock)).
Proof. by apply (init_establishes_valid (H:=sample_validators) sample_data sample_world). Defined.

Lemma init_accepts_witness :
  ContactMessage.__init__ (H:=sample_validators) sample_data sample_world =
    (sample_world,
     inr (ContactMessage.mk "Jane Doe" "jane@example.com" "Collaboration Opportunity"
            "I'd love to discuss a potential project collaboration..." (Some sample_clock))).
Proof.
  apply (init_accepts (H:=sample_validators) sample_data sample_world
           "Jane Doe" "jane@example.com"); try done; vm_compute; lia.
Defined.

Lemma init_rejects_short_message_witness :
  exists errors,
    ContactMessage.__init__ (H:=sample_validators)
      (<["message" := PyStr "too short"]> sample_data) sample_world =
      (sample_world, inl (ValidationError errors)) /\
    ("message", "string_too_short") ∈ errors.
Proof.
  apply (init_rejects_short_message (H:=sample_validators) _ _ "too short");
    [done | vm_compute; lia].
Defined.

Lemma init_timestamp_witness :
  ContactMessage.timestamp
    (ContactMessage.mk "Jane Doe" "jane@example.com" "Collaboration Opportunity"
       "I'd love to discuss a potential project collaboration..." (Some sample_clock))
  = Some (clock sample_world).
Proof.
  by apply (init_timestamp (H:=sample_validators) sample_data sample_world).
Defined.

Definition sample_project : Project.t :=
  {| Project.id := "portfolio"; Project.title := "Portfolio";
     Project.tagline := "This site"; Project.description := "A FastAPI backend.";
     Project.technologies := ["Python"; "FastAPI"]; Project.highlights := [];
     Project.start_date := "2024-07"; Project.end_date := None;
     Project.github_url := Some "https://github.com/LiamCoding99/portfolio-webpage";
     Project.live_url := None; Project.image_url := None;
     Project.featured := false; Project.category := "web" |}.

Lemma project_init_establishes_valid_witness :
  Project.valid (H:=sample_validators) sample_project.
Proof.
  by apply (project_init_establishes_valid (H:=sample_validators)
              (Project.kwargs sample_project) sample_project).
Defined.

Lemma project_init_kwargs_witness :
  Project.BaseModel_init (H:=sample_validators) (Project.kwargs sample_project) =
    inr sample_project.
Proof.
  apply (project_init_kwargs (H:=sample_validators) sample_project).
  intros u [[= <-]|[=]]. reflexivity.
Defined.

Lemma project_init_rejects_url_witness :
  exists errors,
    Project.BaseModel_init (H:=sample_validators)
      (<["github_url" := PyStr "github.com/LiamCoding99"]> (Project.kwargs sample_project)) =
      inl errors /\
    ("github_url", "url_parsing") ∈ errors.
Proof.
  by apply (project_init_rejects_url (H:=sample_validators) _ "github.com/LiamCoding99").
Defined.

Lemma project_init_missing_field_witness :
  exists errors,
    Project.BaseModel_init (H:=sample_validators)
      (delete "category" (Project.kwargs sample_project)) = inl errors /\
    ("category", "missing") ∈ errors.
Proof.
  apply (project_init_missing_field (H:=sample_validators)); [set_solver|reflexivity].
Defined.
