(* ===== verification/Repository.v ===== *)
(** * The project repository

    [ProjectRepository] of
    src/backend/infrastructure/repositories/project_repository.py: the list
    of projects fixed at construction and its three queries.  The queries
    read the list and change nothing; a coroutine that never suspends is
    modelled by the function it computes.

    [ProjectStore] is what a caller may rely on, stated without the list
    walk; [project_index] is the abstract view of the repository as a
    finite map from identifiers to projects. *)

From S2P Require Import Prelude Runtime Domain.

Set Warnings "-clear-no-such-hyp".


Module ProjectRepository.

Record t := mk { projects : list Project.t }.

(** The list comprehension's walk and the lookup's loop, over any list. *)
Fixpoint featured_loop (ps : list Project.t) : list Project.t :=
  match ps with
  | [] => []
  | p :: rest => if Project.featured p then p :: featured_loop rest else featured_loop rest
  end.

Fixpoint get_by_id_loop (ps : list Project.t) (project_id : string) : option Project.t :=
  match ps with
  | [] => None
  | project :: rest =>
      if decide (Project.id project = project_id) then Some project
      else get_by_id_loop rest project_id
  end.

(** The guide of the module's docstring for a project added to the list:
    the identifier is written in lowercase with dashes, there are four to
    six highlights, and the dates have the form [YYYY-MM]. *)
Definition is_lowercase_or_dash (a : ascii) : bool :=
  let n := nat_of_ascii a in
  (97 <=? n) && (n <=? 122) || is_digit a || bool_decide (a = "-"%char).

Definition year_month (s : string) : bool :=
  match s with
  | String y1 (String y2 (String y3 (String y4 (String dash (String m1 (String m2 "")))))) =>
      is_digit y1 && is_digit y2 && is_digit y3 && is_digit y4 &&
      bool_decide (dash = "-"%char) && is_digit m1 && is_digit m2
  | _ => false
  end.

Definition follows_guide (p : Project.t) : bool :=
  negb (bool_decide (Project.id p = "")) &&
  all_chars is_lowercase_or_dash (Project.id p) &&
  (4 <=? length (Project.highlights p)) && (length (Project.highlights p) <=? 6) &&
  year_month (Project.start_date p) &&
  from_option year_month true (Project.end_date p).

(** The template of the docstring. *)
Definition template : Project.t :=
  {| Project.id := "my-project-name";
     Project.title := "My Project Name";
     Project.tagline := "Brief one-line description";
     Project.description := "Detailed description of what the project does and its impact. Keep it concise but informative. Mention the problem solved and key features.";
     Project.technologies := [
       "React";
       "Node.js"
     ];
     Project.highlights := [
       "First key achievement or feature";
       "Second key achievement or feature";
       "Third key achievement or feature";
       "Fourth key achievement or feature"
     ];
     Project.start_date := "2024-01";
     Project.end_date := Some "2024-06";
     Project.github_url := Some "https://github.com/username/repo-name";
     Project.live_url := Some "https://your-demo.com";
     Project.featured := true;
     Project.category := "web";
     Project.image_url := Some "/images/projects/project-name.png" |}.

Definition tilted_labs : Project.t :=
  {| Project.id := "tilted-labs";
     Project.title := "Tilted Labs";
     Project.tagline := "Mental Wellness Web Platform";
     Project.description := "Built an AI-assisted anonymous chat platform focused on mental wellness. Implemented secure authentication, real-time messaging, and a responsive user interface. The platform provides a safe space for users to discuss mental health topics with AI assistance while maintaining complete anonymity.";
     Project.technologies := [
       "React";
       "Node.js";
       "Firebase";
       "Firestore";
       "Firebase Auth";
       "Tailwind CSS";
       "React Hooks"
     ];
     Project.highlights := [
       "Implemented Firebase Authentication with Google Sign-In";
       "Built real-time chat functionality using Firestore";
       "Designed responsive UI with Tailwind CSS and React Hooks";
       "Deployed on Firebase Hosting with CI/CD pipeline";
       "Integrated Firebase Storage for media handling";
       "Ensured data privacy and user anonymity"
     ];
     Project.start_date := "2024-01";
     Project.end_date := Some "2024-06";
     Project.github_url := Some "https://github.com/liamnguyen/tilted-labs";
     Project.live_url := Some "https://tilted-labs.web.app";
     Project.featured := true;
     Project.category := "web";
     Project.image_url := Some "/images/projects/tilted-labs.png" |}.

Definition spacecraft_mission_control : Project.t :=
  {| Project.id := "spacecraft-mission-control";
     Project.title := "Spacecraft Mission Control System";
     Project.tagline := "Java Desktop Application with MySQL";
     Project.description := "Developed a comprehensive desktop application for managing spacecraft missions and crew task assignments. Features include mission scheduling, crew management, task tracking, and detailed reporting. Built with a focus on data integrity and efficient database operations.";
     Project.technologies := [
       "Java";
       "MySQL";
       "JDBC";
       "AWS RDS";
       "Swing (GUI)";
       "SQL"
     ];
     Project.highlights := [
       "Designed normalized SQL schema with proper relationships";
       "Implemented JDBC operations for database connectivity";
       "Deployed on AWS RDS for cloud-based data management";
       "Created SQL triggers for data integrity enforcement";
       "Built intuitive desktop GUI for mission management";
       "Managed crew task scheduling and tracking system"
     ];
     Project.start_date := "2023-08";
     Project.end_date := Some "2023-12";
     Project.github_url := Some "https://github.com/liamnguyen/spacecraft-mission-control";
     Project.live_url := Some "https://github.com/liamnguyen/spacecraft-mission-control/releases";
     Project.featured := true;
     Project.category := "desktop";
     Project.image_url := Some "/images/projects/spacecraft.png" |}.

Definition _initialize_projects : list Project.t :=
  [tilted_labs; spacecraft_mission_control].

Definition __init__ : t := {| projects := _initialize_projects |}.

Definition get_all (self : t) : list Project.t := projects self.

Definition get_by_id (self : t) (project_id : string) : option Project.t :=
  get_by_id_loop (projects self) project_id.

Definition get_featured (self : t) : list Project.t :=
  featured_loop (projects self).

(** The identifiers, in the order of the list. *)
Definition ids (self : t) : list string := Project.id <$> projects self.

(** The data model's invariant: an identifier names one project. *)
Definition wf (self : t) : Prop := NoDup (ids self).

#[global] Instance wf_dec self : Decision (wf self).
Proof. unfold wf. apply _. Defined.

(** The repository as a finite map from identifiers to projects. *)
Definition project_index (self : t) : gmap string Project.t :=
  list_to_map ((fun p => (Project.id p, p)) <$> projects self).

End ProjectRepository.

(** ** What a repository promises its callers *)
Class ProjectStore (R : Type) := {
  store_get_all : R -> list Project.t;
  store_get_by_id : R -> string -> option Project.t;
  store_get_featured : R -> list Project.t;
  (** the lookup gives the first project of the listing with that identifier *)
  store_get_by_id_first r i :
    store_get_by_id r i = head (filter (fun p => Project.id p = i) (store_get_all r));
  (** the featured listing is the listing filtered by the flag, in its order *)
  store_get_featured_filter r :
    store_get_featured r = filter (fun p => Project.featured p = true) (store_get_all r)
}.

(** ** The two walks against their reference definitions *)
Section loops.
Import ProjectRepository.
Implicit Types (ps : list Project.t) (p : Project.t) (i : string).

Lemma featured_loop_filter ps :
  featured_loop ps = filter (fun p => Project.featured p = true) ps.
Proof.
  induction ps as [|p ps IH]; simpl; [done|]. rewrite filter_cons, IH.
  destruct (Project.featured p); by case_decide.
Qed.

Lemma get_by_id_loop_first ps i :
  get_by_id_loop ps i = head (filter (fun p => Project.id p = i) ps).
Proof.
  induction ps as [|p ps IH]; simpl; [done|]. rewrite filter_cons.
  by case_decide.
Qed.

Lemma get_by_id_loop_Some ps i p :
  get_by_id_loop ps i = Some p -> Project.id p = i /\ p ∈ ps.
Proof.
  rewrite get_by_id_loop_first. intros Hp%head_Some_elem_of.
  by apply list_elem_of_filter in Hp.
Qed.

Lemma get_by_id_loop_None ps i :
  get_by_id_loop ps i = None <-> i ∉ (Project.id <$> ps).
Proof.
  induction ps as [|p ps IH]; simpl; [set_solver|].
  case_decide; set_solver.
Qed.

Lemma get_by_id_loop_complete ps p :
  NoDup (Project.id <$> ps) -> p ∈ ps -> get_by_id_loop ps (Project.id p) = Some p.
Proof.
  induction ps as [|q ps IH]; simpl; [set_solver|].
  rewrite NoDup_cons. intros [Hq Hnd] [->|Hp]%elem_of_cons; [by case_decide|].
  case_decide as Heq; [|by apply IH].
  destruct Hq. rewrite Heq. by apply list_elem_of_fmap_2.
Qed.

Lemma project_index_loop ps i :
  (list_to_map ((fun p => (Project.id p, p)) <$> ps) : gmap string Project.t) !! i
  = get_by_id_loop ps i.
Proof.
  induction ps as [|p ps IH]; simpl; [done|].
  case_decide as Heq; [by rewrite <-Heq, lookup_insert_eq|by rewrite lookup_insert_ne].
Qed.
End loops.

(** ** The queries *)
Section queries.
Import ProjectRepository.
Implicit Types (self : ProjectRepository.t) (p : Project.t) (i : string).

(** C4 (get_by_id_found): a project returned by the lookup carries the
    identifier asked for and is one of the repository's projects. *)
Theorem get_by_id_found self i p :
  ProjectRepository.get_by_id self i = Some p ->
  Project.id p = i /\ p ∈ ProjectRepository.get_all self.
Proof. apply get_by_id_loop_Some. Qed.

(** C9 (get_by_id_absent): the lookup answers None exactly for the
    identifiers that no project of the repository carries. *)
Theorem get_by_id_absent self i :
  ProjectRepository.get_by_id self i = None <-> i ∉ ProjectRepository.ids self.
Proof. apply get_by_id_loop_None. Qed.

(** [get_by_id_complete]: when identifiers are unique, every project
    of the repository is the answer to the lookup of its own identifier. *)
Theorem get_by_id_complete self p :
  ProjectRepository.wf self -> p ∈ ProjectRepository.get_all self ->
  ProjectRepository.get_by_id self (Project.id p) = Some p.
Proof. apply get_by_id_loop_complete. Qed.

(** [get_by_id_first_match]: with or without unique identifiers, the
    lookup stops at the first project of the list that carries the
    identifier: a later project with the same identifier is never
    returned. *)
Theorem get_by_id_first_match self i before p after :
  ProjectRepository.projects self = before ++ p :: after ->
  Project.id p = i -> i ∉ (Project.id <$> before) ->
  ProjectRepository.get_by_id self i = Some p.
Proof.
  unfold get_by_id. intros -> Hp Hbefore.
  induction before as [|q before IH]; simpl; [by case_decide|].
  rewrite fmap_cons, not_elem_of_cons in Hbefore. destruct Hbefore as [Hq Hbefore].
  case_decide; [congruence|by apply IH].
Qed.

(** C7 (get_featured_filter): the featured listing is the full listing
    with the projects whose flag is false removed: the same projects the
    same number of times, in the same order. *)
Theorem get_featured_filter self :
  ProjectRepository.get_featured self =
    filter (fun p => Project.featured p = true) (ProjectRepository.get_all self).
Proof. apply featured_loop_filter. Qed.

(** [get_featured_sublist]: the featured listing is a sublist of the
    full listing (relative order kept), and a project is in it exactly
    when it is in the full listing with its flag set. *)
Theorem get_featured_sublist self :
  ProjectRepository.get_featured self `sublist_of` ProjectRepository.get_all self /\
  forall p, p ∈ ProjectRepository.get_featured self <->
            p ∈ ProjectRepository.get_all self /\ Project.featured p = true.
Proof.
  unfold get_featured, get_all. rewrite featured_loop_filter. split.
  - apply sublist_filter.
  - intros p. rewrite list_elem_of_filter. tauto.
Qed.

(** [project_index_refines]: the repository implements the finite
    map from identifiers to projects: the lookup is the map's lookup, and
    the map's domain is the set of identifiers. *)
Theorem project_index_refines self i :
  ProjectRepository.get_by_id self i = ProjectRepository.project_index self !! i /\
  dom (ProjectRepository.project_index self) = list_to_set (ProjectRepository.ids self).
Proof.
  split; [symmetry; apply project_index_loop|].
  unfold project_index, ids. rewrite dom_list_to_map_L, <-list_fmap_compose.
  done.
Qed.

(** [initialize_projects_wf]: the projects the repository is
    constructed with have pairwise distinct identifiers, so each of them
    is found by its identifier, and an identifier outside the two is not
    found. *)
Theorem initialize_projects_wf :
  ProjectRepository.wf ProjectRepository.__init__ /\
  (forall p, p ∈ ProjectRepository.get_all ProjectRepository.__init__ ->
     ProjectRepository.get_by_id ProjectRepository.__init__ (Project.id p) = Some p) /\
  ProjectRepository.get_by_id ProjectRepository.__init__ "nonexistent" = None.
Proof.
  assert (ProjectRepository.wf ProjectRepository.__init__) as Hwf
    by (by apply (bool_decide_unpack _)).
  split_and!; [done| |done].
  intros p Hp. by apply get_by_id_loop_complete.
Qed.
End queries.

(** ** Concrete runs *)

(** A copy of a project under another title, and a repository in which
    two projects share an identifier. *)
Definition retitled (title : string) (p : Project.t) : Project.t :=
  {| Project.id := Project.id p; Project.title := title;
     Project.tagline := Project.tagline p; Project.description := Project.description p;
     Project.technologies := Project.technologies p;
     Project.highlights := Project.highlights p;
     Project.start_date := Project.start_date p; Project.end_date := Project.end_date p;
     Project.github_url := Project.github_url p; Project.live_url := Project.live_url p;
     Project.image_url := Project.image_url p; Project.featured := false;
     Project.category := Project.category p |}.

Definition shadowed_repository : ProjectRepository.t :=
  ProjectRepository.mk
    [ProjectRepository.spacecraft_mission_control;
     ProjectRepository.tilted_labs;
     retitled "Tilted Labs II" ProjectRepository.tilted_labs].

Lemma get_by_id_found_witness :
  Project.id ProjectRepository.tilted_labs = "tilted-labs" /\
  ProjectRepository.tilted_labs ∈ ProjectRepository.get_all ProjectRepository.__init__.
Proof. by apply (get_by_id_found ProjectRepository.__init__). Defined.

Lemma get_by_id_absent_witness :
  ProjectRepository.get_by_id ProjectRepository.__init__ "featured" = None.
Proof.
  apply (get_by_id_absent ProjectRepository.__init__ "featured").
  apply (bool_decide_unpack _). by vm_compute.
Defined.

Lemma get_by_id_complete_witness :
  ProjectRepository.get_by_id ProjectRepository.__init__ "spacecraft-mission-control"
  = Some ProjectRepository.spacecraft_mission_control.
Proof.
  apply (get_by_id_complete ProjectRepository.__init__
           ProjectRepository.spacecraft_mission_control);
    apply (bool_decide_unpack _); by vm_compute.
Defined.

Lemma get_by_id_first_match_witness :
  ProjectRepository.get_by_id shadowed_repository "tilted-labs"
  = Some ProjectRepository.tilted_labs.
Proof.
  apply (get_by_id_first_match shadowed_repository "tilted-labs"
           [ProjectRepository.spacecraft_mission_control] ProjectRepository.tilted_labs
           [retitled "Tilted Labs II" ProjectRepository.tilted_labs]);
    [done|done|].
  apply (bool_decide_unpack _). by vm_compute.
Defined.

(** ** The repository keeps the interface *)
(** ** The projects of the source are valid models *)



(** [initialize_projects_follow_guide]: the projects of the source
    keep the rules their file's docstring gives for the list: each
    identifier is lowercase with dashes and names one project only, each
    project has four to six highlights and dates of the form YYYY-MM;
    the docstring's own template keeps the rules too. *)
Theorem initialize_projects_follow_guide :
  Forall (fun p => ProjectRepository.follows_guide p = true)
    (ProjectRepository.template :: ProjectRepository.projects ProjectRepository.__init__) /\
  ProjectRepository.wf ProjectRepository.__init__.
Proof. split; [by repeat constructor|by apply (bool_decide_unpack _)]. Qed.

(** [guide_admits_featured]: the rules do not exclude the identifier
    that the route table shadows: a project named featured keeps them. *)
Theorem guide_admits_featured p :
  ProjectRepository.follows_guide p = true ->
  ProjectRepository.follows_guide (Project.mk "featured" (Project.title p) (Project.tagline p)
    (Project.description p) (Project.technologies p) (Project.highlights p)
    (Project.start_date p) (Project.end_date p) (Project.github_url p) (Project.live_url p)
    (Project.image_url p) (Project.featured p) (Project.category p)) = true.
Proof.
  unfold ProjectRepository.follows_guide. cbn [Project.id Project.highlights
    Project.start_date Project.end_date]. intros H. repeat (apply andb_true_iff in H as [H ?]).
  by repeat (apply andb_true_iff; split).
Qed.

Lemma guide_admits_featured_witness :
  ProjectRepository.follows_guide (Project.mk "featured" "Tilted Labs"
    (Project.tagline ProjectRepository.tilted_labs)
    (Project.description ProjectRepository.tilted_labs)
    (Project.technologies ProjectRepository.tilted_labs)
    (Project.highlights ProjectRepository.tilted_labs) "2024-01" (Some "2024-06")
    (Project.github_url ProjectRepository.tilted_labs)
    (Project.live_url ProjectRepository.tilted_labs)
    (Project.image_url ProjectRepository.tilted_labs) true "web") = true.
Proof. by apply (guide_admits_featured ProjectRepository.tilted_labs). Defined.

(** The schema's example is the first project of the source, shortened:
    the two agree on the fields that identify and date a project. *)
Example project_example_is_tilted_labs `{Validators} p :
  Project.BaseModel_init Project.example = inr p ->
  (Project.id p, Project.title p, Project.tagline p, Project.start_date p,
   Project.end_date p, Project.featured p, Project.category p) =
  (Project.id ProjectRepository.tilted_labs, Project.title ProjectRepository.tilted_labs,
   Project.tagline ProjectRepository.tilted_labs,
   Project.start_date ProjectRepository.tilted_labs,
   Project.end_date ProjectRepository.tilted_labs,
   Project.featured ProjectRepository.tilted_labs,
   Project.category ProjectRepository.tilted_labs).
Proof. rewrite project_example_validates. by intros [= <-]. Qed.

#[export] Instance ProjectRepository_store : ProjectStore ProjectRepository.t := {|
  store_get_all := ProjectRepository.get_all;
  store_get_by_id := ProjectRepository.get_by_id;
  store_get_featured := ProjectRepository.get_featured;
  store_get_by_id_first self i := get_by_id_loop_first (ProjectRepository.projects self) i;
  store_get_featured_filter self := featured_loop_filter (ProjectRepository.projects self)
|}.
