(* ===== verification/ProjectUseCase.v ===== *)
(** * The project use case

    [ProjectUseCase] of src/backend/application/use_cases/project_use_case.py:
    three calls forwarded to the repository it was constructed with.  The
    use case is written against [ProjectStore], the interface of
    [Repository], so its theorems hold for every repository that keeps
    the interface's two laws. *)

From S2P Require Import Prelude Runtime Domain Repository.

Set Warnings "-clear-no-such-hyp".

Module ProjectUseCase.
Section with_store.
Context {R : Type} `{ProjectStore R}.

Record t := mk { repository : R }.

Definition __init__ (project_repository : R) : t :=
  {| repository := project_repository |}.

Definition get_all_projects (self : t) : list Project.t :=
  store_get_all (repository self).

Definition get_project_by_id (self : t) (project_id : string) : option Project.t :=
  store_get_by_id (repository self) project_id.

Definition get_featured_projects (self : t) : list Project.t :=
  store_get_featured (repository self).
End with_store.

Arguments t R : clear implicits.
End ProjectUseCase.

(** ** Facts about heads of filtered lists, shared by the theorems *)
Section head_filter.
Context {A : Type} (P : A -> Prop) `{forall x, Decision (P x)}.

Lemma head_filter_Some (l : list A) (x : A) :
  head (filter P l) = Some x -> P x /\ x ∈ l.
Proof. intros Hx%head_Some_elem_of. by apply list_elem_of_filter in Hx. Qed.

Lemma head_filter_None (l : list A) :
  head (filter P l) = None <-> forall x, x ∈ l -> ~ P x.
Proof.
  rewrite head_None. split.
  - intros Hnil x Hx HP. assert (x ∈ filter P l) as Hin by by apply list_elem_of_filter.
    rewrite Hnil in Hin. by apply not_elem_of_nil in Hin.
  - intros Hno. apply elem_of_nil_inv. intros x [HP Hx]%list_elem_of_filter.
    by apply (Hno x).
Qed.

Lemma head_filter_NoDup {B} (f : A -> B) (l : list A) (x : A) :
  (forall y, P y <-> f y = f x) -> NoDup (f <$> l) -> x ∈ l ->
  head (filter P l) = Some x.
Proof.
  intros HP. induction l as [|y l IH]; [by intros _ ?%not_elem_of_nil|].
  rewrite fmap_cons, NoDup_cons, filter_cons.
  intros [Hy Hnd] [->|Hx]%elem_of_cons.
  - rewrite decide_True by by apply HP. done.
  - rewrite decide_False; [by apply IH|].
    intros Hfy%HP. apply Hy. rewrite Hfy. by apply list_elem_of_fmap_2.
Qed.
End head_filter.

Section use_case.
Context {R : Type} `{ProjectStore R}.
Implicit Types (self : ProjectUseCase.t R) (p : Project.t) (i : string).

(** [get_project_by_id_found]: over any repository that keeps the
    interface, a project the use case returns for an identifier carries
    that identifier and is in the use case's full listing. *)
Theorem get_project_by_id_found self i p :
  ProjectUseCase.get_project_by_id self i = Some p ->
  Project.id p = i /\ p ∈ ProjectUseCase.get_all_projects self.
Proof.
  unfold ProjectUseCase.get_project_by_id. rewrite store_get_by_id_first.
  apply (head_filter_Some (fun q => Project.id q = i)).
Qed.

(** [get_project_by_id_absent]: over any repository that keeps the
    interface, the use case answers None exactly when no project of its
    full listing carries the identifier. *)
Theorem get_project_by_id_absent self i :
  ProjectUseCase.get_project_by_id self i = None <->
  forall p, p ∈ ProjectUseCase.get_all_projects self -> Project.id p <> i.
Proof.
  unfold ProjectUseCase.get_project_by_id. rewrite store_get_by_id_first.
  apply (head_filter_None (fun q => Project.id q = i)).
Qed.

(** [featured_projects_fetchable]: over any repository that keeps
    the interface and whose identifiers are unique, every project of the
    featured listing has its flag set and is the answer to the lookup of
    its own identifier. *)
Theorem featured_projects_fetchable self p :
  NoDup (Project.id <$> ProjectUseCase.get_all_projects self) ->
  p ∈ ProjectUseCase.get_featured_projects self ->
  Project.featured p = true /\
  ProjectUseCase.get_project_by_id self (Project.id p) = Some p.
Proof.
  unfold ProjectUseCase.get_featured_projects, ProjectUseCase.get_project_by_id.
  rewrite store_get_featured_filter, store_get_by_id_first.
  intros Hnd [Hf Hp]%list_elem_of_filter. split; [done|].
  by apply (head_filter_NoDup _ Project.id).
Qed.
End use_case.

(** ** Concrete runs, over the repository of the application *)
Definition project_use_case : ProjectUseCase.t ProjectRepository.t :=
  ProjectUseCase.__init__ ProjectRepository.__init__.

Lemma get_project_by_id_found_witness :
  Project.id ProjectRepository.spacecraft_mission_control = "spacecraft-mission-control" /\
  ProjectRepository.spacecraft_mission_control ∈
    ProjectUseCase.get_all_projects project_use_case.
Proof. by apply (get_project_by_id_found project_use_case). Defined.

Lemma featured_projects_fetchable_witness :
  Project.featured ProjectRepository.tilted_labs = true /\
  ProjectUseCase.get_project_by_id project_use_case "tilted-labs"
  = Some ProjectRepository.tilted_labs.
Proof.
  apply (featured_projects_fetchable project_use_case ProjectRepository.tilted_labs);
    apply (bool_decide_unpack _); by vm_compute.
Defined.
