(* ===== verification/EmailService.v ===== *)
(** * The email notification service

    [EmailService] of src/backend/infrastructure/email/email_service.py:
    the configuration read from the environment at construction, and
    [send_contact_notification], which prints its progress, skips the
    delivery when the configuration is incomplete, builds the message and
    runs one SMTP session, re-raising what the session raises.

    [Notifier] is what the contact use case needs of the service. *)

From S2P Require Import Prelude Runtime Domain.

Set Warnings "-clear-no-such-hyp".

Module EmailService.

Record t := mk {
  smtp_host : string;
  smtp_port : Z;
  smtp_user : option string;
  smtp_password : option string;
  email_from : option string;
  email_to : option string
}.

#[global] Instance eq_dec : EqDecision t.
Proof. solve_decision. Defined.

(** The constructor: [int] may raise on the port. *)
Definition __init__ (environ : gmap string string) : exn + t :=
  let smtp_host := getenv_default environ "SMTP_HOST" "smtp.gmail.com" in
  match py_int (getenv_default environ "SMTP_PORT" "587") with
  | inl e => inl e
  | inr smtp_port =>
      inr {| smtp_host := smtp_host;
             smtp_port := smtp_port;
             smtp_user := getenv environ "SMTP_USER";
             smtp_password := getenv environ "SMTP_PASSWORD";
             email_from := getenv environ "EMAIL_FROM";
             email_to := getenv environ "EMAIL_TO" |}
  end.

(** The test of line 37: user, password and recipient are all set and
    not empty. *)
Definition configured (self : t) : bool :=
  py_all [truthy (smtp_user self); truthy (smtp_password self); truthy (email_to self)].

(** The message and its headers. *)
Definition create_message (self : t) (contact : ContactMessage.t) : MIMEMultipart :=
  {| subtype := "alternative";
     Subject := "Portfolio Contact: " +:+ ContactMessage.subject contact;
     From := email_from self;
     To := email_to self;
     Reply_To := ContactMessage.email contact;
     payload := [] |}.

(** The body's template, filled with the fields and the formatted time. *)
Definition html_template (contact : ContactMessage.t) (sent_at : string) : string :=
  "
        <html>
            <body style=" +:+ dq +:+ "font-family: Arial, sans-serif;" +:+ dq +:+ ">
                <h2>New Contact Form Submission</h2>
                <p><strong>From:</strong> " +:+ ContactMessage.name contact +:+ "</p>
                <p><strong>Email:</strong> " +:+ ContactMessage.email contact +:+ "</p>
                <p><strong>Subject:</strong> " +:+ ContactMessage.subject contact +:+ "</p>
                <hr>
                <p><strong>Message:</strong></p>
                <p>" +:+ ContactMessage.message contact +:+ "</p>
                <hr>
                <p style=" +:+ dq +:+ "color: #666; font-size: 12px;" +:+ dq +:+ ">
                    Sent at: " +:+ sent_at +:+ "
                </p>
            </body>
        </html>
        ".

(** The f-string of the body: formatting the time of a message without a
    timestamp raises. *)
Definition html_body (contact : ContactMessage.t) : Py string :=
  match ContactMessage.timestamp contact with
  | Some timestamp =>
      ret (html_template contact (datetime.strftime "%Y-%m-%d %H:%M:%S UTC" timestamp))
  | None =>
      raise (PyException "AttributeError" "'NoneType' object has no attribute 'strftime'")
  end.

(** The body of the [with] block. *)
Definition session_body (self : t) (msg : MIMEMultipart) : Py unit :=
  (print "🔐 Starting TLS..." ;;
   smtp_command StartTLS ;;
   print "👤 Logging in..." ;;
   smtp_command (Login (smtp_user self) (smtp_password self)) ;;
   print "📤 Sending message..." ;;
   smtp_command (SendMessage msg))%eff.

(** The [with] block: one session, left through [SMTP.__exit__]. *)
Definition smtp_session (self : t) (msg : MIMEMultipart) : Py unit :=
  with_as (smtp_command (Connect (smtp_host self) (smtp_port self)))
    (fun _ => SMTP_exit)
    (fun server => session_body self msg).

(** The three [except] clauses: each prints and re-raises. *)
Definition on_send_error (e : exn) : Py unit :=
  (if e is SMTPAuthenticationError _ then
     print ("❌ SMTP Authentication Failed: " +:+ exn_str e) ;;
     print "   Check your SMTP_USER and SMTP_PASSWORD in .env" ;;
     raise e
   else if is_SMTPException e then
     print ("❌ SMTP Error: " +:+ exn_str e) ;;
     raise e
   else
     print ("❌ Failed to send email: " +:+ exn_type_name e +:+ ": " +:+ exn_str e) ;;
     raise e)%eff.

Definition send_contact_notification (self : t) (contact : ContactMessage.t) : Py unit :=
  (print "📧 Attempting to send email..." ;;
   print ("   SMTP Host: " +:+ smtp_host self) ;;
   print ("   SMTP Port: " +:+ pretty (smtp_port self)) ;;
   print ("   SMTP User: " +:+ str_of_optional (smtp_user self)) ;;
   print ("   Email To: " +:+ str_of_optional (email_to self)) ;;
   print ("   Password Set: " +:+ (if truthy (smtp_password self) then "Yes" else "No")) ;;
   if negb (configured self) then
     print "⚠️  Email configuration incomplete. Skipping email send." ;;
     print ("   Missing: smtp_user=" +:+ str_of_bool (truthy (smtp_user self)) +:+
            ", password=" +:+ str_of_bool (truthy (smtp_password self)) +:+
            ", email_to=" +:+ str_of_bool (truthy (email_to self))) ;;
     ret tt
   else
     let msg := create_message self contact in
     html <- html_body contact ;;
     let msg := attach {| text := html; text_subtype := "html" |} msg in
     try_except
       (print "🔌 Connecting to SMTP server..." ;;
        smtp_session self msg ;;
        print ("✅ Contact email sent successfully from " +:+ ContactMessage.name contact))
       on_send_error)%eff.

End EmailService.

(** ** What the contact use case needs of its email service *)
Class Notifier (S : Type) := {
  notify : S -> ContactMessage.t -> Py unit
}.

#[export] Instance EmailService_notifier : Notifier EmailService.t := {|
  notify := EmailService.send_contact_notification
|}.

(** ** The service's run, in closed form *)
Section send_run.
Import EmailService.
Implicit Types (self : EmailService.t) (contact : ContactMessage.t) (w : World).
Local Open Scope eff_scope.

(** The lines printed before the configuration is tested, on the skip, and
    by each [except] clause. *)
Definition preamble self : list string :=
  ["📧 Attempting to send email...";
   "   SMTP Host: " +:+ smtp_host self;
   "   SMTP Port: " +:+ pretty (smtp_port self);
   "   SMTP User: " +:+ str_of_optional (smtp_user self);
   "   Email To: " +:+ str_of_optional (email_to self);
   "   Password Set: " +:+ (if truthy (smtp_password self) then "Yes" else "No")].

Definition skip_lines self : list string :=
  ["⚠️  Email configuration incomplete. Skipping email send.";
   "   Missing: smtp_user=" +:+ str_of_bool (truthy (smtp_user self)) +:+
   ", password=" +:+ str_of_bool (truthy (smtp_password self)) +:+
   ", email_to=" +:+ str_of_bool (truthy (email_to self))].

Definition error_lines (e : exn) : list string :=
  if e is SMTPAuthenticationError _ then
    ["❌ SMTP Authentication Failed: " +:+ exn_str e;
     "   Check your SMTP_USER and SMTP_PASSWORD in .env"]
  else if is_SMTPException e then ["❌ SMTP Error: " +:+ exn_str e]
  else ["❌ Failed to send email: " +:+ exn_type_name e +:+ ": " +:+ exn_str e].

(** The message handed to the server for a contact stamped [ts]. *)
Definition notification self contact (ts : datetime.t) : MIMEMultipart :=
  attach {| text := html_template contact (datetime.strftime "%Y-%m-%d %H:%M:%S UTC" ts);
            text_subtype := "html" |}
         (create_message self contact).

(** The commands of the [with] block's body, each with its announcement. *)
Definition session_steps self (msg : MIMEMultipart) : list (string * smtp_event) :=
  [("🔐 Starting TLS...", StartTLS);
   ("👤 Logging in...", Login (smtp_user self) (smtp_password self));
   ("📤 Sending message...", SendMessage msg)].

(** The commands of a whole session that meets no refusal. *)
Definition session_events self (msg : MIMEMultipart) : list smtp_event :=
  Connect (smtp_host self) (smtp_port self) :: (session_steps self msg).*2 ++ [Quit].

(** A session from the world [w]: refused at the connection, or the body's
    dialogue followed by QUIT, whose refusal takes precedence. *)
Definition session_result self (msg : MIMEMultipart) w : World * (exn + unit) :=
  let c := Connect (smtp_host self) (smtp_port self) in
  match smtp_server w (smtp_log w ++ [c]) with
  | Some e => (with_smtp_log (smtp_log w ++ [c]) w, inl e)
  | None =>
      let (sent, refusal) :=
        dialogue (smtp_server w) (smtp_log w ++ [c]) (session_steps self msg).*2 in
      let w1 := with_smtp_log (smtp_log w ++ c :: sent)
                  (with_stdout (stdout w ++ take (length sent) (session_steps self msg).*1) w) in
      (with_smtp_log (smtp_log w1 ++ [Quit]) w1,
       match quit_outcome w1, refusal with
       | inl e', _ => inl e'
       | inr _, Some e => inl e
       | inr _, None => inr tt
       end)
  end.

Lemma on_send_error_run e w :
  on_send_error e w = (with_stdout (stdout w ++ error_lines e) w, inl e).
Proof.
  unfold on_send_error, error_lines.
  destruct e; cbn [is_SMTPException]; py_run; by rewrite <-?app_assoc.
Qed.

Lemma session_body_run self msg w :
  session_body self msg w = announce_and_send (session_steps self msg) w.
Proof.
  unfold session_body. cbn [announce_and_send session_steps].
  do 2 (py_run; destruct (smtp_server w _); [done|]).
  py_run. by destruct (smtp_server w _).
Qed.

Lemma smtp_session_run self msg w : smtp_session self msg w = session_result self msg w.
Proof.
  unfold smtp_session, session_result, with_as. py_run.
  destruct (smtp_server w _); [done|].
  rewrite session_body_run, announce_and_send_run. py_run.
  destruct (dialogue _ _ _) as [sent [e|]]; py_run; rewrite <-?app_assoc; cbn [app];
    by destruct (quit_outcome _) as [|[]].
Qed.

(** The whole call: the preamble, then the skip, the failed formatting,
    or one session followed by the success line or an [except] clause. *)
Definition send_result self contact w : World * (exn + unit) :=
  let w0 := with_stdout (stdout w ++ preamble self) w in
  if configured self then
    match ContactMessage.timestamp contact with
    | None =>
        (w0, inl (PyException "AttributeError" "'NoneType' object has no attribute 'strftime'"))
    | Some ts =>
        let (w1, r) :=
          session_result self (notification self contact ts)
            (with_stdout (stdout w0 ++ ["🔌 Connecting to SMTP server..."]) w0) in
        match r with
        | inr _ =>
            (with_stdout
               (stdout w1 ++ ["✅ Contact email sent successfully from " +:+
                              ContactMessage.name contact]) w1, inr tt)
        | inl e => (with_stdout (stdout w1 ++ error_lines e) w1, inl e)
        end
    end
  else (with_stdout (stdout w0 ++ skip_lines self) w0, inr tt).

Lemma send_contact_notification_run self contact w :
  send_contact_notification self contact w = send_result self contact w.
Proof.
  unfold send_contact_notification, send_result, html_body, try_except, preamble, skip_lines.
  destruct (configured self); py_run; rewrite <-?app_assoc; cbn [app]; [|done].
  destruct (ContactMessage.timestamp contact) as [ts|]; py_run; [|done].
  fold (notification self contact ts).
  rewrite (bind_run (smtp_session _ _)), smtp_session_run, <-?app_assoc. cbn [app].
  destruct (session_result _ _ _) as [w1 [e|[]]]; py_run; [|done].
  by rewrite on_send_error_run.
Qed.
Lemma send_result_skip self contact w :
  configured self = false ->
  send_result self contact w =
    (with_stdout (stdout w ++ preamble self ++ skip_lines self) w, inr tt).
Proof. intros Hc. unfold send_result. rewrite Hc. py_run. by rewrite <-app_assoc. Qed.
End send_run.

(** ** The shapes of a session *)
Section traces.
Import EmailService.
Implicit Types (self : EmailService.t) (contact : ContactMessage.t) (w : World).

(** The commands one session can send: refused at the connection, or
    connected, cut after the first refused command of the body, and left
    with QUIT. *)
Definition session_traces self (msg : MIMEMultipart) : list (list smtp_event) :=
  let c := Connect (smtp_host self) (smtp_port self) in
  let login := Login (smtp_user self) (smtp_password self) in
  [[c]; [c; StartTLS; Quit]; [c; StartTLS; login; Quit];
   [c; StartTLS; login; SendMessage msg; Quit]].

(** The commands one call can send: none, or one session's. *)
Definition possible_traces self contact : list (list smtp_event) :=
  [] :: match ContactMessage.timestamp contact with
        | Some ts => session_traces self (notification self contact ts)
        | None => []
        end.

Lemma configured_false self :
  configured self = false <->
  Exists (fun x => truthy x = false) [smtp_user self; smtp_password self; email_to self].
Proof.
  unfold configured. rewrite !Exists_cons, Exists_nil. simpl.
  destruct (truthy (smtp_user self)), (truthy (smtp_password self)),
    (truthy (email_to self)); naive_solver.
Qed.

Lemma session_result_trace self msg w :
  exists evs, smtp_log (session_result self msg w).1 = smtp_log w ++ evs /\
              evs ∈ session_traces self msg.
Proof.
  unfold session_result, session_traces. cbn [dialogue session_steps fmap list_fmap snd].
  py_cases; rewrite <-?app_assoc; cbn [app]; (eexists; split; [done|]); set_solver.
Qed.

Lemma send_result_trace self contact w :
  exists evs, smtp_log (send_result self contact w).1 = smtp_log w ++ evs /\
              evs ∈ possible_traces self contact.
Proof.
  unfold send_result, possible_traces.
  destruct (configured self); [|exists []; split; [by rewrite app_nil_r|set_solver]].
  destruct (ContactMessage.timestamp contact) as [ts|];
    [|exists []; split; [by rewrite app_nil_r|set_solver]].
  match goal with |- context [session_result ?s ?m ?w0] =>
    destruct (session_result_trace s m w0) as (evs & Hlog & Hin);
    destruct (session_result s m w0) as [w1 [e|[]]] end;
    exists evs; (split; [done|set_solver]).
Qed.

(** Every shape opens at most one session and hands over at most one
    message. *)
Lemma possible_traces_bounds self contact evs :
  evs ∈ possible_traces self contact ->
  attempts_in evs <= 1 /\ length (omap sent_message evs) <= 1.
Proof.
  unfold possible_traces, session_traces.
  destruct (ContactMessage.timestamp contact); set_unfold;
    intros; destruct_or?; simplify_eq; vm_compute; lia.
Qed.
End traces.

(** ** Fixtures for the concrete runs *)
Definition sample_service : EmailService.t :=
  EmailService.mk "smtp.gmail.com" 587 (Some "owner@example.com") (Some "app-password")
    (Some "portfolio@example.com") (Some "owner@example.com").

Definition unconfigured_service : EmailService.t :=
  EmailService.mk "smtp.gmail.com" 587 None None None None.

Definition sample_contact : ContactMessage.t :=
  ContactMessage.mk "Jane Doe" "jane@example.com" "Collaboration Opportunity"
    "I'd love to discuss a potential project collaboration..." (Some sample_clock).

Definition bad_credentials : exn :=
  SMTPAuthenticationError "(535, b'5.7.8 Username and Password not accepted')".

(** A server that accepts everything but a login. *)
Definition rejecting_login : Server :=
  fun log => if last log is Some (Login _ _) then Some bad_credentials else None.

Definition world_of (srv : Server) : World :=
  {| stdout := []; clock := sample_clock; smtp_server := srv; smtp_log := [];
     resume_file := None |}.

(** ** Two sessions in full *)
Section scenarios.
Import EmailService.
Implicit Types (self : EmailService.t) (contact : ContactMessage.t) (w : World).

(** The lines of a delivery and of a session cut at the login. *)
Definition delivery_lines contact : list string :=
  ["🔌 Connecting to SMTP server..."; "🔐 Starting TLS..."; "👤 Logging in...";
   "📤 Sending message...";
   "✅ Contact email sent successfully from " +:+ ContactMessage.name contact].

Definition refused_login_lines (e : exn) : list string :=
  ["🔌 Connecting to SMTP server..."; "🔐 Starting TLS..."; "👤 Logging in..."] ++
  error_lines e.

Definition refused_login_events self : list smtp_event :=
  [Connect (smtp_host self) (smtp_port self); StartTLS;
   Login (smtp_user self) (smtp_password self); Quit].

Lemma send_result_delivered self contact ts w :
  configured self = true -> ContactMessage.timestamp contact = Some ts ->
  answers (smtp_server w) (smtp_log w) (session_events self (notification self contact ts))
    = replicate 5 None ->
  send_result self contact w =
    (with_smtp_log (smtp_log w ++ session_events self (notification self contact ts))
       (with_stdout (stdout w ++ preamble self ++ delivery_lines contact) w), inr tt).
Proof.
  intros Hc Hts Hsrv. unfold send_result, session_result.
  rewrite Hc, Hts. unfold quit_outcome.
  cbn [session_events session_steps fmap list_fmap snd app answers replicate] in Hsrv.
  injection Hsrv as H1 H2 H3 H4 H5.
  cbn [dialogue session_events session_steps fmap list_fmap snd]. py_run.
  rewrite H1, H2, H3, H4. py_run. rewrite <-!app_assoc in *. cbn [app] in *.
  rewrite H5. py_run. by rewrite <-?app_assoc.
Qed.

Lemma send_result_refused_login self contact ts w e :
  configured self = true -> ContactMessage.timestamp contact = Some ts ->
  answers (smtp_server w) (smtp_log w) (refused_login_events self) = [None; None; Some e; None] ->
  send_result self contact w =
    (with_smtp_log (smtp_log w ++ refused_login_events self)
       (with_stdout (stdout w ++ preamble self ++ refused_login_lines e) w), inl e).
Proof.
  intros Hc Hts Hsrv. unfold send_result, session_result.
  rewrite Hc, Hts. unfold quit_outcome.
  cbn [answers refused_login_events] in Hsrv. injection Hsrv as H1 H2 H3 H4.
  cbn [dialogue session_steps fmap list_fmap snd]. py_run.
  rewrite H1, H2, H3. py_run. rewrite <-!app_assoc in *. cbn [app] in *.
  rewrite H4. py_run. by rewrite <-?app_assoc.
Qed.
End scenarios.

(** ** The service's behaviour *)
Section send_theorems.
Import EmailService.
Implicit Types (self : EmailService.t) (contact : ContactMessage.t) (w : World).

(** C2 (send_skips_incomplete): when the user, the password or the
    recipient is unset or empty, the call returns normally, prints the
    preamble and the two lines of the skip, and leaves the rest of the
    world as it was: the server is sent nothing. *)
Theorem send_skips_incomplete self contact w :
  Exists (fun x => truthy x = false) [smtp_user self; smtp_password self; email_to self] ->
  EmailService.send_contact_notification self contact w =
    (with_stdout (stdout w ++ preamble self ++ skip_lines self) w, inr tt).
Proof.
  intros Hc%configured_false. by rewrite send_contact_notification_run, send_result_skip.
Qed.

(** C3 (send_delivers): with a complete configuration, a stamped
    message and a server that accepts the five commands of a session, the
    call returns normally, the server has been sent exactly CONNECT,
    STARTTLS, LOGIN, the message and QUIT in this order, and the message
    is the notification built from the contact. *)
Theorem send_delivers self contact ts w :
  configured self = true -> ContactMessage.timestamp contact = Some ts ->
  answers (smtp_server w) (smtp_log w) (session_events self (notification self contact ts))
    = replicate 5 None ->
  outcome (EmailService.send_contact_notification self contact) w = inr tt /\
  smtp_log (world_after (EmailService.send_contact_notification self contact) w)
    = smtp_log w ++ session_events self (notification self contact ts) /\
  submitted (world_after (EmailService.send_contact_notification self contact) w)
    = submitted w ++ [notification self contact ts].
Proof.
  intros Hc Hts Hsrv. unfold outcome, world_after, submitted.
  rewrite send_contact_notification_run, (send_result_delivered _ _ ts) by done.
  split_and!; [done|done|]. cbn [fst smtp_log with_smtp_log]. by rewrite omap_app.
Qed.

(** C6 (send_refused_login): with a complete configuration and a
    stamped message, when the server accepts the connection and STARTTLS
    and refuses the login, the call raises the server's refusal after
    printing the lines of its except clause; the session was opened once
    and left with QUIT, and no message was handed over. *)
Theorem send_refused_login self contact ts w e :
  configured self = true -> ContactMessage.timestamp contact = Some ts ->
  answers (smtp_server w) (smtp_log w)
    [Connect (smtp_host self) (smtp_port self); StartTLS;
     Login (smtp_user self) (smtp_password self); Quit]
    = [None; None; Some e; None] ->
  outcome (EmailService.send_contact_notification self contact) w = inl e /\
  smtp_log (world_after (EmailService.send_contact_notification self contact) w)
    = smtp_log w ++ [Connect (smtp_host self) (smtp_port self); StartTLS;
                     Login (smtp_user self) (smtp_password self); Quit] /\
  attempts (world_after (EmailService.send_contact_notification self contact) w)
    = attempts w + 1 /\
  submitted (world_after (EmailService.send_contact_notification self contact) w)
    = submitted w /\
  error_lines e `suffix_of`
    stdout (world_after (EmailService.send_contact_notification self contact) w).
Proof.
  intros Hc Hts Hsrv. unfold outcome, world_after, submitted, attempts.
  rewrite send_contact_notification_run, (send_result_refused_login _ _ ts _ e) by done.
  cbn [fst snd smtp_log stdout with_smtp_log with_stdout]. split_and!; [done|done| | |].
  - by rewrite attempts_in_app.
  - rewrite omap_app. simpl. by rewrite app_nil_r.
  - unfold refused_login_lines. rewrite !app_assoc. by apply suffix_app_r.
Qed.

(** [send_follows_protocol]: whatever the configuration, the
    contact and the server's answers, the commands one call sends are
    none, or those of one session in protocol order: CONNECT alone when
    it is refused, else STARTTLS, LOGIN and the message up to the first
    refusal, then QUIT. *)
Theorem send_follows_protocol self contact w :
  exists evs,
    smtp_log (world_after (EmailService.send_contact_notification self contact) w)
      = smtp_log w ++ evs /\
    evs ∈ possible_traces self contact.
Proof.
  unfold world_after. rewrite send_contact_notification_run. apply send_result_trace.
Qed.

(** [send_at_most_one_attempt]: one call opens at most one SMTP
    session and hands at most one message to the server: there is no
    retry. *)
Theorem send_at_most_one_attempt self contact w :
  attempts (world_after (EmailService.send_contact_notification self contact) w)
    <= attempts w + 1 /\
  length (submitted (world_after (EmailService.send_contact_notification self contact) w))
    <= length (submitted w) + 1.
Proof.
  unfold world_after, attempts, submitted. rewrite send_contact_notification_run.
  destruct (send_result_trace self contact w) as (evs & -> & Hin).
  apply possible_traces_bounds in Hin.
  rewrite attempts_in_app, omap_app, length_app. lia.
Qed.
End send_theorems.

Section send_theorems_2.
Import EmailService.
Implicit Types (self : EmailService.t) (contact : ContactMessage.t) (w : World).

(** A refusal of QUIT that the context manager swallows. *)
Definition quit_tolerated (answer : option exn) : Prop :=
  match answer with
  | None => True
  | Some e => exn_type_name e = "SMTPServerDisconnected"
  end.

(** [send_login_only_after_tls]: the credentials travel only over
    an upgraded connection: if a call sends a LOGIN at all, the server had
    accepted the connection and STARTTLS just before it, and the LOGIN
    carries the configured user and password. *)
Theorem send_login_only_after_tls self contact w evs user password :
  smtp_log (world_after (EmailService.send_contact_notification self contact) w)
    = smtp_log w ++ evs ->
  Login user password ∈ evs ->
  answers (smtp_server w) (smtp_log w)
    [Connect (smtp_host self) (smtp_port self); StartTLS] = [None; None] /\
  user = smtp_user self /\ password = smtp_password self.
Proof.
  unfold world_after. rewrite send_contact_notification_run.
  unfold send_result, session_result. cbn [dialogue session_steps fmap list_fmap snd answers].
  py_cases; rewrite <-?app_assoc in *; cbn [app] in *;
    intros Hevs Hin;
    first [apply app_self_inv in Hevs | apply (inj (app _)) in Hevs]; subst evs;
    set_unfold in Hin; destruct_or?; simplify_eq;
    split_and!; congruence.
Qed.

(** C32 (send_succeeds_iff): the call returns normally in exactly two
    cases: the configuration is incomplete, or the message is stamped, the
    server accepts CONNECT, STARTTLS, LOGIN and the message, and QUIT is
    accepted or answered by a lost connection.  In every other case it
    raises. *)
Theorem send_succeeds_iff self contact w :
  outcome (EmailService.send_contact_notification self contact) w = inr tt <->
  configured self = false \/
  exists ts, ContactMessage.timestamp contact = Some ts /\
    answers (smtp_server w) (smtp_log w)
      [Connect (smtp_host self) (smtp_port self); StartTLS;
       Login (smtp_user self) (smtp_password self);
       SendMessage (notification self contact ts)] = replicate 4 None /\
    quit_tolerated (smtp_server w (smtp_log w ++ session_events self (notification self contact ts))).
Proof.
  unfold outcome. rewrite send_contact_notification_run.
  unfold send_result, session_result, quit_outcome, quit_tolerated, session_events.
  cbn [dialogue session_steps fmap list_fmap snd answers replicate app].
  destruct (configured self); [|by split; [left|]].
  destruct (ContactMessage.timestamp contact) as [ts|];
    [|split; [done|by intros [|(? & [=] & _)]]].
  py_cases;
    (split; [intros ? | intros [?|(ts0 & ? & Hans & Hq)]]); simplify_eq;
    rewrite <-?app_assoc in *; cbn [app] in *;
    repeat match goal with
      | H : smtp_server _ _ = _ |- _ => rewrite H in *; clear H
      end; simplify_eq; try done;
    right; exists ts; rewrite <-?app_assoc; cbn [app];
    by repeat match goal with H : smtp_server _ _ = _ |- _ => rewrite H; clear H end.
Qed.
End send_theorems_2.

Section send_theorems_3.
Import EmailService.
Implicit Types (self : EmailService.t) (contact : ContactMessage.t) (w : World).

(** C39 (send_unstamped_raises): with a complete configuration, a
    message whose timestamp is absent makes the call raise an
    AttributeError while the body is formatted: after the preamble nothing
    is printed, no session is opened and no except clause runs. *)
Theorem send_unstamped_raises self contact w :
  configured self = true -> ContactMessage.timestamp contact = None ->
  EmailService.send_contact_notification self contact w =
    (with_stdout (stdout w ++ preamble self) w,
     inl (PyException "AttributeError" "'NoneType' object has no attribute 'strftime'")).
Proof.
  intros Hc Hts. rewrite send_contact_notification_run. unfold send_result.
  by rewrite Hc, Hts.
Qed.

(** [send_submits_notification]: a message this call hands to the
    server has the subject prefixed by Portfolio Contact, the configured
    sender and recipient, the contact's address as Reply-To, and one HTML
    part: the template filled with the contact's fields and its timestamp
    printed as year-month-day hour:minute:second UTC. *)
Theorem send_submits_notification self contact w m :
  m ∈ submitted (world_after (EmailService.send_contact_notification self contact) w) ->
  m ∈ submitted w \/
  exists ts, ContactMessage.timestamp contact = Some ts /\
    subtype m = "alternative" /\
    Subject m = "Portfolio Contact: " +:+ ContactMessage.subject contact /\
    From m = email_from self /\ To m = email_to self /\
    Reply_To m = ContactMessage.email contact /\
    payload m =
      [{| text := html_template contact (datetime.strftime "%Y-%m-%d %H:%M:%S UTC" ts);
          text_subtype := "html" |}].
Proof.
  unfold world_after, submitted. rewrite send_contact_notification_run.
  destruct (send_result_trace self contact w) as (evs & -> & Hin).
  rewrite omap_app, elem_of_app. intros [?|Hm]; [by left|right].
  unfold possible_traces, session_traces in Hin.
  destruct (ContactMessage.timestamp contact) as [ts|]; set_unfold in Hin;
    destruct_or?; simplify_eq; set_unfold in Hm; destruct_or?; try done.
  subst m. by exists ts.
Qed.

(** C40 (html_template_embeds_fields): the HTML part holds the
    name, the address, the subject, the message and the time exactly as
    given, character for character: nothing is escaped, and markup inside
    a field arrives as markup. *)
Theorem html_template_embeds_fields contact sent_at :
  Forall (fun field => embeds field (EmailService.html_template contact sent_at))
    [ContactMessage.name contact; ContactMessage.email contact;
     ContactMessage.subject contact; ContactMessage.message contact; sent_at].
Proof. unfold html_template. repeat constructor; solve_embeds. Qed.
End send_theorems_3.

(** ** What the service prints

    The service with its password replaced by a mark that only tells
    whether one was set. *)
Definition redact (self : EmailService.t) : EmailService.t :=
  {| EmailService.smtp_host := EmailService.smtp_host self;
     EmailService.smtp_port := EmailService.smtp_port self;
     EmailService.smtp_user := EmailService.smtp_user self;
     EmailService.smtp_password :=
       if truthy (EmailService.smtp_password self) then Some "*" else None;
     EmailService.email_from := EmailService.email_from self;
     EmailService.email_to := EmailService.email_to self |}.

(** The lines of a call that sent [n] commands and ended with [r]. *)
Definition printed (self : EmailService.t) (contact : ContactMessage.t) (n : nat)
    (r : exn + unit) : list string :=
  preamble self ++
  if negb (EmailService.configured self) then skip_lines self
  else if n is 0 then []
  else "🔌 Connecting to SMTP server..." ::
       take (n - 2) ["🔐 Starting TLS..."; "👤 Logging in..."; "📤 Sending message..."] ++
       match r with
       | inr _ => ["✅ Contact email sent successfully from " +:+ ContactMessage.name contact]
       | inl e => error_lines e
       end.

Section output.
Import EmailService.
Implicit Types (self : EmailService.t) (contact : ContactMessage.t) (w : World).

Lemma truthy_redact self : truthy (smtp_password (redact self)) = truthy (smtp_password self).
Proof. unfold redact. cbn [smtp_password]. by destruct (truthy (smtp_password self)). Qed.

Lemma printed_redact self contact n r :
  printed (redact self) contact n r = printed self contact n r.
Proof.
  unfold printed, preamble, skip_lines, configured.
  rewrite truthy_redact. by cbn [redact smtp_host smtp_port smtp_user email_to].
Qed.

Lemma send_result_output self contact w :
  stdout (send_result self contact w).1 =
    stdout w ++ printed self contact
                  (length (smtp_log (send_result self contact w).1) - length (smtp_log w))
                  (send_result self contact w).2.
Proof.
  unfold send_result, printed, session_result.
  cbn [dialogue session_steps fmap list_fmap snd fst].
  destruct (configured self); cbn [negb]; py_run; [|by rewrite <-app_assoc].
  destruct (ContactMessage.timestamp contact) as [ts|]; py_run;
    [|by rewrite Nat.sub_diag].
  unfold quit_outcome.
  repeat match goal with
    | |- context [match smtp_server ?w0 ?l with _ => _ end] =>
        destruct (smtp_server w0 l) eqn:?; py_run
    | |- context [decide (exn_type_name ?e = ?c)] => destruct (decide (exn_type_name e = c))
    end;
    py_run; rewrite ?length_app; cbn [length];
    repeat match goal with
      | |- context [?a + ?n + ?m - ?a] => replace (a + n + m - a) with (n + m) by lia
      | |- context [?a + ?n - ?a] => replace (a + n - a) with n by lia
      end;
    cbn [take Nat.sub Nat.add app]; rewrite <-?app_assoc; by cbn [app].
Qed.

(** C38 (send_output_hides_password): what a call prints is
    determined by the configuration with its password masked, the
    contact's name, the number of commands the session sent and the error
    or success it ended with: the password itself reaches the printed
    lines by no path of the code. *)
Theorem send_output_hides_password self contact w :
  stdout (world_after (EmailService.send_contact_notification self contact) w) =
    stdout w ++
    printed (redact self) contact
      (length (smtp_log (world_after (EmailService.send_contact_notification self contact) w))
       - length (smtp_log w))
      (outcome (EmailService.send_contact_notification self contact) w).
Proof.
  unfold world_after, outcome.
  by rewrite send_contact_notification_run, printed_redact, send_result_output.
Qed.
End output.

(** ** What the service leaves alone *)
Section send_frame.
Import EmailService.
Implicit Types (self : EmailService.t) (contact : ContactMessage.t).

Lemma html_body_preserves {X} (f : World -> X) contact : preserves f (html_body contact).
Proof. unfold html_body. solve_preserves. Qed.

Section moving.
Context (R : relation World) `{!Moves R}.

Lemma html_body_moves contact : advances R id (html_body contact).
Proof. apply moves_frame, html_body_preserves; apply _. Qed.

Lemma on_send_error_moves e : advances R id (on_send_error e).
Proof. unfold on_send_error. solve_advances. Qed.

(** The service only prints and sends. *)
Lemma send_moves self contact : advances R id (send_contact_notification self contact).
Proof.
  pose proof on_send_error_moves. pose proof html_body_moves.
  unfold send_contact_notification, smtp_session, session_body. solve_advances.
Qed.
End moving.

(** The service never reads what was printed. *)
Section unread.
Context (R : relation World) `{!Unread R}.

Lemma html_body_respects contact : respects R (html_body contact).
Proof. unfold html_body. solve_respects. Qed.

Lemma on_send_error_respects e : respects R (on_send_error e).
Proof. unfold on_send_error. solve_respects. Qed.

Lemma send_respects self contact : respects R (send_contact_notification self contact).
Proof.
  pose proof on_send_error_respects. pose proof html_body_respects.
  unfold send_contact_notification, smtp_session, session_body. solve_respects.
Qed.
End unread.

Lemma on_send_error_preserves_environment e : preserves environment (on_send_error e).
Proof. exact (on_send_error_moves same_environment e). Qed.

Lemma send_preserves_environment self contact :
  preserves environment (send_contact_notification self contact).
Proof. exact (send_moves same_environment self contact). Qed.
End send_frame.

#[export] Hint Resolve html_body_preserves on_send_error_preserves_environment
  send_preserves_environment html_body_moves on_send_error_moves send_moves
  html_body_respects on_send_error_respects send_respects : portfolio.

(** ** The constructor *)
Section init_theorems.
Import EmailService.
Implicit Types (self : EmailService.t) (contact : ContactMessage.t) (w : World).
Implicit Types environ : gmap string string.

Lemma init_fields environ self :
  EmailService.__init__ environ = inr self ->
  smtp_host self = getenv_default environ "SMTP_HOST" "smtp.gmail.com" /\
  py_int (getenv_default environ "SMTP_PORT" "587") = inr (smtp_port self) /\
  smtp_user self = environ !! "SMTP_USER" /\
  smtp_password self = environ !! "SMTP_PASSWORD" /\
  email_from self = environ !! "EMAIL_FROM" /\
  email_to self = environ !! "EMAIL_TO".
Proof. unfold __init__. destruct (py_int _); [done|]. by intros [= <-]. Qed.

(** [init_unset_skips]: a service constructed from an environment
    that lacks SMTP_USER, SMTP_PASSWORD or EMAIL_TO never contacts the
    server: every call returns normally and the server's log is
    unchanged. *)
Theorem init_unset_skips environ self contact w :
  EmailService.__init__ environ = inr self ->
  Exists (fun key => environ !! key = None) ["SMTP_USER"; "SMTP_PASSWORD"; "EMAIL_TO"] ->
  outcome (EmailService.send_contact_notification self contact) w = inr tt /\
  smtp_log (world_after (EmailService.send_contact_notification self contact) w) = smtp_log w.
Proof.
  intros (_ & _ & Hu & Hp & _ & Ht)%init_fields Hmissing.
  unfold outcome, world_after.
  rewrite send_contact_notification_run, send_result_skip; [done|].
  apply configured_false. rewrite Hu, Hp, Ht.
  rewrite !Exists_cons, Exists_nil in Hmissing |- *.
  destruct Hmissing as [->|[->|[->|[]]]]; auto.
Qed.

(** [init_defaults]: without SMTP_HOST and SMTP_PORT in the
    environment the constructor returns a service for smtp.gmail.com on
    port 587; its other fields are the environment's values, absent when
    the variable is. *)
Theorem init_defaults environ :
  environ !! "SMTP_HOST" = None -> environ !! "SMTP_PORT" = None ->
  EmailService.__init__ environ =
    inr (EmailService.mk "smtp.gmail.com" 587 (environ !! "SMTP_USER")
           (environ !! "SMTP_PASSWORD") (environ !! "EMAIL_FROM") (environ !! "EMAIL_TO")).
Proof. intros Hh Hp. unfold __init__, getenv_default, getenv. by rewrite Hh, Hp. Qed.

(** A port that is not a number makes the constructor raise. *)
Example init_port_not_a_number :
  EmailService.__init__ {[ "SMTP_PORT" := "smtp" ]} =
    inl (PyException "ValueError" "invalid literal for int() with base 10: 'smtp'").
Proof. reflexivity. Qed.
End init_theorems.

(** ** The theorems at the fixtures *)
Section send_witnesses.
Import EmailService.

Lemma send_skips_incomplete_witness :
  EmailService.send_contact_notification unconfigured_service sample_contact
    (world_of rejecting_login) =
  (with_stdout (preamble unconfigured_service ++ skip_lines unconfigured_service)
     (world_of rejecting_login), inr tt).
Proof.
  apply (send_skips_incomplete unconfigured_service sample_contact (world_of rejecting_login)).
  by apply Exists_cons_hd.
Defined.

Lemma send_delivers_witness :
  outcome (EmailService.send_contact_notification sample_service sample_contact) sample_world
    = inr tt /\
  smtp_log (world_after (EmailService.send_contact_notification sample_service sample_contact)
              sample_world)
    = smtp_log sample_world ++
      session_events sample_service (notification sample_service sample_contact sample_clock) /\
  submitted (world_after (EmailService.send_contact_notification sample_service sample_contact)
               sample_world)
    = submitted sample_world ++ [notification sample_service sample_contact sample_clock].
Proof.
  by apply (send_delivers sample_service sample_contact sample_clock sample_world).
Defined.

Lemma send_refused_login_witness :
  outcome (EmailService.send_contact_notification sample_service sample_contact)
    (world_of rejecting_login) = inl bad_credentials.
Proof.
  by apply (send_refused_login sample_service sample_contact sample_clock
              (world_of rejecting_login) bad_credentials).
Defined.

Lemma send_login_only_after_tls_witness :
  answers (smtp_server sample_world) (smtp_log sample_world)
    [Connect "smtp.gmail.com" 587; StartTLS] = [None; None] /\
  Some "owner@example.com" = smtp_user sample_service /\
  Some "app-password" = smtp_password sample_service.
Proof.
  apply (send_login_only_after_tls sample_service sample_contact sample_world
           (session_events sample_service
              (notification sample_service sample_contact sample_clock)));
    [done|]. cbn. set_solver.
Defined.

Lemma send_unstamped_raises_witness :
  outcome (EmailService.send_contact_notification sample_service
             (ContactMessage.mk "Jane Doe" "jane@example.com" "Hello" "A long enough text" None))
    sample_world
  = inl (PyException "AttributeError" "'NoneType' object has no attribute 'strftime'").
Proof.
  unfold outcome.
  by rewrite (send_unstamped_raises sample_service
                (ContactMessage.mk "Jane Doe" "jane@example.com" "Hello" "A long enough text" None)
                sample_world).
Defined.

Lemma send_submits_notification_witness :
  Subject (notification sample_service sample_contact sample_clock)
    = "Portfolio Contact: Collaboration Opportunity" /\
  Reply_To (notification sample_service sample_contact sample_clock) = "jane@example.com".
Proof.
  destruct (send_submits_notification sample_service sample_contact sample_world
              (notification sample_service sample_contact sample_clock))
    as [Hin|(ts & _ & _ & HS & _ & _ & HR & _)].
  - apply list_elem_of_singleton. reflexivity.
  - by apply elem_of_nil in Hin.
  - by rewrite HS, HR.
Defined.
End send_witnesses.

Lemma init_unset_skips_witness :
  outcome (EmailService.send_contact_notification unconfigured_service sample_contact)
    (world_of rejecting_login) = inr tt /\
  smtp_log (world_after
              (EmailService.send_contact_notification unconfigured_service sample_contact)
              (world_of rejecting_login)) = [].
Proof.
  apply (init_unset_skips ∅ unconfigured_service sample_contact (world_of rejecting_login));
    [done|by apply Exists_cons_hd].
Defined.

Lemma init_defaults_witness :
  EmailService.__init__ ∅ = inr unconfigured_service.
Proof. exact (init_defaults ∅ (lookup_empty _) (lookup_empty _)). Defined.
