(* ===== verification/ContactUseCase.v ===== *)
(** * The contact use case

    [ContactUseCase] of src/backend/application/use_cases/contact_use_case.py:
    [submit_contact_form] calls the email service and turns whatever the
    service raises into a printed line and the dictionary of a failure.

    The use case is written over the [Notifier] interface; its general
    theorems hold for every service, and those on the number of SMTP
    sessions are proved for [EmailService]. *)

From S2P Require Import Prelude Runtime Domain EmailService.

Set Warnings "-clear-no-such-hyp".

Module ContactUseCase.
Section with_notifier.
Context {S : Type} `{Notifier S}.

Record t := mk { email_service : S }.

Definition __init__ (email_service : S) : t := mk email_service.

(** The two dictionaries the use case returns. *)
Definition success : gmap string string :=
  {[ "status" := "success";
     "message" := "Thank you for your message! I'll get back to you soon." ]}.

Definition failure : gmap string string :=
  {[ "status" := "error";
     "message" := "Failed to send message. Please try again or email directly." ]}.

Definition submit_contact_form (self : t) (contact_message : ContactMessage.t)
  : Py (gmap string string) :=
  try_except
    (notify (email_service self) contact_message ;;
     ret success)%eff
    (fun e =>
       print ("Error sending contact email: " +:+ exn_str e) ;;
       ret failure)%eff.

End with_notifier.
Arguments t S : clear implicits.
End ContactUseCase.

(** ** The run of the use case over any service *)
Section submit_run.
Context {S : Type} `{Notifier S}.
Implicit Types (self : ContactUseCase.t S) (contact : ContactMessage.t) (w : World).

(** The result in closed form: the service's run decides it. *)
Definition submit_result self contact w : World * (exn + gmap string string) :=
  let (w1, r) := notify (ContactUseCase.email_service self) contact w in
  match r with
  | inr _ => (w1, inr ContactUseCase.success)
  | inl e =>
      (with_stdout (stdout w1 ++ ["Error sending contact email: " +:+ exn_str e]) w1,
       inr ContactUseCase.failure)
  end.

Lemma submit_contact_form_run self contact w :
  ContactUseCase.submit_contact_form self contact w = submit_result self contact w.
Proof.
  unfold ContactUseCase.submit_contact_form, submit_result, try_except.
  rewrite (bind_run (notify _ _)).
  destruct (notify _ _ _) as [w1 [e|[]]]; by py_run.
Qed.

Lemma success_ne_failure : ContactUseCase.success <> ContactUseCase.failure.
Proof. intros Heq. by apply (f_equal (fun d => d !! "status")) in Heq. Qed.
End submit_run.

(** The use case changes what its service changes, and what [print] does. *)
Lemma submit_preserves {S} `{Notifier S} {X} (f : World -> X)
    (self : ContactUseCase.t S) (contact : ContactMessage.t) :
  (forall line, preserves f (print line)) ->
  preserves f (notify (ContactUseCase.email_service self) contact) ->
  preserves f (ContactUseCase.submit_contact_form self contact).
Proof. intros Hprint Hnotify. unfold ContactUseCase.submit_contact_form. solve_preserves. Qed.

(** The use case moves the world along any order its service moves it along. *)
Lemma submit_moves {S} `{Notifier S} (R : relation World) `{!Moves R}
    (self : ContactUseCase.t S) (contact : ContactMessage.t) :
  advances R id (notify (ContactUseCase.email_service self) contact) ->
  advances R id (ContactUseCase.submit_contact_form self contact).
Proof. intros Hnotify. unfold ContactUseCase.submit_contact_form. solve_advances. Qed.

(** The use case reads of the printed lines what its service reads: nothing. *)
Lemma submit_respects {S} `{Notifier S} (R : relation World) `{!Unread R}
    (self : ContactUseCase.t S) (contact : ContactMessage.t) :
  respects R (notify (ContactUseCase.email_service self) contact) ->
  respects R (ContactUseCase.submit_contact_form self contact).
Proof. intros Hnotify. unfold ContactUseCase.submit_contact_form. solve_respects. Qed.

#[export] Hint Resolve submit_moves submit_respects : portfolio.

(** ** What every service gives *)
Section submit_theorems.
Context {S : Type} `{Notifier S}.
Implicit Types (self : ContactUseCase.t S) (contact : ContactMessage.t) (w : World).

(** C1 (submit_never_raises): whatever the email service does, the
    use case returns normally, and what it returns is one of its two
    dictionaries: no exception of the service reaches the caller. *)
Theorem submit_never_raises self contact w :
  outcome (ContactUseCase.submit_contact_form self contact) w = inr ContactUseCase.success \/
  outcome (ContactUseCase.submit_contact_form self contact) w = inr ContactUseCase.failure.
Proof.
  unfold outcome. rewrite submit_contact_form_run. unfold submit_result.
  destruct (notify _ _ _) as [w1 [e|[]]]; auto.
Qed.

(** [submit_reports_service]: the use case reports success exactly
    when the service returned, and then the world is the one the service
    left; when the service raised, the use case reports the failure and
    has printed one more line, the error's text after a fixed prefix. *)
Theorem submit_reports_service self contact w :
  match outcome (notify (ContactUseCase.email_service self) contact) w with
  | inr _ =>
      ContactUseCase.submit_contact_form self contact w =
        (world_after (notify (ContactUseCase.email_service self) contact) w,
         inr ContactUseCase.success)
  | inl e =>
      ContactUseCase.submit_contact_form self contact w =
        (with_stdout
           (stdout (world_after (notify (ContactUseCase.email_service self) contact) w) ++
            ["Error sending contact email: " +:+ exn_str e])
           (world_after (notify (ContactUseCase.email_service self) contact) w),
         inr ContactUseCase.failure)
  end.
Proof.
  rewrite submit_contact_form_run. unfold submit_result, outcome, world_after.
  by destruct (notify _ _ _) as [w1 [e|[]]].
Qed.

(** [submit_keeps_server_log]: the use case itself sends nothing:
    the commands the server has received after it are those it had
    received after the service's call. *)
Theorem submit_keeps_server_log self contact w :
  smtp_log (world_after (ContactUseCase.submit_contact_form self contact) w) =
  smtp_log (world_after (notify (ContactUseCase.email_service self) contact) w).
Proof.
  unfold world_after. rewrite submit_contact_form_run. unfold submit_result.
  by destruct (notify _ _ _) as [w1 [e|[]]].
Qed.
End submit_theorems.

(** ** The use case over the SMTP service *)
Section submit_email.
Implicit Types (self : ContactUseCase.t EmailService.t) (contact : ContactMessage.t) (w : World).

Lemma submit_log self contact w :
  smtp_log (world_after (ContactUseCase.submit_contact_form self contact) w) =
  smtp_log (send_result (ContactUseCase.email_service self) contact w).1.
Proof.
  unfold world_after. rewrite submit_contact_form_run. unfold submit_result. cbn [notify EmailService_notifier].
  rewrite send_contact_notification_run.
  by destruct (send_result _ _ _) as [w1 [e|[]]].
Qed.

(** [submit_unconfigured_success]: over a service whose user,
    password or recipient is unset or empty, a submission is answered by
    the success dictionary although the server was sent nothing. *)
Theorem submit_unconfigured_success self contact w :
  EmailService.configured (ContactUseCase.email_service self) = false ->
  outcome (ContactUseCase.submit_contact_form self contact) w = inr ContactUseCase.success /\
  smtp_log (world_after (ContactUseCase.submit_contact_form self contact) w) = smtp_log w.
Proof.
  intros Hc. rewrite submit_log. unfold outcome.
  rewrite submit_contact_form_run. unfold submit_result. cbn [notify EmailService_notifier].
  by rewrite send_contact_notification_run, send_result_skip.
Qed.

(** [submit_rejected_login]: over a configured service and a
    server that refuses the login, a stamped submission is answered by
    the failure dictionary; the server has seen exactly one session, cut
    after the login, no message was handed over, and the last line
    printed is the refusal's text. *)
Theorem submit_rejected_login self contact ts w e :
  EmailService.configured (ContactUseCase.email_service self) = true ->
  ContactMessage.timestamp contact = Some ts ->
  answers (smtp_server w) (smtp_log w)
    (refused_login_events (ContactUseCase.email_service self)) = [None; None; Some e; None] ->
  outcome (ContactUseCase.submit_contact_form self contact) w = inr ContactUseCase.failure /\
  attempts (world_after (ContactUseCase.submit_contact_form self contact) w) = attempts w + 1 /\
  submitted (world_after (ContactUseCase.submit_contact_form self contact) w) = submitted w /\
  last (stdout (world_after (ContactUseCase.submit_contact_form self contact) w)) =
    Some ("Error sending contact email: " +:+ exn_str e).
Proof.
  intros Hc Hts Hsrv. unfold attempts, submitted, outcome, world_after.
  rewrite submit_contact_form_run. unfold submit_result. cbn [notify EmailService_notifier].
  rewrite send_contact_notification_run, (send_result_refused_login _ _ ts _ e) by done.
  cbn [fst snd smtp_log stdout with_smtp_log with_stdout].
  rewrite attempts_in_app, omap_app, last_snoc. simpl. by rewrite app_nil_r.
Qed.

(** [submit_at_most_one_attempt]: a submission opens at most one
    SMTP session and hands at most one message to the server, whatever
    the server answers. *)
Theorem submit_at_most_one_attempt self contact w :
  attempts (world_after (ContactUseCase.submit_contact_form self contact) w)
    <= attempts w + 1 /\
  length (submitted (world_after (ContactUseCase.submit_contact_form self contact) w))
    <= length (submitted w) + 1.
Proof.
  unfold attempts, submitted. rewrite submit_log.
  destruct (send_result_trace (ContactUseCase.email_service self) contact w)
    as (evs & -> & Hin).
  apply possible_traces_bounds in Hin.
  rewrite attempts_in_app, omap_app, length_app. lia.
Qed.
End submit_email.

(** ** The theorems at the fixtures *)
Definition contact_use_case : ContactUseCase.t EmailService.t :=
  ContactUseCase.__init__ sample_service.

Lemma submit_unconfigured_success_witness :
  outcome (ContactUseCase.submit_contact_form
             (ContactUseCase.__init__ unconfigured_service) sample_contact)
    (world_of rejecting_login) = inr ContactUseCase.success /\
  smtp_log (world_after
              (ContactUseCase.submit_contact_form
                 (ContactUseCase.__init__ unconfigured_service) sample_contact)
              (world_of rejecting_login)) = [].
Proof.
  by apply (submit_unconfigured_success (ContactUseCase.__init__ unconfigured_service)
              sample_contact (world_of rejecting_login)).
Defined.

Lemma submit_rejected_login_witness :
  outcome (ContactUseCase.submit_contact_form contact_use_case sample_contact)
    (world_of rejecting_login) = inr ContactUseCase.failure /\
  attempts (world_after (ContactUseCase.submit_contact_form contact_use_case sample_contact)
              (world_of rejecting_login)) = 1 /\
  submitted (world_after (ContactUseCase.submit_contact_form contact_use_case sample_contact)
               (world_of rejecting_login)) = [] /\
  last (stdout (world_after (ContactUseCase.submit_contact_form contact_use_case sample_contact)
                  (world_of rejecting_login))) =
    Some "Error sending contact email: (535, b'5.7.8 Username and Password not accepted')".
Proof.
  by apply (submit_rejected_login contact_use_case sample_contact sample_clock
              (world_of rejecting_login) bad_credentials).
Defined.
