(* ===== verification/Routes.v ===== *)
(** * The routes

    The handlers of src/backend/presentation/api/routes: [ContactRoute]
    for contact.py, [ProjectsRoute] for projects.py and [ResumeRoute] for
    resume.py.  A handler is a computation that returns the value the
    source returns or raises the [HTTPException] the source raises; the
    objects the modules construct at import (the repository, the email
    service and the two use cases) are the handlers' first argument.

    The contact route is written over [ContactForm], what it calls of its
    use case, so that its exception handling is stated for every use case
    and its unreachable branch is shown for the real one. *)

From S2P Require Import Prelude Runtime Domain Repository ProjectUseCase EmailService ContactUseCase.

Set Warnings "-clear-no-such-hyp".

(** ** What the contact route calls of its use case *)
Class ContactForm (U : Type) := {
  submit : U -> ContactMessage.t -> Py (gmap string string)
}.

#[export] Instance ContactUseCase_form {S} `{Notifier S} : ContactForm (ContactUseCase.t S) := {|
  submit := ContactUseCase.submit_contact_form
|}.

(** ** routes/contact.py *)
Module ContactRoute.

(** The objects of lines 13 and 14, from the process environment. *)
Definition contact_use_case (environ : gmap string string)
  : exn + ContactUseCase.t EmailService.t :=
  match EmailService.__init__ environ with
  | inl e => inl e
  | inr email_service => inr (ContactUseCase.__init__ email_service)
  end.

Section with_form.
Context {U : Type} `{ContactForm U}.

Definition unexpected : exn :=
  HTTPException 500 "An unexpected error occurred. Please try again later.".

Definition submit_contact_form (contact_use_case : U) (contact : ContactMessage.t)
  : Py (gmap string string) :=
  try_except
    (result <- submit contact_use_case contact ;;
     status <- dict_getitem result "status" ;;
     if decide (status = "error") then
       detail <- dict_getitem result "message" ;;
       raise (HTTPException 500 detail)
     else ret result)%eff
    (fun e => if is_HTTPException e then raise e else raise unexpected).

End with_form.
End ContactRoute.

(** ** routes/projects.py *)
Module ProjectsRoute.

(** The objects of lines 14 and 15. *)
Definition project_use_case : ProjectUseCase.t ProjectRepository.t :=
  ProjectUseCase.__init__ ProjectRepository.__init__.

Section with_store.
Context {R : Type} `{ProjectStore R}.

Definition get_all_projects (project_use_case : ProjectUseCase.t R) : Py (list Project.t) :=
  ret (ProjectUseCase.get_all_projects project_use_case).

Definition get_featured_projects (project_use_case : ProjectUseCase.t R)
  : Py (list Project.t) :=
  ret (ProjectUseCase.get_featured_projects project_use_case).

Definition get_project (project_use_case : ProjectUseCase.t R) (project_id : string)
  : Py Project.t :=
  match ProjectUseCase.get_project_by_id project_use_case project_id with
  | None => raise (HTTPException 404 "Project not found")
  | Some project => ret project
  end.

End with_store.
End ProjectsRoute.

(** ** routes/resume.py *)
Module ResumeRoute.

Definition RESUME_PATH : string := "static/resumes/Liam_Nguyen_Resume.pdf".

Definition get_resume_metadata : Py (gmap string json) :=
  (found <- path_exists ;;
   if negb found then
     ret ({[ "available" := JBool false;
             "filename" := JStr "Liam_Nguyen_Resume.pdf";
             "message" := JStr "Resume file not uploaded yet" ]} : gmap string json)
   else
     file_size <- getsize ;;
     modified_time <- getmtime ;;
     ret ({[ "available" := JBool true;
             "filename" := JStr "Liam_Nguyen_Resume.pdf";
             "size_kb" := JDecimal (round_kb file_size) 2;
             "last_updated" := JDecimal modified_time 0;
             "download_url" := JStr "/api/v1/resume/download" ]} : gmap string json))%eff.

Definition download_resume : Py FileResponse :=
  (found <- path_exists ;;
   if negb found then
     raise (HTTPException 404
              "Resume file not found. Please contact the site administrator.")
   else
     ret {| path := RESUME_PATH;
            filename := "Liam_Nguyen_Resume.pdf";
            media_type := "application/pdf" |})%eff.

End ResumeRoute.

(** ** The contact route over any use case *)
Section contact_route.
Context {U : Type} `{ContactForm U}.
Implicit Types (uc : U) (contact : ContactMessage.t) (w : World).

(** The route's result in closed form, from the use case's run. *)
Definition contact_result uc contact w : World * (exn + gmap string string) :=
  let (w1, r) := submit uc contact w in
  (w1,
   match r with
   | inl e => inl (if is_HTTPException e then e else ContactRoute.unexpected)
   | inr result =>
       match result !! "status" with
       | None => inl ContactRoute.unexpected
       | Some status =>
           if decide (status = "error") then
             match result !! "message" with
             | Some detail => inl (HTTPException 500 detail)
             | None => inl ContactRoute.unexpected
             end
           else inr result
       end
   end).

Lemma contact_route_run uc contact w :
  ContactRoute.submit_contact_form uc contact w = contact_result uc contact w.
Proof.
  unfold ContactRoute.submit_contact_form, contact_result, try_except, dict_getitem.
  rewrite (bind_run (submit _ _)).
  destruct (submit _ _ _) as [w1 [e|result]]; py_run; [by destruct (is_HTTPException e)|].
  destruct (result !! "status") as [status|]; py_run; [|done].
  destruct (decide _); py_run; [|done].
  by destruct (result !! "message"); py_run.
Qed.
End contact_route.

(** ** The resume routes in closed form *)
Section resume_route.
Implicit Types (w : World) (st : file_stat).

Definition unavailable : gmap string json :=
  {[ "available" := JBool false;
     "filename" := JStr "Liam_Nguyen_Resume.pdf";
     "message" := JStr "Resume file not uploaded yet" ]}.

Definition available st : gmap string json :=
  {[ "available" := JBool true;
     "filename" := JStr "Liam_Nguyen_Resume.pdf";
     "size_kb" := JDecimal (round_kb (st_size st)) 2;
     "last_updated" := JDecimal (st_mtime st) 0;
     "download_url" := JStr "/api/v1/resume/download" ]}.

Lemma get_resume_metadata_run w :
  ResumeRoute.get_resume_metadata w =
    (w, inr (match resume_file w with Some st => available st | None => unavailable end)).
Proof.
  unfold ResumeRoute.get_resume_metadata, getsize, getmtime. py_run.
  destruct (resume_file w) eqn:Hf; py_run; [|done]. rewrite Hf. py_run. by rewrite Hf.
Qed.

Lemma download_resume_run w :
  ResumeRoute.download_resume w =
    (w, match resume_file w with
        | Some _ => inr {| path := ResumeRoute.RESUME_PATH;
                           filename := "Liam_Nguyen_Resume.pdf";
                           media_type := "application/pdf" |}
        | None => inl (HTTPException 404
                         "Resume file not found. Please contact the site administrator.")
        end).
Proof.
  unfold ResumeRoute.download_resume. py_run. destruct (resume_file w); by py_run.
Qed.
End resume_route.

(** ** The contact route's exception handling *)
Section contact_theorems.
Context {U : Type} `{ContactForm U}.
Implicit Types (uc : U) (contact : ContactMessage.t) (w : World).

(** [contact_route_raises_http]: over any use case, what the
    contact route raises is an HTTPException: the one the use case raised,
    or one of status 500; and what it returns is the use case's dictionary,
    whose status is not the error status. *)
Theorem contact_route_raises_http uc contact w :
  match outcome (ContactRoute.submit_contact_form uc contact) w with
  | inl e =>
      is_HTTPException e = true /\
      (outcome (submit uc contact) w = inl e \/ exists detail, e = HTTPException 500 detail)
  | inr result =>
      outcome (submit uc contact) w = inr result /\
      exists status, result !! "status" = Some status /\ status <> "error"
  end.
Proof.
  unfold outcome. rewrite contact_route_run. unfold contact_result, ContactRoute.unexpected.
  destruct (submit uc contact w) as [w1 [e|result]]; cbn [snd].
  - destruct e; cbn [is_HTTPException]; eauto.
  - repeat case_match; simplify_eq; eauto.
Qed.

(** [contact_route_keeps_world]: the contact route adds no effect
    of its own: the world after it is the world after the use case. *)
Theorem contact_route_keeps_world uc contact w :
  world_after (ContactRoute.submit_contact_form uc contact) w =
  world_after (submit uc contact) w.
Proof.
  unfold world_after. rewrite contact_route_run. unfold contact_result.
  by destruct (submit uc contact w).
Qed.
End contact_theorems.

(** ** The contact route over the contact use case *)
Section contact_over_use_case.
Context {S : Type} `{Notifier S}.
Implicit Types (uc : ContactUseCase.t S) (contact : ContactMessage.t) (w : World).

Definition delivery_failed : exn :=
  HTTPException 500 "Failed to send message. Please try again or email directly.".

Lemma contact_route_over_use_case_run uc contact w :
  ContactRoute.submit_contact_form uc contact w =
    let (w1, r) := submit_result uc contact w in
    (w1, if decide (r = inr ContactUseCase.success) then r else inl delivery_failed).
Proof.
  rewrite contact_route_run. unfold contact_result. cbn [submit ContactUseCase_form].
  rewrite submit_contact_form_run. unfold submit_result.
  by destruct (notify _ _ _) as [w1 [e|[]]].
Qed.

(** C8 (contact_route_maps_failure): over the contact use case,
    whatever the email service does, the route returns the success
    dictionary when the service returned and raises the HTTPException of
    status 500 carrying the use case's failure message when the service
    raised; the generic clause of the route is never taken. *)
Theorem contact_route_maps_failure uc contact w :
  outcome (ContactRoute.submit_contact_form uc contact) w =
    match outcome (notify (ContactUseCase.email_service uc) contact) w with
    | inr _ => inr ContactUseCase.success
    | inl _ => inl delivery_failed
    end.
Proof.
  unfold outcome. rewrite contact_route_over_use_case_run. unfold submit_result.
  by destruct (notify _ _ _) as [w1 [e|[]]].
Qed.
End contact_over_use_case.

(** ** The projects routes *)
Section projects_theorems.
Context {R : Type} `{ProjectStore R}.
Implicit Types (uc : ProjectUseCase.t R) (w : World).

(** [get_project_returns_or_404]: the project route answers an
    identifier with the first listed project that carries it, and raises
    the HTTPException of status 404 exactly when no listed project does;
    it changes nothing in the world. *)
Theorem get_project_returns_or_404 uc project_id w :
  world_after (ProjectsRoute.get_project uc project_id) w = w /\
  match outcome (ProjectsRoute.get_project uc project_id) w with
  | inr project =>
      Project.id project = project_id /\
      project ∈ ProjectUseCase.get_all_projects uc
  | inl e =>
      e = HTTPException 404 "Project not found" /\
      forall project, project ∈ ProjectUseCase.get_all_projects uc ->
                      Project.id project <> project_id
  end.
Proof.
  unfold world_after, outcome, ProjectsRoute.get_project,
    ProjectUseCase.get_project_by_id, ProjectUseCase.get_all_projects.
  rewrite store_get_by_id_first.
  destruct (head _) as [p|] eqn:Hhead; (split; [done|]); cbn [snd ret raise].
  - by apply (head_filter_Some (fun q => Project.id q = project_id)) in Hhead.
  - split; [done|]. by apply (head_filter_None (fun q => Project.id q = project_id)).
Qed.

(** [featured_route_sublist]: the featured route lists exactly the
    projects of the full route whose flag is set, in the same order, and
    neither route changes the world. *)
Theorem featured_route_sublist uc w :
  ProjectsRoute.get_featured_projects uc w =
    (w, inr (filter (fun p => Project.featured p = true)
               (ProjectUseCase.get_all_projects uc))) /\
  ProjectsRoute.get_all_projects uc w = (w, inr (ProjectUseCase.get_all_projects uc)).
Proof.
  unfold ProjectsRoute.get_featured_projects, ProjectsRoute.get_all_projects,
    ProjectUseCase.get_featured_projects, ProjectUseCase.get_all_projects.
  by rewrite store_get_featured_filter.
Qed.
End projects_theorems.

(** ** The resume routes *)
Section resume_theorems.
Implicit Types (w : World) (st : file_stat).

(** C10 (resume_routes_agree): the metadata route never raises and
    changes nothing; it reports the file as available exactly when the
    download route returns the file, and as unavailable exactly when the
    download route raises the HTTPException of status 404. *)
Theorem resume_routes_agree w :
  world_after ResumeRoute.get_resume_metadata w = w /\
  world_after ResumeRoute.download_resume w = w /\
  exists metadata,
    outcome ResumeRoute.get_resume_metadata w = inr metadata /\
    match outcome ResumeRoute.download_resume w with
    | inr response =>
        metadata !! "available" = Some (JBool true) /\
        path response = ResumeRoute.RESUME_PATH /\
        media_type response = "application/pdf"
    | inl e =>
        metadata !! "available" = Some (JBool false) /\
        exists detail, e = HTTPException 404 detail
    end.
Proof.
  unfold world_after, outcome. rewrite get_resume_metadata_run, download_resume_run.
  split_and!; [done|done|].
  destruct (resume_file w); eexists; (split; [done|]); cbn [snd]; split_and?; by eauto.
Qed.

(** C37 (resume_size_kb_rounds): when the file exists, the metadata
    gives its size in kilobytes as a decimal with two places that differs
    from the exact quotient of the size by 1024 by at most half a
    hundredth, and the file's modification time unchanged. *)
Theorem resume_size_kb_rounds w st :
  resume_file w = Some st ->
  exists hundredths,
    outcome ResumeRoute.get_resume_metadata w = inr (available st) /\
    available st !! "size_kb" = Some (JDecimal hundredths 2) /\
    available st !! "last_updated" = Some (JDecimal (st_mtime st) 0) /\
    (Z.abs (1024 * hundredths - 100 * Z.of_N (st_size st)) <= 512)%Z.
Proof.
  intros Hf. exists (round_kb (st_size st)). unfold outcome.
  rewrite get_resume_metadata_run, Hf. split_and!; [done|done|done|].
  pose proof (round_half_even_near (100 * Z.of_N (st_size st)) 1024). unfold round_kb. lia.
Qed.

(** [resume_size_kb_monotone]: a larger file is never reported
    smaller, and a whole number of kilobytes is reported exactly. *)
Theorem resume_size_kb_monotone (n m : N) (k : Z) :
  (n <= m)%N ->
  (round_kb n <= round_kb m)%Z /\
  (0 <= k -> round_kb (Z.to_N (1024 * k)) = 100 * k)%Z.
Proof.
  intros Hle. unfold round_kb. split.
  - apply round_half_even_mono; lia.
  - intros Hk. rewrite Z2N.id by lia.
    replace (100 * (1024 * k))%Z with ((100 * k) * 1024)%Z by lia.
    by apply round_half_even_exact.
Qed.
End resume_theorems.

(** ** What the routes leave alone *)
Section route_frames.
Context {X : Type} (f : World -> X).

Lemma contact_route_preserves {U} `{ContactForm U} (uc : U) (contact : ContactMessage.t) :
  preserves f (submit uc contact) ->
  preserves f (ContactRoute.submit_contact_form uc contact).
Proof. intros Hsubmit. unfold ContactRoute.submit_contact_form. solve_preserves. Qed.

Lemma get_project_preserves {R} `{ProjectStore R} (uc : ProjectUseCase.t R) project_id :
  preserves f (ProjectsRoute.get_project uc project_id).
Proof. unfold ProjectsRoute.get_project. solve_preserves. Qed.

Lemma get_resume_metadata_preserves : preserves f ResumeRoute.get_resume_metadata.
Proof. intros w. unfold world_after. by rewrite get_resume_metadata_run. Qed.

Lemma download_resume_preserves : preserves f ResumeRoute.download_resume.
Proof. intros w. unfold world_after. by rewrite download_resume_run. Qed.
End route_frames.

#[export] Hint Resolve contact_route_preserves get_project_preserves
  get_resume_metadata_preserves download_resume_preserves : portfolio.

(** ** The routes move the world along what their use cases move it along *)
Section route_moves.
Context (R : relation World) `{!Moves R}.

Lemma contact_route_moves {U} `{ContactForm U} (uc : U) (contact : ContactMessage.t) :
  advances R id (submit uc contact) ->
  advances R id (ContactRoute.submit_contact_form uc contact).
Proof. intros Hsubmit. unfold ContactRoute.submit_contact_form. solve_advances. Qed.

Lemma get_project_moves {S} `{ProjectStore S} (uc : ProjectUseCase.t S) project_id :
  advances R id (ProjectsRoute.get_project uc project_id).
Proof. apply moves_frame, get_project_preserves; apply _. Qed.

Lemma get_resume_metadata_moves : advances R id ResumeRoute.get_resume_metadata.
Proof. apply moves_frame, get_resume_metadata_preserves; apply _. Qed.

Lemma download_resume_moves : advances R id ResumeRoute.download_resume.
Proof. apply moves_frame, download_resume_preserves; apply _. Qed.
End route_moves.

(** ** The routes never read what was printed *)
Section route_respects.
Context (R : relation World) `{!Unread R}.

Lemma contact_route_respects {U} `{ContactForm U} (uc : U) (contact : ContactMessage.t) :
  respects R (submit uc contact) ->
  respects R (ContactRoute.submit_contact_form uc contact).
Proof. intros Hsubmit. unfold ContactRoute.submit_contact_form. solve_respects. Qed.

Lemma get_project_respects {S} `{ProjectStore S} (uc : ProjectUseCase.t S) project_id :
  respects R (ProjectsRoute.get_project uc project_id).
Proof. unfold ProjectsRoute.get_project. solve_respects. Qed.

Lemma get_resume_metadata_respects : respects R ResumeRoute.get_resume_metadata.
Proof. unfold ResumeRoute.get_resume_metadata. solve_respects. Qed.

Lemma download_resume_respects : respects R ResumeRoute.download_resume.
Proof. unfold ResumeRoute.download_resume. solve_respects. Qed.
End route_respects.

#[export] Hint Resolve contact_route_moves get_project_moves get_resume_metadata_moves
  download_resume_moves contact_route_respects get_project_respects
  get_resume_metadata_respects download_resume_respects : portfolio.

(** ** The theorems at the fixtures *)
Definition resume_world (st : file_stat) : World :=
  {| stdout := []; clock := sample_clock; smtp_server := fun _ => None; smtp_log := [];
     resume_file := Some st |}.

(** A file of 128 bytes is an eighth of a kilobyte: the tie goes to the
    even hundredth, 0.12. *)
Lemma resume_size_kb_rounds_witness :
  exists hundredths,
    outcome ResumeRoute.get_resume_metadata
      (resume_world {| st_size := 128; st_mtime := 1700000000 |})
    = inr (available {| st_size := 128; st_mtime := 1700000000 |}) /\
    available {| st_size := 128; st_mtime := 1700000000 |} !! "size_kb"
    = Some (JDecimal hundredths 2) /\
    available {| st_size := 128; st_mtime := 1700000000 |} !! "last_updated"
    = Some (JDecimal 1700000000 0) /\
    (Z.abs (1024 * hundredths - 100 * 128) <= 512)%Z.
Proof.
  by apply (resume_size_kb_rounds (resume_world {| st_size := 128; st_mtime := 1700000000 |})).
Defined.

Lemma resume_size_kb_monotone_witness :
  (round_kb 128 <= round_kb 129)%Z /\ (0 <= 3 -> round_kb (Z.to_N (1024 * 3)) = 100 * 3)%Z.
Proof. apply (resume_size_kb_monotone 128 129 3). lia. Defined.
