(* ===== verification/App.v ===== *)
(** * The application

    src/backend/main.py: the lifespan's two lines, the allowed origins
    read from the environment, the route table in the order main.py and
    the routers declare it, and the two health endpoints.

    [dispatch] and [handle] add what the framework does around the
    handlers, as far as the table's meaning depends on it: its own
    documentation pages come first, routes are tried in order, a path
    that matches under another method is answered 405, a path that
    matches after adding or removing a final slash is redirected, a
    request body is validated before the handler runs, and an
    [HTTPException] becomes a response of its status.  These rules are the
    framework's; they are stated here as this development assumes them
    and are not derived from the sources. *)

From S2P Require Import Prelude Runtime Domain Repository ProjectUseCase EmailService ContactUseCase Routes.

Set Warnings "-clear-no-such-hyp".

Module App.

(** The lifespan: a line at startup, a line at shutdown when serving ends
    normally. *)
Definition lifespan {A} (serving : Py A) : Py A :=
  (print "🚀 Portfolio API starting up..." ;;
   x <- serving ;;
   print "👋 Portfolio API shutting down..." ;;
   ret x)%eff.

(** The allowed origins of line 38. *)
Definition origins (environ : gmap string string) : list string :=
  split "," (getenv_default environ "ALLOWED_ORIGINS" "http://localhost:3000").

Definition root : Py (gmap string json) :=
  ret ({[ "message" := JStr "Liam T. Nguyen Portfolio API";
          "status" := JStr "operational";
          "version" := JStr "1.0.0" ]} : gmap string json).

Definition health_check : Py (gmap string json) :=
  ret ({[ "status" := JStr "healthy";
          "api_version" := JStr "1.0.0" ]} : gmap string json).

(** The handlers a route can name. *)
Inductive endpoint :=
  | SubmitContactForm | GetAllProjects | GetFeaturedProjects | GetProject
  | GetResumeMetadata | DownloadResume | Root | HealthCheck.

#[global] Instance endpoint_eq_dec : EqDecision endpoint.
Proof. solve_decision. Defined.

Record route := {
  methods : list string;
  path_format : string;
  endpoint_of : endpoint
}.

(** The decorators of the three routers, in the order of their files. *)
Definition contact_router : list route :=
  [{| methods := ["POST"]; path_format := "/contact"; endpoint_of := SubmitContactForm |}].

Definition projects_router : list route :=
  [{| methods := ["GET"]; path_format := "/projects"; endpoint_of := GetAllProjects |};
   {| methods := ["GET"]; path_format := "/projects/featured";
      endpoint_of := GetFeaturedProjects |};
   {| methods := ["GET"]; path_format := "/projects/{project_id}";
      endpoint_of := GetProject |}].

Definition resume_router : list route :=
  [{| methods := ["GET"]; path_format := "/resume/metadata";
      endpoint_of := GetResumeMetadata |};
   {| methods := ["GET"]; path_format := "/resume/download";
      endpoint_of := DownloadResume |}].

(** [app.include_router(router, prefix=...)] *)
Definition include_router (router : list route) (prefix : string) : list route :=
  (fun r => {| methods := methods r; path_format := prefix +:+ path_format r;
               endpoint_of := endpoint_of r |}) <$> router.

(** An entry of the application's table: a mounted directory or a route. *)
Inductive entry :=
  | Mount (prefix : string) (directory : string)
  | Route (r : route).

(** The table in the order main.py builds it: the mount, the three
    routers under their prefix, the two health endpoints. *)
Definition routes : list entry :=
  Mount "/static" "static" ::
  (Route <$> include_router contact_router "/api/v1" ++
             include_router projects_router "/api/v1" ++
             include_router resume_router "/api/v1" ++
             [{| methods := ["GET"]; path_format := "/"; endpoint_of := Root |};
              {| methods := ["GET"]; path_format := "/health"; endpoint_of := HealthCheck |}]).

(** The application's objects: the two use cases the routers construct at
    import and the origins of the CORS middleware. *)
Record t := mk {
  contact_use_case : ContactUseCase.t EmailService.t;
  project_use_case : ProjectUseCase.t ProjectRepository.t;
  allow_origins : list string
}.

(** Importing main.py: it fails when the email service's constructor does. *)
Definition app (environ : gmap string string) : exn + t :=
  match ContactRoute.contact_use_case environ with
  | inl e => inl e
  | inr contact_use_case =>
      inr {| contact_use_case := contact_use_case;
             project_use_case := ProjectsRoute.project_use_case;
             allow_origins := origins environ |}
  end.

(** What the import sees of the file system: the names that exist, each
    a directory or a regular file. *)
Inductive fs_entry := Dir | File.

#[global] Instance fs_entry_eq_dec : EqDecision fs_entry.
Proof. solve_decision. Defined.

(** The path itself after the paths of its parents, the outermost first. *)
Definition prefixes (path : string) : list string :=
  (fun n => join "/" (take n (split "/" path))) <$> seq 1 (length (split "/" path)).

(** [os.makedirs(path, exist_ok=True)]: what exists as a directory is
    kept, what is missing is created, and a regular file in the way is an
    error: of the path itself [FileExistsError], of a parent the
    [NotADirectoryError] of the directory to be created below it. *)
Fixpoint makedirs_go (paths : list string) (fs : gmap string fs_entry)
    : exn + gmap string fs_entry :=
  match paths with
  | [] => inr fs
  | path :: rest =>
      match fs !! path, rest with
      | Some File, [] => inl (PyException "FileExistsError" ("[Errno 17] File exists: '" +:+ path +:+ "'"))
      | Some File, child :: _ =>
          inl (PyException "NotADirectoryError" ("[Errno 20] Not a directory: '" +:+ child +:+ "'"))
      | Some Dir, _ => makedirs_go rest fs
      | None, _ => makedirs_go rest (<[path := Dir]> fs)
      end
  end.

Definition makedirs (path : string) (fs : gmap string fs_entry) : exn + gmap string fs_entry :=
  makedirs_go (prefixes path) fs.

(** [StaticFiles(directory=...)]: the directory must exist. *)
Definition StaticFiles_init (directory : string) (fs : gmap string fs_entry) : exn + unit :=
  if decide (fs !! directory = Some Dir) then inr tt
  else inl (PyException "RuntimeError" ("Directory '" +:+ directory +:+ "' does not exist")).

(** Lines 48 and 49: the directory of the resumes is created, then the
    directory above it is mounted. *)
Definition mount_static (fs : gmap string fs_entry) : exn + gmap string fs_entry :=
  match makedirs "static/resumes" fs with
  | inl e => inl e
  | inr fs' =>
      match StaticFiles_init "static" fs' with
      | inl e => inl e
      | inr _ => inr fs'
      end
  end.

(** [load_dotenv()] of lines 5 to 8: the variables of the [.env] file are
    added to the process environment; a variable the process already has
    keeps its value. *)
Definition load_dotenv (dotenv environ : gmap string string) : gmap string string :=
  environ ∪ dotenv.

(** main.py from its first line: the environment is completed, then the
    routers are imported and construct their objects. *)
Definition main (dotenv environ : gmap string string) : exn + t :=
  app (load_dotenv dotenv environ).

End App.

(** ** The framework around the handlers *)

(** A segment of a path format: literal text or a parameter in braces. *)
Inductive segment :=
  | Lit (s : string)
  | Param (name : string).

#[export] Instance segment_eq_dec : EqDecision segment.
Proof. solve_decision. Defined.

Definition segment_of (s : string) : segment :=
  match s with
  | String "{" rest =>
      match String.rev rest with
      | String "}" name => Param (String.rev name)
      | _ => Lit s
      end
  | _ => Lit s
  end.

Definition compile (path_format : string) : list segment :=
  segment_of <$> split "/" path_format.

(** A parameter matches one segment that is not empty; the parameters are
    returned with their values. *)
Fixpoint match_segments (pattern : list segment) (segments : list string)
    : option (list (string * string)) :=
  match pattern, segments with
  | [], [] => Some []
  | Lit s :: pattern', seg :: segments' =>
      if decide (s = seg) then match_segments pattern' segments' else None
  | Param name :: pattern', seg :: segments' =>
      if decide (seg = "") then None
      else cons (name, seg) <$> match_segments pattern' segments'
  | _, _ => None
  end.

(** A mount matches every path below its prefix and keeps the rest. *)
Fixpoint match_prefix (prefix segments : list string) : option (list string) :=
  match prefix, segments with
  | [], rest => if decide (rest = []) then None else Some rest
  | p :: prefix', seg :: segments' =>
      if decide (p = seg) then match_prefix prefix' segments' else None
  | _ :: _, [] => None
  end.

Record request := {
  method : string;
  url_path : string;
  origin : option string;
  json_body : option (gmap string pyval)
}.

(** An entry with its path compiled, as the framework keeps it. *)
Inductive compiled :=
  | CMount (prefix : list string) (directory : string)
  | CRoute (methods : list string) (pattern : list segment) (e : App.endpoint)
  | CPage (methods : list string) (pattern : list segment) (page : string).

Definition compile_entry (en : App.entry) : compiled :=
  match en with
  | App.Mount prefix directory => CMount (split "/" prefix) directory
  | App.Route r => CRoute (App.methods r) (compile (App.path_format r)) (App.endpoint_of r)
  end.

(** What one entry says of a request. *)
Inductive matching :=
  | NoMatch
  | Partial                                                  (* the path, not the method *)
  | Full (e : App.endpoint) (params : list (string * string))
  | FullMount (directory : string) (rest : list string)
  | FullPage (page : string).

Definition matches (en : compiled) (meth : string) (segments : list string) : matching :=
  match en with
  | CMount prefix directory =>
      match match_prefix prefix segments with
      | Some rest => FullMount directory rest
      | None => NoMatch
      end
  | CRoute methods pattern e =>
      match match_segments pattern segments with
      | Some params => if decide (meth ∈ methods) then Full e params else Partial
      | None => NoMatch
      end
  | CPage methods pattern page =>
      match match_segments pattern segments with
      | Some _ => if decide (meth ∈ methods) then FullPage page else Partial
      | None => NoMatch
      end
  end.

(** Where a request goes. *)
Inductive target :=
  | Endpoint (e : App.endpoint) (params : list (string * string))
  | StaticFiles (directory : string) (rest : list string)
  | Documentation (page : string)
  | MethodNotAllowed
  | RedirectSlashes (location : string)
  | NotFound.

(** The first full match, remembering whether a path matched under
    another method. *)
Fixpoint first_match (table : list compiled) (meth : string) (segments : list string)
    (partial : bool) : target + bool :=
  match table with
  | [] => inr partial
  | en :: table' =>
      match matches en meth segments with
      | Full e params => inl (Endpoint e params)
      | FullMount directory rest => inl (StaticFiles directory rest)
      | FullPage page => inl (Documentation page)
      | Partial => first_match table' meth segments true
      | NoMatch => first_match table' meth segments partial
      end
  end.

(** [path.rstrip("/")] *)
Fixpoint rstrip_slash (s : string) : string :=
  match s with
  | EmptyString => EmptyString
  | String a s' =>
      match rstrip_slash s' with
      | EmptyString => if decide (a = "/"%char) then EmptyString else String a EmptyString
      | r => String a r
      end
  end.

Definition ends_with_slash (s : string) : bool :=
  if String.rev s is String "/" _ then true else false.

Definition dispatch (table : list compiled) (meth path : string) : target :=
  match first_match table meth (split "/" path) false with
  | inl t => t
  | inr true => MethodNotAllowed
  | inr false =>
      let redirect := if ends_with_slash path then rstrip_slash path else path +:+ "/" in
      if decide (path = "/") then NotFound
      else if existsb (fun en => if matches en meth (split "/" redirect) is NoMatch
                                 then false else true) table
      then RedirectSlashes redirect
      else NotFound
  end.

(** The pages the framework serves by default: the schema and the two
    documentation pages, registered when the application is created. *)
Definition documentation : list compiled :=
  (fun page => CPage ["GET"; "HEAD"] (compile page) page) <$>
  ["/openapi.json"; "/docs"; "/docs/oauth2-redirect"; "/redoc"].

(** The application's whole table: the framework's pages, then the
    entries of main.py. *)
Definition table : list compiled := documentation ++ (compile_entry <$> App.routes).

(** ** Responses *)
Inductive content :=
  | ProjectList (projects : list Project.t)
  | ProjectItem (project : Project.t)
  | StrDict (d : gmap string string)
  | JsonDict (d : gmap string json)
  | FileContent (file : FileResponse)
  | StaticFile (path : string)
  | Detail (detail : string)
  | ValidationDetail (errors : list (string * string))
  | Redirect (location : string)
  | Page (page : string)
  | InternalServerError.

Record response := {
  status : nat;
  body : content;
  access_control_allow_origin : option string
}.

(** The framework's exception handlers: an [HTTPException] is answered
    with its status and detail, anything else with 500. *)
Definition respond (r : exn + content) : nat * content :=
  match r with
  | inr c => (200, c)
  | inl (HTTPException status_code detail) => (status_code, Detail detail)
  | inl _ => (500, InternalServerError)
  end.

(** The header the CORS middleware adds to the response of a request that
    names its origin and carries no cookie: the wildcard when the list
    holds it, the origin itself when the list holds the origin. *)
Definition cors_header (allow_origins : list string) (origin : option string)
  : option string :=
  match origin with
  | Some o =>
      if decide ("*" ∈ allow_origins) then Some "*"
      else if decide (o ∈ allow_origins) then Some o else None
  | None => None
  end.

Section handle.
Context `{Validators}.
Local Open Scope eff_scope.

(** The handler's result as a status and a body; nothing is raised. *)
Definition answered (handler : Py content) : Py (nat * content) :=
  fun w => let (w', r) := handler w in (w', inr (respond r)).

(** The body of a contact request, validated before the handler runs: the
    errors of validation are answered with 422. *)
Definition validated_contact (json_body : option (gmap string pyval))
    (handler : ContactMessage.t -> Py content) : Py (nat * content) :=
  match json_body with
  | None => ret (422, ValidationDetail [("body", "missing")])
  | Some data =>
      fun w =>
        match ContactMessage.__init__ data w with
        | (w', inr contact) => answered (handler contact) w'
        | (w', inl (ValidationError errors)) => (w', inr (422, ValidationDetail errors))
        | (w', inl e) => (w', inr (respond (inl e)))
        end
  end.

(** The mounted directory holds the resume and nothing else. *)
Definition static_files (meth : string) (directory : string) (rest : list string)
  : Py content :=
  if decide (meth = "GET" \/ meth = "HEAD") then
    found <- path_exists ;;
    if found && bool_decide (join "/" (directory :: rest) = ResumeRoute.RESUME_PATH)
    then ret (StaticFile ResumeRoute.RESUME_PATH)
    else raise (HTTPException 404 "Not Found")
  else raise (HTTPException 405 "Method Not Allowed").

Definition call (app : App.t) (e : App.endpoint) (params : list (string * string))
    (json_body : option (gmap string pyval)) : Py (nat * content) :=
  match e with
  | App.SubmitContactForm =>
      validated_contact json_body (fun contact =>
        d <- ContactRoute.submit_contact_form (App.contact_use_case app) contact ;;
        ret (StrDict d))
  | App.GetAllProjects =>
      answered (ps <- ProjectsRoute.get_all_projects (App.project_use_case app) ;;
                ret (ProjectList ps))
  | App.GetFeaturedProjects =>
      answered (ps <- ProjectsRoute.get_featured_projects (App.project_use_case app) ;;
                ret (ProjectList ps))
  | App.GetProject =>
      answered
        match (list_to_map params : gmap string string) !! "project_id" with
        | Some project_id =>
            p <- ProjectsRoute.get_project (App.project_use_case app) project_id ;;
            ret (ProjectItem p)
        | None => raise (PyException "TypeError" "missing argument: 'project_id'")
        end
  | App.GetResumeMetadata =>
      answered (d <- ResumeRoute.get_resume_metadata ;; ret (JsonDict d))
  | App.DownloadResume =>
      answered (f <- ResumeRoute.download_resume ;; ret (FileContent f))
  | App.Root => answered (d <- App.root ;; ret (JsonDict d))
  | App.HealthCheck => answered (d <- App.health_check ;; ret (JsonDict d))
  end.

(** One request through the application. *)
Definition handle (app : App.t) (req : request) : Py response :=
  answer <-
    match dispatch table (method req) (url_path req) with
    | Endpoint e params => call app e params (json_body req)
    | StaticFiles directory rest => answered (static_files (method req) directory rest)
    | Documentation page => ret (200, Page page)
    | MethodNotAllowed => ret (405, Detail "Method Not Allowed")
    | RedirectSlashes location => ret (307, Redirect location)
    | NotFound => ret (404, Detail "Not Found")
    end ;;
  ret {| status := answer.1; body := answer.2;
         access_control_allow_origin := cors_header (App.allow_origins app) (origin req) |}.

(** The requests of a list handled one after the other: no handler
    suspends, so the event loop runs each to its response before it
    starts the next. *)
Fixpoint serve (app : App.t) (reqs : list request) : Py (list response) :=
  match reqs with
  | [] => ret []
  | req :: reqs' =>
      r <- handle app req ;;
      rs <- serve app reqs' ;;
      ret (r :: rs)
  end.
End handle.

(** ** Where the table sends a request *)
Section dispatching.
Implicit Types (meth path project_id : string).

(** The table as the framework compiles it. *)
Definition compiled_routes : list compiled :=
  [CPage ["GET"; "HEAD"] [Lit ""; Lit "openapi.json"] "/openapi.json";
   CPage ["GET"; "HEAD"] [Lit ""; Lit "docs"] "/docs";
   CPage ["GET"; "HEAD"] [Lit ""; Lit "docs"; Lit "oauth2-redirect"] "/docs/oauth2-redirect";
   CPage ["GET"; "HEAD"] [Lit ""; Lit "redoc"] "/redoc";
   CMount [""; "static"] "static";
   CRoute ["POST"] [Lit ""; Lit "api"; Lit "v1"; Lit "contact"] App.SubmitContactForm;
   CRoute ["GET"] [Lit ""; Lit "api"; Lit "v1"; Lit "projects"] App.GetAllProjects;
   CRoute ["GET"] [Lit ""; Lit "api"; Lit "v1"; Lit "projects"; Lit "featured"]
     App.GetFeaturedProjects;
   CRoute ["GET"] [Lit ""; Lit "api"; Lit "v1"; Lit "projects"; Param "project_id"]
     App.GetProject;
   CRoute ["GET"] [Lit ""; Lit "api"; Lit "v1"; Lit "resume"; Lit "metadata"]
     App.GetResumeMetadata;
   CRoute ["GET"] [Lit ""; Lit "api"; Lit "v1"; Lit "resume"; Lit "download"]
     App.DownloadResume;
   CRoute ["GET"] [Lit ""; Lit ""] App.Root;
   CRoute ["GET"] [Lit ""; Lit "health"] App.HealthCheck].

Lemma table_compiled : table = compiled_routes.
Proof. reflexivity. Qed.

(** A valid identifier in a URL: one segment that is not empty. *)
Definition one_segment (s : string) : Prop := s <> "" /\ count_char "/" s = 0.

#[export] Instance one_segment_dec s : Decision (one_segment s).
Proof. unfold one_segment. apply _. Defined.

Lemma split_project_path project_id :
  count_char "/" project_id = 0 ->
  split "/" ("/api/v1/projects/" +:+ project_id) = [""; "api"; "v1"; "projects"; project_id].
Proof.
  intros Hid.
  change ("/api/v1/projects/" +:+ project_id)
    with ("" +:+ String "/" ("api" +:+ String "/" ("v1" +:+ String "/"
            ("projects" +:+ String "/" project_id)))).
  by rewrite !split_app_no_sep, split_no_sep_id.
Qed.

Lemma dispatch_featured :
  dispatch table "GET" "/api/v1/projects/featured" = Endpoint App.GetFeaturedProjects [].
Proof. reflexivity. Qed.

(** An entry that does not match is passed over. *)
Lemma first_match_skip en (tbl : list compiled) meth segments partial :
  matches en meth segments = NoMatch ->
  first_match (en :: tbl) meth segments partial = first_match tbl meth segments partial.
Proof. intros Hno. cbn [first_match]. by rewrite Hno. Qed.

Lemma dispatch_get_project project_id :
  one_segment project_id -> project_id <> "featured" ->
  dispatch table "GET" ("/api/v1/projects/" +:+ project_id) =
    Endpoint App.GetProject [("project_id", project_id)].
Proof.
  intros [Hne Hseg] Hfeat. unfold dispatch.
  rewrite table_compiled, split_project_path by done. unfold compiled_routes.
  do 8 (rewrite first_match_skip
          by (cbn [matches match_segments match_prefix];
              repeat first [rewrite decide_True by done | rewrite decide_False by done];
              done)).
  cbn [first_match matches match_segments fmap option_fmap option_map].
  repeat first [rewrite decide_True by done | rewrite decide_False by done].
  cbn [option_map]. by rewrite decide_True by set_solver.
Qed.
End dispatching.

(** ** The table, the origins and the lifespan *)
Section application.
Implicit Types (environ : gmap string string) (w : World).

(** [routes_all_reachable]: no route of the table is shadowed by
    an earlier one: each of the eight handlers is where the table sends
    some request. *)
Theorem routes_all_reachable (e : App.endpoint) :
  exists meth path params, dispatch table meth path = Endpoint e params.
Proof.
  destruct e;
    [exists "POST", "/api/v1/contact" | exists "GET", "/api/v1/projects"
    |exists "GET", "/api/v1/projects/featured" | exists "GET", "/api/v1/projects/tilted-labs"
    |exists "GET", "/api/v1/resume/metadata" | exists "GET", "/api/v1/resume/download"
    |exists "GET", "/" | exists "GET", "/health"]; by eexists.
Qed.

(** [origins_roundtrip]: the allowed origins are the parts of the
    configured text between its commas: there is at least one, none holds
    a comma, joining them with commas gives the text back, and without
    the variable the only origin is the development front end. *)
Theorem origins_roundtrip environ :
  join "," (App.origins environ) =
    getenv_default environ "ALLOWED_ORIGINS" "http://localhost:3000" /\
  length (App.origins environ) =
    S (count_char "," (getenv_default environ "ALLOWED_ORIGINS" "http://localhost:3000")) /\
  Forall (fun o => count_char "," o = 0) (App.origins environ) /\
  (environ !! "ALLOWED_ORIGINS" = None -> App.origins environ = ["http://localhost:3000"]).
Proof.
  unfold App.origins. split_and!.
  - apply join_split.
  - apply split_length.
  - apply split_no_sep.
  - unfold getenv_default. by intros ->.
Qed.

(** An origin written after a comma and a space is kept with the space,
    and a request from the origin itself is not allowed. *)
Example origins_keep_spaces :
  App.origins {[ "ALLOWED_ORIGINS" := "https://a.example, https://b.example" ]} =
    ["https://a.example"; " https://b.example"] /\
  cors_header
    (App.origins {[ "ALLOWED_ORIGINS" := "https://a.example, https://b.example" ]})
    (Some "https://b.example") = None.
Proof. split; reflexivity. Qed.

(** [lifespan_brackets]: the lifespan prints the startup line
    before serving and the shutdown line after it; when serving raises,
    the exception leaves the lifespan and the shutdown line is not
    printed. *)
Theorem lifespan_brackets {A} (serving : Py A) w :
  App.lifespan serving w =
    let (w1, r) :=
      serving (with_stdout (stdout w ++ ["🚀 Portfolio API starting up..."]) w) in
    match r with
    | inr x => (with_stdout (stdout w1 ++ ["👋 Portfolio API shutting down..."]) w1, inr x)
    | inl e => (w1, inl e)
    end.
Proof.
  unfold App.lifespan. py_run. rewrite (bind_run serving).
  destruct (serving _) as [w1 [e|x]]; by py_run.
Qed.

(** [app_import]: importing the application succeeds exactly when
    the SMTP port of the environment reads as an integer; the application
    then holds the service constructed from the environment, the
    repository's two projects and the origins. *)
Theorem app_import environ :
  match py_int (getenv_default environ "SMTP_PORT" "587") with
  | inl e => App.app environ = inl e
  | inr port =>
      exists app, App.app environ = inr app /\
        EmailService.smtp_port (ContactUseCase.email_service (App.contact_use_case app)) = port /\
        ProjectUseCase.get_all_projects (App.project_use_case app) =
          [ProjectRepository.tilted_labs; ProjectRepository.spacecraft_mission_control] /\
        App.allow_origins app = App.origins environ
  end.
Proof.
  unfold App.app, ContactRoute.contact_use_case, EmailService.__init__.
  destruct (py_int _); [done|]. by eexists.
Qed.
End application.
