(* ===== verification/Handling.v ===== *)
(** * Requests through the application

    What [handle] and [serve] of App.v do with a request: a contact
    submission in its four cases (invalid, unconfigured, refused,
    delivered), a project request, the statuses every request is answered
    with, the frames of a handler (what it leaves alone, the orders it
    moves the world along, that it never reads what was printed).  The
    fixtures [sample_app] and [unconfigured_app] are at the end. *)

From S2P Require Import Prelude Runtime Domain Repository ProjectUseCase EmailService ContactUseCase Routes App.

Set Warnings "-clear-no-such-hyp".

(** ** A contact request through the application *)
Section contact_requests.
Context `{Validators}.
Implicit Types (app : App.t) (data : gmap string pyval) (w : World).

Definition contact_request (origin : option string) data : request :=
  {| method := "POST"; url_path := "/api/v1/contact"; origin := origin;
     json_body := Some data |}.

Definition reply app (req : request) (status : nat) (body : content) : response :=
  {| status := status; body := body;
     access_control_allow_origin := cors_header (App.allow_origins app) (origin req) |}.

Lemma dispatch_contact :
  dispatch table "POST" "/api/v1/contact" = Endpoint App.SubmitContactForm [].
Proof. reflexivity. Qed.

(** The request in closed form: validation, then the service's run. *)
Definition contact_response app origin data w : World * (exn + response) :=
  let req := contact_request origin data in
  match ContactMessage.BaseModel_init (init_data data w) with
  | inl errors => (w, inr (reply app req 422 (ValidationDetail errors)))
  | inr contact =>
      let (w1, r) :=
        send_result (ContactUseCase.email_service (App.contact_use_case app)) contact w in
      match r with
      | inr _ => (w1, inr (reply app req 200 (StrDict ContactUseCase.success)))
      | inl e =>
          (with_stdout (stdout w1 ++ ["Error sending contact email: " +:+ exn_str e]) w1,
           inr (reply app req 500
                  (Detail "Failed to send message. Please try again or email directly.")))
      end
  end.

Lemma handle_contact_run app origin data w :
  handle app (contact_request origin data) w = contact_response app origin data w.
Proof.
  unfold handle, contact_response. cbn [method url_path json_body contact_request].
  rewrite dispatch_contact. cbn [call validated_contact].
  rewrite (bind_run (fun w => _)), init_run.
  destruct (ContactMessage.BaseModel_init _) as [errors|contact]; [done|].
  unfold answered. rewrite (bind_run (ContactRoute.submit_contact_form _ _)).
  rewrite contact_route_over_use_case_run. unfold submit_result.
  cbn [notify EmailService_notifier]. rewrite send_contact_notification_run.
  by destruct (send_result _ _ _) as [w1 [e|[]]].
Qed.

(** The service of the application. *)
Definition email_service app : EmailService.t :=
  ContactUseCase.email_service (App.contact_use_case app).

(** [handle_rejects_short_message]: a contact request whose
    message has fewer than 10 code points is answered 422 with a
    validation error naming the message as too short, whatever its other
    fields are, and the world is unchanged: nothing was printed and the
    SMTP server was not contacted. *)
Theorem handle_rejects_short_message app origin data w msg :
  data !! "message" = Some (PyStr msg) -> py_len msg < 10 ->
  exists errors,
    handle app (contact_request origin data) w =
      (w, inr (reply app (contact_request origin data) 422 (ValidationDetail errors))) /\
    ("message", "string_too_short") ∈ errors.
Proof.
  intros Hm Hlen. rewrite handle_contact_run. unfold contact_response.
  destruct (BaseModel_init_reports (init_data data w) "message" "string_too_short"
              (ContactMessage.constrained_str 10 2000 (init_data data w !! "message")))
    as (errors & -> & Hin); [set_solver| |by exists errors].
  rewrite init_data_lookup_ne, Hm by done. by apply constrained_str_too_short.
Qed.

(** [handle_contact_unconfigured]: a valid contact request to an
    application whose SMTP user, password or recipient is unset or empty
    is answered 200 with the success dictionary, and the SMTP server has
    been sent nothing. *)
Theorem handle_contact_unconfigured app origin data w contact :
  outcome (ContactMessage.__init__ data) w = inr contact ->
  EmailService.configured (email_service app) = false ->
  outcome (handle app (contact_request origin data)) w =
    inr (reply app (contact_request origin data) 200 (StrDict ContactUseCase.success)) /\
  smtp_log (world_after (handle app (contact_request origin data)) w) = smtp_log w.
Proof.
  intros Hvalid%init_returns Hc. unfold outcome, world_after.
  rewrite handle_contact_run. unfold contact_response.
  by rewrite Hvalid, send_result_skip.
Qed.

(** C11 (handle_contact_rejected_login): a valid contact request to a
    configured application whose SMTP server refuses the login is answered
    500 with the use case's failure message; the server has seen exactly
    one more session and no message was handed over. *)
Theorem handle_contact_rejected_login app origin data w contact ts e :
  outcome (ContactMessage.__init__ data) w = inr contact ->
  ContactMessage.timestamp contact = Some ts ->
  EmailService.configured (email_service app) = true ->
  answers (smtp_server w) (smtp_log w) (refused_login_events (email_service app))
    = [None; None; Some e; None] ->
  outcome (handle app (contact_request origin data)) w =
    inr (reply app (contact_request origin data) 500
           (Detail "Failed to send message. Please try again or email directly.")) /\
  attempts (world_after (handle app (contact_request origin data)) w) = attempts w + 1 /\
  submitted (world_after (handle app (contact_request origin data)) w) = submitted w.
Proof.
  intros Hvalid%init_returns Hts Hc Hsrv. unfold outcome, world_after, attempts, submitted.
  rewrite handle_contact_run. unfold contact_response.
  rewrite Hvalid, (send_result_refused_login _ _ ts _ e) by done.
  cbn [fst snd smtp_log with_smtp_log with_stdout].
  rewrite attempts_in_app, omap_app. simpl. by rewrite app_nil_r.
Qed.

(** [handle_contact_delivers]: a valid contact request to a
    configured application whose SMTP server accepts the session is
    answered 200 with the success dictionary, and the server has been
    handed exactly one message: the notification built from the validated
    contact. *)
Theorem handle_contact_delivers app origin data w contact ts :
  outcome (ContactMessage.__init__ data) w = inr contact ->
  ContactMessage.timestamp contact = Some ts ->
  EmailService.configured (email_service app) = true ->
  answers (smtp_server w) (smtp_log w)
    (session_events (email_service app) (notification (email_service app) contact ts))
    = replicate 5 None ->
  outcome (handle app (contact_request origin data)) w =
    inr (reply app (contact_request origin data) 200 (StrDict ContactUseCase.success)) /\
  submitted (world_after (handle app (contact_request origin data)) w) =
    submitted w ++ [notification (email_service app) contact ts].
Proof.
  intros Hvalid%init_returns Hts Hc Hsrv. unfold outcome, world_after, submitted.
  rewrite handle_contact_run. unfold contact_response.
  rewrite Hvalid, (send_result_delivered _ _ ts) by done.
  cbn [fst snd smtp_log with_smtp_log]. by rewrite omap_app.
Qed.
End contact_requests.

(** ** Project requests through the application *)
Section project_requests.
Context `{Validators}.
Implicit Types (app : App.t) (w : World) (project_id : string).

Definition get_request (origin : option string) (path : string) : request :=
  {| method := "GET"; url_path := path; origin := origin; json_body := None |}.

Definition repository app : ProjectRepository.t :=
  ProjectUseCase.repository (App.project_use_case app).

(** [handle_project_by_id]: a GET of the projects path followed by
    an identifier of one segment other than the word featured is answered
    200 with the first project of the repository carrying the identifier,
    or 404 with the detail Project not found when there is none; the world
    is unchanged. *)
Theorem handle_project_by_id app origin project_id w :
  one_segment project_id -> project_id <> "featured" ->
  handle app (get_request origin ("/api/v1/projects/" +:+ project_id)) w =
    (w, inr (match ProjectRepository.get_by_id (repository app) project_id with
             | Some project =>
                 reply app (get_request origin ("/api/v1/projects/" +:+ project_id))
                   200 (ProjectItem project)
             | None =>
                 reply app (get_request origin ("/api/v1/projects/" +:+ project_id))
                   404 (Detail "Project not found")
             end)).
Proof.
  intros Hseg Hfeat. unfold handle. cbn [method url_path json_body get_request].
  rewrite dispatch_get_project by done. cbn [call]. unfold answered, ProjectsRoute.get_project.
  rewrite list_to_map_cons, lookup_insert_eq. unfold ProjectUseCase.get_project_by_id.
  cbn [store_get_by_id ProjectRepository_store]. fold (repository app).
  by destruct (ProjectRepository.get_by_id _ _).
Qed.

(** [handle_featured_shadows]: a GET of the projects path followed
    by the word featured is answered with the list of featured projects,
    whatever the repository holds: a project whose identifier is that
    word cannot be fetched by its identifier. *)
Theorem handle_featured_shadows app origin w :
  handle app (get_request origin "/api/v1/projects/featured") w =
    (w, inr (reply app (get_request origin "/api/v1/projects/featured") 200
               (ProjectList (ProjectRepository.get_featured (repository app))))).
Proof.
  unfold handle. cbn [method url_path json_body get_request].
  by rewrite dispatch_featured.
Qed.
End project_requests.

(** ** Every request is answered *)
Section answering.
Context `{Validators}.
Implicit Types (app : App.t) (req : request) (w : World).

(** The statuses the application answers with. *)
Definition statuses : list nat := [200; 307; 404; 405; 422; 500].

Lemma answered_run (handler : Py content) w :
  answered handler w = ((handler w).1, inr (respond (handler w).2)).
Proof. unfold answered. by destruct (handler w). Qed.

(** A request is a contact submission when the table sends it to the
    contact route. *)
Definition is_submission req : bool :=
  if dispatch table (method req) (url_path req) is Endpoint App.SubmitContactForm _
  then true else false.

(** The contact endpoint on any body: validation, then the service's run. *)
Lemma call_contact_run app params data w :
  call app App.SubmitContactForm params (Some data) w =
    match ContactMessage.BaseModel_init (init_data data w) with
    | inl errors => (w, inr (422, ValidationDetail errors))
    | inr contact =>
        let (w1, r) := send_result (email_service app) contact w in
        match r with
        | inr _ => (w1, inr (200, StrDict ContactUseCase.success))
        | inl e =>
            (with_stdout (stdout w1 ++ ["Error sending contact email: " +:+ exn_str e]) w1,
             inr (500, Detail "Failed to send message. Please try again or email directly."))
        end
    end.
Proof.
  cbn [call validated_contact]. rewrite init_run.
  destruct (ContactMessage.BaseModel_init _) as [errors|contact]; [done|].
  unfold answered. rewrite (bind_run (ContactRoute.submit_contact_form _ _)).
  rewrite contact_route_over_use_case_run. unfold submit_result.
  cbn [notify EmailService_notifier]. rewrite send_contact_notification_run.
  fold (email_service app). by destruct (send_result _ _ _) as [w1 [e|[]]].
Qed.

(** Every endpoint but the contact route leaves the world as it is. *)
Lemma call_keeps_world app e params json_body w :
  e <> App.SubmitContactForm -> (call app e params json_body w).1 = w.
Proof.
  intros He. destruct e; try done; cbn [call]; rewrite answered_run; cbn [fst];
    unfold ProjectsRoute.get_project; try done.
  - by repeat case_match.
  - rewrite (bind_run ResumeRoute.get_resume_metadata), get_resume_metadata_run. done.
  - rewrite (bind_run ResumeRoute.download_resume), download_resume_run.
    by destruct (resume_file w).
Qed.

Lemma static_files_keeps_world meth directory rest w :
  (static_files meth directory rest w).1 = w.
Proof. unfold static_files. case_decide; [|done]. py_run. by case_match. Qed.

(** What an endpoint answers: never an exception, and one of the statuses. *)
Lemma call_answers app e params json_body w :
  exists st c, (call app e params json_body w).2 = inr (st, c) /\ st ∈ statuses.
Proof.
  destruct e; try (cbn [call]; rewrite answered_run; cbn [snd]).
  - destruct json_body as [data|]; [|by eexists _, _; split; [done|set_solver]].
    rewrite call_contact_run. destruct (ContactMessage.BaseModel_init _);
      [by eexists _, _; split; [done|set_solver]|].
    destruct (send_result _ _ _) as [w1 [e|[]]]; by eexists _, _; split; [done|set_solver].
  - by eexists _, _; split; [done|set_solver].
  - by eexists _, _; split; [done|set_solver].
  - unfold ProjectsRoute.get_project.
    repeat case_match; by eexists _, _; split; [done|set_solver].
  - rewrite (bind_run ResumeRoute.get_resume_metadata), get_resume_metadata_run.
    by eexists _, _; split; [done|set_solver].
  - rewrite (bind_run ResumeRoute.download_resume), download_resume_run.
    destruct (resume_file w); by eexists _, _; split; [done|set_solver].
  - by eexists _, _; split; [done|set_solver].
  - by eexists _, _; split; [done|set_solver].
Qed.

Lemma static_files_answers meth directory rest w :
  exists st c, respond (static_files meth directory rest w).2 = (st, c) /\ st ∈ statuses.
Proof.
  unfold static_files. case_decide; [|by eexists _, _; split; [done|set_solver]].
  py_run. repeat case_match; by eexists _, _; split; [done|set_solver].
Qed.

Lemma handle_answers app req w :
  exists resp,
    outcome (handle app req) w = inr resp /\ status resp ∈ statuses /\
    access_control_allow_origin resp = cors_header (App.allow_origins app) (origin req).
Proof.
  unfold outcome, handle.
  destruct (dispatch _ _ _) as [e params|directory rest|page| | |].
  - destruct (call_answers app e params (json_body req) w) as (st & c & Hcall & Hst).
    rewrite (bind_run (call _ _ _ _)).
    destruct (call _ _ _ _ _) as [w1 r]. cbn [snd] in Hcall. subst r. by eexists.
  - rewrite (bind_run (answered _)), answered_run.
    destruct (static_files_answers (method req) directory rest w) as (st & c & -> & Hst).
    by eexists.
  - eexists. split_and!; [done| |done]. set_solver.
  - eexists. split_and!; [done| |done]. set_solver.
  - eexists. split_and!; [done| |done]. set_solver.
  - eexists. split_and!; [done| |done]. set_solver.
Qed.

Lemma cors_header_Some allow_origins origin v :
  cors_header allow_origins origin = Some v <->
  exists o, origin = Some o /\
    ("*" ∈ allow_origins /\ v = "*" \/ "*" ∉ allow_origins /\ o ∈ allow_origins /\ v = o).
Proof. unfold cors_header. destruct origin; repeat case_decide; naive_solver. Qed.

(** C30 (handle_always_answers): the application answers every
    request: [handle] never raises, whatever the request, the
    configuration and the SMTP server do; the status of its response is
    200, 307, 404, 405, 422 or 500, and the response allows an origin
    exactly for a request that names its origin, the wildcard when the
    list holds the wildcard and the origin of the request when the list
    holds that origin. *)
Theorem handle_always_answers app req w :
  exists resp,
    outcome (handle app req) w = inr resp /\ status resp ∈ statuses /\
    forall v, access_control_allow_origin resp = Some v <->
      exists o, origin req = Some o /\
        ("*" ∈ App.allow_origins app /\ v = "*" \/
         "*" ∉ App.allow_origins app /\ o ∈ App.allow_origins app /\ v = o).
Proof.
  destruct (handle_answers app req w) as (resp & Hout & Hst & Hcors).
  exists resp. split_and!; [done|done|]. intros o. rewrite Hcors. apply cors_header_Some.
Qed.

(** A request leaves the log of commands as it was, or as one call of
    the email service on a validated message leaves it. *)
Lemma handle_log_send app req w :
  smtp_log (world_after (handle app req) w) = smtp_log w \/
  exists contact,
    is_submission req = true /\
    smtp_log (world_after (handle app req) w) =
      smtp_log (send_result (email_service app) contact w).1.
Proof.
  unfold world_after, handle, is_submission.
  destruct (dispatch _ _ _) as [e params|directory rest|page| | |]; try by left.
  - rewrite (bind_run (call _ _ _ _)).
    destruct (decide (e = App.SubmitContactForm)) as [->|He].
    + destruct (json_body req) as [data|]; [|by left]. rewrite call_contact_run.
      destruct (ContactMessage.BaseModel_init _) as [|contact]; [by left|].
      right. exists contact. by destruct (send_result _ _ _) as [w1 [?|[]]].
    + pose proof (call_keeps_world app e params (json_body req) w He) as Hw.
      destruct (call _ _ _ _ _) as [w1 [?|?]]; cbn [fst] in *; subst w1; by left.
  - rewrite (bind_run (answered _)), answered_run. cbn [fst].
    rewrite static_files_keeps_world. by left.
Qed.

(** What a request adds to the server's log: nothing unless it is a
    submission, and then the commands of at most one session. *)
Lemma handle_log app req w :
  exists evs,
    smtp_log (world_after (handle app req) w) = smtp_log w ++ evs /\
    attempts_in evs <= (if is_submission req then 1 else 0).
Proof.
  destruct (handle_log_send app req w) as [->|(contact & -> & ->)];
    [exists []; split; [by rewrite app_nil_r|cbn; lia]|].
  destruct (send_result_trace (email_service app) contact w) as (evs & Hlog & Hin).
  apply possible_traces_bounds in Hin as [Hin _]. by exists evs.
Qed.

(** [serve_attempts_bounded]: requests served one after the other
    are all answered, one response each, and the SMTP sessions opened
    while serving them are at most as many as the submissions among them:
    no other request reaches the server, and no submission is retried. *)
Theorem serve_attempts_bounded app reqs w :
  exists responses,
    outcome (serve app reqs) w = inr responses /\
    length responses = length reqs /\
    attempts (world_after (serve app reqs) w) <=
      attempts w + length (filter (fun req => is_submission req = true) reqs).
Proof.
  revert w. induction reqs as [|req reqs IH]; intros w; [by exists []; cbn; split_and!; try lia|].
  destruct (handle_answers app req w) as (resp & Hout & _).
  destruct (handle_log app req w) as (evs & Hlog & Hevs).
  unfold outcome, world_after, attempts in *. cbn [serve].
  rewrite (bind_run (handle _ _)). destruct (handle app req w) as [w1 r].
  cbn [fst snd] in *. subst r. rewrite (bind_run (serve _ _)).
  destruct (IH w1) as (responses & Hrs & Hlen & Hatt).
  destruct (serve app reqs w1) as [w2 rs]. cbn [fst snd] in *. subst rs.
  exists (resp :: responses). split_and!; [done|by cbn [length]; rewrite Hlen|].
  rewrite Hlog, attempts_in_app in Hatt. rewrite filter_cons.
  destruct (is_submission req); [rewrite decide_True by done|rewrite decide_False by done];
    cbn [length]; py_run; lia.
Qed.
End answering.

(** ** The application keeps no state *)
Section stateless.
Context `{Validators}.
Implicit Types (app : App.t) (req : request) (w : World).

Lemma answered_preserves {X} (f : World -> X) (handler : Py content) :
  preserves f handler -> preserves f (answered handler).
Proof. intros Hh w. specialize (Hh w). unfold world_after in *. by rewrite answered_run. Qed.

Lemma validated_contact_preserves {X} (f : World -> X) json_body handler :
  (forall contact, preserves f (handler contact)) ->
  preserves f (validated_contact json_body handler).
Proof.
  intros Hh w. destruct json_body as [data|]; [|done].
  unfold world_after. cbn [validated_contact]. rewrite init_run.
  destruct (ContactMessage.BaseModel_init _) as [errors|contact]; [done|].
  apply (answered_preserves f _ (Hh contact)).
Qed.

Section handle_moves.
Context (R : relation World) `{!Moves R}.

Lemma answered_moves (handler : Py content) :
  advances R id handler -> advances R id (answered handler).
Proof. intros Hh w. specialize (Hh w). unfold world_after in *. by rewrite answered_run. Qed.

Lemma validated_contact_moves json_body handler :
  (forall contact, advances R id (handler contact)) ->
  advances R id (validated_contact json_body handler).
Proof.
  intros Hh w. destruct json_body as [data|]; [|done].
  unfold world_after. cbn [validated_contact]. rewrite init_run.
  destruct (ContactMessage.BaseModel_init _) as [errors|contact]; [done|].
  apply (answered_moves _ (Hh contact)).
Qed.

(** Every handler moves the world along every order that printing and
    sending move it along. *)
Lemma call_moves app e params json_body : advances R id (call app e params json_body).
Proof.
  destruct e; cbn [call];
    first [apply validated_contact_moves; intros contact | apply answered_moves];
    unfold ProjectsRoute.get_all_projects, ProjectsRoute.get_featured_projects,
      App.root, App.health_check; solve_advances.
Qed.

Lemma handle_moves app req : advances R id (handle app req).
Proof.
  pose proof (call_moves app). unfold handle, static_files.
  solve_advances. apply answered_moves. solve_advances.
Qed.
End handle_moves.

(** ** No handler reads what was printed *)
Section handle_respects.
Context (R : relation World) `{!Unread R}.

Lemma answered_respects (handler : Py content) :
  respects R handler -> respects R (answered handler).
Proof.
  intros Hh w1 w2 Hw. destruct (Hh w1 w2 Hw) as [Hw' Hr]. rewrite !answered_run.
  split; [done|]. cbn. by rewrite Hr.
Qed.

Lemma validated_contact_respects json_body handler :
  (forall contact, respects R (handler contact)) ->
  respects R (validated_contact json_body handler).
Proof.
  intros Hh. destruct json_body as [data|]; [|apply respects_ret].
  intros w1 w2 Hw. cbn [validated_contact].
  destruct (init_respects R data w1 w2 Hw) as [Hw' Hr].
  destruct (ContactMessage.__init__ data w1) as [w1' r1],
    (ContactMessage.__init__ data w2) as [w2' r2]. cbn in Hw', Hr. subst r2.
  destruct r1 as [e|contact]; [by destruct e|by apply answered_respects].
Qed.

Lemma call_respects app e params json_body : respects R (call app e params json_body).
Proof.
  destruct e; cbn [call];
    first [apply validated_contact_respects; intros contact | apply answered_respects];
    unfold ProjectsRoute.get_all_projects, ProjectsRoute.get_featured_projects,
      App.root, App.health_check; solve_respects.
Qed.

Lemma handle_respects app req : respects R (handle app req).
Proof.
  pose proof (call_respects app). unfold handle, static_files.
  solve_respects. apply answered_respects. solve_respects.
Qed.

Lemma serve_respects app reqs : respects R (serve app reqs).
Proof.
  induction reqs as [|req reqs IH]; cbn [serve]; [apply respects_ret|].
  apply respects_bind; [apply handle_respects|]. intros r.
  apply respects_bind; [exact IH|]. intros rs. apply respects_ret.
Qed.
End handle_respects.

(** The world a request is handled in can be rewritten for one that
    differs in the lines printed. *)
#[export] Instance handle_proper app req :
  Proper (modulo_stdout ==> prod_relation modulo_stdout (=)) (handle app req).
Proof. apply handle_respects, _. Qed.

#[export] Instance serve_proper app reqs :
  Proper (modulo_stdout ==> prod_relation modulo_stdout (=)) (serve app reqs).
Proof. apply serve_respects, _. Qed.

Lemma call_preserves_environment app e params json_body :
  preserves environment (call app e params json_body).
Proof. exact (call_moves same_environment app e params json_body). Qed.

Lemma handle_preserves_environment app req : preserves environment (handle app req).
Proof. exact (handle_moves same_environment app req). Qed.

(** [serve_stateless]: serving requests changes nothing the
    application could read back later: the clock, the SMTP server's
    behaviour and the resume file are after any list of requests what they
    were before it; only the printed lines and the log of commands sent to
    the server grow. *)
Theorem serve_stateless app reqs w :
  environment (world_after (serve app reqs) w) = environment w.
Proof.
  revert w. induction reqs as [|req reqs IH]; [done|]. cbn [serve].
  apply preserves_bind; [apply handle_preserves_environment|]. intros resp.
  apply preserves_bind; [exact IH|]. intros rs. apply preserves_ret.
Qed.
End stateless.

(** ** The theorems at the fixtures *)
Definition sample_app : App.t :=
  App.mk (ContactUseCase.__init__ sample_service) ProjectsRoute.project_use_case
    ["http://localhost:3000"].

Definition unconfigured_app : App.t :=
  App.mk (ContactUseCase.__init__ unconfigured_service) ProjectsRoute.project_use_case
    ["http://localhost:3000"].

Lemma handle_rejects_short_message_witness :
  exists errors,
    handle (H:=sample_validators) sample_app
      (contact_request None (<["message" := PyStr "too short"]> sample_data))
      (world_of rejecting_login) =
      (world_of rejecting_login,
       inr (reply sample_app
              (contact_request None (<["message" := PyStr "too short"]> sample_data))
              422 (ValidationDetail errors))) /\
    ("message", "string_too_short") ∈ errors.
Proof.
  apply (handle_rejects_short_message (H:=sample_validators) sample_app None _ _ "too short");
    [done | vm_compute; lia].
Defined.

Lemma handle_contact_unconfigured_witness :
  outcome (handle (H:=sample_validators) unconfigured_app (contact_request None sample_data))
    (world_of rejecting_login) =
    inr (reply unconfigured_app (contact_request None sample_data) 200
           (StrDict ContactUseCase.success)) /\
  smtp_log (world_after
              (handle (H:=sample_validators) unconfigured_app
                 (contact_request None sample_data))
              (world_of rejecting_login)) = [].
Proof.
  by apply (handle_contact_unconfigured (H:=sample_validators) unconfigured_app None
              sample_data (world_of rejecting_login) sample_contact).
Defined.

Lemma handle_contact_rejected_login_witness :
  outcome (handle (H:=sample_validators) sample_app (contact_request None sample_data))
    (world_of rejecting_login) =
    inr (reply sample_app (contact_request None sample_data) 500
           (Detail "Failed to send message. Please try again or email directly.")) /\
  attempts (world_after
              (handle (H:=sample_validators) sample_app (contact_request None sample_data))
              (world_of rejecting_login)) = 1 /\
  submitted (world_after
               (handle (H:=sample_validators) sample_app (contact_request None sample_data))
               (world_of rejecting_login)) = [].
Proof.
  by apply (handle_contact_rejected_login (H:=sample_validators) sample_app None sample_data
              (world_of rejecting_login) sample_contact sample_clock bad_credentials).
Defined.

Lemma handle_contact_delivers_witness :
  outcome (handle (H:=sample_validators) sample_app (contact_request None sample_data))
    sample_world =
    inr (reply sample_app (contact_request None sample_data) 200
           (StrDict ContactUseCase.success)) /\
  submitted (world_after
               (handle (H:=sample_validators) sample_app (contact_request None sample_data))
               sample_world) =
    [notification sample_service sample_contact sample_clock].
Proof.
  by apply (handle_contact_delivers (H:=sample_validators) sample_app None sample_data
              sample_world sample_contact sample_clock).
Defined.

Lemma handle_project_by_id_witness :
  handle (H:=sample_validators) sample_app
    (get_request None "/api/v1/projects/tilted-labs") sample_world =
    (sample_world,
     inr (reply sample_app (get_request None "/api/v1/projects/tilted-labs") 200
            (ProjectItem ProjectRepository.tilted_labs))).
Proof.
  by apply (handle_project_by_id (H:=sample_validators) sample_app None "tilted-labs"
              sample_world).
Defined.
