(* ===== verification/Protocol.v ===== *)
(** * The SMTP protocol and the service's conformance to it

    The order of commands an SMTP submission server expects of a client,
    as an automaton over the commands of [Runtime.smtp_event] and the
    server's answers: a connection is opened, secured with STARTTLS,
    authenticated, used for one message and closed with QUIT; a refused
    command leaves nothing to do but to close.  The automaton is the
    abstract specification; the theorems show that the log of commands
    [EmailService.send_contact_notification] leaves behind is a run of it
    that ends with no connection open, whatever the server answers. *)

From S2P Require Import Prelude Runtime Domain EmailService.

Module Protocol.

(** Where a client stands in its connection. *)
Inductive phase := Idle | Connected | Secured | Authenticated | Submitted | Failed.

#[global] Instance phase_eq_dec : EqDecision phase.
Proof. solve_decision. Defined.

(** The command a phase admits and the phase its acceptance leads to. *)
Inductive expects : phase -> smtp_event -> phase -> Prop :=
  | expects_connect host port : expects Idle (Connect host port) Connected
  | expects_starttls : expects Connected StartTLS Secured
  | expects_login user password : expects Secured (Login user password) Authenticated
  | expects_send msg : expects Authenticated (SendMessage msg) Submitted.

(** One command and its answer.  A refused connection opens nothing; any
    other refusal spoils the connection, which can then only be closed;
    QUIT closes an open connection whatever the server replies. *)
Inductive step : phase -> smtp_event -> option exn -> phase -> Prop :=
  | step_accepted p ev p' : expects p ev p' -> step p ev None p'
  | step_refused p ev p' e :
      expects p ev p' -> step p ev (Some e) (if decide (p = Idle) then Idle else Failed)
  | step_quit p answer : p <> Idle -> step p Quit answer Idle.

(** The logs a server has accepted from a conforming client, with the
    phase they end in: the server answers each command knowing the log up
    to it. *)
Inductive accepted (srv : Server) : list smtp_event -> phase -> Prop :=
  | accepted_nil : accepted srv [] Idle
  | accepted_snoc log p ev p' :
      accepted srv log p -> step p ev (srv (log ++ [ev])) p' ->
      accepted srv (log ++ [ev]) p'.

(** The automaton as a function. *)
Definition target (p : phase) (ev : smtp_event) : option phase :=
  match p, ev with
  | Idle, Connect _ _ => Some Connected
  | Connected, StartTLS => Some Secured
  | Secured, Login _ _ => Some Authenticated
  | Authenticated, SendMessage _ => Some Submitted
  | _, _ => None
  end.

Definition next (p : phase) (ev : smtp_event) (answer : option exn) : option phase :=
  if decide (ev = Quit) then (if decide (p = Idle) then None else Some Idle)
  else match target p ev, answer with
       | Some p', None => Some p'
       | Some _, Some _ => Some (if decide (p = Idle) then Idle else Failed)
       | None, _ => None
       end.

(** The commands [evs] sent on top of [log] from the phase [p]. *)
Fixpoint run (srv : Server) (log : list smtp_event) (p : phase) (evs : list smtp_event)
    : option phase :=
  match evs with
  | [] => Some p
  | ev :: evs' =>
      match next p ev (srv (log ++ [ev])) with
      | Some p' => run srv (log ++ [ev]) p' evs'
      | None => None
      end
  end.

(** A world conforms when its log is a sequence of closed sessions. *)
Definition conforms (w : World) : Prop := accepted (smtp_server w) (smtp_log w) Idle.
End Protocol.

(** ** The automaton *)
Section automaton.
Import Protocol.
Implicit Types (srv : Server) (log evs : list smtp_event) (p : phase) (ev : smtp_event).

Lemma target_expects p ev p' : target p ev = Some p' <-> expects p ev p'.
Proof.
  split.
  - destruct p, ev; intros [= <-]; constructor.
  - by intros [].
Qed.

Lemma expects_not_quit p p' : ~ expects p Quit p'.
Proof. inversion 1. Qed.

(** The relation and the function are the same automaton. *)
Lemma next_step p ev answer p' : next p ev answer = Some p' <-> step p ev answer p'.
Proof.
  unfold next. split.
  - destruct (decide (ev = Quit)) as [->|Hq].
    + case_decide; intros [= <-]. by constructor.
    + destruct (target p ev) as [p0|] eqn:Ht; [|by destruct answer].
      apply target_expects in Ht. destruct answer; intros [= <-]; econstructor; eauto.
  - intros [p0 ev0 p0' Hex|p0 ev0 p0' e Hex|p0 a Hp].
    + rewrite decide_False by (intros ->; by apply expects_not_quit in Hex).
      by apply target_expects in Hex as ->.
    + rewrite decide_False by (intros ->; by apply expects_not_quit in Hex).
      by apply target_expects in Hex as ->.
    + by rewrite decide_True, decide_False.
Qed.

Lemma step_deterministic p ev answer p1 p2 :
  step p ev answer p1 -> step p ev answer p2 -> p1 = p2.
Proof. rewrite <-!next_step. congruence. Qed.

Lemma run_app srv log p evs1 evs2 :
  run srv log p (evs1 ++ evs2) =
    match run srv log p evs1 with
    | Some p' => run srv (log ++ evs1) p' evs2
    | None => None
    end.
Proof.
  revert log p. induction evs1 as [|ev evs1 IH]; intros log p; cbn [run app].
  - by rewrite app_nil_r.
  - destruct (next _ _ _) as [p'|]; [|done]. by rewrite IH, <-app_assoc.
Qed.

Lemma run_snoc srv log p evs ev :
  run srv log p (evs ++ [ev]) =
    match run srv log p evs with
    | Some p' => next p' ev (srv ((log ++ evs) ++ [ev]))
    | None => None
    end.
Proof. rewrite run_app. cbn [run]. by repeat case_match. Qed.

(** The accepted logs are those the function runs from the empty log. *)
Lemma accepted_run srv log p : accepted srv log p <-> run srv [] Idle log = Some p.
Proof.
  split.
  - induction 1 as [|log p ev p' _ IH Hstep]; [done|].
    rewrite run_snoc, IH. by apply next_step.
  - revert p. induction log as [|ev log IH] using rev_ind; intros p.
    + intros [= <-]. constructor.
    + rewrite run_snoc. destruct (run srv [] Idle log) as [p0|]; [|done].
      intros Hn%next_step. econstructor; eauto.
Qed.

#[global] Instance accepted_dec srv log p : Decision (accepted srv log p).
Proof.
  refine (cast_if (decide (run srv [] Idle log = Some p))); by rewrite accepted_run.
Defined.

Lemma accepted_deterministic srv log p1 p2 :
  accepted srv log p1 -> accepted srv log p2 -> p1 = p2.
Proof. rewrite !accepted_run. congruence. Qed.

(** Commands that run from the phase a log ends in extend the log. *)
Lemma accepted_app srv log p evs p' :
  accepted srv log p -> run srv log p evs = Some p' -> accepted srv (log ++ evs) p'.
Proof. rewrite !accepted_run, run_app. by intros ->. Qed.

(** Every prefix of an accepted log is accepted. *)
Lemma accepted_prefix srv log1 log2 p :
  accepted srv (log1 ++ log2) p -> exists p1, accepted srv log1 p1.
Proof.
  rewrite accepted_run, run_app. destruct (run srv [] Idle log1) as [p1|] eqn:Hr; [|done].
  intros _. exists p1. by apply accepted_run.
Qed.

Lemma accepted_last srv log ev p' :
  accepted srv (log ++ [ev]) p' ->
  exists p, accepted srv log p /\ step p ev (srv (log ++ [ev])) p'.
Proof.
  inversion 1 as [Hnil|log0 p ev0 p0 Hacc Hstep Heq]; [by destruct log|].
  apply app_inj_tail in Heq as [-> ->]. eauto.
Qed.

(** A command in the middle of an accepted log was a step of the
    automaton from the phase the log before it ends in. *)
Lemma accepted_middle srv log1 ev log2 p' :
  accepted srv (log1 ++ ev :: log2) p' ->
  exists p p1, accepted srv log1 p /\ step p ev (srv (log1 ++ [ev])) p1.
Proof.
  rewrite (cons_middle ev log1 log2), app_assoc.
  intros [p1 (p & Hacc & Hstep)%accepted_last]%accepted_prefix. eauto.
Qed.
End automaton.

#[export] Hint Constructors Protocol.expects Protocol.step Protocol.accepted : portfolio.

(** ** What the protocol guarantees of any conforming client *)
Section guarantees.
Import Protocol.
Implicit Types (srv : Server) (log : list smtp_event) (p : phase).

(** Only an accepted STARTTLS leads to a secured connection. *)
Lemma accepted_secured srv log :
  accepted srv log Secured -> exists log0, log = log0 ++ [StartTLS] /\ srv log = None.
Proof.
  inversion 1 as [|log0 p ev p' _ Hstep]; subst.
  inversion Hstep as [? ? ? Hex Hp Hev Ha|? ? ? ? Hex|]; subst; [|by case_decide].
  inversion Hex; subst. eauto.
Qed.

(** Only an accepted login leads to an authenticated connection. *)
Lemma accepted_authenticated srv log :
  accepted srv log Authenticated ->
  exists log0 user password, log = log0 ++ [Login user password] /\ srv log = None.
Proof.
  inversion 1 as [|log0 p ev p' _ Hstep]; subst.
  inversion Hstep as [? ? ? Hex Hp Hev Ha|? ? ? ? Hex|]; subst; [|by case_decide].
  inversion Hex; subst. eauto.
Qed.

(** Credentials travel on secured connections only: in an accepted log a
    login comes straight after a STARTTLS the server accepted. *)
Lemma accepted_login_secured srv log1 user password log2 p :
  accepted srv (log1 ++ Login user password :: log2) p ->
  exists log0, log1 = log0 ++ [StartTLS] /\ srv log1 = None.
Proof.
  intros (p0 & p1 & Hacc & Hstep)%accepted_middle. apply accepted_secured.
  inversion Hstep as [? ? ? Hex|? ? ? ? Hex|]; subst; by inversion Hex; subst.
Qed.

(** A message is handed over on authenticated connections only. *)
Lemma accepted_send_authenticated srv log1 msg log2 p :
  accepted srv (log1 ++ SendMessage msg :: log2) p ->
  exists log0 user password, log1 = log0 ++ [Login user password] /\ srv log1 = None.
Proof.
  intros (p0 & p1 & Hacc & Hstep)%accepted_middle. apply accepted_authenticated.
  inversion Hstep as [? ? ? Hex|? ? ? ? Hex|]; subst; by inversion Hex; subst.
Qed.

(** With no connection open, the last command closed one or was a
    connection the server refused. *)
Lemma accepted_idle_last srv log :
  accepted srv log Idle ->
  log = [] \/ last log = Some Quit \/
  exists host port, last log = Some (Connect host port) /\ is_Some (srv log).
Proof.
  inversion 1 as [|log0 p ev p' _ Hstep]; subst; [by left|right].
  rewrite last_snoc.
  inversion Hstep as [? ? ? Hex|? ? ? e Hex Hp Hev Ha Hp'|]; subst; [by inversion Hex|..|by left].
  right. case_decide; [subst|done]. inversion Hex; subst. eauto.
Qed.
End guarantees.

(** ** The service against the protocol *)
Section conformance.
Import EmailService Protocol.
Implicit Types (self : EmailService.t) (contact : ContactMessage.t) (w : World).

Lemma session_result_run self msg w :
  exists evs, smtp_log (session_result self msg w).1 = smtp_log w ++ evs /\
              run (smtp_server w) (smtp_log w) Idle evs = Some Idle.
Proof.
  unfold session_result. cbn [dialogue session_steps fmap list_fmap snd].
  py_cases; rewrite <-?app_assoc; cbn [app]; (eexists; split; [done|]).
  all: cbn [run]; rewrite <-?app_assoc in *; cbn [app] in *;
    repeat match goal with Hs : smtp_server _ _ = _ |- _ => rewrite Hs; clear Hs end; done.
Qed.

(** A call sends nothing, or the commands of one session. *)
Lemma send_result_run self contact w :
  exists evs, smtp_log (send_result self contact w).1 = smtp_log w ++ evs /\
              run (smtp_server w) (smtp_log w) Idle evs = Some Idle.
Proof.
  unfold send_result.
  destruct (configured self); [|exists []; split; [by rewrite app_nil_r|done]].
  destruct (ContactMessage.timestamp contact) as [ts|];
    [|exists []; split; [by rewrite app_nil_r|done]].
  match goal with |- context [session_result ?s ?m ?w0] =>
    destruct (session_result_run s m w0) as (evs & Hlog & Hrun);
    destruct (session_result s m w0) as [w1 [e|[]]] end;
    by exists evs.
Qed.

(** A world whose log grew by a run of the automaton under the same
    server conforms when the world it grew from did. *)
Lemma conforms_extend w w' evs :
  smtp_server w' = smtp_server w -> smtp_log w' = smtp_log w ++ evs ->
  run (smtp_server w) (smtp_log w) Idle evs = Some Idle ->
  conforms w -> conforms w'.
Proof. unfold conforms. intros -> ->. eauto using accepted_app. Qed.

Lemma send_result_smtp_server self contact w :
  smtp_server (send_result self contact w).1 = smtp_server w.
Proof.
  pose proof (send_preserves_environment self contact w) as Henv.
  unfold world_after in Henv. rewrite send_contact_notification_run in Henv.
  by injection Henv.
Qed.

Lemma send_result_conforms self contact w :
  conforms w -> conforms (send_result self contact w).1.
Proof.
  destruct (send_result_run self contact w) as (evs & Hlog & Hrun).
  apply (conforms_extend _ _ evs); [apply send_result_smtp_server|done..].
Qed.

(** C21 (send_respects_protocol): the service is a conforming SMTP
    client.  From a log that is a sequence of closed sessions, a call of
    [send_contact_notification] leaves a log that is one again, whatever
    the server answers to each command and however the call ends: every
    command was sent in the phase that admits it, and no connection is
    left open. *)
Theorem send_respects_protocol self contact w :
  conforms w -> conforms (world_after (send_contact_notification self contact) w).
Proof.
  unfold world_after. rewrite send_contact_notification_run. apply send_result_conforms.
Qed.

(** [send_closes_session]: after a call on a conforming log the last
    command the server has seen, when the call sent any, is the QUIT that
    closed the session or the connection the server refused. *)
Theorem send_closes_session self contact w :
  conforms w ->
  let w' := world_after (send_contact_notification self contact) w in
  smtp_log w' = [] \/ last (smtp_log w') = Some Quit \/
  exists host port,
    last (smtp_log w') = Some (Connect host port) /\ is_Some (smtp_server w' (smtp_log w')).
Proof.
  intros Hw. apply accepted_idle_last. unfold world_after.
  rewrite send_contact_notification_run. by apply send_result_conforms.
Qed.
End conformance.

(** ** The theorems at the fixtures *)
Lemma send_respects_protocol_witness :
  Protocol.conforms
    (world_after (EmailService.send_contact_notification sample_service sample_contact)
       (world_of rejecting_login)).
Proof.
  apply (send_respects_protocol sample_service sample_contact (world_of rejecting_login)).
  constructor.
Defined.

Lemma send_closes_session_witness :
  let w' := world_after (EmailService.send_contact_notification sample_service sample_contact)
              (world_of rejecting_login) in
  smtp_log w' = [] \/ last (smtp_log w') = Some Quit \/
  exists host port,
    last (smtp_log w') = Some (Connect host port) /\ is_Some (smtp_server w' (smtp_log w')).
Proof.
  apply (send_closes_session sample_service sample_contact (world_of rejecting_login)).
  constructor.
Defined.

(** The automaton refuses what the service must not do: no log in which a
    login follows the connection directly is accepted, whatever the
    server answers. *)
Example unsecured_login_not_accepted srv host port user password log p :
  ~ Protocol.accepted srv (Connect host port :: Login user password :: log) p.
Proof.
  intros (log0 & Hlog & _)%(accepted_login_secured srv [Connect host port]).
  by destruct log0 as [|? [|]].
Qed.
