(* ===== verification/Conformance.v ===== *)
(** * The worlds the application reaches

    The worlds a running application passes through, as the closure of
    [App.handle] over every request: an inductive reachability relation,
    its agreement with [App.serve], and the invariants of every reachable
    world, proved by induction on the relation: what the application
    reads is never changed, the printed lines and the log of SMTP
    commands only grow, and the log stays a run of the protocol of
    [Protocol] with no connection left open. *)

From S2P Require Import Prelude Runtime Domain EmailService ContactUseCase Routes App Handling Protocol.

Section reachability.
Context `{Validators}.
Implicit Types (app : App.t) (req : request) (w : World).

(** The worlds reached from [w0] by answering requests. *)
Inductive reachable (app : App.t) (w0 : World) : World -> Prop :=
  | reachable_start : reachable app w0 w0
  | reachable_handle w req :
      reachable app w0 w -> reachable app w0 (world_after (handle app req) w).

Lemma reachable_first app req w0 w :
  reachable app (world_after (handle app req) w0) w -> reachable app w0 w.
Proof. induction 1; eauto using reachable. Qed.

Lemma serve_cons_world app req reqs w :
  world_after (serve app (req :: reqs)) w =
    world_after (serve app reqs) (world_after (handle app req) w).
Proof.
  destruct (handle_answers app req w) as (resp & Hresp & _).
  unfold world_after, outcome in *. cbn [serve]. rewrite (bind_run (handle _ _)).
  destruct (handle app req w) as [w1 r]. cbn [fst snd] in *. subst r.
  rewrite (bind_run (serve _ _)). by destruct (serve app reqs w1) as [w2 [e|rs]].
Qed.

(** The worlds [serve] ends in are the reachable ones. *)
Lemma serve_reachable app reqs w : reachable app w (world_after (serve app reqs) w).
Proof.
  revert w. induction reqs as [|req reqs IH]; intros w; [constructor|].
  rewrite serve_cons_world. apply (reachable_first _ req), IH.
Qed.

Lemma serve_snoc_world app reqs req w :
  world_after (serve app (reqs ++ [req])) w =
    world_after (handle app req) (world_after (serve app reqs) w).
Proof.
  revert w. induction reqs as [|r reqs IH]; intros w; cbn [List.app].
  - by rewrite serve_cons_world.
  - by rewrite !serve_cons_world, IH.
Qed.

(** One more request after a list of requests. *)
Lemma serve_snoc app reqs req w w1 rs w2 resp :
  serve app reqs w = (w1, inr rs) -> handle app req w1 = (w2, inr resp) ->
  serve app (reqs ++ [req]) w = (w2, inr (rs ++ [resp])).
Proof.
  revert w rs. induction reqs as [|r reqs IH]; intros w rs; cbn [List.app serve].
  - intros [= <- <-] Hreq. by rewrite (bind_run (handle _ _)), Hreq.
  - rewrite !(bind_run (handle _ _)). destruct (handle app r w) as [w' [e|resp']]; [done|].
    rewrite !(bind_run (serve _ _)).
    destruct (serve app reqs w') as [w'' [e|rs']] eqn:Hserve; [done|].
    intros [= <- <-] Hreq. by rewrite (IH _ _ Hserve Hreq).
Qed.

Lemma reachable_serve app w0 w :
  reachable app w0 w -> exists reqs, w = world_after (serve app reqs) w0.
Proof.
  induction 1 as [|w req _ [reqs ->]]; [by exists []|].
  exists (reqs ++ [req]). by rewrite serve_snoc_world.
Qed.

(** ** Invariants of the reachable worlds *)

(** A reachable world lies further along every order that printing and
    sending move the world along. *)
Lemma reachable_moves (R : relation World) `{!Moves R} app w0 w :
  reachable app w0 w -> R w0 w.
Proof. induction 1; [done|]. etrans; [done|]. apply (handle_moves R). Qed.

(** What a handler can read back is never changed. *)
Lemma reachable_environment app w0 w : reachable app w0 w -> environment w = environment w0.
Proof. apply (reachable_moves same_environment). Qed.

Lemma reachable_smtp_server app w0 w : reachable app w0 w -> smtp_server w = smtp_server w0.
Proof. by intros [=]%reachable_environment. Qed.

Lemma handle_conforms app req w :
  Protocol.conforms w -> Protocol.conforms (world_after (handle app req) w).
Proof.
  intros Hw. unfold Protocol.conforms.
  rewrite (reachable_smtp_server app w) by eauto using reachable.
  destruct (handle_log_send app req w) as [->|(contact & _ & ->)]; [done|].
  rewrite <-(send_result_smtp_server (email_service app) contact).
  by apply send_result_conforms.
Qed.

Lemma reachable_conforms app w0 w :
  Protocol.conforms w0 -> reachable app w0 w -> Protocol.conforms w.
Proof. intros Hw0. induction 1; [done|]. by apply handle_conforms. Qed.

(** [serve_respects_protocol]: the application is a conforming SMTP
    client for as long as it runs.  After any requests, under any server,
    the log of a world whose log was a sequence of closed sessions is
    again a sequence of closed sessions: between two requests no
    connection to the server is open, and every command was sent in the
    phase of the protocol that admits it. *)
Theorem serve_respects_protocol app reqs w :
  Protocol.conforms w -> Protocol.conforms (world_after (serve app reqs) w).
Proof. intros Hw. apply (reachable_conforms app w); [done|]. apply serve_reachable. Qed.

(** [reachable_history_grows]: nothing printed and no command sent
    is ever taken back: the lines printed and the commands logged in a
    world are a prefix of those of every world reached from it. *)
Theorem reachable_history_grows app w0 w :
  reachable app w0 w ->
  stdout w0 `prefix_of` stdout w /\ smtp_log w0 `prefix_of` smtp_log w.
Proof. intros Hw. change (extends w0 w). by apply (reachable_moves extends app). Qed.

(** A fresh process has sent nothing, and conforms. *)
Lemma fresh_conforms w0 : smtp_log w0 = [] -> Protocol.conforms w0.
Proof. unfold Protocol.conforms. intros ->. constructor. Qed.

Lemma reachable_accepted app w0 w :
  smtp_log w0 = [] -> reachable app w0 w ->
  Protocol.accepted (smtp_server w0) (smtp_log w) Protocol.Idle.
Proof.
  intros Hw0%fresh_conforms Hw. rewrite <-(reachable_smtp_server app w0 w Hw).
  by apply (reachable_conforms app w0).
Qed.

(** C22 (reachable_credentials_secured): the application never sends
    its credentials in clear.  In every world a process has reached from
    its start, each login the server has received came straight after a
    STARTTLS that the server had accepted. *)
Theorem reachable_credentials_secured app w0 w log1 user password log2 :
  smtp_log w0 = [] -> reachable app w0 w ->
  smtp_log w = log1 ++ Login user password :: log2 ->
  exists log0, log1 = log0 ++ [StartTLS] /\ smtp_server w0 log1 = None.
Proof.
  intros Hw0 Hw Hlog. pose proof (reachable_accepted app w0 w Hw0 Hw) as Hacc.
  rewrite Hlog in Hacc. by apply accepted_login_secured in Hacc.
Qed.

(** [reachable_messages_authenticated]: every message the server
    has received was handed over straight after a login that the server
    had accepted. *)
Theorem reachable_messages_authenticated app w0 w log1 msg log2 :
  smtp_log w0 = [] -> reachable app w0 w ->
  smtp_log w = log1 ++ SendMessage msg :: log2 ->
  exists log0 user password,
    log1 = log0 ++ [Login user password] /\ smtp_server w0 log1 = None.
Proof.
  intros Hw0 Hw Hlog. pose proof (reachable_accepted app w0 w Hw0 Hw) as Hacc.
  rewrite Hlog in Hacc. by apply accepted_send_authenticated in Hacc.
Qed.
End reachability.

(** ** The theorems at the fixtures: a refused login, then a health check *)
Definition sample_requests : list request :=
  [contact_request None sample_data; get_request None "/health"].

Lemma serve_respects_protocol_witness :
  Protocol.conforms
    (world_after (serve (H:=sample_validators) sample_app sample_requests)
       (world_of rejecting_login)).
Proof.
  apply (serve_respects_protocol (H:=sample_validators) sample_app sample_requests
           (world_of rejecting_login)).
  constructor.
Defined.

Lemma reachable_history_grows_witness :
  [] `prefix_of`
    stdout (world_after (handle (H:=sample_validators) sample_app
                           (contact_request None sample_data)) (world_of rejecting_login)) /\
  [] `prefix_of`
    smtp_log (world_after (handle (H:=sample_validators) sample_app
                             (contact_request None sample_data)) (world_of rejecting_login)).
Proof.
  apply (reachable_history_grows (H:=sample_validators) sample_app (world_of rejecting_login)).
  apply reachable_handle, reachable_start.
Defined.

Lemma reachable_credentials_secured_witness :
  exists log0,
    [Connect "smtp.gmail.com" 587; StartTLS] = log0 ++ [StartTLS] /\
    rejecting_login [Connect "smtp.gmail.com" 587; StartTLS] = None.
Proof.
  apply (reachable_credentials_secured (H:=sample_validators) sample_app
           (world_of rejecting_login)
           (world_after (handle (H:=sample_validators) sample_app
                           (contact_request None sample_data)) (world_of rejecting_login))
           [Connect "smtp.gmail.com" 587; StartTLS]
           (Some "owner@example.com") (Some "app-password") [Quit]);
    [reflexivity|apply reachable_handle, reachable_start|by vm_compute].
Defined.

Lemma reachable_messages_authenticated_witness :
  exists log0 user password,
    [Connect "smtp.gmail.com" 587; StartTLS; Login (Some "owner@example.com") (Some "app-password")]
      = log0 ++ [Login user password] /\
    smtp_server sample_world
      [Connect "smtp.gmail.com" 587; StartTLS;
       Login (Some "owner@example.com") (Some "app-password")] = None.
Proof.
  apply (reachable_messages_authenticated (H:=sample_validators) sample_app sample_world
           (world_after (handle (H:=sample_validators) sample_app
                           (contact_request None sample_data)) sample_world)
           _ (notification sample_service sample_contact sample_clock) [Quit]);
    [reflexivity|apply reachable_handle, reachable_start|by vm_compute].
Defined.
