(* ===== verification/Loops.v ===== *)
(** * The repository's loops, one iteration at a time

    [ProjectRepository.get_by_id] walks the list with a [for] loop that
    returns from its body, and [get_featured] with a list comprehension
    (src/backend/infrastructure/repositories/project_repository.py).
    [Repository] models both by structural recursion.  Here each is a
    machine that takes one iteration per step, as the interpreter does;
    the theorems show that the machines cannot run forever, that they stop
    within the length of the list, and that what they stop with is what
    the recursive definitions compute. *)

From S2P Require Import Prelude Runtime Domain Repository.

(** ** The lookup: [for project in self.projects: ...; return None] *)
Module Lookup.

(** The iterator's remaining projects, or the value returned. *)
Inductive config :=
  | Iterating (rest : list Project.t)
  | Returned (result : option Project.t).

#[global] Instance config_eq_dec : EqDecision config.
Proof. solve_decision. Defined.

Inductive step (project_id : string) : relation config :=
  | step_exhausted :
      step project_id (Iterating []) (Returned None)
  | step_hit project rest :
      Project.id project = project_id ->
      step project_id (Iterating (project :: rest)) (Returned (Some project))
  | step_miss project rest :
      Project.id project <> project_id ->
      step project_id (Iterating (project :: rest)) (Iterating rest).

(** One iteration as a function. *)
Definition next (project_id : string) (c : config) : option config :=
  match c with
  | Iterating [] => Some (Returned None)
  | Iterating (project :: rest) =>
      Some (if decide (Project.id project = project_id)
            then Returned (Some project) else Iterating rest)
  | Returned _ => None
  end.

(** The iterations still possible, at most. *)
Definition measure (c : config) : nat :=
  match c with
  | Iterating rest => S (length rest)
  | Returned _ => 0
  end.
End Lookup.

(** ** The comprehension: [[p for p in self.projects if p.featured]] *)
Module Comprehension.

(** The iterator's remaining projects and the list built so far. *)
Record config := mk { rest : list Project.t; built : list Project.t }.

#[global] Instance config_eq_dec : EqDecision config.
Proof. solve_decision. Defined.

Inductive step : relation config :=
  | step_keep p rest built :
      Project.featured p = true -> step (mk (p :: rest) built) (mk rest (built ++ [p]))
  | step_skip p rest built :
      Project.featured p = false -> step (mk (p :: rest) built) (mk rest built).

Definition next (c : config) : option config :=
  match rest c with
  | [] => None
  | p :: rest => Some (mk rest (if Project.featured p then built c ++ [p] else built c))
  end.
End Comprehension.

#[export] Hint Constructors Lookup.step Comprehension.step : portfolio.

(** ** Machines whose step is a function and lowers a measure *)
Section measured.
Context {C : Type} (R : relation C) (next : C -> option C) (measure : C -> nat).
Hypothesis step_next : forall c c', R c c' <-> next c = Some c'.
Hypothesis step_lowers : forall c c', R c c' -> measure c' < measure c.

Lemma measured_deterministic c c1 c2 : R c c1 -> R c c2 -> c1 = c2.
Proof. rewrite !step_next. congruence. Qed.

(** No run goes on forever. *)
Lemma measured_sn c : sn R c.
Proof.
  apply (well_founded_lt_compat C measure (flip R)). intros c1 c2. apply step_lowers.
Qed.

(** A run takes no more steps than the measure of where it starts. *)
Lemma measured_nsteps n c c' : nsteps R n c c' -> n + measure c' <= measure c.
Proof.
  induction 1 as [|n c1 c2 c3 Hstep _ IH]; [done|]. apply step_lowers in Hstep. lia.
Qed.

(** Two runs from one configuration to configurations without a step
    end in the same one. *)
Lemma measured_confluent c c1 c2 : rtc R c c1 -> nf R c1 -> rtc R c c2 -> nf R c2 -> c1 = c2.
Proof.
  intros Hrun1 Hnf1. revert c2.
  induction Hrun1 as [c|c c' c1 Hstep Hrun1 IH]; intros c2 Hrun2 Hnf2.
  - destruct Hrun2 as [|c c' c2 Hstep _]; [done|]. destruct Hnf1. by exists c'.
  - destruct Hrun2 as [|c c'' c2 Hstep' Hrun2]; [destruct Hnf2; by exists c'|].
    rewrite (measured_deterministic _ _ _ Hstep' Hstep) in Hrun2. by apply IH.
Qed.
End measured.

(** ** The lookup *)
Section lookup.
Import ProjectRepository Lookup.
Implicit Types (ps : list Project.t) (i : string) (c : Lookup.config).

Lemma lookup_step_next i c c' : step i c c' <-> next i c = Some c'.
Proof.
  split.
  - intros [|p rest Hp|p rest Hp]; cbn [next]; [done|..];
      by rewrite ?decide_True, ?decide_False by done.
  - destruct c as [[|p rest]|r]; cbn [next]; [by intros [= <-]; constructor| |done].
    case_decide; intros [= <-]; by constructor.
Qed.

Lemma lookup_step_lowers i c c' : step i c c' -> measure c' < measure c.
Proof. intros []; cbn [measure length]; lia. Qed.

Lemma lookup_returned_nf i r : nf (step i) (Returned r).
Proof. intros [c Hc]. inversion Hc. Qed.

Lemma lookup_nf_returned i c : nf (step i) c -> exists r, c = Returned r.
Proof.
  destruct c as [ps|r]; [|by eexists]. intros []. destruct ps as [|p rest]; [by eexists; constructor|].
  destruct (decide (Project.id p = i)); eexists; by constructor.
Qed.

(** The machine reaches what the recursive walk computes, in as many
    steps as projects it has looked at, and one more when none matched. *)
Lemma lookup_run ps i :
  exists n, n <= S (length ps) /\
    nsteps (step i) n (Iterating ps) (Returned (get_by_id_loop ps i)).
Proof.
  induction ps as [|p rest (n & Hn & IH)]; cbn [get_by_id_loop length].
  - exists 1. split; [done|]. apply nsteps_once. constructor.
  - case_decide.
    + exists 1. split; [lia|]. apply nsteps_once. by constructor.
    + exists (S n). split; [lia|]. eapply nsteps_l; [by constructor|done].
Qed.

Lemma lookup_result ps i r :
  rtc (step i) (Iterating ps) (Returned r) <-> r = get_by_id_loop ps i.
Proof.
  destruct (lookup_run ps i) as (n & _ & Hrun%rtc_nsteps_2). split; [|by intros ->].
  intros Hr. assert (Returned r = Returned (get_by_id_loop ps i)) as [=]; [|done].
  eapply (measured_confluent _ _ (lookup_step_next i)); eauto using lookup_returned_nf.
Qed.
End lookup.

(** ** The comprehension *)
Section comprehension.
Import ProjectRepository Comprehension.
Implicit Types (ps acc : list Project.t) (c : Comprehension.config).

Lemma comprehension_step_next c c' : step c c' <-> next c = Some c'.
Proof.
  split.
  - intros [p ps acc Hp|p ps acc Hp]; unfold next; cbn [rest built]; by rewrite Hp.
  - destruct c as [[|p ps] acc]; unfold next; cbn [rest built]; [done|].
    intros [= <-]. destruct (Project.featured p) eqn:Hp; by constructor.
Qed.

Lemma comprehension_step_lowers c c' : step c c' -> length (rest c') < length (rest c).
Proof. intros []; cbn [rest length]; lia. Qed.

Lemma comprehension_done_nf acc : nf step (mk [] acc).
Proof. intros [c Hc]. inversion Hc. Qed.

(** The machine takes one step per project and appends the featured
    ones in their order. *)
Lemma comprehension_run ps acc :
  nsteps step (length ps) (mk ps acc) (mk [] (acc ++ featured_loop ps)).
Proof.
  revert acc. induction ps as [|p ps IH]; intros acc; cbn [featured_loop length].
  - rewrite app_nil_r. constructor.
  - destruct (Project.featured p) eqn:Hp.
    + rewrite (cons_middle p acc (featured_loop ps)), app_assoc.
      eapply nsteps_l; [by constructor|apply IH].
    + eapply nsteps_l; [by constructor|apply IH].
Qed.
End comprehension.

(** ** The loops of the repository terminate with the modelled results *)
Section termination.
Implicit Types (self : ProjectRepository.t) (i : string).

(** C27 (get_by_id_terminates): the loop of [get_by_id] always returns.
    From the start of the list the machine has no infinite run, no run
    takes more than one iteration per project and the final
    [return None], and a run reaches the value
    [ProjectRepository.get_by_id] returns. *)
Theorem get_by_id_terminates self i :
  sn (Lookup.step i) (Lookup.Iterating (ProjectRepository.projects self)) /\
  (forall n c, nsteps (Lookup.step i) n (Lookup.Iterating (ProjectRepository.projects self)) c ->
               n <= S (length (ProjectRepository.projects self))) /\
  exists n, nsteps (Lookup.step i) n (Lookup.Iterating (ProjectRepository.projects self))
              (Lookup.Returned (ProjectRepository.get_by_id self i)).
Proof.
  split_and!.
  - apply (measured_sn _ Lookup.measure), lookup_step_lowers.
  - intros n c Hrun%(measured_nsteps _ Lookup.measure (lookup_step_lowers i)).
    cbn [Lookup.measure] in Hrun. lia.
  - destruct (lookup_run (ProjectRepository.projects self) i) as (n & _ & Hrun). by exists n.
Qed.

(** [get_by_id_machine_agrees]: the recursive definition of the
    lookup and the loop taken one iteration at a time give the same
    result: the machine can return a value exactly when that value is
    what [ProjectRepository.get_by_id] computes, and every run of the
    machine that can go no further has returned it. *)
Theorem get_by_id_machine_agrees self i :
  (forall r, rtc (Lookup.step i) (Lookup.Iterating (ProjectRepository.projects self))
               (Lookup.Returned r) <-> r = ProjectRepository.get_by_id self i) /\
  (forall c, rtc (Lookup.step i) (Lookup.Iterating (ProjectRepository.projects self)) c ->
             nf (Lookup.step i) c ->
             c = Lookup.Returned (ProjectRepository.get_by_id self i)).
Proof.
  unfold ProjectRepository.get_by_id. split; [intros r; apply lookup_result|].
  intros c Hrun [r ->]%lookup_nf_returned. by apply lookup_result in Hrun as ->.
Qed.

(** [get_featured_terminates]: the comprehension of [get_featured]
    takes exactly one step per project of the repository, leaves the
    list [ProjectRepository.get_featured] computes, and has then no
    further step. *)
Theorem get_featured_terminates self :
  nsteps Comprehension.step (length (ProjectRepository.projects self))
    (Comprehension.mk (ProjectRepository.projects self) [])
    (Comprehension.mk [] (ProjectRepository.get_featured self)) /\
  nf Comprehension.step (Comprehension.mk [] (ProjectRepository.get_featured self)) /\
  sn Comprehension.step (Comprehension.mk (ProjectRepository.projects self) []).
Proof.
  split_and!; [apply (comprehension_run _ [])|apply comprehension_done_nf|].
  apply (measured_sn _ (fun c => length (Comprehension.rest c))), comprehension_step_lowers.
Qed.
End termination.

(** ** The machines on the shipped projects *)
Example lookup_second_project :
  nsteps (Lookup.step "spacecraft-mission-control") 2
    (Lookup.Iterating (ProjectRepository.projects ProjectRepository.__init__))
    (Lookup.Returned (Some ProjectRepository.spacecraft_mission_control)).
Proof. eapply nsteps_l; [by apply Lookup.step_miss|]. by apply nsteps_once, Lookup.step_hit. Qed.

Example lookup_unknown_project :
  nsteps (Lookup.step "portfolio") 3
    (Lookup.Iterating (ProjectRepository.projects ProjectRepository.__init__))
    (Lookup.Returned None).
Proof. do 2 (eapply nsteps_l; [by apply Lookup.step_miss|]). apply nsteps_once. constructor. Qed.
