(* ===== verification/Startup.v ===== *)
(** * Starting the application

    What importing src/backend/main.py does before the first request:
    [load_dotenv()] completes the process environment from the [.env]
    file, then the routers are imported and construct the email service
    and the use cases from the environment as it is at that moment.  The
    theorems show which variables the application reads, that a variable
    of the process wins over the file, and that the file is read at all
    only because it is loaded before the routers are imported. *)

From S2P Require Import Prelude Runtime Domain EmailService ContactUseCase Routes App Handling.

(** The variables the application reads. *)
Definition variables : list string :=
  ["SMTP_HOST"; "SMTP_PORT"; "SMTP_USER"; "SMTP_PASSWORD"; "EMAIL_FROM"; "EMAIL_TO";
   "ALLOWED_ORIGINS"].

(** The variables without which the service sends nothing. *)
Definition credentials : list string := ["SMTP_USER"; "SMTP_PASSWORD"; "EMAIL_TO"].

Section environment.
Implicit Types (dotenv environ : gmap string string) (k : string).

Lemma load_dotenv_lookup dotenv environ k :
  App.load_dotenv dotenv environ !! k =
    match environ !! k with
    | Some v => Some v
    | None => dotenv !! k
    end.
Proof.
  unfold App.load_dotenv. destruct (environ !! k) as [v|] eqn:Hk.
  - by apply lookup_union_Some_l.
  - by rewrite lookup_union_r.
Qed.

(** Two environments that agree on the variables give the same application. *)
Lemma app_reads_variables environ1 environ2 :
  Forall (fun k => environ1 !! k = environ2 !! k) variables ->
  App.app environ1 = App.app environ2.
Proof.
  unfold variables. rewrite !Forall_cons. intros Hk. destruct_and!.
  unfold App.app, ContactRoute.contact_use_case, EmailService.__init__, App.origins,
    getenv_default, getenv.
  by repeat match goal with Heq : _ !! _ = _ |- _ => rewrite Heq; clear Heq end.
Qed.

Lemma app_email_service environ app :
  App.app environ = inr app ->
  EmailService.smtp_user (email_service app) = environ !! "SMTP_USER" /\
  EmailService.smtp_password (email_service app) = environ !! "SMTP_PASSWORD" /\
  EmailService.email_to (email_service app) = environ !! "EMAIL_TO".
Proof.
  unfold App.app, ContactRoute.contact_use_case, EmailService.__init__.
  destruct (py_int _); [done|]. by intros [= <-].
Qed.

(** [main_process_environment_wins]: a variable of the process wins
    over the [.env] file: when the process sets every variable the
    application reads, the file changes nothing, whatever it holds. *)
Theorem main_process_environment_wins dotenv environ :
  Forall (fun k => is_Some (environ !! k)) variables ->
  App.main dotenv environ = App.app environ.
Proof.
  intros Hset. unfold App.main. apply app_reads_variables.
  eapply Forall_impl; [exact Hset|]. intros k [v Hv]. by rewrite load_dotenv_lookup, Hv.
Qed.

(** C34 (main_loads_dotenv_first): the file is read because it is loaded
    before the routers are imported.  With the credentials in the file
    only, the application imported after [load_dotenv()] holds a
    configured service, while the routers imported on the bare process
    environment construct a service that skips every delivery. *)
Theorem main_loads_dotenv_first dotenv environ app :
  Forall (fun k => environ !! k = None /\ truthy (dotenv !! k) = true) credentials ->
  App.main dotenv environ = inr app ->
  EmailService.configured (email_service app) = true /\
  forall app', App.app environ = inr app' ->
               EmailService.configured (email_service app') = false.
Proof.
  unfold credentials. rewrite !Forall_cons.
  intros ([Hu Hu'] & [Hp Hp'] & [Ht Ht'] & _) Hmain.
  split.
  - apply app_email_service in Hmain as (Hu1 & Hp1 & Ht1). unfold EmailService.configured.
    rewrite Hu1, Hp1, Ht1, !load_dotenv_lookup, Hu, Hp, Ht. cbn. by rewrite Hu', Hp', Ht'.
  - intros app' (Hu1 & _)%app_email_service. unfold EmailService.configured.
    by rewrite Hu1, Hu.
Qed.
End environment.

(** ** The static directory *)
Section static.
Implicit Types (fs : gmap string App.fs_entry) (path : string).

Lemma makedirs_go_run paths fs :
  Forall (fun path => fs !! path <> Some App.File) paths ->
  exists fs', App.makedirs_go paths fs = inr fs' /\ fs ⊆ fs' /\
              Forall (fun path => fs' !! path = Some App.Dir) paths /\
              (forall path, path ∉ paths -> fs' !! path = fs !! path).
Proof.
  revert fs. induction paths as [|path rest IH]; intros fs; [by exists fs|].
  intros [Hpath Hrest]%Forall_cons. cbn [App.makedirs_go].
  destruct (fs !! path) as [[]|] eqn:Hfs; [|done|].
  - destruct (IH fs Hrest) as (fs' & -> & Hsub & Hdirs & Hframe). exists fs'.
    split_and!; [done..| |set_solver].
    constructor; [by eapply lookup_weaken|done].
  - destruct (IH (<[path := App.Dir]> fs)) as (fs' & -> & Hsub & Hdirs & Hframe).
    { eapply Forall_impl; [exact Hrest|]. intros p Hp.
      destruct (decide (p = path)) as [->|]; [by rewrite lookup_insert_eq|].
      by rewrite lookup_insert_ne. }
    exists fs'. split_and!; [done| | |].
    + etrans; [by apply insert_subseteq|done].
    + constructor; [|done]. eapply lookup_weaken; [|done]. by rewrite lookup_insert_eq.
    + intros p [Hp1 Hp2]%not_elem_of_cons. by rewrite Hframe, lookup_insert_ne.
Qed.

(** [mount_static_succeeds]: mounting the static directory cannot
    fail for want of the directory: unless a regular file stands where a
    directory is needed, the import creates what is missing, keeps every
    file and directory there was, and finds the directory it mounts. *)
Theorem mount_static_succeeds fs :
  fs !! "static" <> Some App.File -> fs !! "static/resumes" <> Some App.File ->
  exists fs',
    App.mount_static fs = inr fs' /\ fs ⊆ fs' /\
    fs' !! "static" = Some App.Dir /\ fs' !! "static/resumes" = Some App.Dir /\
    App.mount_static fs' = inr fs'.
Proof.
  intros Hs Hr. unfold App.mount_static, App.makedirs.
  change (App.prefixes "static/resumes") with ["static"; "static/resumes"].
  destruct (makedirs_go_run ["static"; "static/resumes"] fs)
    as (fs' & Hrun & Hsub & [Hs' [Hr' _]%Forall_cons]%Forall_cons & _);
    [by repeat constructor|].
  exists fs'. rewrite Hrun. unfold App.StaticFiles_init. rewrite decide_True by done.
  split_and!; [done..|].
  cbn [App.makedirs_go]. by rewrite Hs', Hr', decide_True.
Qed.

(** [mount_static_blocked]: a regular file named static stops the
    import; without the call of [makedirs] a missing directory would. *)
Theorem mount_static_blocked fs :
  fs !! "static" = Some App.File ->
  exists e, App.mount_static fs = inl e /\ exn_type_name e = "NotADirectoryError".
Proof.
  intros Hs. unfold App.mount_static, App.makedirs.
  change (App.prefixes "static/resumes") with ["static"; "static/resumes"].
  cbn [App.makedirs_go]. rewrite Hs. by eexists.
Qed.

Example static_files_needs_directory :
  App.StaticFiles_init "static" ∅ =
    inl (PyException "RuntimeError" "Directory 'static' does not exist").
Proof. reflexivity. Qed.
End static.

Lemma mount_static_succeeds_witness :
  exists fs',
    App.mount_static ({[ "static" := App.Dir ]}) = inr fs' /\
    ({[ "static" := App.Dir ]} : gmap string App.fs_entry) ⊆ fs' /\
    fs' !! "static" = Some App.Dir /\ fs' !! "static/resumes" = Some App.Dir /\
    App.mount_static fs' = inr fs'.
Proof. by apply (mount_static_succeeds {[ "static" := App.Dir ]}). Defined.

Lemma mount_static_blocked_witness :
  exists e, App.mount_static ({[ "static" := App.File ]}) = inl e /\
            exn_type_name e = "NotADirectoryError".
Proof. by apply (mount_static_blocked {[ "static" := App.File ]}). Defined.

(** ** The theorems at a process without variables and a complete file *)
Definition sample_dotenv : gmap string string :=
  list_to_map [("SMTP_USER", "owner@example.com"); ("SMTP_PASSWORD", "app-password");
               ("EMAIL_TO", "owner@example.com"); ("SMTP_PORT", "2525")].

Definition sample_environ : gmap string string :=
  list_to_map [("SMTP_HOST", "smtp.example.com"); ("SMTP_PORT", "587");
               ("SMTP_USER", "me@example.com"); ("SMTP_PASSWORD", "secret");
               ("EMAIL_FROM", "me@example.com"); ("EMAIL_TO", "me@example.com");
               ("ALLOWED_ORIGINS", "https://example.com")].

Lemma main_process_environment_wins_witness :
  App.main sample_dotenv sample_environ = App.app sample_environ.
Proof.
  apply (main_process_environment_wins sample_dotenv sample_environ).
  repeat constructor; by eexists.
Defined.

Lemma main_loads_dotenv_first_witness :
  exists app,
    App.main sample_dotenv ∅ = inr app /\
    EmailService.configured (email_service app) = true /\
    forall app', App.app ∅ = inr app' -> EmailService.configured (email_service app') = false.
Proof.
  eexists. split; [reflexivity|].
  apply (main_loads_dotenv_first sample_dotenv ∅); [|reflexivity].
  repeat constructor.
Defined.
