(* ===== verification/Dispatch.v ===== *)
(** * Which requests reach which handler

    [App] shows where the table of src/backend/main.py sends the requests
    the handlers are written for.  This file shows the converse: a handler
    is reached by those requests only.  The first match of the table is
    inverted once, for any table; the inversion is then run over the
    thirteen entries of the application.  The result is the whole meaning
    of the route decorators and of their order: each handler with the one
    method and the paths that reach it. *)

From S2P Require Import Prelude Runtime Domain EmailService ContactUseCase Routes App Handling.

Set Warnings "-clear-no-such-hyp".

(** ** The first match, inverted *)
Section first_match.
Implicit Types (tbl : list compiled) (en : compiled) (meth : string)
  (segments : list string) (t : target).

(** What an entry answers when it matches in full. *)
Definition full (m : matching) : option target :=
  match m with
  | Full e params => Some (Endpoint e params)
  | FullMount directory rest => Some (StaticFiles directory rest)
  | FullPage page => Some (Documentation page)
  | Partial | NoMatch => None
  end.

(** The target of a table is that of an entry before which no entry
    matches in full. *)
Lemma first_match_inl tbl meth segments partial t :
  first_match tbl meth segments partial = inl t ->
  exists i en, tbl !! i = Some en /\ full (matches en meth segments) = Some t /\
               Forall (fun en' => full (matches en' meth segments) = None) (take i tbl).
Proof.
  revert partial. induction tbl as [|en tbl IH]; intros partial; cbn [first_match]; [done|].
  destruct (matches en meth segments) eqn:Hm;
    try (intros (i & en' & Hi & Hfull & Hbefore)%IH; exists (S i), en';
         split_and!; [done..|]; cbn [take]; constructor; [by rewrite Hm|done]);
    intros [= <-]; exists 0, en; cbn [take]; by rewrite Hm.
Qed.

Lemma full_route methods pattern e' meth segments e params :
  full (matches (CRoute methods pattern e') meth segments) = Some (Endpoint e params) <->
  e' = e /\ meth ∈ methods /\ match_segments pattern segments = Some params.
Proof.
  cbn [matches]. destruct (match_segments pattern segments) as [ps|]; [|naive_solver].
  case_decide; naive_solver.
Qed.

Lemma full_route_None methods pattern e' meth segments :
  full (matches (CRoute methods pattern e') meth segments) = None <->
  meth ∉ methods \/ match_segments pattern segments = None.
Proof.
  cbn [matches]. destruct (match_segments pattern segments) as [ps|]; [|naive_solver].
  case_decide; naive_solver.
Qed.

Lemma full_not_endpoint en meth segments e params :
  full (matches en meth segments) = Some (Endpoint e params) ->
  exists methods pattern, en = CRoute methods pattern e.
Proof.
  destruct en as [prefix directory|methods pattern e'|methods pattern page]; cbn [matches].
  - by destruct (match_prefix _ _).
  - intros (-> & _)%full_route. eauto.
  - destruct (match_segments _ _); [case_decide|]; done.
Qed.
End first_match.

(** ** Patterns, inverted *)
Section patterns.
Implicit Types (pattern : list segment) (segments : list string)
  (params : list (string * string)).

Lemma match_segments_nil segments params :
  match_segments [] segments = Some params <-> segments = [] /\ params = [].
Proof. destruct segments; naive_solver. Qed.

Lemma match_segments_lit s pattern segments params :
  match_segments (Lit s :: pattern) segments = Some params <->
  exists rest, segments = s :: rest /\ match_segments pattern rest = Some params.
Proof.
  destruct segments as [|seg rest]; cbn [match_segments]; [naive_solver|].
  case_decide; naive_solver.
Qed.

Lemma match_segments_param name pattern segments params :
  match_segments (Param name :: pattern) segments = Some params <->
  exists seg rest params',
    segments = seg :: rest /\ seg <> "" /\
    match_segments pattern rest = Some params' /\ params = (name, seg) :: params'.
Proof.
  destruct segments as [|seg rest]; cbn [match_segments]; [naive_solver|].
  case_decide; [naive_solver|].
  destruct (match_segments pattern rest) as [ps|] eqn:Hm; cbn [fmap option_fmap option_map].
  - split; [intros [= <-]; by exists seg, rest, ps|].
    intros (? & ? & ? & [= <- <-] & ? & Hm' & ->). by simplify_eq.
  - split; [done|]. intros (? & ? & ? & [= <- <-] & ? & Hm' & _). by simplify_eq.
Qed.

(** A pattern of literals matches its own segments and no others. *)
Lemma match_segments_lits (lits : list string) segments params :
  match_segments (Lit <$> lits) segments = Some params <-> segments = lits /\ params = [].
Proof.
  revert segments. induction lits as [|s lits IH]; intros segments; cbn [fmap list_fmap].
  - apply match_segments_nil.
  - rewrite match_segments_lit. setoid_rewrite IH. naive_solver.
Qed.
End patterns.

(** The path of a request from its segments. *)
Lemma path_of_segments path segments : split "/" path = segments -> path = join "/" segments.
Proof. intros <-. by rewrite join_split. Qed.

(** ** The application's table, inverted *)

(** The requests that reach a handler, with the parameters it is given. *)
Definition reaches (e : App.endpoint) (meth path : string)
    (params : list (string * string)) : Prop :=
  match e with
  | App.SubmitContactForm => meth = "POST" /\ path = "/api/v1/contact" /\ params = []
  | App.GetAllProjects => meth = "GET" /\ path = "/api/v1/projects" /\ params = []
  | App.GetFeaturedProjects =>
      meth = "GET" /\ path = "/api/v1/projects/featured" /\ params = []
  | App.GetProject =>
      meth = "GET" /\
      exists project_id,
        one_segment project_id /\ project_id <> "featured" /\
        path = "/api/v1/projects/" +:+ project_id /\ params = [("project_id", project_id)]
  | App.GetResumeMetadata => meth = "GET" /\ path = "/api/v1/resume/metadata" /\ params = []
  | App.DownloadResume => meth = "GET" /\ path = "/api/v1/resume/download" /\ params = []
  | App.Root => meth = "GET" /\ path = "/" /\ params = []
  | App.HealthCheck => meth = "GET" /\ path = "/health" /\ params = []
  end.

(** Take a pattern's match apart, one segment after the other. *)
Ltac invert_pattern H :=
  repeat first
    [ apply match_segments_lit in H as (? & ? & H)
    | apply match_segments_param in H as (? & ? & ? & ? & ? & H & ?)
    | apply match_segments_nil in H as [? ?] ];
  subst.

(** The cases of an index into a list written out. *)
Ltac by_index i Hi tac :=
  destruct i as [|i];
  [ injection Hi as <-; tac
  | cbn [lookup list_lookup] in Hi; first [discriminate Hi | by_index i Hi tac] ].

Section table.
Implicit Types (meth path : string) (e : App.endpoint) (params : list (string * string)).

(** The project route is reached by identifiers of one segment. *)
Lemma project_path_one_segment path project_id :
  split "/" path = [""; "api"; "v1"; "projects"; project_id] ->
  count_char "/" project_id = 0.
Proof.
  intros Hsplit. pose proof (split_no_sep "/" path) as Hno. rewrite Hsplit in Hno.
  rewrite !Forall_cons in Hno. by destruct Hno as (_ & _ & _ & _ & Hid & _).
Qed.

(** The entry of the featured list stands before that of the lookup. *)
Lemma before_lookup_not_featured project_id :
  Forall (fun en' => full (matches en' "GET" [""; "api"; "v1"; "projects"; project_id]) = None)
    (take 8 compiled_routes) ->
  project_id <> "featured".
Proof.
  unfold compiled_routes. cbn [take]. rewrite !Forall_cons.
  intros (_ & _ & _ & _ & _ & _ & _ & [Hmeth|Hseg]%full_route_None & _) ->; [set_solver|done].
Qed.

Lemma first_match_reaches meth path e params :
  first_match table meth (split "/" path) false = inl (Endpoint e params) ->
  reaches e meth path params.
Proof.
  intros (i & en & Hi & Hfull & Hbefore)%first_match_inl.
  rewrite table_compiled in Hi, Hbefore. unfold compiled_routes in Hi.
  by_index i Hi ltac:(idtac);
    try (by apply full_not_endpoint in Hfull as (? & ? & [=]));
    apply full_route in Hfull as (<- & ->%list_elem_of_singleton & Hseg);
    remember (split "/" path) as segments eqn:Hsplit; symmetry in Hsplit;
    invert_pattern Hseg; cbn [reaches]; (split; [done|]);
    match goal with Hs : split "/" path = _ |- _ =>
      try (by rewrite (path_of_segments _ _ Hs)); rename Hs into Hpath
    end.
  rewrite Hpath in Hbefore. eexists. split_and!; [split; [done|]|..|done].
  - by apply (project_path_one_segment path).
  - by apply before_lookup_not_featured.
  - by rewrite (path_of_segments _ _ Hpath).
Qed.

Lemma dispatch_reaches meth path e params :
  dispatch table meth path = Endpoint e params -> reaches e meth path params.
Proof.
  unfold dispatch. destruct (first_match _ _ _ _) as [t|[]] eqn:Hfm;
    [intros ->; by apply first_match_reaches|done|by repeat case_match].
Qed.

(** The requests that can make the application open an SMTP session are
    the POST requests of the contact path. *)
Lemma is_submission_spec req :
  is_submission req = true <-> method req = "POST" /\ url_path req = "/api/v1/contact".
Proof.
  unfold is_submission. split.
  - destruct (dispatch _ _ _) as [[] params| | | | |] eqn:Hd; try done.
    by apply dispatch_reaches in Hd as (? & ? & _).
  - intros [-> ->]. by rewrite dispatch_contact.
Qed.

(** A request that is no submission leaves the world as it is. *)
Lemma handle_keeps_world `{Validators} app req w :
  is_submission req = false -> world_after (handle app req) w = w.
Proof.
  unfold world_after, handle, is_submission.
  destruct (dispatch _ _ _) as [e params|directory rest|page| | |]; try done.
  - intros He. rewrite (bind_run (call _ _ _ _)).
    pose proof (call_keeps_world app e params (json_body req) w) as Hw.
    destruct (call _ _ _ _ _) as [w1 [?|?]]; cbn [fst] in *; apply Hw; by intros ->.
  - intros _. rewrite (bind_run (answered _)), answered_run. cbn [fst].
    apply static_files_keeps_world.
Qed.

(** C31 (dispatch_endpoint_iff): the table of the application sends a
    request to a handler exactly when the request is one of those the
    handler's decorator names: the contact form is reached by POST of its
    path and nothing else, the lookup by GET of the projects path
    followed by one segment other than the word featured, and every other
    handler by GET of its one path. *)
Theorem dispatch_endpoint_iff meth path e params :
  dispatch table meth path = Endpoint e params <-> reaches e meth path params.
Proof.
  split; [apply dispatch_reaches|].
  destruct e; cbn [reaches]; try (by intros (-> & -> & ->)).
  intros (-> & project_id & Hseg & Hfeat & -> & ->). by apply dispatch_get_project.
Qed.

(** [handle_only_contact_changes]: the contact form is the only
    request with an effect.  Any request other than a POST of the contact
    path, whatever its method, path and body, is answered without a line
    printed or a command sent: the world after it is the world before. *)
Theorem handle_only_contact_changes `{Validators} app req w :
  ~ (method req = "POST" /\ url_path req = "/api/v1/contact") ->
  world_after (handle app req) w = w.
Proof.
  intros Hreq. apply handle_keeps_world.
  destruct (is_submission req) eqn:His; [|done]. by apply is_submission_spec in His.
Qed.
End table.

(** ** The theorems at two requests *)
Lemma dispatch_endpoint_iff_witness :
  reaches App.GetProject "GET" "/api/v1/projects/tilted-labs" [("project_id", "tilted-labs")].
Proof.
  apply (dispatch_endpoint_iff "GET" "/api/v1/projects/tilted-labs" App.GetProject
           [("project_id", "tilted-labs")]).
  reflexivity.
Defined.

Lemma handle_only_contact_changes_witness :
  world_after (handle (H:=sample_validators) sample_app
                 (get_request None "/api/v1/projects/featured")) (world_of rejecting_login) =
    world_of rejecting_login.
Proof.
  apply (handle_only_contact_changes (H:=sample_validators) sample_app
           (get_request None "/api/v1/projects/featured") (world_of rejecting_login)).
  by intros [[=] _].
Defined.
