(* ===== verification/Output.v ===== *)
(** * What is printed is never read

    The backend prints its progress with [print] (every function of
    src/backend/infrastructure/email/email_service.py and of
    src/backend/application/use_cases/contact_use_case.py does) and never
    reads the standard output back.  [Runtime.Unread] names the relations
    between two worlds that differ in their printed lines only, and every
    computation of the application respects them.  The theorems show what
    follows for the application as a whole: its answers and the commands
    it sends are the same whatever was printed before, and the lines it
    prints itself are the same lines, appended to what was there. *)

From S2P Require Import Prelude Runtime Domain EmailService ContactUseCase Routes App Handling.

(** ** Worlds that differ in their printed lines *)
Section worlds.
Implicit Types (w : World) (out : list string).

Lemma world_eq w1 w2 : modulo_stdout w1 w2 -> stdout w1 = stdout w2 -> w1 = w2.
Proof. destruct w1, w2. intros [[=] ?] ?. cbn in *. by subst. Qed.

Lemma same_tail_start out1 out2 w : same_tail out1 out2 (with_stdout out1 w) (with_stdout out2 w).
Proof. split; [done|]. exists []. cbn. by rewrite !app_nil_r. Qed.

(** A computation that respects [modulo_stdout] gives [Proper] functions
    of the world, so that a world can be rewritten for one that differs
    in its printed lines. *)
Lemma outcome_proper {A} (m : Py A) :
  respects modulo_stdout m -> Proper (modulo_stdout ==> (=)) (outcome m).
Proof. intros Hm w1 w2 Hw. by destruct (Hm w1 w2 Hw). Qed.

Lemma world_after_proper {A} (m : Py A) :
  respects modulo_stdout m -> Proper (modulo_stdout ==> modulo_stdout) (world_after m).
Proof. intros Hm w1 w2 Hw. by destruct (Hm w1 w2 Hw). Qed.

(** A computation that respects every [same_tail] prints the same lines
    whatever was printed before it, and does nothing else with the
    standard output. *)
Lemma respects_uniform {A} (m : Py A) w out :
  (forall out1 out2, respects (same_tail out1 out2) m) ->
  m (with_stdout out w) =
    let (w', r) := m (with_stdout [] w) in (with_stdout (out ++ stdout w') w', r).
Proof.
  intros Hm. destruct (Hm out [] _ _ (same_tail_start out [] w)) as [[Hw (tail & H1 & H2)] Hr].
  destruct (m (with_stdout out w)) as [w1 r1], (m (with_stdout [] w)) as [w2 r2].
  cbn in *. subst r2. f_equal. apply world_eq; [done|]. cbn. by rewrite H1, H2.
Qed.
End worlds.

(** ** The application *)
Section application.
Context `{Validators}.
Implicit Types (app : App.t) (req : request) (w : World) (out : list string).

#[export] Instance handle_outcome_proper app req :
  Proper (modulo_stdout ==> (=)) (outcome (handle app req)).
Proof. apply outcome_proper, handle_respects, _. Qed.

#[export] Instance handle_world_proper app req :
  Proper (modulo_stdout ==> modulo_stdout) (world_after (handle app req)).
Proof. apply world_after_proper, handle_respects, _. Qed.

#[export] Instance serve_outcome_proper app reqs :
  Proper (modulo_stdout ==> (=)) (outcome (serve app reqs)).
Proof. apply outcome_proper, serve_respects, _. Qed.

#[export] Instance serve_world_proper app reqs :
  Proper (modulo_stdout ==> modulo_stdout) (world_after (serve app reqs)).
Proof. apply world_after_proper, serve_respects, _. Qed.

(** [serve_unread]: what was printed before changes neither the
    answers of the application nor the commands it sends nor what it can
    read afterwards. *)
Theorem serve_unread app reqs w out :
  outcome (serve app reqs) (with_stdout out w) = outcome (serve app reqs) w /\
  smtp_log (world_after (serve app reqs) (with_stdout out w)) =
    smtp_log (world_after (serve app reqs) w) /\
  environment (world_after (serve app reqs) (with_stdout out w)) =
    environment (world_after (serve app reqs) w).
Proof. by rewrite (modulo_stdout_with_stdout out w). Qed.

(** [handle_after_print]: a line printed before a request is handled
    changes nothing of its answer. *)
Theorem handle_after_print app req line w :
  outcome (handle app req) (world_after (print line) w) = outcome (handle app req) w.
Proof.
  assert (modulo_stdout (world_after (print line) w) w) as Hw by done. by rewrite Hw.
Qed.

(** [serve_output_uniform]: the application writes to the standard
    output and never reads it.  Served after any lines [out] were
    printed, a list of requests is answered as it is with nothing printed
    before, leaves the same world, and prints the same lines, after
    [out]. *)
Theorem serve_output_uniform app reqs w out :
  serve app reqs (with_stdout out w) =
    let (w', r) := serve app reqs (with_stdout [] w) in (with_stdout (out ++ stdout w') w', r).
Proof. apply respects_uniform. intros out1 out2. apply serve_respects, _. Qed.

(** [send_output_uniform]: so does the email service on its own. *)
Theorem send_output_uniform (self : EmailService.t) contact w out :
  EmailService.send_contact_notification self contact (with_stdout out w) =
    let (w', r) := EmailService.send_contact_notification self contact (with_stdout [] w) in
    (with_stdout (out ++ stdout w') w', r).
Proof. apply respects_uniform. intros out1 out2. apply send_respects, _. Qed.
End application.
