(* ===== verification/Coroutines.v ===== *)
(** * Coroutines

    Every handler of the backend, every method of the two use cases and
    of the repository, and the email service's one method are coroutines
    ([async def]); a caller runs one with [await].  The other files model
    [await] by the sequential composition of the monad.  This file says
    why they may: it models the coroutine objects of the interpreter, with
    suspension, writes each coroutine of the sources again with the
    [await]s, [try] blocks and returns it has there, and proves that each,
    resumed once, runs to its end and does what its model in the monad
    does.  No coroutine of the sources gives control back before it
    returns; the lifespan of main.py, which does, is in [EventLoop]. *)

From S2P Require Import Prelude Runtime Domain Repository ProjectUseCase EmailService ContactUseCase Routes App Handling.

Module Coroutine.

(** A coroutine object: it has returned or raised, or it is suspended
    (created and not started, or stopped at a point that gave control
    back) and resuming it runs it from there. *)
#[warnings="-register-all"]
Inductive coroutine (A : Type) : Type :=
  | Returned (result : exn + A)
  | Suspended (resume : World -> World * coroutine A).

Arguments Returned {A} result.
Arguments Suspended {A} resume.

(** Code that is running: it changes the world until it returns or
    suspends, and leaves the coroutine as it is then. *)
Definition slice (A : Type) : Type := World -> World * coroutine A.

Definition is_Returned {A} (c : coroutine A) : bool :=
  if c is Returned _ then true else false.

(** [coro.send(None)]: the coroutine runs to its next suspension. *)
Definition send {A} (c : coroutine A) : slice A :=
  match c with
  | Returned r => fun w => (w, Returned r)
  | Suspended resume => resume
  end.

(** Code that suspends nowhere: a computation of the monad, run to its
    end. *)
Definition run {A} (m : Py A) : slice A :=
  fun w => let (w', r) := m w in (w', Returned r).

(** The object a call of an [async def] with such a body returns: nothing
    has run yet, and the first resumption runs the body to its end. *)
Definition uninterrupted {A} (m : Py A) : coroutine A := Suspended (run m).

(** A coroutine is resumed in place by the code that waits for it: when it
    returns or raises the code goes on with the result, and when it
    suspends the code is suspended with it and goes on when the coroutine
    it waits for has been resumed to its end.  A coroutine that has
    returned cannot be waited for again. *)
Fixpoint resume_then {A B} (c : coroutine A) (k : exn + A -> slice B) (w : World) {struct c}
  : World * coroutine B :=
  match c with
  | Returned _ =>
      k (inl (PyException "RuntimeError" "cannot reuse already awaited coroutine")) w
  | Suspended resume =>
      match resume w with
      | (w', Returned r) => k r w'
      | (w', Suspended _ as c') => (w', Suspended (resume_then c' k))
      end
  end.

(** [x = await c; k x]: an exception of the awaited coroutine propagates. *)
Definition await {A B} (c : coroutine A) (k : A -> slice B) : slice B :=
  resume_then c (fun r =>
    match r with
    | inr a => k a
    | inl e => fun w => (w, Returned (inl e))
    end).

(** [try: body except Exception as e: h e], around code that may suspend. *)
Definition try_slice {A} (body : slice A) (h : exn -> slice A) : slice A :=
  resume_then (Suspended body) (fun r =>
    match r with
    | inr a => fun w => (w, Returned (inr a))
    | inl e => h e
    end).

(** [yield]: control goes back to whoever resumed the coroutine. *)
Definition yield {A} (k : slice A) : slice A := fun w => (w, Suspended k).

(** [atomic sl m]: the code [sl] suspends nowhere, and does what the
    computation [m] does. *)
Definition atomic {A} (sl : slice A) (m : Py A) : Prop := forall w, sl w = run m w.
End Coroutine.

(** ** The coroutines of the sources *)
Module Async.
Import Coroutine.
Local Open Scope eff_scope.

Section projects.
Context {R : Type} `{ProjectStore R}.

(** project_repository.py: [get_all], [get_by_id], [get_featured] await
    nothing. *)
Definition repository_get_all (self : R) : coroutine (list Project.t) :=
  uninterrupted (ret (store_get_all self)).

Definition repository_get_by_id (self : R) (project_id : string)
  : coroutine (option Project.t) :=
  uninterrupted (ret (store_get_by_id self project_id)).

Definition repository_get_featured (self : R) : coroutine (list Project.t) :=
  uninterrupted (ret (store_get_featured self)).

(** project_use_case.py: [return await self.repository. ...] *)
Definition use_case_get_all_projects (self : ProjectUseCase.t R) : coroutine (list Project.t) :=
  Suspended (await (repository_get_all (ProjectUseCase.repository self))
               (fun ps => run (ret ps))).

Definition use_case_get_project_by_id (self : ProjectUseCase.t R) (project_id : string)
  : coroutine (option Project.t) :=
  Suspended (await (repository_get_by_id (ProjectUseCase.repository self) project_id)
               (fun p => run (ret p))).

Definition use_case_get_featured_projects (self : ProjectUseCase.t R)
  : coroutine (list Project.t) :=
  Suspended (await (repository_get_featured (ProjectUseCase.repository self))
               (fun ps => run (ret ps))).

(** routes/projects.py *)
Definition get_all_projects (project_use_case : ProjectUseCase.t R)
  : coroutine (list Project.t) :=
  Suspended (await (use_case_get_all_projects project_use_case) (fun ps => run (ret ps))).

Definition get_featured_projects (project_use_case : ProjectUseCase.t R)
  : coroutine (list Project.t) :=
  Suspended (await (use_case_get_featured_projects project_use_case)
               (fun ps => run (ret ps))).

End projects.

Section contact.
Context {S : Type} `{Notifier S}.

(** email_service.py: [send_contact_notification] awaits nothing; the
    calls of [smtplib] in its body block. *)
Definition send_contact_notification (self : S) (contact : ContactMessage.t)
  : coroutine unit :=
  uninterrupted (notify self contact).

(** contact_use_case.py *)
Definition use_case_submit_contact_form (self : ContactUseCase.t S)
    (contact_message : ContactMessage.t) : coroutine (gmap string string) :=
  Suspended
    (try_slice
       (await (send_contact_notification (ContactUseCase.email_service self) contact_message)
          (fun _ => run (ret ContactUseCase.success)))
       (fun e => run (print ("Error sending contact email: " +:+ exn_str e) ;;
                      ret ContactUseCase.failure))).

(** routes/contact.py *)
Definition submit_contact_form (contact_use_case : ContactUseCase.t S)
    (contact : ContactMessage.t) : coroutine (gmap string string) :=
  Suspended
    (try_slice
       (await (use_case_submit_contact_form contact_use_case contact)
          (fun result => run
             (status <- dict_getitem result "status" ;;
              if decide (status = "error") then
                detail <- dict_getitem result "message" ;;
                raise (HTTPException 500 detail)
              else ret result)))
       (fun e => run (if is_HTTPException e then raise e else raise ContactRoute.unexpected))).
End contact.




End Async.

(** ** Code that does not suspend *)
Section atomic.
Import Coroutine.
Local Open Scope eff_scope.
Implicit Types (w : World).

Lemma atomic_run {A} (m : Py A) : atomic (run m) m.
Proof. done. Qed.

(** One resumption ends a coroutine that does not suspend. *)
Lemma send_uninterrupted {A} (m : Py A) w :
  send (uninterrupted m) w = (world_after m w, Returned (outcome m w)).
Proof. unfold send, uninterrupted, run, world_after, outcome. by destruct (m w). Qed.

(** Waiting for a coroutine that does not suspend runs it to its end and
    goes on with its result, in the same resumption. *)
Lemma resume_then_atomic {A B} (resume : slice A) (m : Py A) (k : exn + A -> slice B) w :
  atomic resume m -> resume_then (Suspended resume) k w = (let (w', r) := m w in k r w').
Proof. intros Hm. cbn. rewrite Hm. unfold run. by destruct (m w). Qed.

(** Awaiting a coroutine that does not suspend is the sequential
    composition of the monad. *)
Lemma atomic_await {A B} (resume : slice A) (m : Py A) (k : A -> slice B) (k' : A -> Py B) :
  atomic resume m -> (forall a, atomic (k a) (k' a)) ->
  atomic (await (Suspended resume) k) (x <- m ;; k' x).
Proof.
  intros Hm Hk w. unfold await. rewrite (resume_then_atomic _ m) by done.
  unfold run, bind. destruct (m w) as [w' [e|a]]; [done|]. apply Hk.
Qed.

(** A [try] block around code that does not suspend is the [try_except]
    of the monad. *)
Lemma atomic_try_slice {A} (body : slice A) (m : Py A) (h : exn -> slice A)
    (h' : exn -> Py A) :
  atomic body m -> (forall e, atomic (h e) (h' e)) ->
  atomic (try_slice body h) (try_except m h').
Proof.
  intros Hm Hh w. unfold try_slice. rewrite (resume_then_atomic _ m) by done.
  unfold run, try_except. destruct (m w) as [w' [e|a]]; [apply Hh|done].
Qed.

(** Code that waits for a coroutine that suspends is suspended with it. *)
Lemma await_yield {A B} (rest : slice A) (k : A -> slice B) w :
  exists resume, await (Suspended (yield rest)) k w = (w, Suspended resume) /\
    forall w', resume w' = await (Suspended rest) k w'.
Proof. by eexists. Qed.
End atomic.

#[export] Hint Resolve atomic_run atomic_await atomic_try_slice : portfolio.

(** Discharge a goal that a slice does not suspend by the structure of
    the code. *)
Ltac solve_atomic :=
  repeat first
    [ progress intros
    | apply atomic_run | eapply atomic_try_slice | eapply atomic_await
    | solve [eauto with portfolio] ].

(** ** No coroutine of the sources suspends *)
Section sources.
Import Coroutine.
Local Open Scope eff_scope.

Section projects.
Context {R : Type} `{ProjectStore R}.
Implicit Types (uc : ProjectUseCase.t R) (project_id : string).

Lemma use_case_get_all_projects_atomic uc :
  atomic (send (Async.use_case_get_all_projects uc))
    (ret (ProjectUseCase.get_all_projects uc)).
Proof. intros w. done. Qed.

Lemma use_case_get_project_by_id_atomic uc project_id :
  atomic (send (Async.use_case_get_project_by_id uc project_id))
    (ret (ProjectUseCase.get_project_by_id uc project_id)).
Proof. intros w. done. Qed.

Lemma use_case_get_featured_projects_atomic uc :
  atomic (send (Async.use_case_get_featured_projects uc))
    (ret (ProjectUseCase.get_featured_projects uc)).
Proof. intros w. done. Qed.



End projects.

Section contact.
Context {S : Type} `{Notifier S}.
Implicit Types (uc : ContactUseCase.t S) (contact : ContactMessage.t).

Lemma use_case_submit_contact_form_atomic uc contact :
  atomic (send (Async.use_case_submit_contact_form uc contact))
    (ContactUseCase.submit_contact_form uc contact).
Proof.
  unfold Async.use_case_submit_contact_form, ContactUseCase.submit_contact_form, send.
  solve_atomic.
Qed.

Lemma submit_contact_form_atomic uc contact :
  atomic (send (Async.submit_contact_form uc contact))
    (ContactRoute.submit_contact_form uc contact).
Proof.
  pose proof use_case_submit_contact_form_atomic.
  unfold Async.submit_contact_form, ContactRoute.submit_contact_form, send.
  eapply atomic_try_slice; [|solve_atomic].
  eapply (atomic_await _ (submit uc contact)); [apply use_case_submit_contact_form_atomic|].
  solve_atomic.
Qed.
End contact.
End sources.

(** ** The handlers *)
Section handlers.
Import Coroutine.
Context {S : Type} `{Notifier S} {R : Type} `{ProjectStore R}.
Implicit Types (cuc : ContactUseCase.t S) (puc : ProjectUseCase.t R) (w : World).

(** Code that does not suspend has returned after one resumption. *)
Lemma atomic_returns {A} (sl : slice A) (m : Py A) w :
  atomic sl m -> sl w = (world_after m w, Returned (outcome m w)).
Proof. intros ->. unfold run, world_after, outcome. by destruct (m w). Qed.


(** [submit_contact_form_one_resumption]: the whole submission, the
    SMTP session included, happens in the first resumption of the
    handler's coroutine, which has then returned what the route's model
    returns. *)
Theorem submit_contact_form_one_resumption cuc contact w :
  send (Async.submit_contact_form cuc contact) w =
    (world_after (ContactRoute.submit_contact_form cuc contact) w,
     Returned (outcome (ContactRoute.submit_contact_form cuc contact) w)).
Proof. apply atomic_returns, submit_contact_form_atomic. Qed.
End handlers.

(** A service that suspended in its session would suspend the handler:
    the use case and the route would be resumed a second time. *)
Example suspending_service_suspends_handler (w : World) :
  exists resume,
    Coroutine.await (Coroutine.Suspended (Coroutine.yield (Coroutine.run (ret tt))))
      (fun _ => Coroutine.run (ret ContactUseCase.success)) w
    = (w, Coroutine.Suspended resume) /\
    resume w = (w, Coroutine.Returned (inr ContactUseCase.success)).
Proof. by eexists. Qed.
