(* ===== verification/EventLoop.v ===== *)
(** * The event loop

    The server drives the coroutines of the backend from an event loop:
    the loop runs one coroutine at a time, until it returns or suspends,
    and chooses which.  This file models the lifespan of
    src/backend/main.py, the one coroutine of the sources that suspends
    (at its [yield]), and the loop of a worker: it enters the lifespan,
    accepts requests at any moment, resumes the task of any request it
    holds, and leaves the lifespan when no task is left to resume.  The
    loop is a labelled step relation ([EventLoop.step]) and the same loop
    as a function ([EventLoop.next], [EventLoop.exec]).

    The theorems show that whatever order the loop chooses, the world
    and the answers are those of [App.serve] on the requests in the order
    their tasks were resumed in; that no SMTP session is open when the
    loop chooses; that a loop that accepts no further request takes
    finitely many steps, answers every request it holds and stops; and
    that the lifespan resumed before and after the requests prints what
    [App.lifespan] prints. *)

From S2P Require Import Prelude Runtime Domain EmailService ContactUseCase Routes App Handling Protocol Conformance Loops Coroutines.

Module EventLoop.
Import Coroutine.

(** The lifespan of main.py as the server drives it: the line of the
    startup, the [yield], and after it the line of the shutdown. *)
Definition lifespan : coroutine unit :=
  Suspended (fun w =>
    match print "🚀 Portfolio API starting up..." w with
    | (w', inr _) => yield (run (print "👋 Portfolio API shutting down...")) w'
    | (w', inl e) => (w', Returned (inl e))
    end).

(** ** The loop of one worker *)

Inductive phase := Starting | Serving | Stopped.

#[global] Instance phase_eq_dec : EqDecision phase.
Proof. solve_decision. Defined.

(** The world, the lifespan as far as it has run, and a task per request
    accepted so far. *)
Record loop := {
  stage : phase;
  world : World;
  lifespan_task : coroutine unit;
  tasks : list (request * coroutine response)
}.

Inductive label :=
  | Startup
  | Accept (req : request)
  | Resume (i : nat)
  | Shutdown.

(** What the client of a task has been answered. *)
Definition answer (t : request * coroutine response) : option (request * response) :=
  match t.2 with
  | Returned (inr resp) => Some (t.1, resp)
  | _ => None
  end.

(** The requests whose tasks the steps of a run resumed, in the order of
    the steps. *)
Definition resumed (ts : list (request * coroutine response)) (ls : list label)
  : list request :=
  omap (fun l => if l is Resume i then fst <$> ts !! i else None) ls.

Section step.
Context `{Validators} (app : App.t).

(** The process before the server starts. *)
Definition boot (w : World) : loop :=
  {| stage := Starting; world := w; lifespan_task := lifespan; tasks := [] |}.

(** The task of a request: the coroutine of its handler. *)
Definition task (req : request) : request * coroutine response :=
  (req, uninterrupted (handle app req)).

(** One step of the server: it enters the lifespan and serves when the
    lifespan has reached its [yield]; it accepts a request; it resumes a
    task that is suspended, whichever it chooses; with no task left to
    resume it may leave the lifespan and stop. *)
Inductive step : loop -> label -> loop -> Prop :=
  | step_startup w c tasks w' c' :
      send c w = (w', c') ->
      step {| stage := Starting; world := w; lifespan_task := c; tasks := tasks |}
        Startup
        {| stage := if is_Returned c' then Stopped else Serving;
           world := w'; lifespan_task := c'; tasks := tasks |}
  | step_accept w c tasks req :
      step {| stage := Serving; world := w; lifespan_task := c; tasks := tasks |}
        (Accept req)
        {| stage := Serving; world := w; lifespan_task := c; tasks := tasks ++ [task req] |}
  | step_resume w c tasks i req resume w' c' :
      tasks !! i = Some (req, Suspended resume) ->
      resume w = (w', c') ->
      step {| stage := Serving; world := w; lifespan_task := c; tasks := tasks |}
        (Resume i)
        {| stage := Serving; world := w'; lifespan_task := c;
           tasks := <[i := (req, c')]> tasks |}
  | step_shutdown w c tasks w' c' :
      forallb (fun t => is_Returned t.2) tasks = true ->
      send c w = (w', c') ->
      step {| stage := Serving; world := w; lifespan_task := c; tasks := tasks |}
        Shutdown
        {| stage := Stopped; world := w'; lifespan_task := c'; tasks := tasks |}.

(** The states of a run, and the labels of its steps in their order. *)
Inductive trace (s : loop) : list label -> loop -> Prop :=
  | trace_nil : trace s [] s
  | trace_snoc ls s' l s'' : trace s ls s' -> step s' l s'' -> trace s (ls ++ [l]) s''.

(** The step with a label, as a function: [None] when the server cannot
    take it. *)
Definition next (s : loop) (l : label) : option loop :=
  match stage s, l with
  | Starting, Startup =>
      let (w', c') := send (lifespan_task s) (world s) in
      Some {| stage := if is_Returned c' then Stopped else Serving;
              world := w'; lifespan_task := c'; tasks := tasks s |}
  | Serving, Accept req =>
      Some {| stage := Serving; world := world s; lifespan_task := lifespan_task s;
              tasks := tasks s ++ [task req] |}
  | Serving, Resume i =>
      match tasks s !! i with
      | Some (req, Suspended resume) =>
          let (w', c') := resume (world s) in
          Some {| stage := Serving; world := w'; lifespan_task := lifespan_task s;
                  tasks := <[i := (req, c')]> (tasks s) |}
      | _ => None
      end
  | Serving, Shutdown =>
      if forallb (fun t => is_Returned t.2) (tasks s) then
        let (w', c') := send (lifespan_task s) (world s) in
        Some {| stage := Stopped; world := w'; lifespan_task := c'; tasks := tasks s |}
      else None
  | _, _ => None
  end.

(** The steps of a list of labels, one after the other. *)
Definition exec (s : loop) (ls : list label) : option loop :=
  foldl (fun s' l => s' ≫= fun s' => next s' l) (Some s) ls.

(** A step of the server that accepts nothing. *)
Definition internal (s s' : loop) : Prop :=
  exists l, (forall req, l <> Accept req) /\ step s l s'.
End step.
End EventLoop.

#[export] Hint Constructors EventLoop.step EventLoop.trace : portfolio.

(** ** The loop as a function *)
Section executable.
Context `{Validators} (app : App.t).
Import Coroutine EventLoop.
Implicit Types (s : loop) (ls : list label) (l : label).

Lemma loop_next_step s l s' : next app s l = Some s' <-> step app s l s'.
Proof.
  split.
  - destruct s as [[] w c ts], l as [|req|i|]; cbn; try done.
    + destruct (send c w) as [w' c'] eqn:Hsend. intros [= <-]. by constructor.
    + intros [= <-]. constructor.
    + destruct (ts !! i) as [[req [r|resume]]|] eqn:Hi; [done| |done].
      destruct (resume w) as [w' c'] eqn:Hresume. intros [= <-]. by econstructor.
    + destruct (forallb _ ts) eqn:Hts; [|done].
      destruct (send c w) as [w' c'] eqn:Hsend. intros [= <-]. by constructor.
  - intros [w c ts w' c' Hsend|w c ts req|w c ts i req resume w' c' Hi Hresume
            |w c ts w' c' Hts Hsend]; cbn; by rewrite ?Hsend, ?Hi, ?Hresume, ?Hts.
Qed.

Lemma exec_snoc s ls l : exec app s (ls ++ [l]) = exec app s ls ≫= fun s' => next app s' l.
Proof. unfold exec. by rewrite foldl_app. Qed.

(** The runs of the relation are the runs of the function. *)
Lemma exec_trace s ls s' : exec app s ls = Some s' <-> trace app s ls s'.
Proof.
  split.
  - revert s'. induction ls as [|l ls IH] using rev_ind; intros s'.
    + intros [= <-]. constructor.
    + rewrite exec_snoc. destruct (exec app s ls) as [s1|]; [|done]. cbn.
      intros Hnext%loop_next_step. by eapply trace_snoc; [apply IH|].
  - induction 1 as [|ls s1 l s2 _ IH Hstep%loop_next_step]; [done|]. by rewrite exec_snoc, IH.
Qed.

(** The server takes a step with a label in one way at most. *)
Lemma step_deterministic_label s l s1 s2 : step app s l s1 -> step app s l s2 -> s1 = s2.
Proof. rewrite <-!loop_next_step. congruence. Qed.
End executable.

(** ** The lifespan around the requests *)
Section lifespan.
Import Coroutine EventLoop.
Implicit Types (w : World).

Definition serving_lifespan : coroutine unit :=
  Suspended (run (print "👋 Portfolio API shutting down...")).

Definition started (w : World) : World :=
  world_after (print "🚀 Portfolio API starting up...") w.

Lemma send_lifespan w : send lifespan w = (started w, serving_lifespan).
Proof. done. Qed.

Lemma send_serving_lifespan w :
  send serving_lifespan w =
    (world_after (print "👋 Portfolio API shutting down...") w, Returned (inr tt)).
Proof. done. Qed.

(** [lifespan_resumed_twice]: the lifespan suspends once.  Resumed
    before the requests and again after them, it leaves the world
    [App.lifespan] leaves around a serving that returns, and has then
    returned. *)
Theorem lifespan_resumed_twice {A} (serving : Py A) w w' x :
  serving (send lifespan w).1 = (w', inr x) ->
  send (send lifespan w).2 w' = (world_after (App.lifespan serving) w, Returned (inr tt)).
Proof.
  rewrite send_lifespan. cbn [fst snd]. intros Hserving. rewrite send_serving_lifespan.
  unfold App.lifespan, started, world_after in *. cbn in Hserving. py_run.
  by rewrite (bind_run serving), Hserving.
Qed.
End lifespan.

(** ** The requests a run has resumed *)
Section resumed.
Import Coroutine EventLoop.
Implicit Types (ts : list (request * coroutine response)) (ls : list label) (i : nat).

(** Every task a run has resumed is a task of the list. *)
Definition in_range ts ls : Prop :=
  Forall (fun l => if l is Resume i then i < length ts else True) ls.

Lemma resumed_snoc ts ls l :
  resumed ts (ls ++ [l]) =
    resumed ts ls ++ (if l is Resume i then option_list (fst <$> ts !! i) else []).
Proof.
  unfold resumed. rewrite omap_app. f_equal. cbn.
  destruct l as [| |i|]; [done..| |done]. by destruct (ts !! i).
Qed.

Lemma resumed_ext ts ts' ls :
  Forall (fun l => if l is Resume i then fst <$> ts' !! i = fst <$> ts !! i else True) ls ->
  resumed ts' ls = resumed ts ls.
Proof.
  induction 1 as [|l ls Hl _ IH]; [done|]. unfold resumed in *. cbn [omap list_omap].
  rewrite IH. by destruct l; rewrite ?Hl.
Qed.

(** Tasks accepted later change nothing of the tasks resumed so far. *)
Lemma resumed_app ts more ls : in_range ts ls -> resumed (ts ++ more) ls = resumed ts ls.
Proof.
  intros Hls. apply resumed_ext. eapply Forall_impl; [exact Hls|].
  intros [| |i|]; [done..| |done]. intros Hi. by rewrite lookup_app_l.
Qed.

(** A task that runs keeps its request. *)
Lemma resumed_insert ts i req c c' ls :
  ts !! i = Some (req, c) -> resumed (<[i := (req, c')]> ts) ls = resumed ts ls.
Proof.
  intros Hi. apply resumed_ext, Forall_forall. intros [| |j|] _; [done..| |done].
  destruct (decide (j = i)) as [->|]; [|by rewrite list_lookup_insert_ne].
  rewrite Hi, list_lookup_insert_eq; [done|]. by eapply lookup_lt_Some.
Qed.

Lemma in_range_mono ts ts' ls :
  length ts <= length ts' -> in_range ts ls -> in_range ts' ls.
Proof.
  intros Hlen Hls. eapply Forall_impl; [exact Hls|]. intros [| |i|]; [done..| |done]. lia.
Qed.

Lemma in_range_snoc ts ls l :
  in_range ts ls -> (if l is Resume i then i < length ts else True) -> in_range ts (ls ++ [l]).
Proof. intros Hls Hl. apply Forall_app. by repeat constructor. Qed.

(** The task that has just answered is one more answer. *)
Lemma answer_insert ts i t t' x :
  ts !! i = Some t -> answer t = None -> answer t' = Some x ->
  omap answer (<[i := t']> ts) ≡ₚ omap answer ts ++ [x].
Proof.
  intros Hi Ht Ht'. rewrite <-(take_drop_middle ts i t Hi) at 2.
  rewrite insert_take_drop by by eapply lookup_lt_Some.
  rewrite !omap_app. cbn [omap list_omap]. rewrite Ht, Ht'.
  by rewrite <-Permutation_middle, (Permutation_app_comm _ [x]).
Qed.
End resumed.

(** ** Every order the loop chooses is an order of [serve] *)
Section serialisation.
Context `{Validators} (app : App.t).
Import Coroutine EventLoop.
Implicit Types (s : loop) (ls : list label) (ts : list (request * coroutine response)).
Implicit Types (w : World) (req : request) (resp : response).

(** A task is the coroutine of its request's handler, not yet started,
    or it has answered. *)
Definition fresh_or_answered (t : request * coroutine response) : Prop :=
  t.2 = uninterrupted (handle app t.1) \/ exists resp, t.2 = Returned (inr resp).

(** The tasks [ts] after the steps [ls], in the world [w]: the world and
    the answers are those of serving the resumed requests in their order
    from the world the startup left. *)
Definition served (w0 : World) ls ts w : Prop :=
  Forall fresh_or_answered ts /\ in_range ts ls /\
  exists answers,
    answers.*1 = resumed ts ls /\
    serve app (resumed ts ls) (started w0) = (w, inr answers.*2) /\
    answers ≡ₚ omap answer ts.

Definition invariant (w0 : World) ls s : Prop :=
  match stage s with
  | Starting => s = boot w0 /\ ls = []
  | Serving => lifespan_task s = serving_lifespan /\ served w0 ls (tasks s) (world s)
  | Stopped =>
      exists w, served w0 ls (tasks s) w /\
        world s = world_after (print "👋 Portfolio API shutting down...") w /\
        forallb (fun t => is_Returned t.2) (tasks s) = true
  end.

Lemma served_start w0 : served w0 [Startup] [] (started w0).
Proof. split_and!; [done|by repeat constructor|]. by exists []. Qed.

Lemma served_silent w0 ls ts w l :
  (if l is Resume _ then False else True) -> served w0 ls ts w -> served w0 (ls ++ [l]) ts w.
Proof.
  intros Hl (Hts & Hls & Hserved). split_and!; [done|apply in_range_snoc; by destruct l|].
  rewrite resumed_snoc. destruct l; by rewrite ?app_nil_r.
Qed.

Lemma served_accept w0 ls ts w req :
  served w0 ls ts w -> served w0 (ls ++ [Accept req]) (ts ++ [task app req]) w.
Proof.
  intros Hserved. apply (served_silent _ _ _ _ (Accept req)) in Hserved as (Hts & Hls & Hs); [|done].
  split_and!.
  - apply Forall_app. split; [done|]. constructor; [by left|done].
  - eapply in_range_mono; [|done]. rewrite length_app. lia.
  - rewrite resumed_app, omap_app by done. cbn. by rewrite app_nil_r.
Qed.

(** Resuming a task runs the handler of its request to its response. *)
Lemma resume_task ts i req resume w w' c' :
  Forall fresh_or_answered ts -> ts !! i = Some (req, Suspended resume) ->
  resume w = (w', c') ->
  exists resp, handle app req w = (w', inr resp) /\ c' = Returned (inr resp).
Proof.
  intros Hts Hi Hresume.
  destruct (proj1 (Forall_lookup _ _) Hts i _ Hi) as [[= ->]|[resp [=]]].
  destruct (handle_answers app req w) as (resp & Hresp & _).
  unfold run, outcome in *. destruct (handle app req w) as [w1 r]. cbn in Hresp. subst r.
  injection Hresume as <- <-. by exists resp.
Qed.

Lemma served_resume w0 ls ts w i req resume w' c' :
  served w0 ls ts w -> ts !! i = Some (req, Suspended resume) -> resume w = (w', c') ->
  served w0 (ls ++ [Resume i]) (<[i := (req, c')]> ts) w'.
Proof.
  intros (Hts & Hls & answers & Hreqs & Hserve & Hperm) Hi Hresume.
  destruct (resume_task ts i req resume w w' c' Hts Hi Hresume) as (resp & Hresp & ->).
  pose proof (lookup_lt_Some _ _ _ Hi) as Hlen. split_and!.
  - apply Forall_insert; [done|]. right. by exists resp.
  - apply in_range_snoc; [eapply in_range_mono; [|done]|]; by rewrite length_insert.
  - exists (answers ++ [(req, resp)]).
    rewrite resumed_snoc, list_lookup_insert_eq, (resumed_insert _ _ _ _ _ _ Hi) by done.
    rewrite !fmap_app, Hreqs. split_and!; [done|by eapply serve_snoc|].
    by rewrite (answer_insert ts i _ _ (req, resp) Hi), Hperm.
Qed.

(** The invariant holds along every run. *)
Lemma step_invariant w0 ls s l s' :
  invariant w0 ls s -> step app s l s' -> invariant w0 (ls ++ [l]) s'.
Proof.
  unfold invariant. intros Hinv Hstep.
  destruct Hstep as [w c ts w' c' Hsend|w c ts req|w c ts i req resume w' c' Hi Hresume
                     |w c ts w' c' Hts Hsend]; cbn [stage tasks world lifespan_task] in *.
  - destruct Hinv as [[= -> -> ->] ->]. rewrite send_lifespan in Hsend.
    injection Hsend as <- <-. split; [done|apply served_start].
  - destruct Hinv as [-> Hserved]. split; [done|by apply served_accept].
  - destruct Hinv as [-> Hserved]. split; [done|by eapply served_resume].
  - destruct Hinv as [-> Hserved]. rewrite send_serving_lifespan in Hsend.
    injection Hsend as <- <-. exists w. split_and!; [|done..].
    by apply (served_silent _ _ _ _ Shutdown).
Qed.

Lemma trace_invariant w0 ls s : trace app (boot w0) ls s -> invariant w0 ls s.
Proof.
  induction 1 as [|ls s' l s'' _ IH Hstep]; [done|]. by eapply step_invariant.
Qed.
End serialisation.

(** ** Tasks still to resume *)
Section pending.
Context `{Validators} (app : App.t).
Import Coroutine EventLoop.
Implicit Types (s : loop) (ls : list label) (ts : list (request * coroutine response)).

(** The tasks that have not returned. *)
Definition pending ts : nat :=
  sum_list_with (fun t => if is_Returned t.2 then 0 else 1) ts.

(** The steps a loop that accepts nothing has left, at most. *)
Definition remaining s : nat :=
  match stage s with
  | Starting => 2 + pending (tasks s)
  | Serving => 1 + pending (tasks s)
  | Stopped => 0
  end.

Lemma pending_insert ts i t t' :
  ts !! i = Some t -> is_Returned t.2 = false -> is_Returned t'.2 = true ->
  S (pending (<[i := t']> ts)) = pending ts.
Proof.
  intros Hi Ht Ht'. rewrite <-(take_drop_middle ts i t Hi) at 2.
  rewrite insert_take_drop by by eapply lookup_lt_Some.
  unfold pending. rewrite !sum_list_with_app. cbn. rewrite Ht, Ht'. lia.
Qed.



(** A step that accepts nothing leaves fewer steps to take. *)
Lemma internal_lowers s s' :
  Forall (fresh_or_answered app) (tasks s) -> internal app s s' -> remaining s' < remaining s.
Proof.
  unfold remaining. intros Hts (l & Hl & Hstep).
  destruct Hstep as [w c ts w' c' Hsend|w c ts req|w c ts i req resume w' c' Hi Hresume
                     |w c ts w' c' Hdone Hsend]; cbn [stage tasks] in *.
  - destruct (is_Returned c'); lia.
  - by destruct (Hl req).
  - destruct (resume_task app ts i req resume w w' c' Hts Hi Hresume) as (resp & _ & ->).
    pose proof (pending_insert ts i _ (req, Returned (inr resp)) Hi eq_refl eq_refl). lia.
  - lia.
Qed.
End pending.

(** ** What the loop guarantees *)
Section loop_theorems.
Context `{Validators} (app : App.t).
Import Coroutine EventLoop.
Implicit Types (s : loop) (ls : list label) (ts : list (request * coroutine response)).
Implicit Types (w : World) (req : request) (resp : response).

Lemma invariant_tasks w0 ls s :
  invariant app w0 ls s -> Forall (fresh_or_answered app) (tasks s).
Proof.
  unfold invariant. destruct (stage s) eqn:Hs.
  - by intros [-> _].
  - by intros [_ [Hts _]].
  - by intros (w & [Hts _] & _).
Qed.


(** The tasks served leave no session open. *)
Lemma served_conforms w0 ls ts w :
  Protocol.conforms w0 -> served app w0 ls ts w -> Protocol.conforms w.
Proof.
  intros Hw0 (_ & _ & answers & _ & Hserve & _).
  apply (reachable_conforms app (started w0)); [done|].
  replace w with (world_after (serve app (resumed ts ls)) (started w0));
    [apply serve_reachable|]. unfold world_after. by rewrite Hserve.
Qed.


(** [loop_stopped]: a server that has stopped has answered every
    request it accepted, and leaves the world [App.lifespan] leaves around
    the serving of the requests in the order their tasks were resumed in. *)
Theorem loop_stopped w0 ls s :
  trace app (boot w0) ls s -> stage s = Stopped ->
  world s = world_after (App.lifespan (serve app (resumed (tasks s) ls))) w0 /\
  length (omap answer (tasks s)) = length (tasks s).
Proof.
  intros Hinv%trace_invariant Hs. unfold invariant in Hinv. rewrite Hs in Hinv.
  destruct Hinv as (w & (Hts & _ & answers & _ & Hserve & _) & -> & Hdone). split.
  - pose proof (lifespan_resumed_twice (serve app (resumed (tasks s) ls)) w0 w _ Hserve) as Hl.
    rewrite send_lifespan, send_serving_lifespan in Hl. by injection Hl.
  - clear Hserve. induction Hts as [|[req c] ts [Hc|[resp Hc]] _ IH]; [done|..];
      cbn in Hc, Hdone; subst c; [done|]. cbn. f_equal. apply IH.
    by apply andb_true_iff in Hdone as [_ ?].
Qed.

(** C25 (loop_between_sessions): when the loop chooses, no SMTP session is
    open.  In every state of every run the log is a sequence of closed
    sessions: an exchange with the server begins and ends within one
    resumption of one task, and no other task runs while it lasts. *)
Theorem loop_between_sessions w0 ls s :
  trace app (boot w0) ls s -> Protocol.conforms w0 -> Protocol.conforms (world s).
Proof.
  intros Hinv%trace_invariant Hw0. unfold invariant in Hinv. destruct (stage s).
  - by destruct Hinv as [-> _].
  - destruct Hinv as [_ Hserved]. by eapply served_conforms.
  - destruct Hinv as (w & Hserved & -> & _). change (Protocol.conforms w).
    by eapply served_conforms.
Qed.

(** [loop_drain_terminates]: a server that accepts no further request
    cannot run forever: from every state of a run, the steps other than
    accepting come to an end. *)
Theorem loop_drain_terminates w0 ls s : trace app (boot w0) ls s -> sn (internal app) s.
Proof.
  intros Hinv%trace_invariant. remember (S (remaining s)) as n eqn:Hn.
  assert (remaining s < n) as Hlt by lia. clear Hn. revert s ls Hinv Hlt.
  induction n as [|n IH]; intros s ls Hinv Hlt; [lia|].
  constructor. intros s' Hint. pose proof Hint as (l & _ & Hstep).
  apply (IH s' (ls ++ [l])); [by eapply step_invariant|].
  apply internal_lowers in Hint; [lia|by eapply invariant_tasks].
Qed.



End loop_theorems.

(** ** The theorems at a run of two requests

    The server starts, accepts a contact submission and a health check,
    and resumes the task of the health check first. *)
Definition sample_run : list EventLoop.label :=
  [EventLoop.Startup;
   EventLoop.Accept (contact_request None sample_data);
   EventLoop.Accept (get_request None "/health");
   EventLoop.Resume 1; EventLoop.Resume 0].

Definition sample_state : EventLoop.loop :=
  default (EventLoop.boot sample_world)
    (EventLoop.exec (H:=sample_validators) sample_app (EventLoop.boot sample_world) sample_run).

Lemma sample_trace :
  EventLoop.trace (H:=sample_validators) sample_app (EventLoop.boot sample_world)
    sample_run sample_state.
Proof. apply exec_trace. by vm_compute. Qed.

Example sample_run_order :
  EventLoop.resumed (EventLoop.tasks sample_state) sample_run =
    [get_request None "/health"; contact_request None sample_data].
Proof. by vm_compute. Qed.


Lemma loop_between_sessions_witness : Protocol.conforms (EventLoop.world sample_state).
Proof.
  apply (loop_between_sessions (H:=sample_validators) sample_app sample_world sample_run
           sample_state); [apply sample_trace|constructor].
Defined.

Lemma loop_drain_terminates_witness :
  sn (EventLoop.internal (H:=sample_validators) sample_app) sample_state.
Proof.
  apply (loop_drain_terminates (H:=sample_validators) sample_app sample_world sample_run).
  apply sample_trace.
Defined.


(** The lifespan is the coroutine that suspends: resumed once it has not
    returned. *)
Example lifespan_suspends (w : World) :
  Coroutine.is_Returned (Coroutine.send EventLoop.lifespan w).2 = false.
Proof. reflexivity. Qed.
