(* ===== verification/Schedule.v ===== *)
(** * The order of requests

    The loop of EventLoop.v chooses the order in which it resumes the tasks
    it holds, and [serve] runs the requests in that order.  This file
    says how much the choice matters.

    A request that is no contact submission reads the application's
    objects and the resume file and nothing else: its answer is the same
    in any two worlds with the same file ([same_file]), whatever was
    printed and whatever the SMTP server was sent.  A submission leaves
    the file alone.  So a run splits ([serve_split]) into the run of its
    submissions, which alone makes the world, and the answers of its
    reads, each the answer the first world would have given; two orders
    that agree on the order of the submissions give every request the
    same answer and end in the same world. *)

From S2P Require Import Prelude Runtime Domain EmailService Routes App Handling Dispatch Conformance.
From S2P Require Import Coroutines EventLoop.

(** ** What a read can see *)

(** Two worlds with the same resume file. *)
Definition same_file (w1 w2 : World) : Prop := resume_file w1 = resume_file w2.

#[export] Instance same_file_equivalence : Equivalence same_file.
Proof. unfold same_file. split; [done|by intros w1 w2|]. intros w1 w2 w3. congruence. Qed.

Section reads.
Context `{Validators}.
Implicit Types (app : App.t) (req : request) (reqs : list request) (w : World).
Implicit Types (resp : response) (resps : list response).
Local Open Scope eff_scope.

Lemma path_exists_same_file : respects same_file path_exists.
Proof. intros w1 w2 Hw. split; [done|]. cbn. by rewrite Hw. Qed.

Lemma stat_field_same_file {A} (field : file_stat -> A) : respects same_file (stat_field field).
Proof. intros w1 w2 Hw. unfold stat_field. rewrite Hw. by destruct (resume_file w2). Qed.

Lemma dict_getitem_same_file {V} (d : gmap string V) key :
  respects same_file (dict_getitem d key).
Proof. unfold dict_getitem. destruct (d !! key); [apply respects_ret|apply respects_raise]. Qed.

Lemma answered_same_file (handler : Py content) :
  respects same_file handler -> respects same_file (answered handler).
Proof.
  intros Hh w1 w2 Hw. destruct (Hh w1 w2 Hw) as [Hw' Hr]. rewrite !answered_run.
  split; [done|]. cbn. by rewrite Hr.
Qed.

Local Hint Resolve path_exists_same_file stat_field_same_file dict_getitem_same_file : portfolio.

(** Every endpoint but the contact route reads the file and nothing else. *)
Lemma call_reads_file app e params json_body :
  e <> App.SubmitContactForm -> respects same_file (call app e params json_body).
Proof.
  intros He. destruct e; [done|..]; cbn [call]; apply answered_same_file;
    unfold ProjectsRoute.get_all_projects, ProjectsRoute.get_featured_projects,
      ProjectsRoute.get_project, ResumeRoute.get_resume_metadata, ResumeRoute.download_resume,
      getsize, getmtime, App.root, App.health_check; solve_respects.
Qed.

Lemma handle_reads_file app req :
  is_submission req = false -> respects same_file (handle app req).
Proof.
  unfold handle, is_submission, static_files. intros Hreq.
  destruct (dispatch _ _ _) as [e params|directory rest|page| | |];
    solve_respects; [apply call_reads_file; by intros ->|].
  apply answered_same_file. solve_respects.
Qed.

(** The answer to a read is the same wherever the file is the same. *)
Lemma read_outcome app req w1 w2 :
  is_submission req = false -> same_file w1 w2 ->
  outcome (handle app req) w1 = outcome (handle app req) w2.
Proof. intros Hreq Hw. by destruct (handle_reads_file app req Hreq w1 w2 Hw). Qed.

(** No request changes the file. *)
Lemma handle_same_file app req w : same_file w (world_after (handle app req) w).
Proof.
  unfold same_file. by pose proof (handle_preserves_environment app req w) as [=].
Qed.

Lemma serve_same_file app reqs w : same_file w (world_after (serve app reqs) w).
Proof.
  unfold same_file. by pose proof (reachable_environment _ _ _ (serve_reachable app reqs w)) as [=].
Qed.

(** ** A run, split into its submissions and its reads *)

(** The reads among [reqs], each with the answer the world [w] gives it. *)
Definition read_answers app w reqs : list (request * response) :=
  omap (fun req =>
          if is_submission req then None
          else if outcome (handle app req) w is inr resp then Some (req, resp) else None)
       reqs.

Lemma read_answers_same_file app reqs w1 w2 :
  same_file w1 w2 -> read_answers app w1 reqs = read_answers app w2 reqs.
Proof.
  intros Hw. unfold read_answers. induction reqs as [|req reqs IH]; [done|]. cbn.
  rewrite IH. destruct (is_submission req) eqn:Hreq; [done|]. by rewrite (read_outcome _ _ w1 w2).
Qed.

#[export] Instance read_answers_perm app w : Proper ((≡ₚ) ==> (≡ₚ)) (read_answers app w).
Proof. intros reqs reqs' Hreqs. unfold read_answers. by rewrite Hreqs. Qed.

(** [serve] always returns, with one response for each request. *)
Lemma serve_returns app reqs w :
  exists resps, serve app reqs w = (world_after (serve app reqs) w, inr resps).
Proof.
  revert w. induction reqs as [|req reqs IH]; intros w; [by exists []|].
  rewrite serve_cons_world. destruct (handle_answers app req w) as (resp & Hresp & _).
  destruct (IH (world_after (handle app req) w)) as [resps Hresps]. exists (resp :: resps).
  cbn [serve]. rewrite (bind_run (handle _ _)). unfold outcome, world_after in *.
  destruct (handle app req w) as [w1 r]. cbn [fst snd] in *. subst r.
  by rewrite (bind_run (serve _ _)), Hresps.
Qed.

Lemma serve_cons app req reqs w w' resps :
  serve app (req :: reqs) w = (w', inr resps) ->
  exists resp resps',
    resps = resp :: resps' /\ outcome (handle app req) w = inr resp /\
    serve app reqs (world_after (handle app req) w) = (w', inr resps').
Proof.
  cbn [serve]. rewrite (bind_run (handle _ _)). unfold outcome, world_after.
  destruct (handle app req w) as [w1 [e|resp]]; [done|]. rewrite (bind_run (serve _ _)).
  cbn [fst snd]. destruct (serve app reqs w1) as [w2 [e|resps']]; [done|].
  intros [= <- <-]. by exists resp, resps'.
Qed.

(** The submissions of a run, run alone, end in the world of the run and
    are answered as in the run; the reads are answered as the first world
    would have answered them. *)
Lemma serve_split app reqs w w' resps :
  serve app reqs w = (w', inr resps) ->
  exists answers,
    serve app (filter is_submission reqs) w = (w', inr answers) /\
    zip reqs resps ≡ₚ zip (filter is_submission reqs) answers ++ read_answers app w reqs.
Proof.
  revert w resps. induction reqs as [|req reqs IH]; intros w resps.
  { intros [= <- <-]. by exists []. }
  intros (resp & resps' & -> & Hresp & Hserve)%serve_cons.
  destruct (IH _ _ Hserve) as (answers & Hsubs & Hperm).
  rewrite <-(read_answers_same_file app reqs w) in Hperm by apply handle_same_file.
  unfold read_answers in *. rewrite filter_cons. cbn [omap list_omap zip zip_with].
  destruct (is_submission req) eqn:Hreq; rewrite ?decide_True, ?decide_False by done.
  - exists (resp :: answers). split; [|cbn; by rewrite Hperm].
    cbn [serve]. rewrite (bind_run (handle _ _)). unfold outcome, world_after in *.
    destruct (handle app req w) as [w1 r]. cbn [fst snd] in *. subst r.
    by rewrite (bind_run (serve _ _)), Hsubs.
  - rewrite (handle_keeps_world app req w Hreq) in Hsubs. exists answers. split; [done|].
    rewrite Hresp. by rewrite Hperm, Permutation_middle.
Qed.

(** Two orders of the same requests that agree on the order of the
    submissions: the same world and the same answers. *)
Lemma serve_order app reqs reqs' w w1 w2 resps resps' :
  reqs ≡ₚ reqs' -> filter is_submission reqs = filter is_submission reqs' ->
  serve app reqs w = (w1, inr resps) -> serve app reqs' w = (w2, inr resps') ->
  w1 = w2 /\ zip reqs resps ≡ₚ zip reqs' resps'.
Proof.
  intros Hperm Hsubs (answers & Hrun & ->)%serve_split (answers' & Hrun' & ->)%serve_split.
  rewrite <-Hsubs, Hrun in Hrun'. injection Hrun' as <- <-. by rewrite Hsubs, Hperm.
Qed.
End reads.

(** ** The order of a run *)
Section order.
Context `{Validators} (app : App.t).
Import Coroutine EventLoop.
Implicit Types (req : request) (reqs : list request) (w : World).
Implicit Types (s : loop) (ls : list label).

(** [serve_reads_anywhere]: the order of the requests matters among
    the contact submissions only.  Two lists of the same requests in
    which the submissions come in the same order are both served to the
    end, end in the same world, and give every request the same
    response. *)
Theorem serve_reads_anywhere reqs reqs' w :
  reqs ≡ₚ reqs' -> filter is_submission reqs = filter is_submission reqs' ->
  exists w' resps resps',
    serve app reqs w = (w', inr resps) /\ serve app reqs' w = (w', inr resps') /\
    zip reqs resps ≡ₚ zip reqs' resps'.
Proof.
  intros Hperm Hsubs.
  destruct (serve_returns app reqs w) as [resps Hrun], (serve_returns app reqs' w) as [resps' Hrun'].
  destruct (serve_order app _ _ _ _ _ _ _ Hperm Hsubs Hrun Hrun') as [Hw Hzip].
  eexists _, resps, resps'. by rewrite Hrun, Hrun', Hw.
Qed.

(** [read_after_any_run]: a read is answered after any list of
    requests as it would have been answered before them. *)
Theorem read_after_any_run reqs req w :
  is_submission req = false ->
  handle app req (world_after (serve app reqs) w) =
    (world_after (serve app reqs) w, outcome (handle app req) w).
Proof.
  intros Hreq. rewrite (surjective_pairing (handle _ _ _)). f_equal.
  - by apply handle_keeps_world.
  - symmetry. by apply read_outcome, serve_same_file.
Qed.

(** C26 (loop_order_of_reads): two runs of the server that have resumed
    the tasks of the same requests, those of the contact submissions in
    the same order, are in the same world and have given every client
    the same answer, whatever the order in which the requests were
    accepted and the other tasks resumed. *)
Theorem loop_order_of_reads w0 ls ls' s s' :
  trace app (boot w0) ls s -> trace app (boot w0) ls' s' ->
  stage s = Serving -> stage s' = Serving ->
  resumed (tasks s) ls ≡ₚ resumed (tasks s') ls' ->
  filter is_submission (resumed (tasks s) ls) = filter is_submission (resumed (tasks s') ls') ->
  world s = world s' /\ omap answer (tasks s) ≡ₚ omap answer (tasks s').
Proof.
  intros Hs%trace_invariant Hs'%trace_invariant Hstage Hstage' Hperm Hsubs.
  unfold invariant in Hs, Hs'. rewrite Hstage in Hs. rewrite Hstage' in Hs'.
  destruct Hs as (_ & _ & _ & answers & H1 & Hrun & <-),
    Hs' as (_ & _ & _ & answers' & H1' & Hrun' & <-).
  destruct (serve_order app _ _ _ _ _ _ _ Hperm Hsubs Hrun Hrun') as [Hw Hzip].
  by rewrite <-H1, <-H1', !zip_fst_snd in Hzip.
Qed.
End order.

(** ** The theorems at three requests

    A contact submission, the metadata of the resume and the health
    check, served in two orders and resumed by the loop in two orders. *)
Definition three_requests : list request :=
  [contact_request None sample_data; get_request None "/api/v1/resume/metadata";
   get_request None "/health"].

Definition three_reordered : list request :=
  [get_request None "/api/v1/resume/metadata"; get_request None "/health";
   contact_request None sample_data].

Lemma serve_reads_anywhere_witness :
  exists w' resps resps',
    serve (H:=sample_validators) sample_app three_requests sample_world = (w', inr resps) /\
    serve (H:=sample_validators) sample_app three_reordered sample_world = (w', inr resps') /\
    zip three_requests resps ≡ₚ zip three_reordered resps'.
Proof.
  apply (serve_reads_anywhere (H:=sample_validators) sample_app three_requests three_reordered
           sample_world); [|by vm_compute].
  exact (Permutation_cons_append _ _).
Defined.

Definition first_run : list EventLoop.label :=
  EventLoop.Startup :: (EventLoop.Accept <$> three_requests) ++
    [EventLoop.Resume 0; EventLoop.Resume 1; EventLoop.Resume 2].

Definition second_run : list EventLoop.label :=
  EventLoop.Startup :: (EventLoop.Accept <$> reverse three_requests) ++
    [EventLoop.Resume 1; EventLoop.Resume 0; EventLoop.Resume 2].

Definition state_after (ls : list EventLoop.label) : EventLoop.loop :=
  default (EventLoop.boot sample_world)
    (EventLoop.exec (H:=sample_validators) sample_app (EventLoop.boot sample_world) ls).

Lemma run_trace ls :
  EventLoop.exec (H:=sample_validators) sample_app (EventLoop.boot sample_world) ls =
    Some (state_after ls) ->
  EventLoop.trace (H:=sample_validators) sample_app (EventLoop.boot sample_world) ls
    (state_after ls).
Proof. apply exec_trace. Qed.

Example runs_resumed :
  EventLoop.resumed (EventLoop.tasks (state_after first_run)) first_run = three_requests /\
  EventLoop.resumed (EventLoop.tasks (state_after second_run)) second_run = three_reordered.
Proof. split; by vm_compute. Qed.

Lemma loop_order_of_reads_witness :
  EventLoop.world (state_after first_run) = EventLoop.world (state_after second_run) /\
  omap EventLoop.answer (EventLoop.tasks (state_after first_run)) ≡ₚ
    omap EventLoop.answer (EventLoop.tasks (state_after second_run)).
Proof.
  apply (loop_order_of_reads (H:=sample_validators) sample_app sample_world first_run second_run
           (state_after first_run) (state_after second_run));
    try (apply run_trace; by vm_compute); try by vm_compute.
  destruct runs_resumed as [-> ->]. exact (Permutation_cons_append _ _).
Defined.

(** The order of two submissions does matter: a server that accepts one
    message and refuses every login after it gives the success to the
    submission that comes first, whichever that is. *)
Definition one_message_only : Server :=
  fun log =>
    if last log is Some (Login _ _)
    then if existsb (fun ev => if ev is SendMessage _ then true else false) log
         then Some bad_credentials else None
    else None.

Definition from_john : request :=
  contact_request None (<["name" := PyStr "John Roe"]> sample_data).

Example submissions_do_not_commute :
  sum_map id (fmap status)
    (outcome (serve (H:=sample_validators) sample_app
                [contact_request None sample_data; from_john]) (world_of one_message_only)) =
    inr [200; 500] /\
  sum_map id (fmap status)
    (outcome (serve (H:=sample_validators) sample_app
                [from_john; contact_request None sample_data]) (world_of one_message_only)) =
    inr [200; 500].
Proof. split; by vm_compute. Qed.
