(* ===== verification/Contract.v ===== *)
(** * The contract of the interface

    What the service promises a client, written without the code: the six
    operations of the HTTP interface, the results a client can be given,
    and a state that holds what the promises are about: the catalogue of
    projects fixed at start, the mail configuration, the resume file, the
    number of SMTP sessions opened and the messages the SMTP server has
    accepted.  [Contract.step] is one exchange; it is a relation, because
    the outcome of a delivery is the SMTP server's to decide.

    The second half proves what a client can rely on from the contract
    alone.  Refinement.v proves that the application implements the
    contract, which hands these facts to the code. *)

From S2P Require Import Prelude Runtime Domain.

Set Warnings "-clear-no-such-hyp".

Module Contract.

(** The operations of the interface.  A submission carries the four
    fields of the body as the client sent them: any may be missing or of
    another type than a string. *)
Inductive operation :=
  | ListProjects
  | ListFeatured
  | GetProject (id : string)
  | SubmitContact (name email subject message : option pyval)
  | ResumeMetadata
  | ResumeDownload.

(** What a client is told.  The size is in hundredths of a kilobyte, the
    time of the last change in seconds. *)
Inductive result :=
  | Projects (projects : list Project.t)
  | OneProject (project : Project.t)
  | NotFound
  | Rejected (fields : list string)
  | Success
  | Failure
  | Metadata (available : bool) (filename : string) (size_kb last_updated : option Z)
  | Download (filename : string).

#[global] Instance operation_eq_dec : EqDecision operation.
Proof. solve_decision. Defined.

#[global] Instance result_eq_dec : EqDecision result.
Proof. solve_decision. Defined.

Record state := mk {
  catalogue : list Project.t;        (* fixed at process start *)
  configured : bool;                 (* user, password and recipient are set *)
  recipient : option string;
  now : datetime.t;                  (* the time of a submission *)
  resume : option file_stat;         (* the one file of the service *)
  resume_name : string;
  attempts : nat;                    (* SMTP sessions opened so far *)
  outbox : list MIMEMultipart        (* messages the SMTP server accepted *)
}.

(** One session opened, in which the server accepted the messages [sent]. *)
Definition deliver (sent : list MIMEMultipart) (s : state) : state :=
  {| catalogue := catalogue s; configured := configured s; recipient := recipient s;
     now := now s; resume := resume s; resume_name := resume_name s;
     attempts := S (attempts s); outbox := outbox s ++ sent |}.

(** A field of text within its bounds, counted in code points. *)
Definition bounded (lo hi : nat) (v : option pyval) : option string :=
  match v with
  | Some (PyStr s) => if decide (lo <= py_len s <= hi) then Some s else None
  | _ => None
  end.

Section with_validators.
Context `{Validators}.

(** A valid address, in its normal form. *)
Definition address (v : option pyval) : option string :=
  match v with
  | Some (PyStr raw) => validate_email raw
  | _ => None
  end.

(** The message of a body that meets the constraints of the data model,
    stamped with the time of the submission. *)
Definition accept (now : datetime.t) (name email subject message : option pyval)
  : option ContactMessage.t :=
  n ← bounded 2 100 name; e ← address email;
  s ← bounded 3 200 subject; m ← bounded 10 2000 message;
  Some (ContactMessage.mk n e s m (Some now)).

(** The fields of a body that do not meet them, in the order of the model. *)
Definition offending (name email subject message : option pyval) : list string :=
  (if bounded 2 100 name is Some _ then [] else ["name"]) ++
  (if address email is Some _ then [] else ["email"]) ++
  (if bounded 3 200 subject is Some _ then [] else ["subject"]) ++
  (if bounded 10 2000 message is Some _ then [] else ["message"]).
End with_validators.

(** The notification of a contact: addressed to the configured recipient,
    replies go to the sender, and its one part is an HTML text in which
    the four fields and the time of the submission stand as they are. *)
Definition announces (s : state) (c : ContactMessage.t) (m : MIMEMultipart) : Prop :=
  To m = recipient s /\ Reply_To m = ContactMessage.email c /\
  exists html,
    payload m = [{| text := html; text_subtype := "html" |}] /\
    Forall (fun field => embeds field html)
      [ContactMessage.name c; ContactMessage.email c; ContactMessage.subject c;
       ContactMessage.message c;
       datetime.strftime "%Y-%m-%d %H:%M:%S UTC" (default (now s) (ContactMessage.timestamp c))].

(** A size in hundredths of a kilobyte nearest to a size in bytes. *)
Definition nearest_kb (size : N) (k : Z) : Prop :=
  (Z.abs (100 * Z.of_N size - 1024 * k) * 2 <= 1024)%Z.

Section step.
Context `{Validators}.

(** One exchange.  The reads leave the state as it is.  A submission is
    rejected with the fields at fault, skipped with a success when the
    mail is not configured, and otherwise opens one session: a success
    means the server accepted the notification; a failure may leave the
    notification accepted or not. *)
Inductive step : state -> operation -> result -> state -> Prop :=
  | step_list s : step s ListProjects (Projects (catalogue s)) s
  | step_featured s :
      step s ListFeatured
        (Projects (filter (fun p => Project.featured p = true) (catalogue s))) s
  | step_found s id p :
      p ∈ catalogue s -> Project.id p = id -> step s (GetProject id) (OneProject p) s
  | step_absent s id :
      id ∉ Project.id <$> catalogue s -> step s (GetProject id) NotFound s
  | step_rejected s name email subject message :
      accept (now s) name email subject message = None ->
      step s (SubmitContact name email subject message)
        (Rejected (offending name email subject message)) s
  | step_skipped s name email subject message c :
      accept (now s) name email subject message = Some c ->
      configured s = false ->
      step s (SubmitContact name email subject message) Success s
  | step_delivered s name email subject message c m :
      accept (now s) name email subject message = Some c ->
      configured s = true -> announces s c m ->
      step s (SubmitContact name email subject message) Success (deliver [m] s)
  | step_failed s name email subject message c sent :
      accept (now s) name email subject message = Some c ->
      configured s = true -> Forall (announces s c) sent -> length sent <= 1 ->
      step s (SubmitContact name email subject message) Failure (deliver sent s)
  | step_metadata_absent s :
      resume s = None ->
      step s ResumeMetadata (Metadata false (resume_name s) None None) s
  | step_metadata s st k :
      resume s = Some st -> nearest_kb (st_size st) k ->
      step s ResumeMetadata
        (Metadata true (resume_name s) (Some k) (Some (st_mtime st))) s
  | step_download_absent s : resume s = None -> step s ResumeDownload NotFound s
  | step_download s st :
      resume s = Some st -> step s ResumeDownload (Download (resume_name s)) s.

(** A history: the exchanges of a client, or of several, one after the
    other. *)
Inductive steps : state -> list (operation * result) -> state -> Prop :=
  | steps_nil s : steps s [] s
  | steps_cons s op r s1 h s2 :
      step s op r s1 -> steps s1 h s2 -> steps s ((op, r) :: h) s2.
End step.

(** The submissions of a history, and those answered with a success. *)
Definition is_submission (x : operation * result) : bool :=
  if x.1 is SubmitContact _ _ _ _ then true else false.

Definition is_success (x : operation * result) : bool :=
  match x with
  | (SubmitContact _ _ _ _, Success) => true
  | _ => false
  end.

Definition submissions (h : list (operation * result)) : nat :=
  length (filter (fun x => is_submission x = true) h).

Definition successes (h : list (operation * result)) : nat :=
  length (filter (fun x => is_success x = true) h).

(** What no exchange changes. *)
Definition setting (s : state)
  : list Project.t * bool * option string * datetime.t * option file_stat * string :=
  (catalogue s, configured s, recipient s, now s, resume s, resume_name s).
End Contract.

#[export] Hint Constructors Contract.step Contract.steps : portfolio.

(** Within a list on which [f] takes no value twice, [f] tells the
    elements apart. *)
Lemma NoDup_fmap_elem_of {A B} (f : A -> B) (l : list A) x y :
  NoDup (f <$> l) -> x ∈ l -> y ∈ l -> f x = f y -> x = y.
Proof.
  induction l as [|z l IH]; [by intros _ ?%not_elem_of_nil|].
  rewrite fmap_cons, NoDup_cons.
  intros [Hz Hnd] [->|Hx]%elem_of_cons [->|Hy]%elem_of_cons Hf; [done|..|by apply IH].
  - destruct Hz. rewrite Hf. by apply list_elem_of_fmap_2.
  - destruct Hz. rewrite <-Hf. by apply list_elem_of_fmap_2.
Qed.

(** ** What a client can rely on *)
Section contract.
Context `{Validators}.
Import Contract.
Implicit Types (s : state) (op : operation) (r : result) (h : list (operation * result)).

Lemma setting_deliver sent s : setting (deliver sent s) = setting s.
Proof. done. Qed.

(** A body is accepted exactly when no field is at fault. *)
Lemma accept_offending now name email subject message :
  is_Some (accept now name email subject message) <->
  offending name email subject message = [].
Proof.
  unfold accept, offending.
  destruct (bounded 2 100 name), (address email), (bounded 3 200 subject),
    (bounded 10 2000 message); cbn; split; (done || by intros [? [=]] || by eexists).
Qed.

(** An accepted message meets the constraints of the data model. *)
Lemma bounded_Some lo hi v x :
  bounded lo hi v = Some x <-> v = Some (PyStr x) /\ lo <= py_len x <= hi.
Proof. unfold bounded. destruct v as [[]|]; try case_decide; naive_solver. Qed.

Lemma accept_valid now name email subject message c :
  accept now name email subject message = Some c ->
  ContactMessage.valid c /\ ContactMessage.timestamp c = Some now.
Proof.
  unfold accept, address, ContactMessage.valid. intros Hc. simplify_option_eq.
  repeat match goal with Hx : bounded _ _ _ = Some _ |- _ => apply bounded_Some in Hx as [_ ?] end.
  repeat case_match; simplify_eq. cbn. by eauto 10.
Qed.

(** One exchange changes the counters only, by one session at most, and
    the outbox by the messages of that session. *)
Lemma step_delivery s op r s' :
  step s op r s' ->
  setting s' = setting s /\
  exists sent,
    outbox s' = outbox s ++ sent /\
    attempts s + length sent <= attempts s' <=
      attempts s + (if is_submission (op, r) then 1 else 0) /\
    (is_success (op, r) = true -> configured s = true -> length sent = 1).
Proof.
  destruct 1; (split; [done|]);
    try (exists []; rewrite app_nil_r; cbn; split_and!; [done|lia..|congruence]).
  - exists [m]. cbn. split_and!; [done|lia..|done].
  - exists sent. cbn. split_and!; [done|lia..|done].
Qed.

(** An exchange that is no submission changes nothing. *)
Lemma step_read s op r s' : step s op r s' -> is_submission (op, r) = false -> s' = s.
Proof. by destruct 1. Qed.

(** With the mail unconfigured no exchange changes anything, and no
    submission fails. *)
Lemma step_unconfigured s op r s' :
  step s op r s' -> configured s = false -> s' = s /\ r <> Failure.
Proof. destruct 1; intros Hc; try congruence; by split. Qed.

(** A submission that meets the constraints is not rejected, and one that
    does not is rejected without a session. *)
Lemma step_rejected_iff s name email subject message r s' :
  step s (SubmitContact name email subject message) r s' ->
  (exists fields, r = Rejected fields) <-> offending name email subject message <> [].
Proof.
  intros Hstep. rewrite <-(accept_offending (now s)), <-eq_None_not_Some.
  inversion Hstep; subst; split; first [by eauto | intros [? [=]] | congruence].
Qed.

(** With identifiers that are unique, a lookup has one answer. *)
Lemma step_lookup_deterministic s id r1 r2 s1 s2 :
  NoDup (Project.id <$> catalogue s) ->
  step s (GetProject id) r1 s1 -> step s (GetProject id) r2 s2 -> r1 = r2.
Proof.
  intros Hnd. do 2 inversion 1; subst; try done.
  - f_equal. by eapply (NoDup_fmap_elem_of Project.id).
  - exfalso. set_solver.
  - exfalso. set_solver.
Qed.
End contract.

(** ** Histories *)
Section histories.
Context `{Validators}.
Import Contract.
Implicit Types (s : state) (op : operation) (r : result) (h : list (operation * result)).

Lemma steps_app s h1 s1 h2 s2 : steps s h1 s1 -> steps s1 h2 s2 -> steps s (h1 ++ h2) s2.
Proof. induction 1; [done|]. intros. cbn. econstructor; eauto. Qed.

Lemma steps_snoc s h s1 op r s2 :
  steps s h s1 -> step s1 op r s2 -> steps s (h ++ [(op, r)]) s2.
Proof. intros Hh Hstep. apply (steps_app _ _ s1); [done|]. by repeat econstructor. Qed.

Lemma steps_setting s h s' : steps s h s' -> setting s' = setting s.
Proof.
  induction 1 as [|s op r s1 h s2 [Hset _]%step_delivery _ IH]; [done|]. congruence.
Qed.

Lemma steps_configured s h s' : steps s h s' -> configured s' = configured s.
Proof. intros Hset%steps_setting. unfold setting in Hset. congruence. Qed.

(** The counters of a history: the outbox only grows, every success of a
    configured service stands for a message the server accepted, no
    message is accepted outside a session, and no session is opened but
    for a submission. *)
Lemma steps_delivery s h s' :
  steps s h s' ->
  exists sent,
    outbox s' = outbox s ++ sent /\
    attempts s + length sent <= attempts s' <= attempts s + submissions h /\
    (configured s = true -> successes h <= length sent).
Proof.
  unfold submissions, successes.
  induction 1 as [s|s op r s1 h s2 Hstep Hh (sent2 & Hout2 & Hlen2 & Hsucc2)].
  { exists []. rewrite app_nil_r. cbn. split_and!; [done|lia..]. }
  pose proof (steps_configured _ _ _ (steps_cons _ _ _ _ _ _ Hstep (steps_nil _))) as Hc.
  destruct (step_delivery _ _ _ _ Hstep) as (_ & sent1 & Hout1 & Hlen1 & Hsucc1).
  exists (sent1 ++ sent2). rewrite Hout2, Hout1, <-app_assoc, length_app, !filter_cons.
  split; [done|]. rewrite Hc in Hsucc2.
  destruct (is_submission (op, r)) eqn:Hsub, (is_success (op, r)) eqn:Hok;
    repeat case_decide; try done; cbn [length]; split; try lia;
    intros Hconf; specialize (Hsucc2 Hconf); try specialize (Hsucc1 eq_refl Hconf); lia.
Qed.

(** With the mail unconfigured a history changes nothing. *)
Lemma steps_unconfigured s h s' :
  steps s h s' -> configured s = false -> s' = s /\ Forall (fun x => x.2 <> Failure) h.
Proof.
  induction 1 as [|s op r s1 h s2 Hstep _ IH]; intros Hc; [done|].
  destruct (step_unconfigured _ _ _ _ Hstep Hc) as [-> Hr].
  destruct (IH Hc) as [-> Hh]. by split; [|constructor].
Qed.
End histories.
