(* ===== verification/Refinement.v ===== *)
(** * The application implements the contract

    The abstraction: [abstract] reads the state of Contract.v off the
    application's objects and the world, [read] tells which operation a
    request asks for, going by the paths of the interface, and [observe]
    which result a response shows the client.  The simulation: whatever
    [handle] does with a request that asks for an operation is an exchange
    of the contract between the abstract states, with the result observed;
    a request that asks for none changes nothing.  It is lifted to
    [serve] and to the runs of the event loop, and carries the facts of
    Contract.v over to the code. *)

From S2P Require Import Prelude Runtime Domain Repository ProjectUseCase EmailService.
From S2P Require Import ContactUseCase Routes App Handling Protocol Conformance Dispatch.
From S2P Require Import Coroutines EventLoop Contract.

Set Warnings "-clear-no-such-hyp".

(** ** The abstraction *)

(** The messages among the commands [evs], sent on top of [log], that the
    server accepted. *)
Fixpoint accepted_in (srv : Server) (log evs : list smtp_event) : list MIMEMultipart :=
  match evs with
  | [] => []
  | ev :: evs' =>
      (if srv (log ++ [ev]) is None then option_list (sent_message ev) else []) ++
      accepted_in srv (log ++ [ev]) evs'
  end.

Definition delivered (w : World) : list MIMEMultipart :=
  accepted_in (smtp_server w) [] (smtp_log w).

(** The state of the contract in an application and a world. *)
Definition abstract (app : App.t) (w : World) : Contract.state :=
  {| Contract.catalogue := ProjectRepository.get_all (repository app);
     Contract.configured := EmailService.configured (email_service app);
     Contract.recipient := EmailService.email_to (email_service app);
     Contract.now := clock w;
     Contract.resume := resume_file w;
     Contract.resume_name := "Liam_Nguyen_Resume.pdf";
     Contract.attempts := attempts w;
     Contract.outbox := delivered w |}.

(** The dictionary of the resume's metadata as the contract's result. *)
Definition metadata (d : gmap string json) : option Contract.result :=
  match d !! "available", d !! "filename" with
  | Some (JBool available), Some (JStr filename) =>
      Some (Contract.Metadata available filename
              (if d !! "size_kb" is Some (JDecimal k 2) then Some k else None)
              (if d !! "last_updated" is Some (JDecimal t 0) then Some t else None))
  | _, _ => None
  end.

(** What a response shows the client. *)
Definition observe (status : nat) (body : content) : option Contract.result :=
  match body with
  | ProjectList ps => if decide (status = 200) then Some (Contract.Projects ps) else None
  | ProjectItem p => if decide (status = 200) then Some (Contract.OneProject p) else None
  | StrDict d =>
      if decide (status = 200 /\ d !! "status" = Some "success")
      then Some Contract.Success else None
  | JsonDict d => if decide (status = 200) then metadata d else None
  | FileContent f =>
      if decide (status = 200) then Some (Contract.Download (filename f)) else None
  | Detail _ =>
      if decide (status = 404) then Some Contract.NotFound
      else if decide (status = 500) then Some Contract.Failure else None
  | ValidationDetail errors =>
      if decide (status = 422) then Some (Contract.Rejected errors.*1) else None
  | _ => None
  end.

(** The submission of a body: its four fields, when it leaves the time to
    the service. *)
Definition submission (body : option (gmap string pyval)) : option Contract.operation :=
  data ← body;
  if decide (data !! "timestamp" = None)
  then Some (Contract.SubmitContact (data !! "name") (data !! "email")
               (data !! "subject") (data !! "message"))
  else None.

(** The operation of a request by the interface's paths: the segments
    after the prefix the interface is deployed under. *)
Definition read_segments (meth : string) (rest : list string)
    (body : option (gmap string pyval)) : option Contract.operation :=
  match rest with
  | [group] =>
      if decide (meth = "GET" /\ group = "projects") then Some Contract.ListProjects
      else if decide (meth = "POST" /\ group = "contact") then submission body
      else None
  | [group; item] =>
      if decide (meth = "GET" /\ group = "projects") then
        if decide (item = "featured") then Some Contract.ListFeatured
        else if decide (item = "") then None else Some (Contract.GetProject item)
      else if decide (meth = "GET" /\ group = "resume") then
        if decide (item = "metadata") then Some Contract.ResumeMetadata
        else if decide (item = "download") then Some Contract.ResumeDownload
        else None
      else None
  | _ => None
  end.

Definition read (prefix : list string) (req : request) : option Contract.operation :=
  let segments := split "/" (url_path req) in
  if decide (take (length prefix) segments = prefix)
  then read_segments (method req) (drop (length prefix) segments) (json_body req)
  else None.

(** The prefix main.py includes the three routers under, in segments. *)
Definition api_prefix : list string := split "/" "/api/v1".

(** The operation of a request that reached an endpoint. *)
Definition operation_of (e : App.endpoint) (params : list (string * string))
    (body : option (gmap string pyval)) : option Contract.operation :=
  match e with
  | App.SubmitContactForm => submission body
  | App.GetAllProjects => Some Contract.ListProjects
  | App.GetFeaturedProjects => Some Contract.ListFeatured
  | App.GetProject =>
      Contract.GetProject <$> (list_to_map params : gmap string string) !! "project_id"
  | App.GetResumeMetadata => Some Contract.ResumeMetadata
  | App.DownloadResume => Some Contract.ResumeDownload
  | App.Root | App.HealthCheck => None
  end.

(** A submission that sets its own time is outside the interface. *)
Definition stamped (req : request) : bool :=
  if json_body req is Some data then bool_decide (is_Some (data !! "timestamp")) else false.

(** The requests of the interface and those without effect. *)
Definition covered (req : request) : Prop := is_submission req && stamped req = false.

(** The exchange a request and its response stand for, if any. *)
Definition exchange (req : request) (resp : response)
  : option (Contract.operation * Contract.result) :=
  op ← read api_prefix req; r ← observe (status resp) (body resp); Some (op, r).

(** The history of a list of requests and their responses. *)
Definition history (answers : list (request * response))
  : list (Contract.operation * Contract.result) :=
  omap (fun a => exchange a.1 a.2) answers.

(** ** The outbox *)
Section delivered.
Implicit Types (srv : Server) (log evs : list smtp_event) (w : World).

Lemma accepted_in_app srv log evs1 evs2 :
  accepted_in srv log (evs1 ++ evs2) =
    accepted_in srv log evs1 ++ accepted_in srv (log ++ evs1) evs2.
Proof.
  revert log. induction evs1 as [|ev evs1 IH]; intros log; cbn [accepted_in app].
  - by rewrite app_nil_r.
  - by rewrite IH, <-!app_assoc.
Qed.

(** The messages accepted are among the messages handed over. *)
Lemma accepted_in_sublist srv log evs :
  accepted_in srv log evs `sublist_of` omap sent_message evs.
Proof.
  revert log. induction evs as [|ev evs IH]; intros log; [done|].
  cbn [accepted_in]. destruct (srv _), ev; cbn; try apply IH.
  - by apply sublist_cons.
  - by apply sublist_skip.
Qed.

Lemma delivered_extend w w' evs :
  smtp_server w' = smtp_server w -> smtp_log w' = smtp_log w ++ evs ->
  delivered w' = delivered w ++ accepted_in (smtp_server w) (smtp_log w) evs.
Proof. unfold delivered. intros -> ->. by rewrite accepted_in_app. Qed.

Lemma delivered_sublist w : delivered w `sublist_of` submitted w.
Proof. apply accepted_in_sublist. Qed.
End delivered.

(** ** One session of the service *)
Section session.
Import EmailService.
Implicit Types (self : EmailService.t) (contact : ContactMessage.t) (w : World).

(** A call of a configured service on a stamped message opens one
    session, in which the server accepts the notification or nothing; it
    has accepted it when the call returns. *)
Lemma send_result_delivery self contact ts w :
  configured self = true -> ContactMessage.timestamp contact = Some ts ->
  exists evs,
    smtp_log (send_result self contact w).1 = smtp_log w ++ evs /\
    attempts_in evs = 1 /\
    accepted_in (smtp_server w) (smtp_log w) evs `sublist_of`
      [notification self contact ts] /\
    ((send_result self contact w).2 = inr tt ->
     accepted_in (smtp_server w) (smtp_log w) evs = [notification self contact ts]).
Proof.
  intros Hc Hts. unfold send_result, session_result, quit_outcome.
  rewrite Hc, Hts. cbn [dialogue session_steps fmap list_fmap snd].
  py_cases; rewrite <-?app_assoc in *; cbn [app] in *.
  all: eexists; (split; [done|]); cbn [accepted_in]; rewrite <-?app_assoc; cbn [app].
  all: repeat match goal with Hs : smtp_server _ _ = _ |- _ => rewrite Hs; clear Hs end.
  all: cbn; split_and!; [by vm_compute|first [done|apply sublist_nil_l]|by intros].
Qed.
End session.

(** ** Validation *)
Section validation.
Context `{Validators}.
Import ContactMessage.

(** A validated field without its error. *)
Definition value {A} (r : validated A) : option A := if r is inr a then Some a else None.

Lemma constrained_str_bounded lo hi v :
  value (constrained_str lo hi v) = Contract.bounded lo hi v.
Proof.
  unfold constrained_str, Contract.bounded. destruct v as [[]|]; try done.
  case_decide; repeat (case_match; try done);
    repeat match goal with
      | Hb : (_ <? _) = true |- _ => apply Nat.ltb_lt in Hb
      | Hb : (_ <? _) = false |- _ => apply Nat.ltb_ge in Hb
      end; lia.
Qed.

Lemma email_str_address v : value (email_str v) = Contract.address v.
Proof. unfold email_str, Contract.address. by repeat case_match. Qed.

(** The model's validation of a body without a time is the contract's:
    the message accepted, or the fields at fault in the model's order. *)
Lemma BaseModel_init_accept data w :
  data !! "timestamp" = None ->
  match Contract.accept (clock w) (data !! "name") (data !! "email")
          (data !! "subject") (data !! "message") with
  | Some c => BaseModel_init (init_data data w) = inr c
  | None =>
      exists errors,
        BaseModel_init (init_data data w) = inl errors /\
        errors.*1 = Contract.offending (data !! "name") (data !! "email")
                      (data !! "subject") (data !! "message")
  end.
Proof.
  intros Hts. unfold BaseModel_init, Contract.accept, Contract.offending.
  rewrite !init_data_lookup_ne, init_data_timestamp, Hts by done.
  rewrite <-!constrained_str_bounded, <-email_str_address. cbn [default optional_datetime].
  destruct (constrained_str 2 100 _), (email_str _), (constrained_str 3 200 _),
    (constrained_str 10 2000 _); cbn; try done; by eexists.
Qed.
End validation.

(** ** The abstract state along a run *)
Section abstract.
Implicit Types (app : App.t) (w : World).

(** Printing is invisible in the abstract state. *)
Lemma abstract_same app w w' :
  environment w' = environment w -> smtp_log w' = smtp_log w ->
  abstract app w' = abstract app w.
Proof. unfold abstract, attempts, delivered. by intros [= -> -> ->] ->. Qed.

(** A run that sent the commands of one session is a delivery. *)
Lemma abstract_deliver app w w' evs :
  environment w' = environment w -> smtp_log w' = smtp_log w ++ evs ->
  attempts_in evs = 1 ->
  abstract app w' =
    Contract.deliver (accepted_in (smtp_server w) (smtp_log w) evs) (abstract app w).
Proof.
  intros [= Hclock Hsrv Hfile] Hlog Hevs. unfold abstract, Contract.deliver. cbn.
  rewrite (delivered_extend w w' evs), Hclock, Hfile by done.
  unfold attempts. rewrite Hlog, attempts_in_app, Hevs. f_equal. lia.
Qed.

Lemma notification_announces app contact ts w :
  ContactMessage.timestamp contact = Some ts ->
  Contract.announces (abstract app w) contact
    (notification (email_service app) contact ts).
Proof.
  intros Hts. unfold Contract.announces, notification, EmailService.html_template.
  rewrite Hts. cbn. split_and!; [done..|]. eexists. split; [done|].
  repeat constructor; solve_embeds.
Qed.
End abstract.

(** ** The simulation, one endpoint at a time *)
Section simulation.
Context `{Validators}.
Implicit Types (app : App.t) (w : World) (e : App.endpoint) (op : Contract.operation).

(** What an endpoint does is an exchange of the contract. *)
Definition simulates app op (m : Py (nat * content)) w : Prop :=
  exists st c r,
    m w = ((m w).1, inr (st, c)) /\ observe st c = Some r /\
    Contract.step (abstract app w) op r (abstract app (m w).1).

Lemma reads_simulate app e params body w op :
  e <> App.SubmitContactForm -> operation_of e params body = Some op ->
  simulates app op (call app e params body) w.
Proof.
  intros He Hop. unfold simulates.
  destruct e; try done; cbn [call operation_of] in *; rewrite answered_run; simplify_eq.
  - eexists _, _, _. split_and!; [done..|apply Contract.step_list].
  - eexists _, _, _. split_and!; [done..|]. cbn.
    unfold repository, ProjectRepository.get_featured. rewrite featured_loop_filter.
    apply Contract.step_featured.
  - destruct (_ !! "project_id") as [project_id|]; [|done]. cbn in Hop. simplify_eq.
    unfold ProjectsRoute.get_project. cbn.
    destruct (ProjectRepository.get_by_id _ _) as [p|] eqn:Hp; cbn.
    + apply get_by_id_loop_Some in Hp as [Hid Hin].
      eexists _, _, _. split_and!; [done..|]. by apply Contract.step_found.
    + apply get_by_id_loop_None in Hp.
      eexists _, _, _. split_and!; [done..|]. by apply Contract.step_absent.
  - rewrite (bind_run ResumeRoute.get_resume_metadata), get_resume_metadata_run. cbn.
    destruct (resume_file w) as [st|] eqn:Hst; eexists _, _, _; (split_and!; [done..|]).
    + apply Contract.step_metadata; [done|]. unfold Contract.nearest_kb, round_kb.
      pose proof (round_half_even_near (100 * Z.of_N (st_size st)) 1024). lia.
    + by apply Contract.step_metadata_absent.
  - rewrite (bind_run ResumeRoute.download_resume), download_resume_run. cbn.
    destruct (resume_file w) as [st|] eqn:Hst; eexists _, _, _; (split_and!; [done..|]).
    + by eapply Contract.step_download.
    + by apply Contract.step_download_absent.
Qed.

(** The session of a submission, as the contract counts it. *)
Lemma send_result_deliver app c w :
  EmailService.configured (email_service app) = true ->
  ContactMessage.timestamp c = Some (clock w) ->
  exists sent,
    Forall (Contract.announces (abstract app w) c) sent /\ length sent <= 1 /\
    (forall w', modulo_stdout w' (send_result (email_service app) c w).1 ->
                abstract app w' = Contract.deliver sent (abstract app w)) /\
    ((send_result (email_service app) c w).2 = inr tt ->
     sent = [notification (email_service app) c (clock w)]).
Proof.
  intros Hc Hts.
  destruct (send_result_delivery _ c _ w Hc Hts) as (evs & Hlog & Hevs & Hsub & Hok).
  pose proof (send_preserves_environment (email_service app) c w) as Henv.
  unfold world_after in Henv. rewrite send_contact_notification_run in Henv.
  exists (accepted_in (smtp_server w) (smtp_log w) evs). split_and!; [| | |done].
  3: { intros w' [Henv' Hlog']. apply abstract_deliver; [|congruence|done].
       by rewrite Henv', Henv. }
  - apply Forall_forall. intros m Hm. apply (elem_of_sublist _ _ _ Hm) in Hsub.
    apply list_elem_of_singleton in Hsub as ->. by apply notification_announces.
  - by apply sublist_length in Hsub.
Qed.

Lemma submission_simulates app params body w op :
  submission body = Some op ->
  simulates app op (call app App.SubmitContactForm params body) w.
Proof.
  destruct body as [data|]; [|done]. unfold submission. cbn [mbind option_bind].
  case_decide as Hts; [|done]. intros [= <-].
  unfold simulates. rewrite call_contact_run.
  pose proof (BaseModel_init_accept data w Hts) as Hinit.
  destruct (Contract.accept _ _ _ _ _) as [c|] eqn:Hacc.
  - rewrite Hinit. destruct (Contract.accept_valid _ _ _ _ _ _ Hacc) as [_ Hstamp].
    destruct (EmailService.configured (email_service app)) eqn:Hc.
    + destruct (send_result_deliver app c w Hc Hstamp) as (sent & Hann & Hlen & Habs & Hok).
      destruct (send_result _ _ _) as [w1 [e|[]]]; cbn in *;
        eexists _, _, _; (split_and!; [done..|]).
      * rewrite (Habs (with_stdout _ w1)) by apply modulo_stdout_with_stdout.
        by eapply Contract.step_failed.
      * rewrite (Habs w1), Hok by done.
        eapply Contract.step_delivered; [done..|]. by apply Forall_singleton; rewrite <-Hok.
    + rewrite send_result_skip by done. eexists _, _, _. split_and!; [done..|].
      by eapply Contract.step_skipped.
  - destruct Hinit as (errors & -> & Herr). eexists _, _, _.
    split_and!; [done|by cbn; rewrite Herr|]. by apply Contract.step_rejected.
Qed.

Lemma call_simulates app e params body w op :
  operation_of e params body = Some op -> simulates app op (call app e params body) w.
Proof.
  destruct (decide (e = App.SubmitContactForm)) as [->|He];
    [apply submission_simulates|by apply reads_simulate].
Qed.
End simulation.

(** ** Reading a request *)
Section reading.
Implicit Types (req : request) (op : Contract.operation) (e : App.endpoint).

Lemma api_prefix_segments : api_prefix = [""; "api"; "v1"].
Proof. reflexivity. Qed.

Lemma read_split prefix req rest :
  take (length prefix) (split "/" (url_path req)) = prefix ->
  drop (length prefix) (split "/" (url_path req)) = rest ->
  split "/" (url_path req) = prefix ++ rest.
Proof. intros Ht Hd. by rewrite <-(take_drop (length prefix) (split _ _)), Ht, Hd. Qed.

(** A request that asks for an operation reaches the endpoint of it. *)
Lemma read_dispatch req op :
  read api_prefix req = Some op ->
  exists e params,
    dispatch table (method req) (url_path req) = Endpoint e params /\
    operation_of e params (json_body req) = Some op.
Proof.
  unfold read. case_decide as Htake; [|done].
  destruct (drop _ _) as [|group [|item [|]]] eqn:Hdrop; try done; cbn [read_segments];
    pose proof (read_split _ _ _ Htake Hdrop) as Hsplit;
    pose proof (path_of_segments _ _ Hsplit) as Hpath;
    repeat case_decide; try done; destruct_and?; simplify_eq; intros Hop;
    match goal with Hm : method req = _ |- _ => rewrite Hm, Hpath end;
    try (by eexists _, _).
  eexists _, _. split; [apply dispatch_get_project; [split|]; try done|done].
  by apply (project_path_one_segment (url_path req)).
Qed.

(** A request that reached the endpoint of an operation asks for it. *)
Lemma dispatch_read req e params op :
  dispatch table (method req) (url_path req) = Endpoint e params ->
  operation_of e params (json_body req) = Some op ->
  read api_prefix req = Some op.
Proof.
  intros Hreach%dispatch_reaches Hop. unfold read. rewrite api_prefix_segments.
  destruct e; cbn [reaches operation_of] in *; try done;
    try (destruct Hreach as (-> & -> & ->); by simplify_eq).
  destruct Hreach as (-> & project_id & [Hne Hseg] & Hfeat & -> & ->). cbn in Hop.
  rewrite lookup_insert_eq in Hop. simplify_eq. rewrite split_project_path by done. cbn.
  by rewrite !decide_True, !decide_False by done.
Qed.
End reading.

(** ** The simulation *)
Section refinement.
Context `{Validators} (app : App.t).
Implicit Types (req : request) (resp : response) (w : World) (op : Contract.operation).

(** A request of the interface is answered by an exchange of the
    contract. *)
Lemma handle_simulates req w op :
  read api_prefix req = Some op ->
  exists resp r,
    handle app req w = (world_after (handle app req) w, inr resp) /\
    exchange req resp = Some (op, r) /\
    Contract.step (abstract app w) op r (abstract app (world_after (handle app req) w)).
Proof.
  intros Hread. destruct (read_dispatch req op Hread) as (e & params & Hd & Hop).
  destruct (call_simulates app e params (json_body req) w op Hop)
    as (st & c & r & Hcall & Hobs & Hstep).
  exists (reply app req st c), r. unfold world_after, handle, exchange.
  rewrite Hd, (bind_run (call _ _ _ _)), Hcall, Hread. cbn. by rewrite Hobs.
Qed.

(** Any other request changes nothing, unless it is a submission that
    sets its own time. *)
Lemma handle_silent req w :
  read api_prefix req = None -> covered req -> world_after (handle app req) w = w.
Proof.
  intros Hread Hcov. unfold covered, stamped in Hcov.
  destruct (is_submission req) eqn:Hsub; [|by apply handle_keeps_world].
  apply is_submission_spec in Hsub as [Hmeth Hpath].
  pose proof dispatch_contact as Hd. rewrite <-Hmeth, <-Hpath in Hd.
  unfold world_after, handle. rewrite Hd.
  destruct (json_body req) as [data|] eqn:Hbody; [|done].
  apply bool_decide_eq_false, eq_None_not_Some in Hcov.
  erewrite (dispatch_read req) in Hread; [done..|].
  cbn [operation_of]. rewrite Hbody. unfold submission. cbn [mbind option_bind].
  by rewrite decide_True.
Qed.

(** Requests served one after the other are the exchanges of a history. *)
Lemma serve_simulates reqs w :
  Forall covered reqs ->
  exists resps,
    serve app reqs w = (world_after (serve app reqs) w, inr resps) /\
    length resps = length reqs /\
    Contract.steps (abstract app w) (history (zip reqs resps))
      (abstract app (world_after (serve app reqs) w)).
Proof.
  revert w. induction reqs as [|req reqs IH]; intros w Hcov.
  { exists []. by split_and!; [..|constructor]. }
  apply Forall_cons in Hcov as [Hreq Hreqs]. rewrite serve_cons_world.
  destruct (IH (world_after (handle app req) w) Hreqs) as (resps & Hserve & Hlen & Hsteps).
  destruct (handle_answers app req w) as (resp & Hout & _).
  exists (resp :: resps). cbn [serve zip zip_with length]. split_and!; [|by rewrite Hlen|].
  - rewrite (bind_run (handle _ _)). unfold outcome, world_after in *.
    destruct (handle app req w) as [w1 r]. cbn in *. subst r.
    by rewrite (bind_run (serve _ _)), Hserve.
  - unfold history. cbn [omap list_omap fst snd]. fold (history (zip reqs resps)).
    destruct (read api_prefix req) as [op|] eqn:Hread.
    + destruct (handle_simulates req w op Hread) as (resp' & r & Hrun & Hex & Hstep).
      unfold outcome in Hout. rewrite Hrun in Hout. cbn in Hout. simplify_eq.
      rewrite Hex. by econstructor.
    + unfold exchange. rewrite Hread. cbn [mbind option_bind].
      by rewrite (handle_silent req w) in Hsteps |- *.
Qed.
End refinement.

(** ** The runs of the event loop *)
Section loop.
Context `{Validators} (app : App.t).
Import EventLoop.
Implicit Types (ts : list (request * Coroutine.coroutine response)) (ls : list label).

Lemma resumed_tasks ts ls : resumed ts ls ⊆ ts.*1.
Proof.
  intros req (l & _ & Hl)%list_elem_of_omap. destruct l as [| |i|]; try done.
  apply fmap_Some in Hl as ([req' c] & Hi & ->).
  apply list_elem_of_fmap. exists (req', c). split; [done|]. by eapply list_elem_of_lookup_2.
Qed.

(** The tasks served are a history from the world the server started in. *)
Lemma served_simulates w0 ls ts w :
  served app w0 ls ts w -> Forall covered ts.*1 ->
  exists answers,
    answers ≡ₚ omap answer ts /\
    Contract.steps (abstract app w0) (history answers) (abstract app w).
Proof.
  intros (_ & _ & answers & Hreqs & Hserve & Hperm) Hcov. exists answers. split; [done|].
  destruct (serve_simulates app (resumed ts ls) (started w0)) as (resps & Hrun & _ & Hsteps).
  { apply Forall_forall. intros req Hreq%resumed_tasks. by eapply Forall_forall in Hcov. }
  unfold world_after in *. rewrite Hserve in Hrun, Hsteps.
  injection Hrun as <-. by rewrite <-Hreqs, zip_fst_snd in Hsteps.
Qed.
End loop.

(** ** The theorems *)
Section refinement_theorems.
Context `{Validators} (app : App.t).
Implicit Types (req : request) (resp : response) (w : World) (op : Contract.operation).

(** C12 (handle_refines_contract): the application implements the
    contract of its interface, one request at a time.  A request that asks
    for one of the six operations, read off its method and path as the
    interface gives them, is answered, and the answer is an exchange of
    the contract: the result the response shows and the state after it are
    among those the contract allows from the state before.  Any other
    request is answered and changes nothing.  A submission that sets its
    own timestamp is outside the interface and is not spoken for. *)
Theorem handle_refines_contract req w :
  covered req ->
  exists resp,
    outcome (handle app req) w = inr resp /\
    match read api_prefix req with
    | Some op =>
        exists r, exchange req resp = Some (op, r) /\
          Contract.step (abstract app w) op r
            (abstract app (world_after (handle app req) w))
    | None => world_after (handle app req) w = w
    end.
Proof.
  intros Hcov. destruct (read api_prefix req) as [op|] eqn:Hread.
  - destruct (handle_simulates app req w op Hread) as (resp & r & Hrun & Hex & Hstep).
    exists resp. unfold outcome. rewrite Hrun. by eauto.
  - destruct (handle_answers app req w) as (resp & Hout & _). exists resp.
    split; [done|]. by apply handle_silent.
Qed.

(** C13 (serve_refines_contract): requests served one after the other
    are a history of the contract.  Every request is answered, and the
    exchanges the requests and their responses stand for, in the order of
    the requests, lead the contract from the state before the first
    request to the state after the last. *)
Theorem serve_refines_contract reqs w :
  Forall covered reqs ->
  exists resps,
    outcome (serve app reqs) w = inr resps /\ length resps = length reqs /\
    Contract.steps (abstract app w) (history (zip reqs resps))
      (abstract app (world_after (serve app reqs) w)).
Proof.
  intros Hcov. destruct (serve_simulates app reqs w Hcov) as (resps & Hrun & Hlen & Hsteps).
  exists resps. unfold outcome. by rewrite Hrun.
Qed.

(** C15 (serve_successes_delivered): a success is a delivery.  With the
    mail configured, the messages the SMTP server has accepted after a
    list of requests are those it had accepted before and some more, and
    these are at least as many as the submissions answered with a success
    and at most as many as the sessions opened, which are at most as many
    as the submissions: no client is told of a success for a message the
    server did not take. *)
Theorem serve_successes_delivered reqs w :
  Forall covered reqs -> EmailService.configured (email_service app) = true ->
  exists resps sent,
    outcome (serve app reqs) w = inr resps /\
    delivered (world_after (serve app reqs) w) = delivered w ++ sent /\
    Contract.successes (history (zip reqs resps)) <= length sent /\
    attempts w + length sent <= attempts (world_after (serve app reqs) w) <=
      attempts w + Contract.submissions (history (zip reqs resps)).
Proof.
  intros Hcov Hc. destruct (serve_simulates app reqs w Hcov) as (resps & Hrun & _ & Hsteps).
  destruct (steps_delivery _ _ _ Hsteps) as (sent & Hout & Hatt & Hsucc).
  exists resps, sent. unfold outcome. rewrite Hrun. by auto.
Qed.

(** C16 (serve_unconfigured_inert): with the mail unconfigured nothing
    a client does reaches the SMTP server or fails for the mail: after any
    list of requests no session was opened, and no submission was
    answered with a failure. *)
Theorem serve_unconfigured_inert reqs w :
  Forall covered reqs -> EmailService.configured (email_service app) = false ->
  exists resps,
    outcome (serve app reqs) w = inr resps /\
    attempts (world_after (serve app reqs) w) = attempts w /\
    Forall (fun x => x.2 <> Contract.Failure) (history (zip reqs resps)).
Proof.
  intros Hcov Hc. destruct (serve_simulates app reqs w Hcov) as (resps & Hrun & _ & Hsteps).
  destruct (steps_unconfigured _ _ _ Hsteps Hc) as [Heq Hno].
  exists resps. unfold outcome. rewrite Hrun. split_and!; [done| |done].
  by apply (f_equal Contract.attempts) in Heq.
Qed.

(** [read_agrees_with_routes]: the paths of the interface are the
    routes of the application.  A request asks for an operation, read off
    its method and the segments of its path after the prefix, exactly when
    the table built from the decorators of the three routers sends it to
    the handler of that operation. *)
Theorem read_agrees_with_routes req op :
  read api_prefix req = Some op <->
  exists e params,
    dispatch table (method req) (url_path req) = Endpoint e params /\
    operation_of e params (json_body req) = Some op.
Proof.
  split; [apply read_dispatch|]. intros (e & params & Hd & Hop). by eapply dispatch_read.
Qed.

(** C14 (loop_refines_contract): the concurrent server implements the
    contract.  In every state of every run of the event loop, whichever
    tasks it chose to resume and in whichever order, the requests
    answered so far are, in some order, a history of the contract from
    the state the process started in to the state it is in. *)
Theorem loop_refines_contract w0 ls s :
  EventLoop.trace app (EventLoop.boot w0) ls s ->
  Forall covered (EventLoop.tasks s).*1 ->
  exists answers,
    answers ≡ₚ omap EventLoop.answer (EventLoop.tasks s) /\
    Contract.steps (abstract app w0) (history answers) (abstract app (EventLoop.world s)).
Proof.
  intros Hinv%trace_invariant Hcov. unfold EventLoop.invariant in Hinv.
  destruct (EventLoop.stage s).
  - destruct Hinv as [-> _]. exists []. split; [done|constructor].
  - destruct Hinv as [_ Hserved]. by eapply served_simulates.
  - destruct Hinv as (w & Hserved & -> & _).
    by destruct (served_simulates app w0 ls _ w Hserved Hcov) as (answers & ? & ?); eauto.
Qed.
End refinement_theorems.

(** ** The theorems at the fixtures

    A submission and a list of projects served one after the other, on a
    server that accepts every command; the run of EventLoop.v; and a
    server that accepts the message and refuses QUIT. *)
Definition listing : request := get_request None "/api/v1/projects".

Definition refusing_quit : Server :=
  fun log => if last log is Some Quit
             then Some (SMTPException "SMTPResponseException" "(421, b'closing')") else None.

Example sample_exchange :
  outcome (handle (H:=sample_validators) sample_app (contact_request None sample_data))
    sample_world =
    inr (reply sample_app (contact_request None sample_data) 200
           (StrDict ContactUseCase.success)) /\
  exchange (contact_request None sample_data)
    (reply sample_app (contact_request None sample_data) 200 (StrDict ContactUseCase.success)) =
    Some (Contract.SubmitContact (Some (PyStr "Jane Doe")) (Some (PyStr "jane@example.com"))
            (Some (PyStr "Collaboration Opportunity"))
            (Some (PyStr "I'd love to discuss a potential project collaboration...")),
          Contract.Success) /\
  delivered (world_after (handle (H:=sample_validators) sample_app
                            (contact_request None sample_data)) sample_world) =
    [notification sample_service sample_contact sample_clock].
Proof. split_and!; by vm_compute. Qed.

(** The server took the message and the client is told of a failure. *)
Example failure_after_delivery :
  let w := world_after (handle (H:=sample_validators) sample_app
                          (contact_request None sample_data)) (world_of refusing_quit) in
  sum_map id status (outcome (handle (H:=sample_validators) sample_app
                               (contact_request None sample_data)) (world_of refusing_quit)) =
    inr 500 /\
  delivered w = [notification sample_service sample_contact sample_clock] /\
  attempts w = 1.
Proof. split_and!; by vm_compute. Qed.

(** A submission with its timestamp set to null is answered with a
    failure though no session was opened, which the contract allows of no
    submission: such a body is outside the interface. *)
Example unstamped_outside_contract :
  let req := contact_request None (<["timestamp" := PyNone]> sample_data) in
  is_submission req && stamped req = true /\
  sum_map id status (outcome (handle (H:=sample_validators) sample_app req) sample_world) =
    inr 500 /\
  attempts (world_after (handle (H:=sample_validators) sample_app req) sample_world) = 0.
Proof. split_and!; by vm_compute. Qed.

(** A subject is any text of 3 to 200 characters, line breaks included:
    one of two lines passes validation and is, as it is, the Subject
    header of the message the server accepts. *)
Definition two_lines : string :=
  "Hello" +:+ String (ascii_of_nat 13) (String (ascii_of_nat 10) "Bcc: everyone@example.com").

Example subject_line_break_delivered :
  let req := contact_request None (<["subject" := PyStr two_lines]> sample_data) in
  sum_map id status (outcome (handle (H:=sample_validators) sample_app req) sample_world) =
    inr 200 /\
  Subject <$> delivered (world_after (handle (H:=sample_validators) sample_app req)
                           sample_world) =
    ["Portfolio Contact: " +:+ two_lines].
Proof. split; by vm_compute. Qed.

Lemma handle_refines_contract_witness :
  exists resp,
    outcome (handle (H:=sample_validators) sample_app (contact_request None sample_data))
      sample_world = inr resp /\
    match read api_prefix (contact_request None sample_data) with
    | Some op =>
        exists r, exchange (contact_request None sample_data) resp = Some (op, r) /\
          Contract.step (H:=sample_validators) (abstract sample_app sample_world) op r
            (abstract sample_app
               (world_after (handle (H:=sample_validators) sample_app
                               (contact_request None sample_data)) sample_world))
    | None =>
        world_after (handle (H:=sample_validators) sample_app
                       (contact_request None sample_data)) sample_world = sample_world
    end.
Proof.
  apply (handle_refines_contract (H:=sample_validators) sample_app
           (contact_request None sample_data) sample_world).
  by vm_compute.
Defined.

Lemma serve_refines_contract_witness :
  exists resps,
    outcome (serve (H:=sample_validators) sample_app
               [contact_request None sample_data; listing]) sample_world = inr resps /\
    length resps = 2 /\
    Contract.steps (H:=sample_validators) (abstract sample_app sample_world)
      (history (zip [contact_request None sample_data; listing] resps))
      (abstract sample_app
         (world_after (serve (H:=sample_validators) sample_app
                         [contact_request None sample_data; listing]) sample_world)).
Proof.
  apply (serve_refines_contract (H:=sample_validators) sample_app
           [contact_request None sample_data; listing] sample_world).
  repeat constructor; by vm_compute.
Defined.

Lemma serve_successes_delivered_witness :
  exists resps sent,
    outcome (serve (H:=sample_validators) sample_app
               [contact_request None sample_data; listing]) sample_world = inr resps /\
    delivered (world_after (serve (H:=sample_validators) sample_app
                              [contact_request None sample_data; listing]) sample_world) =
      delivered sample_world ++ sent /\
    Contract.successes (history (zip [contact_request None sample_data; listing] resps))
      <= length sent /\
    attempts sample_world + length sent <=
      attempts (world_after (serve (H:=sample_validators) sample_app
                               [contact_request None sample_data; listing]) sample_world) <=
      attempts sample_world +
      Contract.submissions (history (zip [contact_request None sample_data; listing] resps)).
Proof.
  apply (serve_successes_delivered (H:=sample_validators) sample_app
           [contact_request None sample_data; listing] sample_world);
    [repeat constructor; by vm_compute|by vm_compute].
Defined.

Lemma serve_unconfigured_inert_witness :
  exists resps,
    outcome (serve (H:=sample_validators) unconfigured_app
               [contact_request None sample_data; listing]) sample_world = inr resps /\
    attempts (world_after (serve (H:=sample_validators) unconfigured_app
                             [contact_request None sample_data; listing]) sample_world) =
      attempts sample_world /\
    Forall (fun x => x.2 <> Contract.Failure)
      (history (zip [contact_request None sample_data; listing] resps)).
Proof.
  apply (serve_unconfigured_inert (H:=sample_validators) unconfigured_app
           [contact_request None sample_data; listing] sample_world);
    [repeat constructor; by vm_compute|by vm_compute].
Defined.

Lemma loop_refines_contract_witness :
  exists answers,
    answers ≡ₚ omap EventLoop.answer (EventLoop.tasks sample_state) /\
    Contract.steps (H:=sample_validators) (abstract sample_app sample_world)
      (history answers) (abstract sample_app (EventLoop.world sample_state)).
Proof.
  apply (loop_refines_contract (H:=sample_validators) sample_app sample_world sample_run
           sample_state); [apply sample_trace|repeat constructor; by vm_compute].
Defined.
