(* ===== verification/Races.v ===== *)
(** * The resume routes on a file system that changes under them

    Routes.v runs the handlers of routes/resume.py on a world whose resume
    file stays as it is while a handler runs.  The file belongs to the
    file system, which another process can change between two calls of
    [os.path].  Here the two handlers are written as the calls they make,
    one after the other ([Racy.handler]), and run against a schedule that
    says what the file is at each call ([Racy.run]).

    Interpreted in the monad the handlers are the definitions of
    Routes.v, and on a file system that is left alone they return what
    those return.  On one that is not, the metadata route can raise
    between its test and its reads, and can pair the size of one file
    with the time of another. *)

From S2P Require Import Prelude Runtime Routes App Handling.

Module Racy.

(** The calls of [os.path] on the resume's path. *)
Inductive call : Type -> Type :=
  | Exists : call bool           (* os.path.exists(RESUME_PATH) *)
  | Getsize : call N             (* os.path.getsize(RESUME_PATH) *)
  | Getmtime : call Z.           (* os.path.getmtime(RESUME_PATH) *)

(** A handler by its calls: it returns, raises, or makes a call and goes
    on with what the call returned. *)
Inductive handler (A : Type) : Type :=
  | Return (a : A)
  | Raise (e : exn)
  | Call {X : Type} (c : call X) (k : X -> handler A).

Arguments Return {A} a.
Arguments Raise {A} e.
Arguments Call {A X} c k.

Definition get_resume_metadata : handler (gmap string json) :=
  Call Exists (fun found =>
    if negb found then
      Return ({[ "available" := JBool false;
                 "filename" := JStr "Liam_Nguyen_Resume.pdf";
                 "message" := JStr "Resume file not uploaded yet" ]} : gmap string json)
    else
      Call Getsize (fun file_size =>
      Call Getmtime (fun modified_time =>
        Return ({[ "available" := JBool true;
                   "filename" := JStr "Liam_Nguyen_Resume.pdf";
                   "size_kb" := JDecimal (round_kb file_size) 2;
                   "last_updated" := JDecimal modified_time 0;
                   "download_url" := JStr "/api/v1/resume/download" ]}
                : gmap string json)))).

Definition download_resume : handler FileResponse :=
  Call Exists (fun found =>
    if negb found then
      Raise (HTTPException 404
               "Resume file not found. Please contact the site administrator.")
    else
      Return {| path := ResumeRoute.RESUME_PATH;
                filename := "Liam_Nguyen_Resume.pdf";
                media_type := "application/pdf" |}).

(** What a call returns or raises on a file, present with its size and
    time or absent. *)
Definition no_such_file : exn :=
  PyException "FileNotFoundError" "[Errno 2] No such file or directory".

Definition perform {X} (c : call X) (file : option file_stat) : exn + X :=
  match c in call X return exn + X with
  | Exists => inr (if file is Some _ then true else false)
  | Getsize => if file is Some st then inr (st_size st) else inl no_such_file
  | Getmtime => if file is Some st then inr (st_mtime st) else inl no_such_file
  end.

(** The run of a handler.  [files] is the file at the handler's first
    call, at its second and so on; after the last entry the file stays as
    it is, and [file] is what it was when the handler was entered. *)
Fixpoint run {A} (h : handler A) (files : list (option file_stat))
    (file : option file_stat) : exn + A :=
  match h with
  | Return a => inr a
  | Raise e => inl e
  | Call c k =>
      let now := default file (head files) in
      match perform c now with
      | inl e => inl e
      | inr x => run (k x) (tail files) now
      end
  end.

(** The file at the call of index [n]. *)
Fixpoint file_at (files : list (option file_stat)) (file : option file_stat) (n : nat)
  : option file_stat :=
  match n with
  | 0 => default file (head files)
  | S n => file_at (tail files) (default file (head files)) n
  end.



End Racy.

(** ** On a file system left alone *)
Section quiet.
Import Racy.
Implicit Types (file : option file_stat) (files : list (option file_stat)) (w : World).





End quiet.

(** ** On a file system that changes *)
Section changes.
Import Racy.
Implicit Types (file : option file_stat) (files : list (option file_stat)) (w : World).
Implicit Types (st : file_stat).

Lemma file_at_nil file n : file_at [] file n = file.
Proof. induction n as [|n IH]; [done|]. apply IH. Qed.

Lemma file_at_stable files file n : Forall (eq file) files -> file_at files file n = file.
Proof.
  revert files. induction n as [|n IH]; intros files [|f files' <- Hfiles]; cbn; try done;
    by apply IH.
Qed.

(** The metadata route on any schedule: unavailable when the file is
    absent at the test; the size of the file at the second call and the
    time of the file at the third when both are there; an exception
    otherwise. *)
Lemma metadata_run files file :
  run get_resume_metadata files file =
    match file_at files file 0 with
    | None => inr unavailable
    | Some _ =>
        match file_at files file 1, file_at files file 2 with
        | Some st1, Some st2 =>
            inr (available {| st_size := st_size st1; st_mtime := st_mtime st2 |})
        | _, _ => inl no_such_file
        end
    end.
Proof. destruct files as [|f0 [|f1 [|f2 files]]]; cbn; by repeat case_match. Qed.

(** The download route on any schedule: decided by the file at the test. *)
Lemma download_run files file :
  run download_resume files file = run download_resume [] (file_at files file 0).
Proof. destruct files as [|[st|] files]; cbn; by destruct file. Qed.


(** C17 (metadata_vanishing_file_raises): a file that is there when the
    metadata route tests for it and gone when the route reads its size or
    its time makes the route raise FileNotFoundError, which the
    application answers with the status 500, where a file that is absent
    from the start is answered with available false. *)
Theorem metadata_vanishing_file_raises files file st :
  file_at files file 0 = Some st ->
  file_at files file 1 = None \/ file_at files file 2 = None ->
  run get_resume_metadata files file = inl no_such_file /\
  respond (sum_map id JsonDict (run get_resume_metadata files file)) =
    (500, InternalServerError).
Proof.
  intros H0 Hgone. rewrite metadata_run, H0.
  by destruct Hgone as [->| ->]; [|destruct (file_at files file 1)].
Qed.

(** [metadata_pairs_two_files]: when the file is replaced between the
    two reads, the metadata pairs the size of the file before with the
    time of the file after. *)
Theorem metadata_pairs_two_files files file st0 st1 st2 :
  file_at files file 0 = Some st0 -> file_at files file 1 = Some st1 ->
  file_at files file 2 = Some st2 ->
  run get_resume_metadata files file =
    inr (available {| st_size := st_size st1; st_mtime := st_mtime st2 |}).
Proof. intros H0 H1 H2. by rewrite metadata_run, H0, H1, H2. Qed.

(** [download_ignores_later_changes]: the download route answers
    with the file's path whenever the file was there at the test, whatever
    becomes of it afterwards. *)
Theorem download_ignores_later_changes files file st :
  file_at files file 0 = Some st ->
  exists response,
    run download_resume files file = inr response /\
    path response = ResumeRoute.RESUME_PATH.
Proof. intros H0. rewrite download_run, H0. by eexists. Qed.
End changes.

(** ** The theorems at two schedules: the file removed after the test, and
    the file replaced between the reads *)
Definition old_resume : file_stat := {| st_size := 2048; st_mtime := 1700000000 |}.
Definition new_resume : file_stat := {| st_size := 4096; st_mtime := 1700000600 |}.


Lemma metadata_vanishing_file_raises_witness :
  Racy.run Racy.get_resume_metadata [Some old_resume; None] (Some old_resume) =
    inl Racy.no_such_file /\
  respond (sum_map id JsonDict
             (Racy.run Racy.get_resume_metadata [Some old_resume; None] (Some old_resume))) =
    (500, InternalServerError).
Proof.
  apply (metadata_vanishing_file_raises [Some old_resume; None] (Some old_resume) old_resume);
    [reflexivity|by left].
Defined.

Example metadata_of_no_file :
  Racy.run Racy.get_resume_metadata [Some old_resume; Some new_resume; Some new_resume]
    (Some old_resume) =
    inr (available {| st_size := 4096; st_mtime := 1700000600 |}) /\
  Racy.run Racy.get_resume_metadata [Some old_resume; Some old_resume; Some new_resume]
    (Some old_resume) =
    inr (available {| st_size := 2048; st_mtime := 1700000600 |}).
Proof. split; reflexivity. Qed.
