(* ===== verification/Links.v ===== *)
(** * The links the application hands out

    The sources name the resume three times: the path of the file
    ([RESUME_PATH] of routes/resume.py), the link in the metadata
    ([download_url]) and the route of the download; main.py mounts the
    directory of the file under /static and names the application and its
    version twice.  The theorems here follow each name through the table
    of the application. *)

From S2P Require Import Prelude Runtime Domain Routes App Handling Dispatch.

Module Info.
(** The keyword arguments of [FastAPI(...)] in main.py. *)
Definition title : string := "Liam T. Nguyen Portfolio API".
Definition description : string := "Backend API for portfolio website".
Definition version : string := "1.0.0".
End Info.

Section links.
Context `{Validators}.
Implicit Types (app : App.t) (w : World) (o : option string) (st : file_stat).

(** The link of the metadata is a path of the table. *)
Lemma download_url_dispatch :
  dispatch table "GET" "/api/v1/resume/download" = Endpoint App.DownloadResume [].
Proof. reflexivity. Qed.

Lemma static_resume_dispatch :
  dispatch table "GET" ("/" +:+ ResumeRoute.RESUME_PATH) =
    StaticFiles "static" ["resumes"; "Liam_Nguyen_Resume.pdf"].
Proof. reflexivity. Qed.

(** The download through the application. *)
Lemma handle_download app o w :
  handle app (get_request o "/api/v1/resume/download") w =
    (w, inr (if resume_file w is Some _
             then reply app (get_request o "/api/v1/resume/download") 200
                    (FileContent {| path := ResumeRoute.RESUME_PATH;
                                    filename := "Liam_Nguyen_Resume.pdf";
                                    media_type := "application/pdf" |})
             else reply app (get_request o "/api/v1/resume/download") 404
                    (Detail "Resume file not found. Please contact the site administrator."))).
Proof.
  unfold handle. cbn [method url_path json_body get_request].
  rewrite download_url_dispatch. cbn [call].
  rewrite (bind_run (answered _)), answered_run, (bind_run ResumeRoute.download_resume),
    download_resume_run.
  by destruct (resume_file w).
Qed.

(** [metadata_link_downloads]: the link the metadata hands out is
    good.  When the metadata reports the file as available, it carries a
    download link, and a GET of that link is answered 200 with the file
    of [RESUME_PATH] under the name the metadata gave. *)
Theorem metadata_link_downloads app o w st :
  resume_file w = Some st ->
  exists d url name f,
    outcome ResumeRoute.get_resume_metadata w = inr d /\
    d !! "download_url" = Some (JStr url) /\ d !! "filename" = Some (JStr name) /\
    handle app (get_request o url) w =
      (w, inr (reply app (get_request o url) 200 (FileContent f))) /\
    path f = ResumeRoute.RESUME_PATH /\ filename f = name.
Proof.
  intros Hst. unfold outcome. rewrite get_resume_metadata_run, Hst.
  eexists _, "/api/v1/resume/download", _, _. split_and!; [done|done|done| |..].
  - by rewrite handle_download, Hst.
  - done.
  - done.
Qed.

(** [resume_public_under_static]: the mount of main.py serves the
    same file.  A GET of the path of the file under the root is answered
    by the mounted directory, without the download route: 200 when the
    file exists, and the 404 of the mount when it does not. *)
Theorem resume_public_under_static app o w :
  handle app (get_request o ("/" +:+ ResumeRoute.RESUME_PATH)) w =
    (w, inr (if resume_file w is Some _
             then reply app (get_request o ("/" +:+ ResumeRoute.RESUME_PATH)) 200
                    (StaticFile ResumeRoute.RESUME_PATH)
             else reply app (get_request o ("/" +:+ ResumeRoute.RESUME_PATH)) 404
                    (Detail "Not Found"))).
Proof.
  unfold handle. cbn [method url_path json_body get_request].
  rewrite static_resume_dispatch.
  rewrite (bind_run (answered _)), answered_run. unfold static_files.
  rewrite decide_True by by left. py_run. by destruct (resume_file w).
Qed.

(** [root_names_the_application]: the two health endpoints report
    the title and the version the application was created with. *)
Theorem root_names_the_application w :
  exists d d',
    outcome App.root w = inr d /\ outcome App.health_check w = inr d' /\
    d !! "message" = Some (JStr Info.title) /\
    d !! "version" = Some (JStr Info.version) /\
    d' !! "api_version" = Some (JStr Info.version).
Proof. by eexists _, _. Qed.
End links.

Lemma metadata_link_downloads_witness :
  exists d url name f,
    outcome ResumeRoute.get_resume_metadata (resume_world {| st_size := 128; st_mtime := 0 |}) =
      inr d /\
    d !! "download_url" = Some (JStr url) /\ d !! "filename" = Some (JStr name) /\
    handle (H:=sample_validators) sample_app (get_request None url)
      (resume_world {| st_size := 128; st_mtime := 0 |}) =
      (resume_world {| st_size := 128; st_mtime := 0 |},
       inr (reply sample_app (get_request None url) 200 (FileContent f))) /\
    path f = ResumeRoute.RESUME_PATH /\ filename f = name.
Proof.
  apply (metadata_link_downloads (H:=sample_validators) sample_app None
           (resume_world {| st_size := 128; st_mtime := 0 |}) {| st_size := 128; st_mtime := 0 |}).
  reflexivity.
Defined.
