(* ===== verification/Cors.v ===== *)
(** * The CORS middleware

    main.py adds Starlette's [CORSMiddleware] with the origins of the
    environment, credentials allowed, and every method and header
    allowed.  The middleware stands between the server and the table of
    routes: it answers a preflight request itself, and adds its headers to
    the response of any other request that names its origin.

    [CORSMiddleware] follows the class: the headers computed by its
    constructor, the test of an origin, the response to a preflight
    request and the headers added to a response.  For an explicit list of
    allowed headers the class also sends the sorted list back in a
    preflight response; that header is left out here, the application
    allowing every header. *)

From S2P Require Import Prelude Runtime Domain Routes App Handling Dispatch.

Set Warnings "-clear-no-such-hyp".

Module CORSMiddleware.

(** The keyword arguments of the constructor. *)
Record t := mk {
  allow_origins : list string;
  allow_credentials : bool;
  allow_methods : list string;
  allow_headers : list string
}.

Definition ALL_METHODS : list string :=
  ["DELETE"; "GET"; "HEAD"; "OPTIONS"; "PATCH"; "POST"; "PUT"].

Definition SAFELISTED_HEADERS : list string :=
  ["Accept"; "Accept-Language"; "Content-Language"; "Content-Type"].

(** [", ".join(parts)] *)
Fixpoint join_comma (parts : list string) : string :=
  match parts with
  | [] => ""
  | [part] => part
  | part :: parts' => part +:+ ", " +:+ join_comma parts'
  end.

(** [s.lower()] on 7-bit text. *)
Definition lower_char (a : ascii) : ascii :=
  let n := nat_of_ascii a in
  if (65 <=? n) && (n <=? 90) then ascii_of_nat (n + 32) else a.

Fixpoint lower (s : string) : string :=
  match s with
  | EmptyString => EmptyString
  | String a s' => String (lower_char a) (lower s')
  end.

(** What the constructor keeps. *)
Definition methods (self : t) : list string :=
  if decide ("*" ∈ allow_methods self) then ALL_METHODS else allow_methods self.

Definition allow_all_origins (self : t) : bool := bool_decide ("*" ∈ allow_origins self).

Definition allow_all_headers (self : t) : bool := bool_decide ("*" ∈ allow_headers self).

Definition preflight_explicit_allow_origin (self : t) : bool :=
  negb (allow_all_origins self) || allow_credentials self.

Definition headers (self : t) : list string :=
  lower <$> (SAFELISTED_HEADERS ++ allow_headers self).

Definition simple_headers (self : t) : gmap string string :=
  (if allow_all_origins self then <["Access-Control-Allow-Origin" := "*"]> else id)
    ((if allow_credentials self then <["Access-Control-Allow-Credentials" := "true"]> else id)
       ∅).

Definition preflight_headers (self : t) : gmap string string :=
  (if allow_credentials self then <["Access-Control-Allow-Credentials" := "true"]> else id)
    (<["Access-Control-Allow-Methods" := join_comma (methods self)]>
       (<["Access-Control-Max-Age" := "600"]>
          (if preflight_explicit_allow_origin self
           then {[ "Vary" := "Origin" ]}
           else {[ "Access-Control-Allow-Origin" := "*" ]}))).

Definition is_allowed_origin (self : t) (origin : string) : bool :=
  allow_all_origins self || bool_decide (origin ∈ allow_origins self).

(** [allow_explicit_origin]: the origin itself, and the response varies
    with it. *)
Definition allow_explicit_origin (headers : gmap string string) (origin : string)
  : gmap string string :=
  <["Vary" := "Origin"]> (<["Access-Control-Allow-Origin" := origin]> headers).

(** The failures of a preflight request, in the order they are found. *)
Definition failures (self : t) (origin requested_method : string)
    (requested_headers : option string) : list string :=
  (if is_allowed_origin self origin then [] else ["origin"]) ++
  (if decide (requested_method ∈ methods self) then [] else ["method"]) ++
  match requested_headers with
  | Some hs =>
      if allow_all_headers self then []
      else if forallb (fun h => bool_decide (strip h ∈ headers self)) (split "," (lower hs))
           then [] else ["headers"]
  | None => []
  end.

(** [preflight_response]: the status, the text and the headers. *)
Definition preflight_response (self : t) (origin requested_method : string)
    (requested_headers : option string) : nat * string * gmap string string :=
  let hs := preflight_headers self in
  let hs :=
    if is_allowed_origin self origin && preflight_explicit_allow_origin self
    then <["Access-Control-Allow-Origin" := origin]> hs else hs in
  let hs :=
    match requested_headers with
    | Some requested =>
        if allow_all_headers self then <["Access-Control-Allow-Headers" := requested]> hs
        else hs
    | None => hs
    end in
  match failures self origin requested_method requested_headers with
  | [] => (200, "OK", hs)
  | fs => (400, "Disallowed CORS " +:+ join_comma fs, hs)
  end.

(** [send]: the headers added to the response of the application. *)
Definition send (self : t) (origin : string) (has_cookie : bool) : gmap string string :=
  if allow_all_origins self && has_cookie
  then allow_explicit_origin (simple_headers self) origin
  else if negb (allow_all_origins self) && is_allowed_origin self origin
  then allow_explicit_origin (simple_headers self) origin
  else simple_headers self.
End CORSMiddleware.

(** [app.add_middleware(CORSMiddleware, ...)] of main.py. *)
Definition add_middleware (origins : list string) : CORSMiddleware.t :=
  {| CORSMiddleware.allow_origins := origins;
     CORSMiddleware.allow_credentials := true;
     CORSMiddleware.allow_methods := ["*"];
     CORSMiddleware.allow_headers := ["*"] |}.

(** The headers of a request the middleware reads besides the origin. *)
Record cors_headers := {
  cookie : bool;
  access_control_request_method : option string;
  access_control_request_headers : option string
}.

(** What the server sends back: the middleware's own text or the
    application's content, with the headers of the middleware. *)
Record cors_response := {
  cors_status : nat;
  cors_body : string + content;
  cors_headers_out : gmap string string
}.

Section call.
Context `{Validators}.
Local Open Scope eff_scope.

(** [CORSMiddleware.__call__] around the application. *)
Definition with_cors (app : App.t) (hs : cors_headers) (req : request) : Py cors_response :=
  let self := add_middleware (App.allow_origins app) in
  match origin req, access_control_request_method hs with
  | Some o, Some requested_method =>
      if decide (method req = "OPTIONS") then
        let '(st, text, out) :=
          CORSMiddleware.preflight_response self o requested_method
            (access_control_request_headers hs) in
        ret {| cors_status := st; cors_body := inl text; cors_headers_out := out |}
      else
        resp <- handle app req ;;
        ret {| cors_status := status resp; cors_body := inr (body resp);
               cors_headers_out := CORSMiddleware.send self o (cookie hs) |}
  | Some o, None =>
      resp <- handle app req ;;
      ret {| cors_status := status resp; cors_body := inr (body resp);
             cors_headers_out := CORSMiddleware.send self o (cookie hs) |}
  | None, _ =>
      resp <- handle app req ;;
      ret {| cors_status := status resp; cors_body := inr (body resp);
             cors_headers_out := ∅ |}
  end.
End call.

(** Lookups in a map of headers built by insertions. *)
Ltac header_lookup :=
  repeat first
    [ rewrite lookup_insert_eq | rewrite lookup_insert_ne by done
    | rewrite lookup_singleton_eq | rewrite lookup_singleton_ne by done
    | rewrite lookup_empty ].

(** ** The middleware as main.py configures it *)
Section configured.
Implicit Types (origins : list string) (o : string).
Import CORSMiddleware.

Lemma add_middleware_methods origins : methods (add_middleware origins) = ALL_METHODS.
Proof. reflexivity. Qed.

Lemma add_middleware_explicit origins :
  preflight_explicit_allow_origin (add_middleware origins) = true.
Proof. unfold preflight_explicit_allow_origin. cbn. by rewrite orb_true_r. Qed.

Lemma is_allowed_origin_spec origins o :
  is_allowed_origin (add_middleware origins) o = true <-> "*" ∈ origins \/ o ∈ origins.
Proof.
  unfold is_allowed_origin, allow_all_origins. cbn.
  rewrite orb_true_iff, !bool_decide_eq_true. done.
Qed.

Lemma is_allowed_origin_decide origins o :
  is_allowed_origin (add_middleware origins) o = bool_decide ("*" ∈ origins \/ o ∈ origins).
Proof.
  apply eq_true_iff_eq. rewrite is_allowed_origin_spec, bool_decide_eq_true. done.
Qed.

(** Every response of the middleware allows credentials. *)
Lemma send_credentials origins o has_cookie :
  send (add_middleware origins) o has_cookie !! "Access-Control-Allow-Credentials" = Some "true".
Proof.
  unfold send, allow_explicit_origin, simple_headers, is_allowed_origin, allow_all_origins.
  cbn. repeat case_bool_decide; destruct has_cookie; cbn; by header_lookup.
Qed.

(** The origin a response allows: the origin of the request when its
    origin is listed, or when every origin is allowed and the request
    carries a cookie; the wildcard when every origin is allowed and it
    carries none. *)
Lemma send_allow_origin origins o has_cookie :
  send (add_middleware origins) o has_cookie !! "Access-Control-Allow-Origin" =
    if decide ("*" ∈ origins) then Some (if has_cookie then o else "*")
    else if decide (o ∈ origins) then Some o else None.
Proof.
  unfold send, allow_explicit_origin, simple_headers, is_allowed_origin, allow_all_origins.
  cbn. repeat case_bool_decide; repeat case_decide; destruct has_cookie; cbn;
    try done; by header_lookup.
Qed.

(** The headers of a preflight response. *)
Lemma preflight_headers_lookup origins o requested_method requested_headers :
  let '(_, _, out) :=
    preflight_response (add_middleware origins) o requested_method requested_headers in
  out !! "Access-Control-Allow-Origin" =
    (if decide ("*" ∈ origins \/ o ∈ origins) then Some o else None) /\
  out !! "Access-Control-Allow-Credentials" = Some "true" /\
  out !! "Access-Control-Allow-Methods" = Some "DELETE, GET, HEAD, OPTIONS, PATCH, POST, PUT" /\
  out !! "Access-Control-Allow-Headers" = requested_headers.
Proof.
  unfold preflight_response, preflight_headers.
  rewrite add_middleware_explicit, andb_true_r, add_middleware_methods, is_allowed_origin_decide.
  change (allow_all_headers (add_middleware origins)) with true.
  change (allow_credentials (add_middleware origins)) with true.
  destruct (failures _ _ _ _); case_bool_decide; rewrite ?decide_True, ?decide_False by done;
    destruct requested_headers; cbv beta iota; split_and!; by header_lookup.
Qed.

(** A preflight request succeeds for an allowed origin and one of the
    seven methods, whatever headers it asks for. *)
Lemma failures_nil origins o requested_method requested_headers :
  failures (add_middleware origins) o requested_method requested_headers = [] <->
  ("*" ∈ origins \/ o ∈ origins) /\ requested_method ∈ ALL_METHODS.
Proof.
  unfold failures. rewrite add_middleware_methods, <-is_allowed_origin_spec.
  destruct (is_allowed_origin _ o), requested_headers; case_decide; cbn; naive_solver.
Qed.
End configured.

(** ** The middleware around the application *)
Section cors_theorems.
Context `{Validators}.
Implicit Types (app : App.t) (req : request) (hs : cors_headers) (w : World) (o : string).

(** A preflight request: OPTIONS with an origin and the method asked for. *)
Definition is_preflight hs req : Prop :=
  method req = "OPTIONS" /\ is_Some (origin req) /\ is_Some (access_control_request_method hs).

#[export] Instance is_preflight_dec hs req : Decision (is_preflight hs req).
Proof. unfold is_preflight. apply _. Defined.

(** Any other request goes to the application, and the middleware adds
    its headers to the response. *)
Lemma with_cors_simple_run app hs req w :
  ~ is_preflight hs req ->
  with_cors app hs req w =
    let (w', r) := handle app req w in
    (w', sum_map id
           (fun resp =>
              {| cors_status := status resp; cors_body := inr (body resp);
                 cors_headers_out :=
                   if origin req is Some o
                   then CORSMiddleware.send (add_middleware (App.allow_origins app)) o (cookie hs)
                   else ∅ |}) r).
Proof.
  intros Hpre. unfold with_cors, is_preflight in *.
  destruct (origin req) as [o|], (access_control_request_method hs) as [m|];
    try case_decide; try (by destruct Hpre; eauto);
    rewrite (bind_run (handle app req)); by destruct (handle app req w) as [w' [e|resp]].
Qed.

Lemma with_cors_preflight_run app hs req w o requested_method :
  method req = "OPTIONS" -> origin req = Some o ->
  access_control_request_method hs = Some requested_method ->
  with_cors app hs req w =
    (w, inr (let '(st, text, out) :=
               CORSMiddleware.preflight_response (add_middleware (App.allow_origins app)) o
                 requested_method (access_control_request_headers hs) in
             {| cors_status := st; cors_body := inl text; cors_headers_out := out |})).
Proof.
  intros Hm Ho Hr. unfold with_cors. rewrite Ho, Hr, decide_True by done.
  by destruct (CORSMiddleware.preflight_response _ _ _ _) as [[st text] out].
Qed.

(** [with_cors_agrees_with_handle]: for a request that is no
    preflight and carries no cookie, the middleware of main.py returns the
    status and the content the application returns, leaves the world the
    application leaves, and allows the origin [handle] names in its
    response: what [handle] says of the origin is what the middleware
    does. *)
Theorem with_cors_agrees_with_handle app hs req w :
  ~ is_preflight hs req -> cookie hs = false ->
  exists resp out,
    handle app req w = (world_after (handle app req) w, inr resp) /\
    with_cors app hs req w =
      (world_after (handle app req) w,
       inr {| cors_status := status resp; cors_body := inr (body resp);
              cors_headers_out := out |}) /\
    out !! "Access-Control-Allow-Origin" = access_control_allow_origin resp.
Proof.
  intros Hpre Hcookie. rewrite with_cors_simple_run by done.
  destruct (handle_answers app req w) as (resp & Hout & _ & Hcors).
  unfold outcome, world_after in *. destruct (handle app req w) as [w' r]. cbn in *. subst r.
  eexists resp, _. split_and!; [done..|]. rewrite Hcors, Hcookie. unfold cors_header.
  destruct (origin req) as [o|]; [|done]. by rewrite send_allow_origin.
Qed.

(** The answer to a preflight request. *)
Lemma with_cors_preflight app hs req w o requested_method :
  method req = "OPTIONS" -> origin req = Some o ->
  access_control_request_method hs = Some requested_method ->
  exists resp,
    with_cors app hs req w = (w, inr resp) /\
    (cors_status resp = 200 <->
     ("*" ∈ App.allow_origins app \/ o ∈ App.allow_origins app) /\
     requested_method ∈ CORSMiddleware.ALL_METHODS) /\
    cors_status resp ∈ [200; 400] /\
    cors_headers_out resp !! "Access-Control-Allow-Origin" =
      (if decide ("*" ∈ App.allow_origins app \/ o ∈ App.allow_origins app)
       then Some o else None) /\
    cors_headers_out resp !! "Access-Control-Allow-Credentials" = Some "true" /\
    cors_headers_out resp !! "Access-Control-Allow-Headers" = access_control_request_headers hs.
Proof.
  intros Hm Ho Hr. rewrite (with_cors_preflight_run app hs req w o requested_method) by done.
  pose proof (preflight_headers_lookup (App.allow_origins app) o requested_method
                (access_control_request_headers hs)) as Hout.
  pose proof (failures_nil (App.allow_origins app) o requested_method
                (access_control_request_headers hs)) as Hfail.
  unfold CORSMiddleware.preflight_response in *.
  destruct (CORSMiddleware.failures _ _ _ _) as [|f fs]; eexists; (split; [done|]);
    cbn [cors_status cors_headers_out]; destruct Hout as (? & ? & _ & ?);
    split_and!; try done; set_solver.
Qed.

(** C19 (preflight_answered_by_middleware): a preflight request never
    reaches a handler.  The middleware answers it and the world is as it
    was: 200 when the origin is allowed and the method asked for is one of
    the seven the wildcard stands for, 400 otherwise; the response allows
    credentials, repeats the headers asked for, and names the origin
    exactly when it is allowed. *)
Theorem preflight_answered_by_middleware app hs req w o requested_method :
  method req = "OPTIONS" -> origin req = Some o ->
  access_control_request_method hs = Some requested_method ->
  exists resp,
    with_cors app hs req w = (w, inr resp) /\
    (cors_status resp = 200 <->
     ("*" ∈ App.allow_origins app \/ o ∈ App.allow_origins app) /\
     requested_method ∈ CORSMiddleware.ALL_METHODS) /\
    cors_status resp ∈ [200; 400] /\
    cors_headers_out resp !! "Access-Control-Allow-Origin" =
      (if decide ("*" ∈ App.allow_origins app \/ o ∈ App.allow_origins app)
       then Some o else None) /\
    cors_headers_out resp !! "Access-Control-Allow-Credentials" = Some "true" /\
    cors_headers_out resp !! "Access-Control-Allow-Headers" = access_control_request_headers hs.
Proof. apply with_cors_preflight. Qed.

(** C20 (wildcard_allows_credentials_everywhere): with the wildcard
    among the allowed origins the application allows credentialed
    requests from every origin.  A request that carries a cookie is
    answered with its own origin and with credentials allowed, whatever
    the origin is: the wildcard, which a browser refuses together with
    credentials, is replaced by the origin of the request. *)
Theorem wildcard_allows_credentials_everywhere app hs req w o :
  "*" ∈ App.allow_origins app -> origin req = Some o ->
  ~ is_preflight hs req -> cookie hs = true ->
  exists resp,
    outcome (with_cors app hs req) w = inr resp /\
    cors_headers_out resp !! "Access-Control-Allow-Origin" = Some o /\
    cors_headers_out resp !! "Access-Control-Allow-Credentials" = Some "true".
Proof.
  intros Hall Ho Hpre Hcookie. unfold outcome. rewrite with_cors_simple_run by done.
  destruct (handle_answers app req w) as (resp & Hout & _).
  unfold outcome in Hout. destruct (handle app req w) as [w' r]. cbn in *. subst r.
  eexists. split; [done|]. cbn. rewrite Ho, Hcookie, send_allow_origin, send_credentials.
  by rewrite decide_True.
Qed.
End cors_theorems.

(** ** The theorems at the fixtures: a preflight request for the contact
    form, from the origin of the default configuration and from another *)
Definition preflight (o : string) : request :=
  {| method := "OPTIONS"; url_path := "/api/v1/contact"; origin := Some o;
     json_body := None |}.

Definition asking_post : cors_headers :=
  {| cookie := false; access_control_request_method := Some "POST";
     access_control_request_headers := Some "content-type" |}.

Definition plain : cors_headers :=
  {| cookie := false; access_control_request_method := None;
     access_control_request_headers := None |}.

Definition with_cookie : cors_headers :=
  {| cookie := true; access_control_request_method := None;
     access_control_request_headers := None |}.

Definition open_app : App.t :=
  App.mk (App.contact_use_case sample_app) (App.project_use_case sample_app) ["*"].

Example preflight_allowed :
  sum_map id (fun resp => (cors_status resp, cors_body resp,
                            cors_headers_out resp !! "Access-Control-Allow-Origin"))
    (outcome (with_cors (H:=sample_validators) sample_app asking_post
                (preflight "http://localhost:3000")) sample_world) =
    inr (200, inl "OK", Some "http://localhost:3000").
Proof. by vm_compute. Qed.

Example preflight_refused :
  sum_map id (fun resp => (cors_status resp, cors_body resp,
                            cors_headers_out resp !! "Access-Control-Allow-Origin"))
    (outcome (with_cors (H:=sample_validators) sample_app asking_post
                (preflight "https://elsewhere.example")) sample_world) =
    inr (400, inl "Disallowed CORS origin", None).
Proof. by vm_compute. Qed.

(** Without the middleware the table answers the same request with 405. *)
Example preflight_without_middleware :
  sum_map id status
    (outcome (handle (H:=sample_validators) sample_app (preflight "http://localhost:3000"))
       sample_world) = inr 405.
Proof. by vm_compute. Qed.

Lemma with_cors_agrees_with_handle_witness :
  exists resp out,
    handle (H:=sample_validators) sample_app
      (contact_request (Some "http://localhost:3000") sample_data) sample_world =
      (world_after (handle (H:=sample_validators) sample_app
                      (contact_request (Some "http://localhost:3000") sample_data))
         sample_world, inr resp) /\
    with_cors (H:=sample_validators) sample_app plain
      (contact_request (Some "http://localhost:3000") sample_data) sample_world =
      (world_after (handle (H:=sample_validators) sample_app
                      (contact_request (Some "http://localhost:3000") sample_data))
         sample_world,
       inr {| cors_status := status resp; cors_body := inr (body resp);
              cors_headers_out := out |}) /\
    out !! "Access-Control-Allow-Origin" = access_control_allow_origin resp.
Proof.
  apply (with_cors_agrees_with_handle (H:=sample_validators) sample_app plain
           (contact_request (Some "http://localhost:3000") sample_data) sample_world);
    [by intros (? & _)|reflexivity].
Defined.

Lemma preflight_answered_by_middleware_witness :
  exists resp,
    with_cors (H:=sample_validators) sample_app asking_post
      (preflight "http://localhost:3000") sample_world = (sample_world, inr resp) /\
    (cors_status resp = 200 <->
     ("*" ∈ App.allow_origins sample_app \/
      "http://localhost:3000" ∈ App.allow_origins sample_app) /\
     "POST" ∈ CORSMiddleware.ALL_METHODS) /\
    cors_status resp ∈ [200; 400] /\
    cors_headers_out resp !! "Access-Control-Allow-Origin" =
      (if decide ("*" ∈ App.allow_origins sample_app \/
                  "http://localhost:3000" ∈ App.allow_origins sample_app)
       then Some "http://localhost:3000" else None) /\
    cors_headers_out resp !! "Access-Control-Allow-Credentials" = Some "true" /\
    cors_headers_out resp !! "Access-Control-Allow-Headers" =
      access_control_request_headers asking_post.
Proof.
  apply (preflight_answered_by_middleware (H:=sample_validators) sample_app asking_post
           (preflight "http://localhost:3000") sample_world "http://localhost:3000" "POST");
    reflexivity.
Defined.

Lemma wildcard_allows_credentials_everywhere_witness :
  exists resp,
    outcome (with_cors (H:=sample_validators) open_app with_cookie
               (get_request (Some "https://elsewhere.example") "/api/v1/projects"))
      sample_world = inr resp /\
    cors_headers_out resp !! "Access-Control-Allow-Origin" = Some "https://elsewhere.example" /\
    cors_headers_out resp !! "Access-Control-Allow-Credentials" = Some "true".
Proof.
  apply (wildcard_allows_credentials_everywhere (H:=sample_validators) open_app with_cookie
           (get_request (Some "https://elsewhere.example") "/api/v1/projects") sample_world
           "https://elsewhere.example");
    [by apply list_elem_of_singleton|reflexivity|by intros (? & _)|reflexivity].
Defined.
